(** * The DRM/KMS backend of aquamarine (src/backend/drm/DRM.cpp)

    A shallow embedding of the parts of [DRM.cpp] that the specification
    talks about, followed by the properties proved about them.

    Conventions of the embedding.
    - Fixed-width C integers are [Z] with the wrap-around written out
      ([to_uint16], [to_uint32], [to_int32]).
    - [double]s are exact rationals ([Q]); pixel sizes, which the code keeps
      in a [Vector2D] of doubles, are integral and are kept as [Z].
    - Shared pointers are [option]s ([None] is [nullptr]); objects that are
      mutated through several pointers (planes, buffers) live in a store and
      are referred to by index.
    - A run of a function yields an [outcome]: the returned value, or the
      fault the C++ code runs into (null dereference, division by zero,
      [std::array::at] out of range).
    - Everything observable (log lines, kernel calls, engine calls, emitted
      events) is appended, in program order, to a trace of [action]s. *)

From Stdlib Require Import ZArith QArith Qround Lia String List Bool.
From stdpp Require Import base option list strings pretty gmap.

Open Scope Z_scope.

(** ** Part I: the embedding *)

(** *** Machine integers *)

Definition to_uint16 (z : Z) : Z := z mod 2 ^ 16.
Definition to_uint32 (z : Z) : Z := z mod 2 ^ 32.
Definition to_int32 (z : Z) : Z := (z + 2 ^ 31) mod 2 ^ 32 - 2 ^ 31.

Definition in_uint16 (z : Z) : Prop := 0 <= z < 2 ^ 16.
Definition in_uint32 (z : Z) : Prop := 0 <= z < 2 ^ 32.
Definition in_int32 (z : Z) : Prop := - 2 ^ 31 <= z < 2 ^ 31.

(** Conversion of a (rational-valued) double to an integer type truncates
    towards zero; [std::round] rounds half away from zero. *)
Definition Qtrunc (q : Q) : Z := Z.quot (Qnum q) (Z.pos (Qden q)).
Definition Qround_half_away (q : Q) : Z :=
  if Qle_bool 0 q then Qfloor (Qplus q (1 # 2)) else Z.opp (Qfloor (Qplus (Qopp q) (1 # 2))).

(** *** Outcomes and faults *)

Inductive fault : Type := NullDeref | DivByZero | OutOfRange.

Inductive outcome (A : Type) : Type :=
| Ret (a : A)
| Fault (f : fault).
Arguments Ret {A} a.
Arguments Fault {A} f.

(** *** Kernel mode blobs ([drmModeModeInfo], xf86drmMode.h) *)

Definition DRM_MODE_FLAG_PVSYNC : Z := Z.shiftl 1 2.
Definition DRM_MODE_FLAG_NHSYNC : Z := Z.shiftl 1 1.
Definition DRM_MODE_FLAG_INTERLACE : Z := Z.shiftl 1 4.
Definition DRM_MODE_FLAG_DBLSCAN : Z := Z.shiftl 1 5.
Definition DRM_DISPLAY_MODE_LEN : nat := 32.

Module drmModeModeInfo.
Record t : Type := mk {
  clock : Z;        (* uint32_t, kHz *)
  hdisplay : Z;     (* uint16_t *)
  hsync_start : Z;
  hsync_end : Z;
  htotal : Z;
  hskew : Z;
  vdisplay : Z;
  vsync_start : Z;
  vsync_end : Z;
  vtotal : Z;
  vscan : Z;
  vrefresh : Z;     (* uint32_t *)
  flags : Z;        (* uint32_t *)
  type : Z;         (* uint32_t *)
  name : string     (* char[DRM_DISPLAY_MODE_LEN] *)
}.

(** The fields hold values of their C types. *)
Definition wf (m : t) : Prop :=
  in_uint32 (clock m) /\ in_uint16 (htotal m) /\ in_uint16 (vtotal m) /\
  in_uint16 (vscan m) /\ in_uint32 (flags m).
End drmModeModeInfo.

(** [static int32_t calculateRefresh(const drmModeModeInfo& mode)].
    [mode.clock * 1000000LL] is a 64-bit product (it cannot overflow for a
    32-bit clock); the quotient is narrowed to [int32_t].  A zero [htotal] or
    [vtotal] is an integer division by zero. *)
Definition calculateRefresh (mode : drmModeModeInfo.t) : outcome Z :=
  let '(clock, htotal, vtotal) :=
    (drmModeModeInfo.clock mode, drmModeModeInfo.htotal mode, drmModeModeInfo.vtotal mode) in
  if (htotal =? 0) || (vtotal =? 0) then Fault DivByZero
  else
    let refresh := to_int32 ((clock * 1000000 / htotal + vtotal / 2) / vtotal) in
    let refresh :=
      if Z.land (drmModeModeInfo.flags mode) DRM_MODE_FLAG_INTERLACE =? 0 then refresh
      else to_int32 (refresh * 2) in
    let refresh :=
      if Z.land (drmModeModeInfo.flags mode) DRM_MODE_FLAG_DBLSCAN =? 0 then refresh
      else Z.quot refresh 2 in
    let refresh :=
      if 1 <? drmModeModeInfo.vscan mode then Z.quot refresh (drmModeModeInfo.vscan mode)
      else refresh in
    Ret refresh.

(** The refresh formula as the specification words it:
    [round((clock * 1e6 + vtotal/2) / (htotal * vtotal))], then times two for
    interlace, halved for doublescan, divided by [max(1, vscan)]. *)
Definition spec_refresh_base (mode : drmModeModeInfo.t) : Z :=
  Qround_half_away
    (Qdiv (Qplus (inject_Z (drmModeModeInfo.clock mode * 1000000))
                 (Qdiv (inject_Z (drmModeModeInfo.vtotal mode)) (inject_Z 2)))
          (inject_Z (drmModeModeInfo.htotal mode * drmModeModeInfo.vtotal mode))).

Definition spec_refresh (mode : drmModeModeInfo.t) : Z :=
  let r := spec_refresh_base mode in
  let r := if Z.land (drmModeModeInfo.flags mode) DRM_MODE_FLAG_INTERLACE =? 0 then r else r * 2 in
  let r := if Z.land (drmModeModeInfo.flags mode) DRM_MODE_FLAG_DBLSCAN =? 0 then r else Z.quot r 2 in
  Z.quot r (Z.max 1 (drmModeModeInfo.vscan mode)).

(** The refresh as the code computes it, in words: the line rate
    [clock * 10^6 div htotal], divided by [vtotal] and rounded to the nearest
    integer by adding [vtotal div 2] before the division. *)
Definition nearest_line_rate_quotient (mode : drmModeModeInfo.t) : Z :=
  (drmModeModeInfo.clock mode * 1000000 / drmModeModeInfo.htotal mode
   + drmModeModeInfo.vtotal mode / 2) / drmModeModeInfo.vtotal mode.

(** *** Output modes and the compositor-facing output state (Output.hpp) *)

Module SOutputMode.
Record t : Type := mk {
  pixelSize : Z * Z;                       (* Vector2D: (x, y) = (width, height) *)
  refreshRate : Z;                         (* unsigned int, mHz *)
  preferred : bool;
  modeInfo : option drmModeModeInfo.t      (* std::optional<drmModeModeInfo> *)
}.
End SOutputMode.

Inductive eOutputPresentationMode : Type :=
| AQ_OUTPUT_PRESENTATION_VSYNC
| AQ_OUTPUT_PRESENTATION_IMMEDIATE.

(** [COutputState::eOutputStateProperties]: the bits of [committed].  The
    header that declares them is not among the sources; they are distinct
    single bits. *)
Definition AQ_OUTPUT_STATE_DAMAGE : Z := Z.shiftl 1 0.
Definition AQ_OUTPUT_STATE_ENABLED : Z := Z.shiftl 1 1.
Definition AQ_OUTPUT_STATE_ADAPTIVE_SYNC : Z := Z.shiftl 1 2.
Definition AQ_OUTPUT_STATE_PRESENTATION_MODE : Z := Z.shiftl 1 3.
Definition AQ_OUTPUT_STATE_GAMMA_LUT : Z := Z.shiftl 1 4.
Definition AQ_OUTPUT_STATE_MODE : Z := Z.shiftl 1 5.
Definition AQ_OUTPUT_STATE_FORMAT : Z := Z.shiftl 1 6.
Definition AQ_OUTPUT_STATE_BUFFER : Z := Z.shiftl 1 7.

(** [if (x & y)]: a bit test is true when the conjunction is non-zero. *)
Definition bits_set (x y : Z) : bool := negb (Z.land x y =? 0).

(** [COutputState::SInternalState], what [state->state()] returns.  Buffers
    are shared objects; [buffer] is the address of one in the buffer store. *)
Module COutputState.
Record t : Type := mk {
  committed : Z;                           (* uint32_t bitmask *)
  enabled : bool;
  adaptiveSync : bool;
  presentationMode : eOutputPresentationMode;
  mode : option SOutputMode.t;
  customMode : option SOutputMode.t;
  buffer : option nat
}.

(** [STATE.mode ? STATE.mode : STATE.customMode] *)
Definition MODE (STATE : t) : option SOutputMode.t :=
  match mode STATE with
  | Some m => Some m
  | None => customMode STATE
  end.
End COutputState.

(** *** CVT timings (libdisplay-info, cvt.h) *)

Inductive di_cvt_reduced_blanking_version : Type :=
| DI_CVT_REDUCED_BLANKING_NONE
| DI_CVT_REDUCED_BLANKING_V1
| DI_CVT_REDUCED_BLANKING_V2
| DI_CVT_REDUCED_BLANKING_V3.

(** The members the code initialises; the designated initialiser leaves every
    other member of [di_cvt_options] zero. *)
Module di_cvt_options.
Record t : Type := mk {
  red_blank_ver : di_cvt_reduced_blanking_version;
  h_pixels : Z;
  v_lines : Z;
  ip_freq_rqd : Q
}.
End di_cvt_options.

Module di_cvt_timing.
Record t : Type := mk {
  act_pixel_freq : Q;
  total_active_pixels : Q;
  v_lines_rnd : Q;
  h_front_porch : Q;
  h_sync : Q;
  h_back_porch : Q;
  v_front_porch : Q;
  v_sync : Q;
  v_back_porch : Q;
  act_frame_rate : Q
}.
End di_cvt_timing.

(** [snprintf(buf, size, ...)] keeps at most [size - 1] characters. *)
Definition snprintf (size : nat) (s : string) : string :=
  String.substring 0 (size - 1) s.

(** The [di_cvt_options options] that [calculateMode] hands to
    [di_cvt_compute]. *)
Definition calculateMode_options (MODE : SOutputMode.t) : di_cvt_options.t :=
  {| di_cvt_options.red_blank_ver := DI_CVT_REDUCED_BLANKING_NONE;
     di_cvt_options.h_pixels := fst (SOutputMode.pixelSize MODE);
     di_cvt_options.v_lines := snd (SOutputMode.pixelSize MODE);
     di_cvt_options.ip_freq_rqd :=
       if SOutputMode.refreshRate MODE =? 0 then inject_Z 60
       else Qdiv (inject_Z (SOutputMode.refreshRate MODE)) (inject_Z 1000) |}.

(** [SDRMConnectorCommitData::calculateMode], given the library's
    [di_cvt_compute] and the output state it reads through
    [connector->output->state].  It returns the [modeInfo] it stores.
    [static_cast<uint16_t>] of a double truncates; the sums of an [int] or a
    [uint16_t] with a double are doubles, narrowed when they are stored. *)
Definition calculateMode (di_cvt_compute : di_cvt_options.t -> di_cvt_timing.t)
    (STATE : COutputState.t) : outcome drmModeModeInfo.t :=
  match COutputState.MODE STATE with
  | None => Fault NullDeref
  | Some MODE =>
    let '(x, y) := SOutputMode.pixelSize MODE in
    let timing := di_cvt_compute (calculateMode_options MODE) in
    let hsync_start := to_uint16 (Qtrunc (Qplus (inject_Z y) (di_cvt_timing.h_front_porch timing))) in
    let vsync_start :=
      to_uint16 (Qtrunc (Qplus (di_cvt_timing.v_lines_rnd timing)
                               (di_cvt_timing.v_front_porch timing))) in
    let hsync_end := to_uint16 (Qtrunc (Qplus (inject_Z hsync_start) (di_cvt_timing.h_sync timing))) in
    let vsync_end := to_uint16 (Qtrunc (Qplus (inject_Z vsync_start) (di_cvt_timing.v_sync timing))) in
    Ret {|
      drmModeModeInfo.clock :=
        to_uint32 (Qround_half_away (Qmult (di_cvt_timing.act_pixel_freq timing) (inject_Z 1000)));
      drmModeModeInfo.hdisplay := to_uint16 y;
      drmModeModeInfo.hsync_start := hsync_start;
      drmModeModeInfo.hsync_end := hsync_end;
      drmModeModeInfo.htotal :=
        to_uint16 (Qtrunc (Qplus (inject_Z hsync_end) (di_cvt_timing.h_back_porch timing)));
      drmModeModeInfo.hskew := 0;
      drmModeModeInfo.vdisplay := to_uint16 (Qtrunc (di_cvt_timing.v_lines_rnd timing));
      drmModeModeInfo.vsync_start := vsync_start;
      drmModeModeInfo.vsync_end := vsync_end;
      drmModeModeInfo.vtotal :=
        to_uint16 (Qtrunc (Qplus (inject_Z vsync_end) (di_cvt_timing.v_back_porch timing)));
      drmModeModeInfo.vscan := 0;
      drmModeModeInfo.vrefresh := to_uint32 (Qround_half_away (di_cvt_timing.act_frame_rate timing));
      drmModeModeInfo.flags := Z.lor DRM_MODE_FLAG_NHSYNC DRM_MODE_FLAG_PVSYNC;
      drmModeModeInfo.type := 0;
      drmModeModeInfo.name :=
        snprintf DRM_DISPLAY_MODE_LEN (pretty x +:+ "x" +:+ pretty y)
    |}
  end.

(** *** Buffers (Buffer.hpp, Attachment.hpp) *)

Definition DRM_FORMAT_MOD_INVALID : Z := 0x00ffffffffffffff.
Definition DRM_FORMAT_MOD_LINEAR : Z := 0.
Definition DRM_MODE_FB_MODIFIERS : Z := Z.shiftl 1 1.
Definition EINVAL : Z := 22.

Inductive eAttachmentType : Type :=
| AQ_ATTACHMENT_DRM_BUFFER
| AQ_ATTACHMENT_DRM_KMS_UNIMPORTABLE.

#[global] Instance eAttachmentType_eq_dec : EqDecision eAttachmentType.
Proof. solve_decision. Defined.

(** What [buffer->dmabuf()] returns.  [offsets], [strides] and [fds] are
    [std::array]s of four elements. *)
Module SDMABUFAttrs.
Record t : Type := mk {
  success : bool;
  size : Z * Z;
  format : Z;          (* uint32_t *)
  modifier : Z;        (* uint64_t *)
  planes : Z;          (* int *)
  offsets : list Z;
  strides : list Z;
  fds : list Z
}.
End SDMABUFAttrs.

(** Modelled from the spec: the attachment manager of a buffer
    ([buffer->attachments], Attachment.hpp, is not among the sources) is a
    collection of tags; [add] tags the buffer and [has] asks for a tag. *)
Module IBuffer.
Record t : Type := mk {
  dmabuf : SDMABUFAttrs.t;
  attachments : list eAttachmentType
}.

Definition has (ty : eAttachmentType) (b : t) : bool :=
  bool_decide (ty ∈ attachments b).

Definition add (ty : eAttachmentType) (b : t) : t :=
  {| dmabuf := dmabuf b;
     attachments := ty :: List.filter (fun a => negb (bool_decide (a = ty))) (attachments b) |}.
End IBuffer.

(** *** Framebuffers, planes, CRTCs, connectors, outputs (DRM.hpp) *)

(** An FB object.  [buffer] is the address of the originating buffer in the
    buffer store; [boHandles] is a [std::array<uint32_t, 4>].  Plane slots and
    commit data hold FB objects by value: an FB changes after its
    construction only by [drop]. *)
Module CDRMFB.
Record t : Type := mk {
  id : Z;              (* uint32_t, 0 until KMS accepted the buffer *)
  buffer : nat;
  boHandles : list Z;
  dropped : bool;
  handlesClosed : bool
}.
End CDRMFB.

Definition DRM_PLANE_TYPE_OVERLAY : Z := 0.
Definition DRM_PLANE_TYPE_PRIMARY : Z := 1.
Definition DRM_PLANE_TYPE_CURSOR : Z := 2.

Module SDRMFormat.
Record t : Type := mk {
  drmFormat : Z;
  modifiers : list Z
}.
End SDRMFormat.

Module SDRMPlane.
Record t : Type := mk {
  id : Z;
  initialID : Z;
  type : Z;
  formats : list SDRMFormat.t;
  front : option CDRMFB.t;
  back : option CDRMFB.t
}.
End SDRMPlane.

(** A CRTC.  Planes are shared objects of the backend's plane list;
    [primary] and [cursor] are positions in that list. *)
Module SDRMCRTC.
Record t : Type := mk {
  id : Z;
  gammaSize : Z;
  primary : option nat;
  cursor : option nat;
  refresh : Z
}.
End SDRMCRTC.

Inductive drmModeConnection : Type :=
| DRM_MODE_CONNECTED
| DRM_MODE_DISCONNECTED
| DRM_MODE_UNKNOWNCONNECTION.

#[global] Instance drmModeConnection_eq_dec : EqDecision drmModeConnection.
Proof. solve_decision. Defined.

(** The model follows one connector and its output; a pointer to either is
    null or points to that one object. *)
Inductive connector_ref : Type := this_connector.
Inductive output_ref : Type := this_output.

Module SDRMPageFlip.
Record t : Type := mk {
  connector : option connector_ref
}.
End SDRMPageFlip.

Module SDRMConnector.
Record t : Type := mk {
  id : Z;
  szName : string;
  status : drmModeConnection;
  crtc : option SDRMCRTC.t;
  isPageFlipPending : bool;
  canDoVrr : bool;
  refresh : Z;                             (* int32_t, mHz *)
  pendingCursorFB : option CDRMFB.t;
  pendingPageFlip : SDRMPageFlip.t;
  output : option output_ref
}.
End SDRMConnector.

Module CDRMOutput.
Record t : Type := mk {
  name : string;
  state : COutputState.t
}.
End CDRMOutput.

Module SDRMConnectorCommitData.
Record t : Type := mk {
  mainFB : option CDRMFB.t;
  cursorFB : option CDRMFB.t;
  modeInfo : drmModeModeInfo.t;
  modeset : bool;
  blocking : bool;
  flags : Z;           (* uint32_t *)
  test : bool
}.
End SDRMConnectorCommitData.

Definition DRM_MODE_PAGE_FLIP_EVENT : Z := 1.
Definition DRM_MODE_PAGE_FLIP_ASYNC : Z := 2.

(** [IOutput::SPresentEvent]; [when] is the [timespec] (seconds,
    nanoseconds) the event points to. *)
Module SPresentEvent.
Record t : Type := mk {
  presented : bool;
  when : Z * Z;
  seq : Z;             (* unsigned *)
  refresh : Z;         (* int, ns *)
  flags : Z
}.
End SPresentEvent.

Definition AQ_OUTPUT_PRESENT_VSYNC : Z := 1.
Definition AQ_OUTPUT_PRESENT_HW_CLOCK : Z := 2.
Definition AQ_OUTPUT_PRESENT_HW_COMPLETION : Z := 4.
Definition AQ_OUTPUT_PRESENT_ZEROCOPY : Z := 8.

Module SDRMProps.
Record t : Type := mk {
  supportsAsyncCommit : bool;
  supportsAddFb2Modifiers : bool;
  cursorSize : Z * Z
}.
End SDRMProps.

(** *** The trace, the world and the driver *)

Inductive eBackendLogLevel : Type :=
| AQ_LOG_TRACE
| AQ_LOG_DEBUG
| AQ_LOG_WARNING
| AQ_LOG_ERROR
| AQ_LOG_CRITICAL.

(** The calls of libdrm that change kernel state. *)
Inductive kernel_call : Type :=
| drmPrimeFDToHandle (fd : Z)
| drmModeAddFB2WithModifiers (width height pixel_format : Z)
    (bo_handles pitches offsets modifier : list Z) (flags : Z)
| drmModeAddFB2 (width height pixel_format : Z) (bo_handles pitches offsets : list Z) (flags : Z)
| drmModeCloseFB (id : Z)
| drmModeRmFB (id : Z).

(** What a run does, in program order.  A log line is recorded with its
    level and its message as the source writes it, the [{}] placeholders
    left unfilled. *)
Inductive action : Type :=
| Log (level : eBackendLogLevel) (msg : string)
| Kernel (call : kernel_call)
| ImplCommit (data : SDRMConnectorCommitData.t) (ok queued : bool)
    (* backend->impl->commit(connector, data), with the engine's answer *)
| EventsCommitEmit                                  (* events.commit.emit() *)
| StateOnCommit                                     (* state->onCommit() *)
| ConnectorOnPresent                                (* connector->onPresent() *)
| EventsPresentEmit (e : SPresentEvent.t)           (* output->events.present.emit(e) *)
| EventsFrameEmit.                                  (* output->events.frame.emit() *)

(** The program state around one output: the session, the backend's
    capabilities, the plane objects, the buffer store, the connector, the
    output the methods are called on, the kernel's state and the trace. *)
Record World (K : Type) : Type := mkWorld {
  session_active : bool;
  drmProps : SDRMProps.t;
  planes : list SDRMPlane.t;
  buffers : gmap nat IBuffer.t;
  connector : SDRMConnector.t;
  output : CDRMOutput.t;
  kernel : K;
  trace : list action
}.
Arguments mkWorld {K}.
Arguments session_active {K}.
Arguments drmProps {K}.
Arguments planes {K}.
Arguments buffers {K}.
Arguments connector {K}.
Arguments output {K}.
Arguments kernel {K}.
Arguments trace {K}.

(** What the code calls but does not contain.
    - [sys]: the kernel's answer to a call, as a return code and the value
      it writes through the output pointer, with the kernel's next state.
    - [impl_commit]: modelled from the spec: the commit engine
      ([IDRMImplementation::commit], Legacy.hpp, is not among the sources)
      owns the kernel calls of a submission and reports whether it was
      accepted; it may leave a page-flip pending on the connector.  It
      answers with the kernel's next state, the acceptance and whether a
      page-flip was queued.
    - [di_cvt_compute]: the CVT calculation of libdisplay-info.
    - [state_onCommit]: [COutputState::onCommit()] (Output.cpp is not among
      the sources): the pending state of the output as the call leaves
      it. *)
Record Driver (K : Type) : Type := mkDriver {
  sys : K -> kernel_call -> K * (Z * Z);
  impl_commit : World K -> SDRMConnectorCommitData.t -> K * (bool * bool);
  di_cvt_compute : di_cvt_options.t -> di_cvt_timing.t;
  state_onCommit : COutputState.t -> COutputState.t
}.
Arguments mkDriver {K}.
Arguments sys {K}.
Arguments impl_commit {K}.
Arguments di_cvt_compute {K}.
Arguments state_onCommit {K}.

Definition set_trace {K} (t : list action) (w : World K) : World K :=
  mkWorld (session_active w) (drmProps w) (planes w) (buffers w) (connector w) (output w)
          (kernel w) t.
Definition set_kernel {K} (k : K) (w : World K) : World K :=
  mkWorld (session_active w) (drmProps w) (planes w) (buffers w) (connector w) (output w)
          k (trace w).
Definition set_planes {K} (p : list SDRMPlane.t) (w : World K) : World K :=
  mkWorld (session_active w) (drmProps w) p (buffers w) (connector w) (output w)
          (kernel w) (trace w).
Definition set_buffers {K} (b : gmap nat IBuffer.t) (w : World K) : World K :=
  mkWorld (session_active w) (drmProps w) (planes w) b (connector w) (output w)
          (kernel w) (trace w).
Definition set_connector {K} (c : SDRMConnector.t) (w : World K) : World K :=
  mkWorld (session_active w) (drmProps w) (planes w) (buffers w) c (output w)
          (kernel w) (trace w).
Definition set_state {K} (STATE : COutputState.t) (w : World K) : World K :=
  mkWorld (session_active w) (drmProps w) (planes w) (buffers w) (connector w)
          (CDRMOutput.mk (CDRMOutput.name (output w)) STATE) (kernel w) (trace w).

(** A state monad over the world that stops at the first fault. *)
Definition M (K A : Type) : Type := World K -> outcome A * World K.

Definition ret {K A} (a : A) : M K A := fun w => (Ret a, w).
Definition bind {K A B} (c : M K A) (k : A -> M K B) : M K B :=
  fun w =>
    match c w with
    | (Ret a, w') => k a w'
    | (Fault f, w') => (Fault f, w')
    end.
Definition raise {K A} (f : fault) : M K A := fun w => (Fault f, w).
Definition get {K} : M K (World K) := fun w => (Ret w, w).
Definition modify {K} (f : World K -> World K) : M K unit := fun w => (Ret tt, f w).

Notation "'let*' x ':=' c 'in' k" := (bind c (fun x => k))
  (at level 10, x name, c at level 100, k at level 200).
Notation "c ';;' k" := (bind c (fun _ => k))
  (at level 100, k at level 200, right associativity).

Definition emit {K} (a : action) : M K unit :=
  modify (fun w => set_trace (trace w ++ [a]) w).
Definition log {K} (level : eBackendLogLevel) (msg : string) : M K unit :=
  emit (Log level msg).

(** [*p] for a shared pointer, [a.at(i)] for a [std::array]. *)
Definition deref {K A} (p : option A) : M K A :=
  match p with
  | Some a => ret a
  | None => raise NullDeref
  end.
Definition array_at {K A} (a : list A) (i : Z) : M K A :=
  if i <? 0 then raise OutOfRange
  else match a !! Z.to_nat i with
       | Some x => ret x
       | None => raise OutOfRange
       end.

(** A kernel call: it is recorded, and the kernel answers and moves on. *)
Definition syscall {K} (drv : Driver K) (c : kernel_call) : M K (Z * Z) :=
  fun w =>
    let '(k', r) := sys drv (kernel w) c in
    (Ret r, set_kernel k' (set_trace (trace w ++ [Kernel c]) w)).

Definition lift {K A} (o : outcome A) : M K A :=
  match o with
  | Ret a => ret a
  | Fault f => raise f
  end.

(** *** [CDRMFB]: import of a buffer as a KMS framebuffer *)

Definition set_dropped (b : bool) (fb : CDRMFB.t) : CDRMFB.t :=
  CDRMFB.mk (CDRMFB.id fb) (CDRMFB.buffer fb) (CDRMFB.boHandles fb) b (CDRMFB.handlesClosed fb).
Definition set_id (i : Z) (fb : CDRMFB.t) : CDRMFB.t :=
  CDRMFB.mk i (CDRMFB.buffer fb) (CDRMFB.boHandles fb) (CDRMFB.dropped fb) (CDRMFB.handlesClosed fb).
Definition set_boHandles (h : list Z) (fb : CDRMFB.t) : CDRMFB.t :=
  CDRMFB.mk (CDRMFB.id fb) (CDRMFB.buffer fb) h (CDRMFB.dropped fb) (CDRMFB.handlesClosed fb).

(** [void CDRMFB::drop()]; the FB object after the call is returned. *)
Definition CDRMFB_drop {K} (drv : Driver K) (fb : CDRMFB.t) : M K CDRMFB.t :=
  if CDRMFB.dropped fb then ret fb
  else
    let fb := set_dropped true fb in
    if CDRMFB.id fb =? 0 then ret fb
    else
      log AQ_LOG_TRACE "drm: dropping buffer {}" ;;
      let* r := syscall drv (drmModeCloseFB (CDRMFB.id fb)) in
      let* r' := (if fst r =? - EINVAL
                  then let* r2 := syscall drv (drmModeRmFB (CDRMFB.id fb)) in ret (fst r2)
                  else ret (fst r)) in
      (if r' =? 0 then ret tt
       else log AQ_LOG_ERROR "drm: Failed to close a buffer: {}") ;;
      ret fb.

(** [std::array<uint64_t, 4> mods = {0}; for (size_t i = 0; i < attrs.planes;
    ++i) mods.at(i) = attrs.modifier;] -- the bound is compared as a
    [size_t], so a negative plane count runs the loop into [at(4)]. *)
Definition submitBuffer_mods {K} (attrs : SDMABUFAttrs.t) : M K (list Z) :=
  let n := SDMABUFAttrs.planes attrs in
  if (n <? 0) || (4 <? n) then raise OutOfRange
  else ret (replicate (Z.to_nat n) (SDMABUFAttrs.modifier attrs) ++ replicate (4 - Z.to_nat n) 0).

(** [uint32_t CDRMFB::submitBuffer()] *)
Definition CDRMFB_submitBuffer {K} (drv : Driver K) (fb : CDRMFB.t) : M K Z :=
  let* w := get in
  let* buf := deref (buffers w !! CDRMFB.buffer fb) in
  let attrs := IBuffer.dmabuf buf in
  let* mods := submitBuffer_mods attrs in
  if SDRMProps.supportsAddFb2Modifiers (drmProps w)
     && negb (SDMABUFAttrs.modifier attrs =? DRM_FORMAT_MOD_INVALID)
  then
    log AQ_LOG_TRACE
      "drm: Using drmModeAddFB2WithModifiers to import buffer into KMS: Size {} with format {} and mod {}" ;;
    let* r := syscall drv
      (drmModeAddFB2WithModifiers (fst (SDMABUFAttrs.size attrs)) (snd (SDMABUFAttrs.size attrs))
         (SDMABUFAttrs.format attrs) (CDRMFB.boHandles fb) (SDMABUFAttrs.strides attrs)
         (SDMABUFAttrs.offsets attrs) mods DRM_MODE_FB_MODIFIERS) in
    if negb (fst r =? 0)
    then log AQ_LOG_ERROR "drm: Failed to submit a buffer with AddFB2" ;; ret 0
    else ret (snd r)
  else
    if negb (SDMABUFAttrs.modifier attrs =? DRM_FORMAT_MOD_INVALID)
       && negb (SDMABUFAttrs.modifier attrs =? DRM_FORMAT_MOD_LINEAR)
    then
      log AQ_LOG_ERROR "drm: drmModeAddFB2WithModifiers unsupported and buffer has explicit modifiers" ;;
      ret 0
    else
      log AQ_LOG_TRACE
        "drm: Using drmModeAddFB2 to import buffer into KMS: Size {} with format {} and mod {}" ;;
      let* r := syscall drv
        (drmModeAddFB2 (fst (SDMABUFAttrs.size attrs)) (snd (SDMABUFAttrs.size attrs))
           (SDMABUFAttrs.format attrs) (CDRMFB.boHandles fb) (SDMABUFAttrs.strides attrs)
           (SDMABUFAttrs.offsets attrs) 0) in
      if negb (fst r =? 0)
      then log AQ_LOG_ERROR "drm: drmModeAddFB2 failed" ;; ret 0
      else ret (snd r).

(** The loop of the constructor over the planes of the dmabuf, from plane
    [i] on, [n] planes to go.  It answers whether every conversion
    succeeded, with the FB object as the loop leaves it. *)
Fixpoint CDRMFB_primeHandles {K} (drv : Driver K) (attrs : SDMABUFAttrs.t)
    (n : nat) (i : Z) (fb : CDRMFB.t) : M K (bool * CDRMFB.t) :=
  match n with
  | O => ret (true, fb)
  | S n' =>
    let* fd := array_at (SDMABUFAttrs.fds attrs) i in
    let* _ := array_at (CDRMFB.boHandles fb) i in
    let* r := syscall drv (drmPrimeFDToHandle fd) in
    if negb (fst r =? 0) then
      log AQ_LOG_ERROR "drm: drmPrimeFDToHandle failed" ;;
      let* fb' := CDRMFB_drop drv fb in
      ret (false, fb')
    else
      let fb := set_boHandles (<[Z.to_nat i := snd r]> (CDRMFB.boHandles fb)) fb in
      log AQ_LOG_TRACE "drm: CDRMFB: plane {} has fd {}, got handle {}" ;;
      CDRMFB_primeHandles drv attrs n' (i + 1) fb
  end.

Definition tag_unimportable {K} (b : nat) (w : World K) : World K :=
  set_buffers (alter (IBuffer.add AQ_ATTACHMENT_DRM_KMS_UNIMPORTABLE) b (buffers w)) w.

(** The constructor [CDRMFB::CDRMFB(buffer_, backend_)].  A new object has
    [id = 0], zeroed [boHandles] and neither flag set. *)
Definition CDRMFB_new {K} (drv : Driver K) (buffer_ : nat) : M K CDRMFB.t :=
  let fb := CDRMFB.mk 0 buffer_ [0; 0; 0; 0] false false in
  let* w := get in
  let* buf := deref (buffers w !! buffer_) in
  let attrs := IBuffer.dmabuf buf in
  if negb (SDMABUFAttrs.success attrs) then
    log AQ_LOG_ERROR "drm: Buffer submitted has no dmabuf" ;; ret fb
  else if IBuffer.has AQ_ATTACHMENT_DRM_KMS_UNIMPORTABLE buf then
    log AQ_LOG_ERROR "drm: Buffer submitted is unimportable" ;; ret fb
  else
    let* r := CDRMFB_primeHandles drv attrs (Z.to_nat (SDMABUFAttrs.planes attrs)) 0 fb in
    if negb (fst r) then ret (snd r)
    else
      let* newID := CDRMFB_submitBuffer drv (snd r) in
      let fb := set_id newID (snd r) in
      if newID =? 0 then
        log AQ_LOG_ERROR "drm: Failed to submit a buffer to KMS" ;;
        modify (tag_unimportable buffer_) ;;
        CDRMFB_drop drv fb
      else
        log AQ_LOG_TRACE "drm: new buffer {}" ;; ret fb.

(** [SP<CDRMFB> CDRMFB::create(buffer_, backend_)].  When no FB is
    returned the object just built loses its only reference and its
    destructor, which is [drop()], runs. *)
Definition CDRMFB_create {K} (drv : Driver K) (buffer_ : nat) : M K (option CDRMFB.t) :=
  let* fb := CDRMFB_new drv buffer_ in
  if CDRMFB.id fb =? 0 then
    CDRMFB_drop drv fb ;; ret None
  else ret (Some fb).

(** *** Shared ownership of FB objects *)

#[global] Instance CDRMFB_eq_dec : EqDecision CDRMFB.t.
Proof. solve_decision. Defined.

(** The owners of [SP<CDRMFB>] references that outlive a call: the front
    and back slot of every plane and the connector's pending cursor FB.
    Modelled from the spec: an FB is shared by the commit data and the plane
    slots and is released when the last holder drops it; the engine call
    keeps no reference of its own. *)
Definition fb_holders {K} (w : World K) : list (option CDRMFB.t) :=
  SDRMConnector.pendingCursorFB (connector w)
  :: flat_map (fun p => [SDRMPlane.front p; SDRMPlane.back p]) (planes w).

(** One owner gives up its reference [p] ([slot = other], [slot.reset()],
    or the owner going out of scope).  [locals] are the references the
    running calls hold on their stacks.  When no owner is left the object is
    destroyed, and [~CDRMFB()] is [drop()]; the object is gone after that.
    A slot holds the FB object by its value: two references are to one
    object when the values are equal, which is so whenever the kernel gives
    the id of a live FB to no second import. *)
Definition CDRMFB_release {K} (drv : Driver K) (locals : list (option CDRMFB.t))
    (p : option CDRMFB.t) : M K unit :=
  match p with
  | None => ret tt
  | Some fb =>
    let* w := get in
    if bool_decide (Some fb ∈ locals ++ fb_holders w) then ret tt
    else CDRMFB_drop drv fb ;; ret tt
  end.

(** *** [SDRMConnector]: the commit of a connector *)

Definition set_isPageFlipPending (b : bool) (c : SDRMConnector.t) : SDRMConnector.t :=
  SDRMConnector.mk (SDRMConnector.id c) (SDRMConnector.szName c) (SDRMConnector.status c)
    (SDRMConnector.crtc c) b (SDRMConnector.canDoVrr c) (SDRMConnector.refresh c)
    (SDRMConnector.pendingCursorFB c) (SDRMConnector.pendingPageFlip c) (SDRMConnector.output c).
Definition set_refresh (r : Z) (c : SDRMConnector.t) : SDRMConnector.t :=
  SDRMConnector.mk (SDRMConnector.id c) (SDRMConnector.szName c) (SDRMConnector.status c)
    (SDRMConnector.crtc c) (SDRMConnector.isPageFlipPending c) (SDRMConnector.canDoVrr c) r
    (SDRMConnector.pendingCursorFB c) (SDRMConnector.pendingPageFlip c) (SDRMConnector.output c).
Definition set_pendingCursorFB (f : option CDRMFB.t) (c : SDRMConnector.t) : SDRMConnector.t :=
  SDRMConnector.mk (SDRMConnector.id c) (SDRMConnector.szName c) (SDRMConnector.status c)
    (SDRMConnector.crtc c) (SDRMConnector.isPageFlipPending c) (SDRMConnector.canDoVrr c)
    (SDRMConnector.refresh c) f (SDRMConnector.pendingPageFlip c) (SDRMConnector.output c).

Definition set_back (fb : option CDRMFB.t) (p : SDRMPlane.t) : SDRMPlane.t :=
  SDRMPlane.mk (SDRMPlane.id p) (SDRMPlane.initialID p) (SDRMPlane.type p) (SDRMPlane.formats p)
    (SDRMPlane.front p) fb.
Definition set_front (fb : option CDRMFB.t) (p : SDRMPlane.t) : SDRMPlane.t :=
  SDRMPlane.mk (SDRMPlane.id p) (SDRMPlane.initialID p) (SDRMPlane.type p) (SDRMPlane.formats p)
    fb (SDRMPlane.back p).

(** The plane after [plane->back = plane->front; plane->front = fb;] *)
Definition plane_flip (fb : option CDRMFB.t) (p : SDRMPlane.t) : SDRMPlane.t :=
  SDRMPlane.mk (SDRMPlane.id p) (SDRMPlane.initialID p) (SDRMPlane.type p) (SDRMPlane.formats p)
    fb (SDRMPlane.front p).

(** [plane->back = plane->front; plane->front = fb;] through a plane
    pointer: [idx] is the plane the pointer refers to.  Each assignment
    gives up the reference the slot held before. *)
Definition flip_plane_at {K} (drv : Driver K) (locals : list (option CDRMFB.t))
    (idx : nat) (fb : option CDRMFB.t) : M K unit :=
  let* w := get in
  let* p := deref (planes w !! idx) in
  modify (set_planes (<[idx := set_back (SDRMPlane.front p) p]> (planes w))) ;;
  CDRMFB_release drv locals (SDRMPlane.back p) ;;
  let* w := get in
  let* p := deref (planes w !! idx) in
  modify (set_planes (<[idx := set_front fb p]> (planes w))) ;;
  CDRMFB_release drv locals (SDRMPlane.front p).

(** [void SDRMConnector::applyCommit(const SDRMConnectorCommitData& data)];
    [data] belongs to the caller, which holds its two FBs throughout. *)
Definition SDRMConnector_applyCommit {K} (drv : Driver K) (data : SDRMConnectorCommitData.t)
    : M K unit :=
  let locals := [SDRMConnectorCommitData.mainFB data; SDRMConnectorCommitData.cursorFB data] in
  let* w := get in
  let* crtc := deref (SDRMConnector.crtc (connector w)) in
  let* primary := deref (SDRMCRTC.primary crtc) in
  flip_plane_at drv locals primary (SDRMConnectorCommitData.mainFB data) ;;
  (match SDRMCRTC.cursor crtc with
   | Some cursor => flip_plane_at drv locals cursor (SDRMConnectorCommitData.cursorFB data)
   | None => ret tt
   end) ;;
  let* w1 := get in
  modify (fun w => set_connector (set_pendingCursorFB None (connector w)) w) ;;
  CDRMFB_release drv locals (SDRMConnector.pendingCursorFB (connector w1)) ;;
  let* _ := deref (SDRMConnector.output (connector w)) in
  if bits_set (COutputState.committed (CDRMOutput.state (output w))) AQ_OUTPUT_STATE_MODE then
    let* r := lift (calculateRefresh (SDRMConnectorCommitData.modeInfo data)) in
    modify (fun w => set_connector (set_refresh r (connector w)) w)
  else ret tt.

(** [void SDRMConnector::rollbackCommit(const SDRMConnectorCommitData& data)] *)
Definition SDRMConnector_rollbackCommit {K} (data : SDRMConnectorCommitData.t) : M K unit :=
  ret tt.

(** [backend->impl->commit(self.lock(), data)] *)
Definition impl_commit_call {K} (drv : Driver K) (data : SDRMConnectorCommitData.t) : M K bool :=
  fun w =>
    let '(k', (ok, queued)) := impl_commit drv w data in
    let c := set_isPageFlipPending (SDRMConnector.isPageFlipPending (connector w) || queued)
               (connector w) in
    (Ret ok, set_kernel k' (set_connector c (set_trace (trace w ++ [ImplCommit data ok queued]) w))).

(** [bool SDRMConnector::commitState(const SDRMConnectorCommitData& data)] *)
Definition SDRMConnector_commitState {K} (drv : Driver K)
    (data : SDRMConnectorCommitData.t) : M K bool :=
  let* ok := impl_commit_call drv data in
  (if ok && negb (SDRMConnectorCommitData.test data)
   then SDRMConnector_applyCommit drv data
   else SDRMConnector_rollbackCommit data) ;;
  ret ok.

(** *** [CDRMOutput]: test and commit of an output *)

(** [fb && fb->buffer == buf] *)
Definition wraps (fb : option CDRMFB.t) (buf : nat) : bool :=
  match fb with
  | Some f => bool_decide (CDRMFB.buffer f = buf)
  | None => false
  end.

(** The FB for the committed buffer [buf]: the CRTC's back or front FB when
    it wraps the same buffer, a fresh import otherwise
    ([if (STATE.buffer) { ... }] up to the failure check). *)
Definition commitState_findFB {K} (drv : Driver K) (crtc : SDRMCRTC.t) (buf : nat)
    : M K (option CDRMFB.t) :=
  log AQ_LOG_TRACE "drm: Committed a buffer, updating state" ;;
  let* w := get in
  let* primary := deref (SDRMCRTC.primary crtc) in
  let* plane := deref (planes w !! primary) in
  let* drmFB :=
    (if wraps (SDRMPlane.back plane) buf then
       log AQ_LOG_TRACE "drm: CRTC's back buffer matches committed :D" ;;
       ret (SDRMPlane.back plane)
     else if wraps (SDRMPlane.front plane) buf then
       log AQ_LOG_TRACE "drm: CRTC's front buffer matches committed" ;;
       ret (SDRMPlane.front plane)
     else ret None) in
  match drmFB with
  | Some fb => ret (Some fb)
  | None => CDRMFB_create drv buf
  end.

(** The [if (!onlyTest) { ... }] block: [None] when it returns [false] from
    [commitState], the page-flip flags otherwise. *)
Definition commitState_flags {K} (onlyTest NEEDS_RECONFIG BLOCKING : bool)
    (STATE : COutputState.t) : M K (option Z) :=
  if onlyTest then ret (Some 0)
  else
    (if NEEDS_RECONFIG then
       if COutputState.enabled STATE then
         let* _ := deref (COutputState.MODE STATE) in
         log AQ_LOG_DEBUG "drm: Modesetting {} with {}x{}@{:.2f}Hz"
       else log AQ_LOG_DEBUG "drm: Disabling output {}"
     else ret tt) ;;
    let* w := get in
    if negb BLOCKING && SDRMConnector.isPageFlipPending (connector w) then
      log AQ_LOG_ERROR "drm: Cannot commit when a page-flip is awaiting" ;; ret None
    else
      ret (Some (Z.lor (if COutputState.enabled STATE then DRM_MODE_PAGE_FLIP_EVENT else 0)
                       (if COutputState.presentationMode STATE is AQ_OUTPUT_PRESENTATION_IMMEDIATE
                        then DRM_MODE_PAGE_FLIP_ASYNC else 0))).

(** The classification of a commit by its committed set:
    [NEEDS_RECONFIG = COMMITTED & (ENABLED | FORMAT | MODE)] and
    [BLOCKING = NEEDS_RECONFIG || !(COMMITTED & BUFFER)]. *)
Definition needs_reconfig (COMMITTED : Z) : bool :=
  bits_set COMMITTED
    (Z.lor (Z.lor AQ_OUTPUT_STATE_ENABLED AQ_OUTPUT_STATE_FORMAT) AQ_OUTPUT_STATE_MODE).
Definition is_blocking (COMMITTED : Z) : bool :=
  needs_reconfig COMMITTED || negb (bits_set COMMITTED AQ_OUTPUT_STATE_BUFFER).

(** [bool CDRMOutput::commitState(bool onlyTest)].  [state->onCommit()] is
    recorded in the trace and leaves the pending state as the driver says. *)
Definition CDRMOutput_commitState {K} (drv : Driver K) (onlyTest : bool) : M K bool :=
  let* w := get in
  if negb (session_active w) then
    log AQ_LOG_ERROR "drm: Session inactive" ;; ret false
  else
  match SDRMConnector.crtc (connector w) with
  | None => log AQ_LOG_ERROR "drm: No CRTC attached to output" ;; ret false
  | Some crtc =>
  let STATE := CDRMOutput.state (output w) in
  let COMMITTED := COutputState.committed STATE in
  if bits_set COMMITTED AQ_OUTPUT_STATE_ENABLED && COutputState.enabled STATE
     && (negb (bool_decide (is_Some (COutputState.mode STATE)))
         && bool_decide (is_Some (COutputState.customMode STATE)))
  then log AQ_LOG_ERROR "drm: No mode on enable commit" ;; ret false
  else if COutputState.adaptiveSync STATE && negb (SDRMConnector.canDoVrr (connector w))
  then log AQ_LOG_ERROR "drm: No Adaptive sync support for output" ;; ret false
  else if (if COutputState.presentationMode STATE is AQ_OUTPUT_PRESENTATION_IMMEDIATE
           then true else false)
          && negb (SDRMProps.supportsAsyncCommit (drmProps w))
  then log AQ_LOG_ERROR "drm: No Immediate presentation support in the backend" ;; ret false
  else if bits_set COMMITTED AQ_OUTPUT_STATE_BUFFER
          && negb (bool_decide (is_Some (COutputState.buffer STATE)))
  then log AQ_LOG_ERROR "drm: No buffer committed" ;; ret false
  else
  let NEEDS_RECONFIG := needs_reconfig COMMITTED in
  let BLOCKING := is_blocking COMMITTED in
  let MODE := COutputState.MODE STATE in
  let* flags := commitState_flags onlyTest NEEDS_RECONFIG BLOCKING STATE in
  match flags with
  | None => ret false
  | Some flags =>
  let* mainFB :=
    (match COutputState.buffer STATE with
     | Some buf =>
       let* drmFB := commitState_findFB drv crtc buf in
       match drmFB with
       | Some fb => ret (Some (Some fb))
       | None => log AQ_LOG_ERROR "drm: Buffer failed to import to KMS" ;; ret None
       end
     | None => ret (Some None)
     end) in
  match mainFB with
  | None => ret false
  | Some mainFB =>
  let* mode := deref MODE in
  let* modeInfo :=
    (match SOutputMode.modeInfo mode with
     | Some mi => ret mi
     | None =>
       let* _ := deref (SDRMConnector.output (connector w)) in
       lift (calculateMode (di_cvt_compute drv) STATE)
     end) in
  let data :=
    {| SDRMConnectorCommitData.mainFB := mainFB;
       SDRMConnectorCommitData.cursorFB := None;
       SDRMConnectorCommitData.modeInfo := modeInfo;
       SDRMConnectorCommitData.modeset := NEEDS_RECONFIG;
       SDRMConnectorCommitData.blocking := BLOCKING;
       SDRMConnectorCommitData.flags := flags;
       SDRMConnectorCommitData.test := onlyTest |} in
  let* ok := SDRMConnector_commitState drv data in
  emit EventsCommitEmit ;;
  emit StateOnCommit ;;
  modify (fun w => set_state (state_onCommit drv (CDRMOutput.state (output w))) w) ;;
  (* [return ok;]: [data] goes out of scope and gives up its main FB *)
  CDRMFB_release drv [] mainFB ;;
  ret ok
  end
  end
  end.

(** [bool CDRMOutput::commit()] and [bool CDRMOutput::test()] *)
Definition CDRMOutput_commit {K} (drv : Driver K) : M K bool := CDRMOutput_commitState drv false.
Definition CDRMOutput_test {K} (drv : Driver K) : M K bool := CDRMOutput_commitState drv true.

(** [void CDRMOutput::scheduleFrame()]: [true] when the idle callback that
    emits the frame event was queued. *)
Definition CDRMOutput_scheduleFrame {K} (w : World K) : bool :=
  negb (SDRMConnector.isPageFlipPending (connector w)).

(** *** The page-flip handler *)

(** [static void handlePF(fd, seq, tv_sec, tv_usec, crtc_id, data)], with
    [data] the connector's [pendingPageFlip] record.  [tv_usec * 1000] is an
    [unsigned] product; the refresh interval is a 64-bit quotient narrowed
    by [(int)]. *)
Definition handlePF {K} (seq tv_sec tv_usec crtc_id : Z) (pageFlip : SDRMPageFlip.t) : M K unit :=
  match SDRMPageFlip.connector pageFlip with
  | None => ret tt
  | Some this_connector =>
    modify (fun w => set_connector (set_isPageFlipPending false (connector w)) w) ;;
    log AQ_LOG_TRACE "drm: pf event seq {} sec {} usec {} crtc {}" ;;
    let* w := get in
    if negb (bool_decide (SDRMConnector.status (connector w) = DRM_MODE_CONNECTED))
       || negb (bool_decide (is_Some (SDRMConnector.crtc (connector w))))
    then log AQ_LOG_DEBUG "drm: Ignoring a pf event from a disabled crtc / connector"
    else
      emit ConnectorOnPresent ;;
      let flags :=
        Z.lor (Z.lor (Z.lor AQ_OUTPUT_PRESENT_VSYNC AQ_OUTPUT_PRESENT_HW_CLOCK)
                     AQ_OUTPUT_PRESENT_HW_COMPLETION) AQ_OUTPUT_PRESENT_ZEROCOPY in
      let presented := (tv_sec, to_uint32 (tv_usec * 1000)) in
      let* _ := deref (SDRMConnector.output (connector w)) in
      emit (EventsPresentEmit
              {| SPresentEvent.presented := session_active w;
                 SPresentEvent.when := presented;
                 SPresentEvent.seq := seq;
                 SPresentEvent.refresh :=
                   to_int32 (if SDRMConnector.refresh (connector w) =? 0 then 0
                             else Z.quot 1000000000000 (SDRMConnector.refresh (connector w)));
                 SPresentEvent.flags := flags |}) ;;
      if session_active w then emit EventsFrameEmit else ret tt
  end.

(** *** Reading traces *)

(** Log lines and kernel calls, as opposed to engine calls and events. *)
Definition quiet (a : action) : bool :=
  match a with
  | Log _ _ | Kernel _ => true
  | _ => false
  end.

Definition is_kernel_call (a : action) : bool :=
  match a with
  | Kernel _ => true
  | _ => false
  end.

Definition is_impl_commit (a : action) : bool :=
  match a with
  | ImplCommit _ _ _ => true
  | _ => false
  end.

Definition is_close (a : action) : bool :=
  match a with
  | Kernel (drmModeCloseFB _) => true
  | _ => false
  end.

(** [w'] is [w] after some log lines and kernel calls: only the trace, the
    kernel and the buffer store may differ. *)
Record io_only {K} (w w' : World K) : Prop := mk_io_only {
  io_session : session_active w' = session_active w;
  io_props : drmProps w' = drmProps w;
  io_planes : planes w' = planes w;
  io_connector : connector w' = connector w;
  io_output : output w' = output w;
  io_trace : exists t, trace w' = trace w ++ t /\ forallb quiet t = true
}.

Definition io_comp {K A} (c : M K A) : Prop := forall w, io_only w (snd (c w)).

Fixpoint kernel_calls (t : list action) : list kernel_call :=
  match t with
  | [] => []
  | Kernel c :: t' => c :: kernel_calls t'
  | _ :: t' => kernel_calls t'
  end.

(** The kernel's state after it served the calls [cs], in order. *)
Definition kernel_after {K} (drv : Driver K) (k : K) (cs : list kernel_call) : K :=
  fold_left (fun k c => fst (sys drv k c)) cs k.

(** The kernel calls that give up the kernel FB of [fb], asked of a kernel
    in state [k]: none for an FB that was dropped before or that has no id;
    else [drmModeCloseFB], followed by [drmModeRmFB] exactly when the kernel
    answers the former with [-EINVAL]. *)
Definition release_calls {K} (drv : Driver K) (fb : CDRMFB.t) (k : K) : list kernel_call :=
  if CDRMFB.dropped fb || (CDRMFB.id fb =? 0) then []
  else if fst (snd (sys drv k (drmModeCloseFB (CDRMFB.id fb)))) =? - EINVAL
       then [drmModeCloseFB (CDRMFB.id fb); drmModeRmFB (CDRMFB.id fb)]
       else [drmModeCloseFB (CDRMFB.id fb)].

Definition is_release (a : action) : bool :=
  match a with
  | Kernel (drmModeCloseFB _) | Kernel (drmModeRmFB _) => true
  | _ => false
  end.

(** [n] calls of [drop()] on one FB object, one after the other. *)
Fixpoint CDRMFB_drops {K} (drv : Driver K) (n : nat) (fb : CDRMFB.t) : M K CDRMFB.t :=
  match n with
  | O => ret fb
  | S n' => let* fb' := CDRMFB_drop drv fb in CDRMFB_drops drv n' fb'
  end.

(** How a run of [CDRMOutput::commitState] from [w] with outcome [r] and
    final world [w'] comes about: it ends before the engine call, after log
    lines and kernel calls only; or it reaches
    [connector->commitState(data)] in a world [w_e], after log lines and
    kernel calls only, and when that call returns it ends with the commit
    event, [onCommit] and the release of the commit data's main FB. *)
Definition commit_decomp {K} (drv : Driver K) (onlyTest : bool) (w : World K)
    (r : outcome bool) (w' : World K) : Prop :=
  io_only w w' \/
  exists (w_e : World K) (d : SDRMConnectorCommitData.t),
    io_only w w_e /\
    SDRMConnectorCommitData.test d = onlyTest /\
    SDRMConnectorCommitData.cursorFB d = None /\
    SDRMConnectorCommitData.blocking d
    = is_blocking (COutputState.committed (CDRMOutput.state (output w))) /\
    (onlyTest = false -> SDRMConnectorCommitData.blocking d = false ->
     SDRMConnector.isPageFlipPending (connector w) = false) /\
    match SDRMConnector_commitState drv d w_e with
    | (Ret ok, w4) =>
      r = Ret ok /\
      CDRMFB_release drv [] (SDRMConnectorCommitData.mainFB d)
        (set_state (state_onCommit drv (CDRMOutput.state (output w4)))
           (set_trace (trace w4 ++ [EventsCommitEmit; StateOnCommit]) w4))
      = (Ret tt, w')
    | (Fault f, w4) => r = Fault f /\ w' = w4
    end.

(** The connector is ready for a commit to be applied: its CRTC has a
    primary plane, its cursor plane (if any) is another plane object, and
    the connector has its output. *)
Definition commit_ready {K} (w : World K) : Prop :=
  exists crtc p P,
    SDRMConnector.crtc (connector w) = Some crtc /\
    SDRMCRTC.primary crtc = Some p /\
    planes w !! p = Some P /\
    (forall c, SDRMCRTC.cursor crtc = Some c -> c <> p /\ is_Some (planes w !! c)) /\
    SDRMConnector.output (connector w) = Some this_output.

(** *** Sequences of commits and page-flip completions *)

(** The page-flips the engine queued in a stretch of trace. *)
Fixpoint flips_queued (t : list action) : nat :=
  match t with
  | [] => O
  | ImplCommit _ _ true :: t' => S (flips_queued t')
  | _ :: t' => flips_queued t'
  end.

(** What happens to a connector over time: the consumer fills the output's
    pending state and calls [test()] or [commit()], or the kernel delivers a
    page-flip completion to [handlePF]. *)
Inductive flip_event : Type :=
| ConsumerCommits (STATE : COutputState.t) (onlyTest : bool)
| KernelCompletes (seq tv_sec tv_usec crtc_id : Z).

(** One event, on the world paired with the number of outstanding
    page-flips: those the engine queued and the kernel has not completed
    yet.  The kernel completes only a flip that is outstanding; a fault ends
    the run. *)
Definition flip_step {K} (drv : Driver K) (e : flip_event) (s : World K * nat)
    : option (World K * nat) :=
  let '(w, n) := s in
  match e with
  | ConsumerCommits STATE onlyTest =>
    let w1 := set_state STATE w in
    match CDRMOutput_commitState drv onlyTest w1 with
    | (Ret _, w2) => Some (w2, (n + flips_queued (skipn (length (trace w1)) (trace w2)))%nat)
    | (Fault _, _) => None
    end
  | KernelCompletes seq tv_sec tv_usec crtc_id =>
    match n with
    | O => None
    | S n' =>
      match handlePF seq tv_sec tv_usec crtc_id (SDRMConnector.pendingPageFlip (connector w)) w with
      | (Ret _, w2) => Some (w2, n')
      | (Fault _, _) => None
      end
    end
  end.

Fixpoint flip_run {K} (drv : Driver K) (es : list flip_event) (s : World K * nat)
    : option (World K * nat) :=
  match es with
  | [] => Some s
  | e :: es' =>
    match flip_step drv e s with
    | Some s' => flip_run drv es' s'
    | None => None
    end
  end.

(** Modelled from the spec: the flip state machine of the commit engine
    (Legacy.hpp is not among the sources) goes from IDLE to PENDING on an
    accepted non-blocking commit, and a blocking commit never enters
    PENDING: the engine queues a page-flip only for a submission it accepts
    that is neither blocking nor a test. *)
Definition engine_flip_contract {K} (drv : Driver K) : Prop :=
  forall (w : World K) (d : SDRMConnectorCommitData.t),
    snd (snd (impl_commit drv w d)) = true ->
    fst (snd (impl_commit drv w d)) = true /\
    SDRMConnectorCommitData.blocking d = false /\
    SDRMConnectorCommitData.test d = false.

(** At most one page-flip is outstanding, the connector's flag is raised
    while one is, and the connector's flip record points back to it. *)
Definition flip_inv {K} (s : World K * nat) : Prop :=
  (snd s <= 1)%nat /\
  (snd s = 1%nat -> SDRMConnector.isPageFlipPending (connector (fst s)) = true) /\
  SDRMConnector.pendingPageFlip (connector (fst s)) = SDRMPageFlip.mk (Some this_connector).

(** *** Capabilities and resource initialisation *)

(** What the kernel and the property helpers (Props.hpp, not among the
    sources) answer about the device while the backend starts.  A query
    that fails answers [None]. *)
Inductive drm_cap : Type :=
| DRM_CAP_CURSOR_WIDTH
| DRM_CAP_CURSOR_HEIGHT
| DRM_CAP_PRIME
| DRM_CAP_CRTC_IN_VBLANK_EVENT
| DRM_CAP_TIMESTAMP_MONOTONIC
| DRM_CAP_ASYNC_PAGE_FLIP
| DRM_CAP_ADDFB2_MODIFIERS.

Definition DRM_PRIME_CAP_IMPORT : Z := 1.

Module drmModePlane.
Record t : Type := mk {
  plane_id : Z;
  formats : list Z;
  possible_crtcs : Z       (* uint32_t bitmask *)
}.
End drmModePlane.

(** The property ids of a plane that [SDRMPlane::init] uses. *)
Module SDRMPlaneProps.
Record t : Type := mk {
  type : Z;
  in_formats : Z
}.
End SDRMPlaneProps.

Record Device : Type := mkDevice {
  drmGetCap : drm_cap -> option Z;
  drmSetClientCap_universal_planes : bool;
  drmModeGetResources : option (list Z);                (* resources->crtcs *)
  drmModeGetCrtc : Z -> option Z;                       (* gamma_size *)
  getDRMCRTCProps : Z -> bool;
  drmModeGetPlaneResources : option (list Z);           (* planeResources->planes *)
  drmModeGetPlane : Z -> option drmModePlane.t;
  getDRMPlaneProps : Z -> option SDRMPlaneProps.t;
  getDRMProp : Z -> Z -> option Z;
  drmModeGetPropertyBlob : Z -> option (list (Z * Z))   (* the (format, modifier) pairs *)
}.

(** The part of the backend that initialisation fills, with its log. *)
Module CDRMBackend.
Record t : Type := mk {
  drmProps : SDRMProps.t;
  crtcs : list SDRMCRTC.t;
  planes : list SDRMPlane.t;
  logged : list (eBackendLogLevel * string)
}.

Definition log (l : eBackendLogLevel) (s : string) (b : t) : t :=
  mk (drmProps b) (crtcs b) (planes b) (logged b ++ [(l, s)]).
Definition set_crtcs (c : list SDRMCRTC.t) (b : t) : t :=
  mk (drmProps b) c (planes b) (logged b).
Definition set_planes (p : list SDRMPlane.t) (b : t) : t :=
  mk (drmProps b) (crtcs b) p (logged b).
Definition set_drmProps (p : SDRMProps.t) (b : t) : t :=
  mk p (crtcs b) (planes b) (logged b).

(** A backend as its constructor leaves it. *)
Definition fresh : t := mk (SDRMProps.mk false false (0, 0)) [] [] [].
End CDRMBackend.

(** [bool CDRMBackend::checkFeatures()] *)
Definition CDRMBackend_checkFeatures (dev : Device) (b : CDRMBackend.t) : bool * CDRMBackend.t :=
  let curW := default 64 (drmGetCap dev DRM_CAP_CURSOR_WIDTH) in
  let curH := default 64 (drmGetCap dev DRM_CAP_CURSOR_HEIGHT) in
  let cursorSize := (curW, curH) in
  let b :=
    CDRMBackend.set_drmProps
      (SDRMProps.mk (SDRMProps.supportsAsyncCommit (CDRMBackend.drmProps b))
                    (SDRMProps.supportsAddFb2Modifiers (CDRMBackend.drmProps b)) cursorSize) b in
  let lacks (c : option Z) (mask : option Z) :=
    match c, mask with
    | None, _ => true
    | Some cap, None => cap =? 0
    | Some cap, Some m => Z.land cap m =? 0
    end in
  if lacks (drmGetCap dev DRM_CAP_PRIME) (Some DRM_PRIME_CAP_IMPORT) then
    (false, CDRMBackend.log AQ_LOG_ERROR "drm: DRM_PRIME_CAP_IMPORT unsupported" b)
  else if lacks (drmGetCap dev DRM_CAP_CRTC_IN_VBLANK_EVENT) None then
    (false, CDRMBackend.log AQ_LOG_ERROR "drm: DRM_CAP_CRTC_IN_VBLANK_EVENT unsupported" b)
  else if lacks (drmGetCap dev DRM_CAP_TIMESTAMP_MONOTONIC) None then
    (false, CDRMBackend.log AQ_LOG_ERROR "drm: DRM_PRIME_CAP_IMPORT unsupported" b)
  else if negb (drmSetClientCap_universal_planes dev) then
    (false, CDRMBackend.log AQ_LOG_ERROR "drm: DRM_CLIENT_CAP_UNIVERSAL_PLANES unsupported" b)
  else
    let is_one (c : option Z) := match c with Some 1 => true | _ => false end in
    let b :=
      CDRMBackend.set_drmProps
        (SDRMProps.mk (is_one (drmGetCap dev DRM_CAP_ASYNC_PAGE_FLIP))
                      (is_one (drmGetCap dev DRM_CAP_ADDFB2_MODIFIERS)) cursorSize) b in
    (true,
     CDRMBackend.log AQ_LOG_DEBUG "drm: drmProps.supportsAddFb2Modifiers: {}"
       (CDRMBackend.log AQ_LOG_DEBUG "drm: drmProps.supportsAsyncCommit: {}" b)).

(** The buffer-object handles an AddFB call hands to the kernel. *)
Definition addfb_handles (c : kernel_call) : option (list Z) :=
  match c with
  | drmModeAddFB2WithModifiers _ _ _ h _ _ _ _ | drmModeAddFB2 _ _ _ h _ _ _ => Some h
  | _ => None
  end.

(** The commit data [CDRMOutput::commitState] assembles from the output
    state [STATE], as far as the state determines it. *)
Definition commit_data_of {K} (drv : Driver K) (onlyTest : bool) (STATE : COutputState.t)
    (d : SDRMConnectorCommitData.t) : Prop :=
  SDRMConnectorCommitData.test d = onlyTest /\
  SDRMConnectorCommitData.cursorFB d = None /\
  SDRMConnectorCommitData.modeset d = needs_reconfig (COutputState.committed STATE) /\
  SDRMConnectorCommitData.blocking d = is_blocking (COutputState.committed STATE) /\
  SDRMConnectorCommitData.flags d
  = (if onlyTest then 0
     else Z.lor (if COutputState.enabled STATE then DRM_MODE_PAGE_FLIP_EVENT else 0)
                (if COutputState.presentationMode STATE is AQ_OUTPUT_PRESENTATION_IMMEDIATE
                 then DRM_MODE_PAGE_FLIP_ASYNC else 0)) /\
  match COutputState.buffer STATE with
  | Some buf => exists fb, SDRMConnectorCommitData.mainFB d = Some fb /\ CDRMFB.buffer fb = buf
  | None => SDRMConnectorCommitData.mainFB d = None
  end /\
  exists mode,
    COutputState.MODE STATE = Some mode /\
    match SOutputMode.modeInfo mode with
    | Some mi => SDRMConnectorCommitData.modeInfo d = mi
    | None => calculateMode (di_cvt_compute drv) STATE = Ret (SDRMConnectorCommitData.modeInfo d)
    end.

(** *** Planes and CRTCs at initialisation *)

(** The first loop of [SDRMPlane::init]: one entry per format of the plane,
    with the modifiers every plane of that type is taken to support. *)
Definition plane_base_formats (type : Z) (formats : list Z) : list SDRMFormat.t :=
  map (fun f =>
         SDRMFormat.mk f
           (if negb (type =? DRM_PLANE_TYPE_CURSOR)
            then [DRM_FORMAT_MOD_LINEAR; DRM_FORMAT_MOD_INVALID]
            else [DRM_FORMAT_MOD_LINEAR]))
      formats.

(** One step of the IN_FORMATS loop: the modifier goes to the first entry
    of its format, or to a new entry at the end. *)
Fixpoint add_modifier (fmt mod_ : Z) (formats : list SDRMFormat.t) : list SDRMFormat.t :=
  match formats with
  | [] => [SDRMFormat.mk fmt [mod_]]
  | e :: es =>
    if SDRMFormat.drmFormat e =? fmt
    then SDRMFormat.mk (SDRMFormat.drmFormat e) (SDRMFormat.modifiers e ++ [mod_]) :: es
    else e :: add_modifier fmt mod_ es
  end.

Fixpoint merge_modifiers (blob : list (Z * Z)) (formats : list SDRMFormat.t)
    : list SDRMFormat.t :=
  match blob with
  | [] => formats
  | (fmt, mod_) :: rest => merge_modifiers rest (add_modifier fmt mod_ formats)
  end.

Definition set_primary (p : option nat) (c : SDRMCRTC.t) : SDRMCRTC.t :=
  SDRMCRTC.mk (SDRMCRTC.id c) (SDRMCRTC.gammaSize c) p (SDRMCRTC.cursor c) (SDRMCRTC.refresh c).
Definition set_cursor (p : option nat) (c : SDRMCRTC.t) : SDRMCRTC.t :=
  SDRMCRTC.mk (SDRMCRTC.id c) (SDRMCRTC.gammaSize c) (SDRMCRTC.primary c) p (SDRMCRTC.refresh c).

(** The last loop of [SDRMPlane::init], from CRTC number [i] on: the plane
    [self] goes to the first CRTC it can drive whose slot for its type is
    empty.  [crtcBit] is [1 << i] as a [uint32_t]. *)
Fixpoint assign_plane (type possible_crtcs : Z) (self : nat) (i : nat)
    (crtcs : list SDRMCRTC.t) : list SDRMCRTC.t :=
  match crtcs with
  | [] => []
  | c :: rest =>
    let crtcBit := to_uint32 (Z.shiftl 1 (Z.of_nat i)) in
    if Z.land possible_crtcs crtcBit =? 0 then c :: assign_plane type possible_crtcs self (S i) rest
    else if (type =? DRM_PLANE_TYPE_PRIMARY) && negb (bool_decide (is_Some (SDRMCRTC.primary c)))
    then set_primary (Some self) c :: rest
    else if (type =? DRM_PLANE_TYPE_CURSOR) && negb (bool_decide (is_Some (SDRMCRTC.cursor c)))
    then set_cursor (Some self) c :: rest
    else c :: assign_plane type possible_crtcs self (S i) rest
  end.

Definition log_each (l : eBackendLogLevel) (s : string) (n : nat) (b : CDRMBackend.t)
    : CDRMBackend.t :=
  CDRMBackend.mk (CDRMBackend.drmProps b) (CDRMBackend.crtcs b) (CDRMBackend.planes b)
    (CDRMBackend.logged b ++ replicate n (l, s)).

(** [bool SDRMPlane::init(drmModePlane* plane)] for the plane object that
    will sit at position [self] of the backend's plane list: the answer, the
    backend and the plane object after the call. *)
Definition SDRMPlane_init (dev : Device) (plane : drmModePlane.t) (self : nat)
    (b : CDRMBackend.t) : bool * CDRMBackend.t * SDRMPlane.t :=
  let id := drmModePlane.plane_id plane in
  let blank := SDRMPlane.mk id 0 0 [] None None in
  match getDRMPlaneProps dev id with
  | None => (false, b, blank)
  | Some props =>
    match getDRMProp dev id (SDRMPlaneProps.type props) with
    | None => (false, b, blank)
    | Some type =>
      let b := CDRMBackend.log AQ_LOG_DEBUG "drm: Plane {} has type {}" b in
      let b := CDRMBackend.log AQ_LOG_DEBUG "drm: Plane {} has {} formats" b in
      let formats := plane_base_formats type (drmModePlane.formats plane) in
      let b := log_each AQ_LOG_TRACE "drm: | Format {}" (length (drmModePlane.formats plane)) b in
      let finish (formats : list SDRMFormat.t) (b : CDRMBackend.t) :=
        (true,
         CDRMBackend.set_crtcs
           (assign_plane type (drmModePlane.possible_crtcs plane) self 0 (CDRMBackend.crtcs b)) b,
         SDRMPlane.mk id id type formats None None) in
      if negb (SDRMPlaneProps.in_formats props =? 0)
         && SDRMProps.supportsAddFb2Modifiers (CDRMBackend.drmProps b)
      then
        let b := CDRMBackend.log AQ_LOG_DEBUG "drm: Plane: checking for modifiers" b in
        match getDRMProp dev id (SDRMPlaneProps.in_formats props) with
        | None =>
          (false, CDRMBackend.log AQ_LOG_ERROR "drm: Plane: No blob id" b,
           SDRMPlane.mk id id type formats None None)
        | Some blobID =>
          match drmModeGetPropertyBlob dev blobID with
          | None =>
            (false, CDRMBackend.log AQ_LOG_ERROR "drm: Plane: No property" b,
             SDRMPlane.mk id id type formats None None)
          | Some blob =>
            finish (merge_modifiers blob formats)
                   (log_each AQ_LOG_TRACE "drm: | Modifier {} with format {}" (length blob) b)
          end
        end
      else finish formats b
    end
  end.

(** The loop of [initResources] over the CRTC ids the kernel reported. *)
Fixpoint initResources_crtcs (dev : Device) (ids : list Z) (b : CDRMBackend.t)
    : bool * CDRMBackend.t :=
  match ids with
  | [] => (true, b)
  | id :: rest =>
    match drmModeGetCrtc dev id with
    | None =>
      (false,
       CDRMBackend.set_crtcs []
         (CDRMBackend.log AQ_LOG_ERROR "drm: drmModeGetCrtc for crtc {} failed" b))
    | Some gamma_size =>
      if negb (getDRMCRTCProps dev id) then
        (false,
         CDRMBackend.set_crtcs []
           (CDRMBackend.log AQ_LOG_ERROR "drm: getDRMCRTCProps for crtc {} failed" b))
      else
        initResources_crtcs dev rest
          (CDRMBackend.set_crtcs
             (CDRMBackend.crtcs b ++ [SDRMCRTC.mk id gamma_size None None 0]) b)
    end
  end.

(** The loop of [initResources] over the plane ids. *)
Fixpoint initResources_planes (dev : Device) (ids : list Z) (b : CDRMBackend.t)
    : bool * CDRMBackend.t :=
  match ids with
  | [] => (true, b)
  | id :: rest =>
    match drmModeGetPlane dev id with
    | None =>
      (false,
       CDRMBackend.set_planes []
         (CDRMBackend.set_crtcs []
            (CDRMBackend.log AQ_LOG_ERROR "drm: drmModeGetPlane for plane {} failed" b)))
    | Some plane =>
      let '(ok, b, aqPlane) := SDRMPlane_init dev plane (length (CDRMBackend.planes b)) b in
      if negb ok then
        (false,
         CDRMBackend.set_planes []
           (CDRMBackend.set_crtcs []
              (CDRMBackend.log AQ_LOG_ERROR "drm: aqPlane->init for plane {} failed" b)))
      else
        initResources_planes dev rest
          (CDRMBackend.set_planes (CDRMBackend.planes b ++ [aqPlane]) b)
    end
  end.

(** [bool CDRMBackend::initResources()] *)
Definition CDRMBackend_initResources (dev : Device) (b : CDRMBackend.t)
    : bool * CDRMBackend.t :=
  match drmModeGetResources dev with
  | None => (false, CDRMBackend.log AQ_LOG_ERROR "drm: drmModeGetResources failed" b)
  | Some crtc_ids =>
    let b := CDRMBackend.log AQ_LOG_DEBUG "drm: found {} CRTCs" b in
    let '(ok, b) := initResources_crtcs dev crtc_ids b in
    if negb ok then (false, b)
    else if (32 <? length (CDRMBackend.crtcs b))%nat then
      (false, CDRMBackend.log AQ_LOG_CRITICAL "drm: Cannot support more than 32 CRTCs" b)
    else
      match drmModeGetPlaneResources dev with
      | None => (false, CDRMBackend.log AQ_LOG_ERROR "drm: drmModeGetPlaneResources failed" b)
      | Some plane_ids =>
        let b := CDRMBackend.log AQ_LOG_DEBUG "drm: found {} planes" b in
        initResources_planes dev plane_ids b
      end
  end.

(** [getRenderFormats()] and [getCursorFormats()]: the formats of the first
    plane of the type, nothing when there is none. *)
Definition formats_of_first (type : Z) (planes : list SDRMPlane.t) : list SDRMFormat.t :=
  match List.find (fun p => SDRMPlane.type p =? type) planes with
  | Some p => SDRMPlane.formats p
  | None => []
  end.
Definition CDRMBackend_getRenderFormats (b : CDRMBackend.t) : list SDRMFormat.t :=
  formats_of_first DRM_PLANE_TYPE_PRIMARY (CDRMBackend.planes b).
Definition CDRMBackend_getCursorFormats (b : CDRMBackend.t) : list SDRMFormat.t :=
  formats_of_first DRM_PLANE_TYPE_CURSOR (CDRMBackend.planes b).

(** *** Enumeration of the GPUs *)

(** What [scanGPUs] reads of a udev device: the [ID_SEAT] property, the
    [boot_vga] attribute of its PCI parent when it has one, and its device
    node. *)
Module udev_device.
Record t : Type := mk {
  ID_SEAT : option string;
  pci_boot_vga : option (option string);
  devnode : option string
}.
End udev_device.

Section scanGPUs.
(** The session devices, the session's seat name and
    [CSessionDevice::openIfKMS] on a device node. *)
Context {CSessionDevice : Type}.
Variable seatName : string.
Variable openIfKMS : string -> option CSessionDevice.

Definition scan_log : Type := list (eBackendLogLevel * string).

(** The loop over the enumerated entries, each given with what
    [udev_device_new_from_syspath] answers for it; [devices] is the
    [std::deque]. *)
Fixpoint scanGPUs_entries (entries : list (option udev_device.t))
    (devices : list CSessionDevice) (logged : scan_log) : list CSessionDevice * scan_log :=
  match entries with
  | [] => (devices, logged)
  | None :: rest =>
    scanGPUs_entries rest devices (logged ++ [(AQ_LOG_WARNING, "drm: Skipping device {}")])
  | Some device :: rest =>
    let logged := logged ++ [(AQ_LOG_DEBUG, "drm: Enumerated device {}")] in
    let seat := default "seat0" (udev_device.ID_SEAT device) in
    if negb (String.eqb seatName "") && negb (String.eqb seatName seat) then
      scanGPUs_entries rest devices
        (logged ++ [(AQ_LOG_WARNING,
                     "drm: Skipping device {} because seat {} doesn't match our {}")])
    else
      let isBootVGA :=
        match udev_device.pci_boot_vga device with
        | Some (Some id) => String.eqb id "1"
        | _ => false
        end in
      match udev_device.devnode device with
      | None =>
        scanGPUs_entries rest devices
          (logged ++ [(AQ_LOG_ERROR, "drm: Skipping device {}, no devnode")])
      | Some node =>
        match openIfKMS node with
        | None =>
          scanGPUs_entries rest devices
            (logged ++ [(AQ_LOG_ERROR, "drm: Skipping device {}, not a KMS device")])
        | Some sessionDevice =>
          scanGPUs_entries rest
            (if isBootVGA then sessionDevice :: devices else devices ++ [sessionDevice])
            logged
        end
      end
  end.

(** [static std::vector<SP<CSessionDevice>> scanGPUs(SP<CBackend> backend)];
    [enumerate] is what [enumDRMCards] returns, [None] for [nullptr]. *)
Definition scanGPUs (enumerate : option (list (option udev_device.t)))
    : list CSessionDevice * scan_log :=
  match enumerate with
  | None => ([], [(AQ_LOG_ERROR, "drm: couldn't enumerate gpus with udev")])
  | Some [] => ([], [(AQ_LOG_ERROR, "drm: No gpus in scanGPUs.")])
  | Some entries => scanGPUs_entries entries [] []
  end.
End scanGPUs.

(** *** The connector scan *)

Definition DRM_MODE_TYPE_PREFERRED : Z := Z.shiftl 1 3.

Definition DRM_MODE_SUBPIXEL_UNKNOWN : Z := 1.
Definition DRM_MODE_SUBPIXEL_HORIZONTAL_RGB : Z := 2.
Definition DRM_MODE_SUBPIXEL_HORIZONTAL_BGR : Z := 3.
Definition DRM_MODE_SUBPIXEL_VERTICAL_RGB : Z := 4.
Definition DRM_MODE_SUBPIXEL_VERTICAL_BGR : Z := 5.
Definition DRM_MODE_SUBPIXEL_NONE : Z := 6.

Inductive eSubpixelMode : Type :=
| AQ_SUBPIXEL_UNKNOWN
| AQ_SUBPIXEL_NONE
| AQ_SUBPIXEL_HORIZONTAL_RGB
| AQ_SUBPIXEL_HORIZONTAL_BGR
| AQ_SUBPIXEL_VERTICAL_RGB
| AQ_SUBPIXEL_VERTICAL_BGR.

#[global] Instance drmModeModeInfo_eq_dec : EqDecision drmModeModeInfo.t.
Proof. solve_decision. Defined.

(** What the scan reads of the kernel's [drmModeConnector]. *)
Module drmModeConnector.
Record t : Type := mk {
  connector_id : Z;
  connector_type : Z;
  connector_type_id : Z;
  connection : drmModeConnection;
  encoder_id : Z;
  modes : list drmModeModeInfo.t;      (* count_modes of them *)
  mmWidth : Z;
  mmHeight : Z;
  subpixel : Z
}.
End drmModeConnector.

(** The property ids of a connector and of a CRTC that the scan uses; an id
    of 0 stands for a property the object does not have. *)
Module SDRMConnectorProps.
Record t : Type := mk {
  crtc_id : Z;
  non_desktop : Z;
  vrr_capable : Z;
  max_bpc : Z;
  edid : Z
}.
End SDRMConnectorProps.

Module SDRMCRTCProps.
Record t : Type := mk {
  mode_id : Z;
  vrr_enabled : Z
}.
End SDRMCRTCProps.

(** The scan follows every connector of the backend.  CRTCs are shared
    objects of the backend's CRTC list, which does not change after
    initialisation, so a connector holds the position of its CRTC. A
    connector object is held by the backend's connector list; its methods
    take the object and give back the object after the call, and
    [scanConnectors] puts it back at its position. *)
Module Scan.

(** The kernel and libdrm as the scan sees them.  [crtc_props] are the
    property ids [getDRMCRTCProps] stored in the CRTC object at
    initialisation.  [getDRMPropBlob] is the blob of a CRTC's [MODE_ID],
    read as a [drmModeModeInfo]; [drmModeGetCrtc] gives [mode_valid] and
    [mode]; [malloc] tells whether the allocation of the copy succeeds.  A
    [getDRMProp] that fails leaves the value it would write as it was. *)
Record Kernel : Type := mkKernel {
  drmModeGetResources : option (list Z);          (* resources->connectors *)
  drmModeGetConnector : Z -> option drmModeConnector.t;
  getDRMConnectorProps : Z -> option SDRMConnectorProps.t;
  drmModeGetConnectorTypeName : Z -> option string;
  drmModeConnectorGetPossibleCrtcs : drmModeConnector.t -> Z;
  getDRMProp : Z -> Z -> option Z;
  drmModeGetEncoder : Z -> option Z;              (* encoder->crtc_id *)
  crtc_props : Z -> SDRMCRTCProps.t;
  getDRMPropBlob : Z -> Z -> option drmModeModeInfo.t;
  drmModeGetCrtc : Z -> option (bool * drmModeModeInfo.t);
  malloc : bool;
  introspectDRMPropRange : Z -> option (Z * Z)
}.

(** The output of a connector, with the fields [connect] and [onReady]
    write.  [setMode] lists the modes handed to [state->setMode], oldest
    first; [swapchain] tells whether the output has one. *)
Module Output.
Record t : Type := mk {
  name : string;
  modes : list SOutputMode.t;
  setMode : list SOutputMode.t;
  physicalSize : Z * Z;
  subpixel : eSubpixelMode;
  nonDesktop : bool;
  vrrCapable : bool;
  make : string;
  model : string;
  serial : string;
  description : string;
  needsFrame : bool;
  swapchain : bool
}.

(** Modelled from the spec: [new CDRMOutput(name, backend, connector)] gives
    an output with that name, no modes and no swapchain (the members'
    initial values are in DRM.hpp and Output.hpp, which are not among the
    sources). *)
Definition fresh (name : string) : t :=
  mk name [] [] (0, 0) AQ_SUBPIXEL_UNKNOWN false false "" "" "" "" false false.
End Output.

Module Connector.
Record t : Type := mk {
  id : Z;
  szName : string;
  status : drmModeConnection;
  crtc : option nat;
  props : SDRMConnectorProps.t;
  possibleCrtcs : Z;
  output : option Output.t;
  fallbackModeInfo : option drmModeModeInfo.t;   (* [None]: never assigned *)
  canDoVrr : bool;
  maxBpcBounds : Z * Z;
  isPageFlipPending : bool;
  pendingPageFlip : SDRMPageFlip.t;
  make : string;
  model : string;
  serial : string
}.

(** Modelled from the spec: a connector object starts disconnected, without
    output and CRTC, and with empty make, model and serial (the members'
    initial values are in DRM.hpp, which is not among the sources). *)
Definition fresh : t :=
  mk 0 "" DRM_MODE_DISCONNECTED None (SDRMConnectorProps.mk 0 0 0 0 0) 0 None None false (0, 0)
     false (SDRMPageFlip.mk None) "" "" "".
End Connector.

(** What the scan makes known to the outside: the backend's [newOutput]
    event and an output's [destroy] event, each with the id of the
    connector whose output it is. *)
Inductive event : Type :=
| NewOutput (connector : Z)             (* backend->events.newOutput.emit(output) *)
| OutputDestroy (connector : Z).        (* output->events.destroy.emit() *)

(** The backend as the scan sees it.  [ready] is [backend->backend->ready];
    an idle callback is recorded as the id of the connector whose output's
    frame event it emits. *)
Record Backend : Type := mkBackend {
  crtcs : list SDRMCRTC.t;
  connectors : list Connector.t;
  ready : bool;
  logged : list (eBackendLogLevel * string);
  events : list event;
  idleCallbacks : list Z
}.

Definition log (l : eBackendLogLevel) (s : string) (b : Backend) : Backend :=
  mkBackend (crtcs b) (connectors b) (ready b) (logged b ++ [(l, s)]) (events b)
            (idleCallbacks b).
Definition emit (e : event) (b : Backend) : Backend :=
  mkBackend (crtcs b) (connectors b) (ready b) (logged b) (events b ++ [e]) (idleCallbacks b).
Definition set_crtcs (c : list SDRMCRTC.t) (b : Backend) : Backend :=
  mkBackend c (connectors b) (ready b) (logged b) (events b) (idleCallbacks b).
Definition set_connectors (c : list Connector.t) (b : Backend) : Backend :=
  mkBackend (crtcs b) c (ready b) (logged b) (events b) (idleCallbacks b).
Definition add_idle (connector : Z) (b : Backend) : Backend :=
  mkBackend (crtcs b) (connectors b) (ready b) (logged b) (events b)
            (idleCallbacks b ++ [connector]).

(** The position of the CRTC with the id, as [std::find_if] finds it. *)
Definition find_crtc (crtcID : Z) (b : Backend) : option nat :=
  fst <$> list_find (fun e => SDRMCRTC.id e = crtcID) (crtcs b).

(** [SP<SDRMCRTC> SDRMConnector::getCurrentCRTC(const drmModeConnector* connector)] *)
Definition getCurrentCRTC (k : Kernel) (connector : drmModeConnector.t) (c : Connector.t)
    (b : Backend) : option nat * Backend :=
  let found (crtcID : Z) :=
    match find_crtc crtcID b with
    | None => (None, log AQ_LOG_ERROR "drm: Failed to find a CRTC with ID {}" b)
    | Some i => (Some i, b)
    end in
  if negb (SDRMConnectorProps.crtc_id (Connector.props c) =? 0) then
    match getDRMProp k (Connector.id c) (SDRMConnectorProps.crtc_id (Connector.props c)) with
    | None => (None, log AQ_LOG_ERROR "drm: Failed to get CRTC_ID" b)
    | Some value => found (to_uint32 value)
    end
  else if negb (drmModeConnector.encoder_id connector =? 0) then
    match drmModeGetEncoder k (drmModeConnector.encoder_id connector) with
    | None => (None, log AQ_LOG_ERROR "drm: drmModeGetEncoder failed" b)
    | Some crtc_id => found crtc_id
    end
  else (None, b).

(** [bool SDRMConnector::init(drmModeConnector* connector)] *)
Definition init (k : Kernel) (connector : drmModeConnector.t) (c : Connector.t) (b : Backend)
    : bool * Connector.t * Backend :=
  let id := drmModeConnector.connector_id connector in
  let c := Connector.mk id (Connector.szName c) (Connector.status c) (Connector.crtc c)
             (Connector.props c) (Connector.possibleCrtcs c) (Connector.output c)
             (Connector.fallbackModeInfo c) (Connector.canDoVrr c) (Connector.maxBpcBounds c)
             (Connector.isPageFlipPending c) (SDRMPageFlip.mk (Some this_connector))
             (Connector.make c) (Connector.model c) (Connector.serial c) in
  match getDRMConnectorProps k id with
  | None => (false, c, b)
  | Some props =>
    let name := default "ERROR"
                  (drmModeGetConnectorTypeName k (drmModeConnector.connector_type connector)) in
    let szName := name +:+ "-" +:+ pretty (drmModeConnector.connector_type_id connector) in
    let possibleCrtcs := drmModeConnectorGetPossibleCrtcs k connector in
    let b := if possibleCrtcs =? 0 then log AQ_LOG_ERROR "drm: No CRTCs possible" b else b in
    let c := Connector.mk id szName (Connector.status c) (Connector.crtc c) props possibleCrtcs
               (Connector.output c) (Connector.fallbackModeInfo c) (Connector.canDoVrr c)
               (Connector.maxBpcBounds c) (Connector.isPageFlipPending c)
               (Connector.pendingPageFlip c) (Connector.make c) (Connector.model c)
               (Connector.serial c) in
    let '(crtc, b) := getCurrentCRTC k connector c b in
    (true,
     Connector.mk id szName (Connector.status c) crtc props possibleCrtcs
       (Connector.output c) (Connector.fallbackModeInfo c) (Connector.canDoVrr c)
       (Connector.maxBpcBounds c) (Connector.isPageFlipPending c)
       (Connector.pendingPageFlip c) (Connector.make c) (Connector.model c)
       (Connector.serial c),
     b)
  end.

(** [drmModeModeInfo* SDRMConnector::getCurrentMode()] *)
Definition getCurrentMode (k : Kernel) (c : Connector.t) (b : Backend)
    : option drmModeModeInfo.t :=
  match Connector.crtc c ≫= (fun i => crtcs b !! i) with
  | None => None
  | Some crtc =>
    let mode_id := SDRMCRTCProps.mode_id (crtc_props k (SDRMCRTC.id crtc)) in
    if negb (mode_id =? 0) then getDRMPropBlob k (SDRMCRTC.id crtc) mode_id
    else
      match drmModeGetCrtc k (SDRMCRTC.id crtc) with
      | None => None
      | Some (mode_valid, mode) =>
        if negb mode_valid then None
        else if negb (malloc k) then None
        else Some mode
      end
  end.

Definition set_refresh (r : Z) (c : SDRMCRTC.t) : SDRMCRTC.t :=
  SDRMCRTC.mk (SDRMCRTC.id c) (SDRMCRTC.gammaSize c) (SDRMCRTC.primary c) (SDRMCRTC.cursor c) r.

(** What the loop of [connect] over the kernel's modes works on: the
    output, the connector's fallback mode, and the backend. *)
Definition modes_state : Type := Output.t * option drmModeModeInfo.t * Backend.

(** The loop of [connect] over the kernel's modes, from mode number [i] on.
    [std::memcmp(&drmMode, currentModeInfo, sizeof(drmModeModeInfo))] is not
    0 exactly when the two modes differ. *)
Fixpoint connect_modes (currentModeInfo : option drmModeModeInfo.t) (crtc : option nat)
    (i : nat) (modes : list drmModeModeInfo.t) (st : modes_state) : outcome modes_state :=
  match modes with
  | [] => Ret st
  | drmMode :: rest =>
    let '(output, fallbackModeInfo, b) := st in
    if negb (Z.land (drmModeModeInfo.flags drmMode) DRM_MODE_FLAG_INTERLACE =? 0) then
      connect_modes currentModeInfo crtc (S i) rest
        (output, fallbackModeInfo,
         log AQ_LOG_DEBUG "drm: Skipping mode {} because it's interlaced" b)
    else
      let fallbackModeInfo := if (i =? 1)%nat then Some drmMode else fallbackModeInfo in
      match calculateRefresh drmMode with
      | Fault f => Fault f
      | Ret refresh =>
        let aqMode :=
          SOutputMode.mk (drmModeModeInfo.hdisplay drmMode, drmModeModeInfo.vdisplay drmMode)
            (to_uint32 refresh)
            (negb (Z.land (drmModeModeInfo.type drmMode) DRM_MODE_TYPE_PREFERRED =? 0))
            (Some drmMode) in
        let output :=
          Output.mk (Output.name output) (Output.modes output ++ [aqMode])
            (Output.setMode output) (Output.physicalSize output) (Output.subpixel output)
            (Output.nonDesktop output) (Output.vrrCapable output) (Output.make output)
            (Output.model output) (Output.serial output) (Output.description output)
            (Output.needsFrame output) (Output.swapchain output) in
        let selected : outcome (Output.t * Backend) :=
          match currentModeInfo with
          | Some current =>
            if bool_decide (drmMode <> current) then
              match crtc with
              | None => Fault NullDeref
              | Some ci =>
                Ret (Output.mk (Output.name output) (Output.modes output)
                       (Output.setMode output ++ [aqMode]) (Output.physicalSize output)
                       (Output.subpixel output) (Output.nonDesktop output)
                       (Output.vrrCapable output) (Output.make output) (Output.model output)
                       (Output.serial output) (Output.description output)
                       (Output.needsFrame output) (Output.swapchain output),
                     set_crtcs (alter (set_refresh refresh) ci (crtcs b)) b)
              end
            else Ret (output, b)
          | None => Ret (output, b)
          end in
        match selected with
        | Fault f => Fault f
        | Ret (output, b) =>
          connect_modes currentModeInfo crtc (S i) rest
            (output, fallbackModeInfo, log AQ_LOG_DEBUG "drm: Mode {}: {}x{}@{:.2f}Hz {}" b)
        end
      end
  end.

Definition subpixel_of (subpixel : Z) : eSubpixelMode :=
  if subpixel =? DRM_MODE_SUBPIXEL_NONE then AQ_SUBPIXEL_NONE
  else if subpixel =? DRM_MODE_SUBPIXEL_UNKNOWN then AQ_SUBPIXEL_UNKNOWN
  else if subpixel =? DRM_MODE_SUBPIXEL_HORIZONTAL_RGB then AQ_SUBPIXEL_HORIZONTAL_RGB
  else if subpixel =? DRM_MODE_SUBPIXEL_HORIZONTAL_BGR then AQ_SUBPIXEL_HORIZONTAL_BGR
  else if subpixel =? DRM_MODE_SUBPIXEL_VERTICAL_RGB then AQ_SUBPIXEL_VERTICAL_RGB
  else if subpixel =? DRM_MODE_SUBPIXEL_VERTICAL_BGR then AQ_SUBPIXEL_VERTICAL_BGR
  else AQ_SUBPIXEL_UNKNOWN.

(** [props.vrr_capable && crtc->props.vrr_enabled && !getDRMProp(fd, id,
    props.vrr_capable, &prop) && prop], with [prop] as the read of
    [non_desktop] left it. *)
Definition connect_canDoVrr (k : Kernel) (c : Connector.t) (b : Backend) (prop : Z)
    : outcome bool :=
  if SDRMConnectorProps.vrr_capable (Connector.props c) =? 0 then Ret false
  else
    match Connector.crtc c ≫= (fun i => crtcs b !! i) with
    | None => Fault NullDeref
    | Some crtc =>
      if SDRMCRTCProps.vrr_enabled (crtc_props k (SDRMCRTC.id crtc)) =? 0 then Ret false
      else
        match getDRMProp k (Connector.id c) (SDRMConnectorProps.vrr_capable (Connector.props c))
        with
        | Some _ => Ret false
        | None => Ret (negb (prop =? 0))
        end
    end.

(** [void CDRMOutput::scheduleFrame()] for the output of connector [c]. *)
Definition scheduleFrame (c : Connector.t) (b : Backend) : Backend :=
  if Connector.isPageFlipPending c then b else add_idle (Connector.id c) b.

(** [void SDRMConnector::connect(drmModeConnector* connector)].  The EDID
    blob is read and handed to [parseEDID], which does nothing. *)
Definition connect (k : Kernel) (connector : drmModeConnector.t) (c : Connector.t) (b : Backend)
    : outcome (Connector.t * Backend) :=
  match Connector.output c with
  | Some _ =>
    Ret (c, log AQ_LOG_DEBUG "drm: Not connecting connector {} because it's already connected" b)
  | None =>
    let b := log AQ_LOG_DEBUG "drm: Connecting connector {}, CRTC ID {}" b in
    let output := Output.fresh (Connector.szName c) in
    let b := log AQ_LOG_DEBUG "drm: Dumping detected modes:" b in
    let currentModeInfo := getCurrentMode k c b in
    match connect_modes currentModeInfo (Connector.crtc c) 0 (drmModeConnector.modes connector)
            (output, Connector.fallbackModeInfo c, b) with
    | Fault f => Fault f
    | Ret (output, fallbackModeInfo, b) =>
      let physicalSize := (drmModeConnector.mmWidth connector,
                           drmModeConnector.mmHeight connector) in
      let b := log AQ_LOG_DEBUG "drm: Physical size {} (mm)" b in
      let subpixel := subpixel_of (drmModeConnector.subpixel connector) in
      let non_desktop :=
        getDRMProp k (Connector.id c) (SDRMConnectorProps.non_desktop (Connector.props c)) in
      let prop := default 0 non_desktop in
      let b := if bool_decide (non_desktop = Some 1)
               then log AQ_LOG_DEBUG "drm: Non-desktop connector" b else b in
      let nonDesktop := match non_desktop with
                        | Some prop => negb (prop =? 0)
                        | None => Output.nonDesktop output
                        end in
      match connect_canDoVrr k c b prop with
      | Fault f => Fault f
      | Ret canDoVrr =>
        let max_bpc := SDRMConnectorProps.max_bpc (Connector.props c) in
        let range := if max_bpc =? 0 then None else introspectDRMPropRange k max_bpc in
        let maxBpcBounds := default (0, 0) range in
        let b := if negb (max_bpc =? 0) && negb (bool_decide (is_Some range))
                 then log AQ_LOG_ERROR "drm: Failed to check max_bpc" b else b in
        let description :=
          Connector.make c +:+ " " +:+ Connector.model c +:+ " " +:+ Connector.serial c
          +:+ " (" +:+ Connector.szName c +:+ ")" in
        let b := log AQ_LOG_DEBUG "drm: Description {}" b in
        let finish (swapchain : bool) :=
          Connector.mk (Connector.id c) (Connector.szName c) DRM_MODE_CONNECTED
            (Connector.crtc c) (Connector.props c) (Connector.possibleCrtcs c)
            (Some (Output.mk (Output.name output) (Output.modes output)
                     (Output.setMode output) physicalSize subpixel nonDesktop canDoVrr
                     (Connector.make c) (Connector.model c) (Connector.serial c)
                     description true swapchain))
            fallbackModeInfo canDoVrr maxBpcBounds (Connector.isPageFlipPending c)
            (Connector.pendingPageFlip c) (Connector.make c) (Connector.model c)
            (Connector.serial c) in
        if negb (ready b) then Ret (finish false, b)
        else Ret (finish true, scheduleFrame c (emit (NewOutput (Connector.id c)) b))
      end
    end
  end.

(** [void SDRMConnector::disconnect()] *)
Definition disconnect (c : Connector.t) (b : Backend) : Connector.t * Backend :=
  match Connector.output c with
  | None =>
    (c, log AQ_LOG_DEBUG
          "drm: Not disconnecting connector {} because it's already disconnected" b)
  | Some _ =>
    (Connector.mk (Connector.id c) (Connector.szName c) DRM_MODE_DISCONNECTED
       (Connector.crtc c) (Connector.props c) (Connector.possibleCrtcs c) None
       (Connector.fallbackModeInfo c) (Connector.canDoVrr c) (Connector.maxBpcBounds c)
       (Connector.isPageFlipPending c) (Connector.pendingPageFlip c) (Connector.make c)
       (Connector.model c) (Connector.serial c),
     emit (OutputDestroy (Connector.id c)) b)
  end.

Section scan.
(** Whether the flip record of a connector shares the ownership of the
    connector (the record's type is in DRM.hpp, which is not among the
    sources).  If it does, a connector whose [init] has run is never
    destroyed; if not, [connectors.pop_back()] destroys it, and the
    destructor calls [disconnect]. *)
Variable flip_record_owns_connector : bool.

(** [connectors.pop_back()] after a failed [init] of the connector [c]. *)
Definition pop_back (c : Connector.t) (b : Backend) : Backend :=
  if flip_record_owns_connector then b else snd (disconnect c b).

(** The end of a pass of the loop of [scanConnectors], for the connector at
    position [i] of the list. *)
Definition scan_transition (k : Kernel) (drmConn : drmModeConnector.t) (i : nat)
    (conn : Connector.t) (b : Backend) : outcome Backend :=
  let b := log AQ_LOG_DEBUG "drm: Connectors size {}" b in
  let b := log AQ_LOG_DEBUG "drm: Connector {} connection state: {}" b in
  if bool_decide (Connector.status conn = DRM_MODE_DISCONNECTED)
     && bool_decide (drmModeConnector.connection drmConn = DRM_MODE_CONNECTED)
  then
    match connect k drmConn conn (log AQ_LOG_DEBUG "drm: Connector {} connected" b) with
    | Fault f => Fault f
    | Ret (conn, b) => Ret (set_connectors (<[i := conn]> (connectors b)) b)
    end
  else if bool_decide (Connector.status conn = DRM_MODE_CONNECTED)
          && bool_decide (drmModeConnector.connection drmConn = DRM_MODE_DISCONNECTED)
  then
    let '(conn, b) := disconnect conn (log AQ_LOG_DEBUG "drm: Connector {} disconnected" b) in
    Ret (set_connectors (<[i := conn]> (connectors b)) b)
  else Ret b.

(** One pass of the loop of [scanConnectors]. *)
Definition scan_connector (k : Kernel) (connectorID : Z) (b : Backend) : outcome Backend :=
  let drmConn := drmModeGetConnector k connectorID in
  let b := log AQ_LOG_DEBUG "drm: Scanning connector id {}" b in
  match drmConn with
  | None => Ret (log AQ_LOG_ERROR "drm: Failed to get connector id {}" b)
  | Some drmConn =>
    match list_find (fun e => Connector.id e = connectorID) (connectors b) with
    | None =>
      let b := log AQ_LOG_DEBUG "drm: Initializing connector id {}" b in
      let i := length (connectors b) in
      let '(ok, conn, b) := init k drmConn Connector.fresh b in
      if negb ok then
        Ret (pop_back conn (log AQ_LOG_ERROR "drm: Connector id {} failed initializing" b))
      else
        scan_transition k drmConn i conn (set_connectors (connectors b ++ [conn]) b)
    | Some (i, conn) => scan_transition k drmConn i conn b
    end
  end.

Fixpoint scan_connectors (k : Kernel) (ids : list Z) (b : Backend) : outcome Backend :=
  match ids with
  | [] => Ret b
  | connectorID :: rest =>
    match scan_connector k connectorID b with
    | Fault f => Fault f
    | Ret b => scan_connectors k rest b
    end
  end.

(** [void CDRMBackend::scanConnectors()] *)
Definition scanConnectors (k : Kernel) (b : Backend) : outcome Backend :=
  let b := log AQ_LOG_DEBUG "drm: Scanning connectors for {}" b in
  match drmModeGetResources k with
  | None => Ret (log AQ_LOG_ERROR "drm: Scanning connectors for {} failed" b)
  | Some ids => scan_connectors k ids b
  end.
End scan.

(** The loop of [onReady] over the connectors, from position [i] on. *)
Fixpoint onReady_connectors (cs : list Connector.t) (b : Backend) : list Connector.t * Backend :=
  match cs with
  | [] => ([], b)
  | c :: rest =>
    let b := log AQ_LOG_DEBUG "drm: onReady: connector {}" b in
    match Connector.output c with
    | None =>
      let '(rest, b) := onReady_connectors rest b in (c :: rest, b)
    | Some output =>
      let b := log AQ_LOG_DEBUG "drm: onReady: connector {} has output name {}" b in
      let output :=
        Output.mk (Output.name output) (Output.modes output) (Output.setMode output)
          (Output.physicalSize output) (Output.subpixel output) (Output.nonDesktop output)
          (Output.vrrCapable output) (Output.make output) (Output.model output)
          (Output.serial output) (Output.description output) true true in
      let c :=
        Connector.mk (Connector.id c) (Connector.szName c) (Connector.status c)
          (Connector.crtc c) (Connector.props c) (Connector.possibleCrtcs c) (Some output)
          (Connector.fallbackModeInfo c) (Connector.canDoVrr c) (Connector.maxBpcBounds c)
          (Connector.isPageFlipPending c) (Connector.pendingPageFlip c) (Connector.make c)
          (Connector.model c) (Connector.serial c) in
      let '(rest, b) := onReady_connectors rest (emit (NewOutput (Connector.id c)) b) in
      (c :: rest, b)
    end
  end.

(** [void CDRMBackend::onReady()] *)
Definition onReady (b : Backend) : Backend :=
  let b := log AQ_LOG_DEBUG "drm: Connectors size2 {}" b in
  let '(cs, b) := onReady_connectors (connectors b) b in
  set_connectors cs b.

End Scan.

(** *** [CDRMFB::closeHandles] *)

(** The loop of [closeHandles] over [boHandles].  [drmCloseBufferHandle] is
    the kernel's answer to closing a handle, with the kernel's next state;
    the handles closed are recorded in order. *)
Fixpoint closeHandles_loop {K} (drmCloseBufferHandle : K -> Z -> K * Z) (handles : list Z)
    (k : K) (closed : list Z) (logged : list (eBackendLogLevel * string))
    : list Z * K * list Z * list (eBackendLogLevel * string) :=
  match handles with
  | [] => ([], k, closed, logged)
  | h :: rest =>
    if h =? 0 then
      let '(rest, k, closed, logged) :=
        closeHandles_loop drmCloseBufferHandle rest k closed logged in
      (h :: rest, k, closed, logged)
    else
      let '(k, ret) := drmCloseBufferHandle k h in
      let logged := if negb (ret =? 0)
                    then logged ++ [(AQ_LOG_ERROR, "drm: drmCloseBufferHandle failed")]
                    else logged in
      let '(rest, k, closed, logged) :=
        closeHandles_loop drmCloseBufferHandle rest k (closed ++ [h]) logged in
      (0 :: rest, k, closed, logged)
  end.

(** [void CDRMFB::closeHandles()] *)
Definition CDRMFB_closeHandles {K} (drmCloseBufferHandle : K -> Z -> K * Z) (fb : CDRMFB.t)
    (k : K) (closed : list Z) (logged : list (eBackendLogLevel * string))
    : CDRMFB.t * K * list Z * list (eBackendLogLevel * string) :=
  if CDRMFB.handlesClosed fb then (fb, k, closed, logged)
  else
    let '(handles, k, closed, logged) :=
      closeHandles_loop drmCloseBufferHandle (CDRMFB.boHandles fb) k closed logged in
    (CDRMFB.mk (CDRMFB.id fb) (CDRMFB.buffer fb) handles (CDRMFB.dropped fb) true,
     k, closed, logged).

(** *** [CDRMBackend::attempt]: bringing the backend up *)

(** [bool CDRMBackend::grabFormats()] *)
Definition CDRMBackend_grabFormats (b : CDRMBackend.t) : bool := true.

(** [bool CDRMBackend::registerGPU(gpu_, primary_)].  [drmVer] tells whether
    [drmGetVersion] gave a version: its name is read through the pointer
    for the log line.  The two listeners the call registers run on later
    events of the session device, not in this call. *)
Definition CDRMBackend_registerGPU (drmVer : bool) (b : CDRMBackend.t)
    : outcome (bool * CDRMBackend.t) :=
  if drmVer
  then Ret (true, CDRMBackend.log AQ_LOG_DEBUG "drm: Starting backend for {}, with driver {}" b)
  else Fault NullDeref.

(** The wait for the session in [attempt], entered with an inactive
    session.  Pass [i] of the loop sleeps, dispatches the session's events
    and reads the clock: [dispatched i] is the session's [active] flag after
    the dispatch, with the milliseconds since the wait started.  The answer
    is the flag when the loop is left, with the log; [fuel] bounds the
    passes followed, and [None] says the loop is still running then. *)
Fixpoint attempt_wait (dispatched : nat -> bool * Z) (fuel : nat) (i : nat)
    (logged : list (eBackendLogLevel * string))
    : option (bool * list (eBackendLogLevel * string)) :=
  match fuel with
  | O => None
  | S fuel' =>
    let '(active, elapsed) := dispatched i in
    if 5000 <=? elapsed then Some (active, logged ++ [(AQ_LOG_DEBUG, "Session timeout reached")])
    else if active then Some (true, logged)
    else attempt_wait dispatched fuel' (S i) logged
  end.

Section attempt.
Context {CSessionDevice : Type}.

(** What [attempt] meets outside this file: the session the backend has
    already ([None] for none, else its [active] flag), what
    [CSession::attempt] gives, the session's events during the wait, the
    session's seat and udev's answers for [scanGPUs], the kernel behind a
    GPU as initialisation and the connector scan see it, whether
    [drmGetVersion] answers for it, and the consumer's [ready] flag. *)
Record Startup : Type := mkStartup {
  st_session : option bool;
  st_CSession_attempt : option bool;
  st_dispatched : nat -> bool * Z;
  st_seatName : string;
  st_openIfKMS : string -> option CSessionDevice;
  st_enumerate : option (list (option udev_device.t));
  st_drmGetVersion : CSessionDevice -> bool;
  st_device : CSessionDevice -> Device;
  st_kms : CSessionDevice -> Scan.Kernel;
  st_ready : bool;
  st_flip_record_owns_connector : bool
}.

(** What a call of [attempt] comes to: the backend it returns, for the GPU
    it registered, as initialisation and as the connector scan left it;
    [nullptr]; a fault; or a wait that outlasts the passes followed. *)
Inductive attempt_result : Type :=
| DRMBackend (gpu : CSessionDevice) (b : CDRMBackend.t) (scanned : Scan.Backend)
| NoBackend
| Crashed (f : fault)
| StillWaiting.

(** [SP<CDRMBackend> CDRMBackend::attempt(SP<CBackend> backend)], with the
    lines logged.  Every part logs through the one [backend->log]. *)
Definition CDRMBackend_attempt (env : Startup) (fuel : nat)
    : attempt_result * list (eBackendLogLevel * string) :=
  let session :=
    match st_session env with
    | Some active => Some active
    | None => st_CSession_attempt env
    end in
  match session with
  | None => (NoBackend, [(AQ_LOG_ERROR, "Failed to open a session")])
  | Some active =>
    let waited :=
      if active then Some (true, [])
      else attempt_wait (st_dispatched env) fuel 0
             [(AQ_LOG_DEBUG, "Session is not active, waiting for 5s")] in
    match waited with
    | None => (StillWaiting, [(AQ_LOG_DEBUG, "Session is not active, waiting for 5s")])
    | Some (false, logged) =>
      (NoBackend, logged ++ [(AQ_LOG_DEBUG, "Session could not be activated in time")])
    | Some (true, logged) =>
      let '(gpus, scanned) :=
        scanGPUs (st_seatName env) (st_openIfKMS env) (st_enumerate env) in
      let logged := logged ++ scanned in
      match gpus with
      | [] => (NoBackend, logged ++ [(AQ_LOG_ERROR, "drm: Found no gpus to use, cannot continue")])
      | gpu :: _ =>
        let logged := logged ++ [(AQ_LOG_DEBUG, "drm: Found {} GPUs")] in
        let drmBackend :=
          CDRMBackend.mk (CDRMBackend.drmProps CDRMBackend.fresh) [] [] logged in
        match CDRMBackend_registerGPU (st_drmGetVersion env gpu) drmBackend with
        | Fault f => (Crashed f, logged)
        | Ret (false, b) =>
          (NoBackend,
           CDRMBackend.logged b ++ [(AQ_LOG_ERROR, "drm: Failed to register gpu at fd {}")])
        | Ret (true, b) =>
          let b := CDRMBackend.log AQ_LOG_DEBUG "drm: Registered gpu at fd {}" b in
          let '(ok, b) := CDRMBackend_checkFeatures (st_device env gpu) b in
          if negb ok then
            (NoBackend, CDRMBackend.logged b ++ [(AQ_LOG_ERROR, "drm: Failed checking features")])
          else
            let '(ok, b) := CDRMBackend_initResources (st_device env gpu) b in
            if negb ok then
              (NoBackend,
               CDRMBackend.logged b ++ [(AQ_LOG_ERROR, "drm: Failed initializing resources")])
            else
              let b := CDRMBackend.log AQ_LOG_DEBUG "drm: Basic init pass for gpu {}" b in
              let _ := CDRMBackend_grabFormats b in
              let s := Scan.mkBackend (CDRMBackend.crtcs b) [] (st_ready env)
                         (CDRMBackend.logged b) [] [] in
              match Scan.scanConnectors (st_flip_record_owns_connector env)
                      (st_kms env gpu) s with
              | Fault f => (Crashed f, CDRMBackend.logged b)
              | Ret s => (DRMBackend gpu b s, Scan.logged s)
              end
        end
      end
    end
  end.
End attempt.
(** ** Part II: properties *)

Example calculateRefresh_1080p60 :
  calculateRefresh
    (drmModeModeInfo.mk 148500 1920 2008 2052 2200 0 1080 1084 1089 1125 0 60 5 0 "1920x1080")
  = Ret 60000.
Proof. reflexivity. Qed.

(** *** C7: the refresh rate of a mode blob *)

Definition mode_800x600_odd_clock : drmModeModeInfo.t :=
  drmModeModeInfo.mk 38352 800 840 968 1056 0 600 601 605 628 0 58 5 0 "800x600".

(** C7, as stated, fails: for the 800x600 timings driven at 38.352 MHz the
    code stores 57831 mHz while the specification's formula gives 57832. *)
Lemma calculateRefresh_differs_from_spec_formula :
  drmModeModeInfo.wf mode_800x600_odd_clock /\
  calculateRefresh mode_800x600_odd_clock = Ret 57831 /\
  spec_refresh mode_800x600_odd_clock = 57832 /\
  calculateRefresh mode_800x600_odd_clock <> Ret (spec_refresh mode_800x600_odd_clock).
Proof.
  repeat split; try (vm_compute; congruence); try reflexivity.
Qed.

Lemma to_int32_id z : in_int32 z -> to_int32 z = z.
Proof.
  unfold in_int32, to_int32. intros H.
  rewrite Z.mod_small by lia. lia.
Qed.

(** C7 (amended): for a mode blob with non-zero [htotal] and [vtotal] the
    stored refresh is [(clock * 10^6 div htotal + vtotal div 2) div vtotal]
    -- the integer nearest to the line rate divided by [vtotal] -- narrowed to
    32 bits, doubled (in 32 bits) for interlace, halved for doublescan and
    divided by [max(1, vscan)], all divisions being integer divisions. *)
Theorem calculateRefresh_amended (mode : drmModeModeInfo.t) :
  drmModeModeInfo.wf mode ->
  drmModeModeInfo.htotal mode <> 0 ->
  drmModeModeInfo.vtotal mode <> 0 ->
  let q := nearest_line_rate_quotient mode in
  let line_rate := drmModeModeInfo.clock mode * 1000000 / drmModeModeInfo.htotal mode in
  let vtotal := drmModeModeInfo.vtotal mode in
  let interlace := negb (Z.land (drmModeModeInfo.flags mode) DRM_MODE_FLAG_INTERLACE =? 0) in
  let dblscan := negb (Z.land (drmModeModeInfo.flags mode) DRM_MODE_FLAG_DBLSCAN =? 0) in
  let r1 := to_int32 q in
  let r2 := if interlace then to_int32 (r1 * 2) else r1 in
  let r3 := if dblscan then Z.quot r2 2 else r2 in
  calculateRefresh mode = Ret (Z.quot r3 (Z.max 1 (drmModeModeInfo.vscan mode))) /\
  (2 * line_rate - vtotal <= 2 * (vtotal * q) <= 2 * line_rate + vtotal) /\
  (q < 2 ^ 30 -> r1 = q /\ r2 = (if interlace then q * 2 else q)).
Proof.
  intros (Hc & Hh & Hv & Hs & Hf) Hh0 Hv0.
  unfold in_uint32, in_uint16 in *.
  cbv zeta. split; [|split].
  - unfold calculateRefresh, nearest_line_rate_quotient.
    destruct (Z.eqb_spec (drmModeModeInfo.htotal mode) 0) as [|_]; [congruence|].
    destruct (Z.eqb_spec (drmModeModeInfo.vtotal mode) 0) as [|_]; [congruence|].
    cbn [orb]. f_equal.
    destruct (Z.land _ DRM_MODE_FLAG_INTERLACE =? 0),
             (Z.land _ DRM_MODE_FLAG_DBLSCAN =? 0); cbn [negb];
      destruct (Z.ltb_spec 1 (drmModeModeInfo.vscan mode));
      try (rewrite Z.max_r by lia; reflexivity);
      rewrite Z.max_l by lia; rewrite Z.quot_1_r; reflexivity.
  - unfold nearest_line_rate_quotient.
    set (L := drmModeModeInfo.clock mode * 1000000 / drmModeModeInfo.htotal mode).
    set (v := drmModeModeInfo.vtotal mode) in *.
    assert (Hvpos : 0 < v) by lia.
    pose proof (Z.mul_div_le (L + v / 2) v Hvpos) as Hle.
    pose proof (Z.mul_succ_div_gt (L + v / 2) v Hvpos) as Hgt.
    pose proof (Z.mul_div_le v 2 ltac:(lia)) as Hh1.
    pose proof (Z.mul_succ_div_gt v 2 ltac:(lia)) as Hh2.
    lia.
  - intros Hq.
    assert (Hq0 : 0 <= nearest_line_rate_quotient mode).
    { unfold nearest_line_rate_quotient.
      apply Z.div_pos; [|lia].
      apply Z.add_nonneg_nonneg; apply Z.div_pos; lia. }
    rewrite to_int32_id by (unfold in_int32; lia).
    split; [reflexivity|].
    destruct (negb _); [|reflexivity].
    apply to_int32_id. unfold in_int32. lia.
Qed.

Definition mode_1080p60 : drmModeModeInfo.t :=
  drmModeModeInfo.mk 148500 1920 2008 2052 2200 0 1080 1084 1089 1125 0 60 5 0 "1920x1080".

Lemma calculateRefresh_amended_witness :
  calculateRefresh mode_1080p60 = Ret 60000.
Proof.
  refine (proj1 (calculateRefresh_amended mode_1080p60 _ _ _)).
  - unfold drmModeModeInfo.wf, in_uint32, in_uint16; cbn; lia.
  - cbn; lia.
  - cbn; lia.
Defined.

(** *** C6: mode synthesis *)

(** The CVT timing of 1920x1080 at 60 Hz without reduced blanking, as a
    stand-in for [di_cvt_compute] on concrete inputs. *)
Definition cvt_1080p60 (_ : di_cvt_options.t) : di_cvt_timing.t :=
  {| di_cvt_timing.act_pixel_freq := 173 # 1;
     di_cvt_timing.total_active_pixels := 1920 # 1;
     di_cvt_timing.v_lines_rnd := 1080 # 1;
     di_cvt_timing.h_front_porch := 128 # 1;
     di_cvt_timing.h_sync := 200 # 1;
     di_cvt_timing.h_back_porch := 328 # 1;
     di_cvt_timing.v_front_porch := 3 # 1;
     di_cvt_timing.v_sync := 5 # 1;
     di_cvt_timing.v_back_porch := 32 # 1;
     di_cvt_timing.act_frame_rate := 5996 # 100 |}.

Definition custom_1080p60 : SOutputMode.t :=
  {| SOutputMode.pixelSize := (1920, 1080);
     SOutputMode.refreshRate := 60000;
     SOutputMode.preferred := false;
     SOutputMode.modeInfo := None |}.

Definition state_custom_1080p60 : COutputState.t :=
  {| COutputState.committed := Z.lor AQ_OUTPUT_STATE_ENABLED AQ_OUTPUT_STATE_MODE;
     COutputState.enabled := true;
     COutputState.adaptiveSync := false;
     COutputState.presentationMode := AQ_OUTPUT_PRESENTATION_VSYNC;
     COutputState.mode := None;
     COutputState.customMode := Some custom_1080p60;
     COutputState.buffer := None |}.

(** C6, as stated, fails: for a 1920x1080 mode without a mode blob the CVT
    computation is asked for no reduced blanking, and the synthesized
    [hdisplay] is 1080, not the requested width. *)
Lemma calculateMode_not_reduced_blanking :
  SOutputMode.modeInfo custom_1080p60 = None /\
  di_cvt_options.red_blank_ver (calculateMode_options custom_1080p60)
    = DI_CVT_REDUCED_BLANKING_NONE /\
  DI_CVT_REDUCED_BLANKING_NONE <> DI_CVT_REDUCED_BLANKING_V1 /\
  DI_CVT_REDUCED_BLANKING_NONE <> DI_CVT_REDUCED_BLANKING_V2 /\
  DI_CVT_REDUCED_BLANKING_NONE <> DI_CVT_REDUCED_BLANKING_V3 /\
  (exists mi, calculateMode cvt_1080p60 state_custom_1080p60 = Ret mi /\
              drmModeModeInfo.hdisplay mi = 1080 /\
              drmModeModeInfo.hdisplay mi <> fst (SOutputMode.pixelSize custom_1080p60)).
Proof.
  repeat split; try discriminate.
  eexists. split; [reflexivity|]. split; [reflexivity|]. vm_compute. discriminate.
Qed.

Lemma substring_all (s : string) (n : nat) :
  (String.length s <= n)%nat -> String.substring 0 n s = s.
Proof.
  revert n. induction s as [|c s IH]; intros n Hn.
  - destruct n; reflexivity.
  - destruct n as [|n]; cbn in Hn; [lia|].
    cbn. f_equal. apply IH. lia.
Qed.

(** C6 (amended): the synthesized mode is computed by a CVT calculation with
    reduced blanking switched off ([DI_CVT_REDUCED_BLANKING_NONE]) from the
    mode's pixel width, pixel height and refresh rate in Hz (60 when the
    refresh rate is 0): it depends on [di_cvt_compute] only through the timing
    for these options.  Its vertical size is the timing's rounded line count,
    its sync polarity flags are [NHSYNC | PVSYNC], and its name is "WxH"
    formed from the requested width and height (cut to the 31 characters the
    name field holds). *)
Theorem calculateMode_amended (cvt : di_cvt_options.t -> di_cvt_timing.t)
    (STATE : COutputState.t) (MODE : SOutputMode.t) :
  COutputState.MODE STATE = Some MODE ->
  let W := fst (SOutputMode.pixelSize MODE) in
  let H := snd (SOutputMode.pixelSize MODE) in
  let options := calculateMode_options MODE in
  di_cvt_options.red_blank_ver options = DI_CVT_REDUCED_BLANKING_NONE /\
  di_cvt_options.h_pixels options = W /\
  di_cvt_options.v_lines options = H /\
  (SOutputMode.refreshRate MODE <> 0 ->
     Qeq (Qmult (di_cvt_options.ip_freq_rqd options) (inject_Z 1000))
         (inject_Z (SOutputMode.refreshRate MODE))) /\
  (SOutputMode.refreshRate MODE = 0 -> di_cvt_options.ip_freq_rqd options = inject_Z 60) /\
  exists mi,
    calculateMode cvt STATE = Ret mi /\
    (forall cvt', cvt' options = cvt options -> calculateMode cvt' STATE = Ret mi) /\
    drmModeModeInfo.vdisplay mi = to_uint16 (Qtrunc (di_cvt_timing.v_lines_rnd (cvt options))) /\
    drmModeModeInfo.flags mi = Z.lor DRM_MODE_FLAG_NHSYNC DRM_MODE_FLAG_PVSYNC /\
    drmModeModeInfo.name mi = String.substring 0 31 (pretty W +:+ "x" +:+ pretty H) /\
    ((String.length (pretty W +:+ "x" +:+ pretty H) <= 31)%nat ->
       drmModeModeInfo.name mi = pretty W +:+ "x" +:+ pretty H).
Proof.
  intros HM W H options.
  repeat split.
  - intros Hr. subst options. unfold calculateMode_options. cbn.
    destruct (Z.eqb_spec (SOutputMode.refreshRate MODE) 0) as [|_]; [congruence|].
    unfold Qeq, Qdiv, Qmult, Qinv, inject_Z. cbn. lia.
  - intros Hr. subst options. unfold calculateMode_options. cbn.
    rewrite Hr. reflexivity.
  - unfold calculateMode. rewrite HM.
    subst W H options.
    destruct (SOutputMode.pixelSize MODE) as [x y] eqn:Hps.
    eexists. split; [reflexivity|].
    split; [|split; [|split; [|split]]].
    + intros cvt' Hcvt. rewrite Hcvt. reflexivity.
    + reflexivity.
    + reflexivity.
    + reflexivity.
    + intros Hlen. cbn [drmModeModeInfo.name]. unfold snprintf, DRM_DISPLAY_MODE_LEN.
      cbn [fst snd] in *. apply substring_all. exact Hlen.
Qed.

Lemma calculateMode_amended_witness :
  exists mi,
    calculateMode cvt_1080p60 state_custom_1080p60 = Ret mi /\
    drmModeModeInfo.flags mi = 6 /\
    drmModeModeInfo.name mi = "1920x1080".
Proof.
  destruct (calculateMode_amended cvt_1080p60 state_custom_1080p60 custom_1080p60 eq_refl)
    as (_ & _ & _ & _ & _ & mi & Hmi & _ & _ & Hflags & _ & Hname).
  exists mi. split; [exact Hmi|]. split; [exact Hflags|].
  apply Hname. vm_compute. lia.
Defined.

(** *** Reasoning about runs *)

Ltac munfold :=
  unfold bind, ret, log, emit, modify, get, raise, deref, lift, syscall in *.

#[global] Arguments CDRMFB_drop : simpl never.
#[global] Arguments CDRMFB_submitBuffer : simpl never.
#[global] Arguments CDRMFB_new : simpl never.
#[global] Arguments CDRMFB_create : simpl never.
#[global] Arguments calculateRefresh : simpl never.
#[global] Arguments calculateMode : simpl never.

Lemma io_only_refl {K} (w : World K) : io_only w w.
Proof.
  constructor; try reflexivity. exists []. by rewrite app_nil_r.
Qed.

Lemma io_only_trans {K} (w1 w2 w3 : World K) :
  io_only w1 w2 -> io_only w2 w3 -> io_only w1 w3.
Proof.
  intros [a1 a2 a3 a4 a5 (t1 & Ht1 & Hq1)] [b1 b2 b3 b4 b5 (t2 & Ht2 & Hq2)].
  constructor; try congruence.
  exists (t1 ++ t2). split.
  - rewrite Ht2, Ht1. by rewrite app_assoc.
  - rewrite forallb_app, Hq1, Hq2. reflexivity.
Qed.

Lemma io_ret {K A} (a : A) : io_comp (@ret K A a).
Proof. intros w. apply io_only_refl. Qed.

Lemma io_raise {K A} (f : fault) : io_comp (@raise K A f).
Proof. intros w. apply io_only_refl. Qed.

Lemma io_get {K} : io_comp (@get K).
Proof. intros w. apply io_only_refl. Qed.

Lemma io_bind {K A B} (c : M K A) (k : A -> M K B) :
  io_comp c -> (forall a, io_comp (k a)) -> io_comp (bind c k).
Proof.
  intros Hc Hk w. unfold bind. specialize (Hc w).
  destruct (c w) as [[a|f] w1]; cbn in *; [|exact Hc].
  eapply io_only_trans; [exact Hc|apply Hk].
Qed.

Lemma io_log {K} l s : io_comp (@log K l s).
Proof.
  intros w. constructor; try reflexivity. cbn. by exists [Log l s].
Qed.

Lemma io_deref {K A} (p : option A) : io_comp (@deref K A p).
Proof. destruct p; [apply io_ret|apply io_raise]. Qed.

Lemma io_lift {K A} (o : outcome A) : io_comp (@lift K A o).
Proof. destruct o; [apply io_ret|apply io_raise]. Qed.

Lemma io_array_at {K A} (a : list A) i : io_comp (@array_at K A a i).
Proof.
  unfold array_at. destruct (i <? 0); [apply io_raise|].
  destruct (a !! Z.to_nat i); [apply io_ret|apply io_raise].
Qed.

Lemma io_syscall {K} (drv : Driver K) c : io_comp (syscall drv c).
Proof.
  intros w. unfold syscall. destruct (sys drv (kernel w) c) as [k' r].
  constructor; try reflexivity. cbn. by exists [Kernel c].
Qed.

Lemma io_tag {K} b : io_comp (@modify K (tag_unimportable b)).
Proof.
  intros w. constructor; try reflexivity. cbn. exists []. by rewrite app_nil_r.
Qed.

Ltac io_step :=
  first
    [ apply io_ret | apply io_raise | apply io_get | apply io_log | apply io_deref
    | apply io_lift | apply io_array_at | apply io_syscall | apply io_tag
    | apply io_bind; [|intros ?] ].

Ltac io_solve := repeat (io_step || (match goal with
  | |- io_comp (if ?b then _ else _) => destruct b
  | |- io_comp (match ?x with _ => _ end) => destruct x
  end)).

Lemma io_drop {K} (drv : Driver K) fb : io_comp (CDRMFB_drop drv fb).
Proof. unfold CDRMFB_drop. io_solve. Qed.

Lemma io_submitBuffer {K} (drv : Driver K) fb : io_comp (CDRMFB_submitBuffer drv fb).
Proof. unfold CDRMFB_submitBuffer, submitBuffer_mods. io_solve. Qed.

Lemma io_primeHandles {K} (drv : Driver K) attrs n :
  forall i fb, io_comp (CDRMFB_primeHandles drv attrs n i fb).
Proof.
  induction n as [|n IH]; intros i fb; cbn [CDRMFB_primeHandles].
  - apply io_ret.
  - repeat (apply io_bind; [io_solve|intros ?]).
    destruct (negb _).
    + pose proof (io_drop drv fb). io_solve; assumption.
    + apply io_bind; [apply io_log|intros _]. apply IH.
Qed.

Lemma io_new {K} (drv : Driver K) b : io_comp (CDRMFB_new drv b).
Proof.
  unfold CDRMFB_new.
  apply io_bind; [io_solve|intros w].
  apply io_bind; [io_solve|intros buf].
  destruct (negb _); [io_solve|].
  destruct (IBuffer.has _ _); [io_solve|].
  apply io_bind; [apply io_primeHandles|intros r].
  destruct (negb _); [io_solve|].
  apply io_bind; [apply io_submitBuffer|intros newID].
  destruct (newID =? 0); [|io_solve].
  apply io_bind; [io_solve|intros _].
  apply io_bind; [io_solve|intros _].
  apply io_drop.
Qed.

Lemma io_create {K} (drv : Driver K) b : io_comp (CDRMFB_create drv b).
Proof.
  unfold CDRMFB_create.
  apply io_bind; [apply io_new|intros fb].
  destruct (_ =? 0); [|io_solve].
  apply io_bind; [apply io_drop|intros _]. io_solve.
Qed.

(** *** C5: the lifetime of an FB object *)

Lemma kernel_calls_app (t1 t2 : list action) :
  kernel_calls (t1 ++ t2) = kernel_calls t1 ++ kernel_calls t2.
Proof.
  induction t1 as [|a t1 IH]; [reflexivity|].
  destruct a; cbn; rewrite ?IH; reflexivity.
Qed.

Lemma drop_dropped {K} (drv : Driver K) fb (w : World K) :
  CDRMFB.dropped fb = true -> CDRMFB_drop drv fb w = (Ret fb, w).
Proof. intros H. unfold CDRMFB_drop. rewrite H. reflexivity. Qed.

Lemma drop_zero_id {K} (drv : Driver K) fb (w : World K) :
  CDRMFB.id fb = 0 ->
  CDRMFB_drop drv fb w = (Ret (if CDRMFB.dropped fb then fb else set_dropped true fb), w).
Proof.
  intros H. unfold CDRMFB_drop. destruct (CDRMFB.dropped fb); [reflexivity|].
  cbn. rewrite H. reflexivity.
Qed.

(** What one [drop()] does: it always returns, sets [dropped], keeps [id],
    and talks to the kernel only for a live FB with a non-zero id. *)
Lemma drop_spec {K} (drv : Driver K) fb (w : World K) :
  exists fb1 w1 calls,
    CDRMFB_drop drv fb w = (Ret fb1, w1) /\
    CDRMFB.dropped fb1 = true /\
    CDRMFB.id fb1 = CDRMFB.id fb /\
    CDRMFB.buffer fb1 = CDRMFB.buffer fb /\
    buffers w1 = buffers w /\
    kernel_calls (trace w1) = kernel_calls (trace w) ++ calls /\
    (if CDRMFB.dropped fb || (CDRMFB.id fb =? 0) then calls = [] /\ w1 = w
     else calls = [drmModeCloseFB (CDRMFB.id fb)]
          \/ calls = [drmModeCloseFB (CDRMFB.id fb); drmModeRmFB (CDRMFB.id fb)]).
Proof.
  unfold CDRMFB_drop.
  destruct (CDRMFB.dropped fb) eqn:Hd.
  { exists fb, w, []. rewrite app_nil_r. cbn. auto 10. }
  cbn [set_dropped CDRMFB.id orb].
  destruct (CDRMFB.id fb =? 0) eqn:Hid.
  { exists (set_dropped true fb), w, []. rewrite app_nil_r. cbn. auto 10. }
  munfold. cbn.
  destruct (sys drv (kernel w) (drmModeCloseFB (CDRMFB.id fb))) as [k1 [r1 o1]] eqn:Hs1.
  cbn. destruct (r1 =? - EINVAL).
  - cbn. destruct (sys drv k1 (drmModeRmFB (CDRMFB.id fb))) as [k2 [r2 o2]] eqn:Hs2.
    cbn. destruct (r2 =? 0); cbn;
      eexists _, _, [drmModeCloseFB (CDRMFB.id fb); drmModeRmFB (CDRMFB.id fb)];
      (split; [reflexivity|]); cbn;
      rewrite ?kernel_calls_app; cbn; rewrite <- ?app_assoc; cbn; auto 10.
  - cbn. destruct (r1 =? 0); cbn;
      eexists _, _, [drmModeCloseFB (CDRMFB.id fb)];
      (split; [reflexivity|]); cbn;
      rewrite ?kernel_calls_app; cbn; rewrite <- ?app_assoc; cbn; auto 10.
Qed.

Lemma count_close_app (t1 t2 : list action) :
  length (List.filter is_close (t1 ++ t2))
  = (length (List.filter is_close t1) + length (List.filter is_close t2))%nat.
Proof. rewrite List.filter_app, length_app. reflexivity. Qed.

(** One [drop()] appends at most one [drmModeCloseFB] to the trace, and
    none to the trace of an FB that was dropped before. *)
Lemma drop_closes {K} (drv : Driver K) fb (w : World K) :
  exists fb1 w1 t,
    CDRMFB_drop drv fb w = (Ret fb1, w1) /\
    CDRMFB.dropped fb1 = true /\
    trace w1 = trace w ++ t /\
    (length (List.filter is_close t) <= 1)%nat /\
    (CDRMFB.dropped fb = true -> t = []).
Proof.
  unfold CDRMFB_drop.
  destruct (CDRMFB.dropped fb) eqn:Hd.
  { exists fb, w, []. rewrite app_nil_r. unfold ret. cbn. repeat split; auto. }
  cbn [set_dropped CDRMFB.id].
  destruct (CDRMFB.id fb =? 0) eqn:Hid.
  { exists (set_dropped true fb), w, []. rewrite app_nil_r. unfold ret. cbn. repeat split; auto. }
  munfold. cbn.
  destruct (sys drv (kernel w) (drmModeCloseFB (CDRMFB.id fb))) as [k1 [r1 o1]] eqn:Hs1.
  cbn. destruct (r1 =? - EINVAL).
  - cbn. destruct (sys drv k1 (drmModeRmFB (CDRMFB.id fb))) as [k2 [r2 o2]] eqn:Hs2.
    cbn. destruct (r2 =? 0); cbn; eexists _, _, _;
      (split; [reflexivity|]); cbn; rewrite <- ?app_assoc; cbn;
      (split; [reflexivity|]); (split; [reflexivity|]); cbn; (split; [lia|discriminate]).
  - cbn. destruct (r1 =? 0); cbn; eexists _, _, _;
      (split; [reflexivity|]); cbn; rewrite <- ?app_assoc; cbn;
      (split; [reflexivity|]); (split; [reflexivity|]); cbn; (split; [lia|discriminate]).
Qed.

Lemma drops_dropped {K} (drv : Driver K) n fb (w : World K) :
  CDRMFB.dropped fb = true -> CDRMFB_drops drv n fb w = (Ret fb, w).
Proof.
  intros H. induction n as [|n IH]; [reflexivity|].
  cbn. unfold bind. rewrite drop_dropped by exact H. exact IH.
Qed.

(** Case analysis on the scrutinee of the innermost [match] or [if] of a
    hypothesis or of the goal. *)
Ltac case_hyp H :=
  match type of H with
  | context [match ?x with _ => _ end] =>
    lazymatch x with
    | context [match _ with _ => _ end] => fail
    | _ => let E := fresh "E" in destruct x eqn:E
    end
  end.

Ltac case_goal :=
  match goal with
  | |- context [match ?x with _ => _ end] =>
    lazymatch x with
    | context [match _ with _ => _ end] => fail
    | _ => let E := fresh "E" in destruct x eqn:E
    end
  end.

Lemma array_at_inv {K A} (a : list A) i (w : World K) r w' :
  array_at a i w = (r, w') -> w' = w.
Proof.
  unfold array_at. destruct (i <? 0); [munfold; congruence|].
  destruct (a !! Z.to_nat i); munfold; congruence.
Qed.

Lemma primeHandles_spec {K} (drv : Driver K) attrs n :
  forall i fb (w : World K) r w',
    CDRMFB.id fb = 0 -> CDRMFB.dropped fb = false ->
    CDRMFB_primeHandles drv attrs n i fb w = (Ret r, w') ->
    CDRMFB.id (snd r) = 0 /\
    CDRMFB.buffer (snd r) = CDRMFB.buffer fb /\
    (fst r = true -> CDRMFB.dropped (snd r) = false) /\
    buffers w' = buffers w.
Proof.
  induction n as [|n IH]; intros i fb w r w' Hid Hd H; cbn [CDRMFB_primeHandles] in H.
  - munfold. inversion H; subst. cbn. auto.
  - unfold bind at 1 in H.
    destruct (array_at (SDMABUFAttrs.fds attrs) i w) as [[fd|f] w1] eqn:E1; [|discriminate].
    apply array_at_inv in E1. subst w1.
    unfold bind at 1 in H.
    destruct (array_at (CDRMFB.boHandles fb) i w) as [[h|f] w1] eqn:E2; [|discriminate].
    apply array_at_inv in E2. subst w1.
    unfold bind at 1 in H. unfold syscall at 1 in H.
    destruct (sys drv (kernel w) (drmPrimeFDToHandle fd)) as [k1 [r1 o1]] eqn:Es.
    cbn [fst snd] in H.
    destruct (negb (r1 =? 0)).
    + unfold bind at 1 in H. unfold log, emit, modify in H. cbn in H.
      unfold bind at 1 in H. rewrite drop_zero_id in H by exact Hid.
      rewrite Hd in H. munfold. inversion H; subst. cbn. repeat split; auto; try discriminate.
    + unfold bind at 1 in H. unfold log, emit, modify in H. cbn [fst snd] in H.
      apply IH in H; [|exact Hid|exact Hd].
      cbn in H. exact H.
Qed.

Lemma submitBuffer_buffers {K} (drv : Driver K) fb (w : World K) r w' :
  CDRMFB_submitBuffer drv fb w = (r, w') -> buffers w' = buffers w.
Proof.
  unfold CDRMFB_submitBuffer, submitBuffer_mods. munfold. intros H.
  repeat (case_hyp H; cbn in H); inversion H; subst; reflexivity.
Qed.

Lemma has_add ty buf : IBuffer.has ty (IBuffer.add ty buf) = true.
Proof.
  unfold IBuffer.has, IBuffer.add. cbn. apply bool_decide_eq_true. left.
Qed.

Lemma has_add_mono ty ty' buf :
  IBuffer.has ty' buf = true -> IBuffer.has ty' (IBuffer.add ty buf) = true.
Proof.
  unfold IBuffer.has, IBuffer.add. cbn. rewrite !bool_decide_eq_true.
  intros Hin. destruct (decide (ty' = ty)) as [->|Hne]; [left|].
  right. apply list_elem_of_In, List.filter_In. split.
  - by apply list_elem_of_In.
  - apply negb_true_iff, bool_decide_eq_false. exact Hne.
Qed.

(** The constructor, once the buffer is found importable so far. *)
Lemma new_unfold {K} (drv : Driver K) b (w : World K) buf :
  buffers w !! b = Some buf ->
  SDMABUFAttrs.success (IBuffer.dmabuf buf) = true ->
  IBuffer.has AQ_ATTACHMENT_DRM_KMS_UNIMPORTABLE buf = false ->
  CDRMFB_new drv b w =
  match CDRMFB_primeHandles drv (IBuffer.dmabuf buf)
          (Z.to_nat (SDMABUFAttrs.planes (IBuffer.dmabuf buf))) 0
          (CDRMFB.mk 0 b [0; 0; 0; 0] false false) w with
  | (Ret r, w1) =>
    if negb (fst r) then (Ret (snd r), w1)
    else
      match CDRMFB_submitBuffer drv (snd r) w1 with
      | (Ret newID, w2) =>
        if newID =? 0 then
          CDRMFB_drop drv (set_id newID (snd r))
            (tag_unimportable b
               (set_trace (trace w2 ++ [Log AQ_LOG_ERROR "drm: Failed to submit a buffer to KMS"]) w2))
        else (Ret (set_id newID (snd r)),
              set_trace (trace w2 ++ [Log AQ_LOG_TRACE "drm: new buffer {}"]) w2)
      | (Fault f, w2) => (Fault f, w2)
      end
  | (Fault f, w1) => (Fault f, w1)
  end.
Proof.
  intros Hb Hs Ht. unfold CDRMFB_new.
  unfold bind at 1. unfold get at 1. cbv beta iota.
  unfold bind at 1. rewrite Hb. unfold deref at 1, ret at 1. cbv beta iota.
  rewrite Hs, Ht. cbn [negb]. unfold bind at 1.
  destruct (CDRMFB_primeHandles _ _ _ _ _ w) as [[r|f] w1]; [|reflexivity].
  destruct (negb (fst r)); [reflexivity|].
  unfold bind at 1.
  destruct (CDRMFB_submitBuffer drv (snd r) w1) as [[newID|f] w2]; [|reflexivity].
  destruct (newID =? 0); reflexivity.
Qed.

(** An FB object that comes out of the constructor with a non-zero id is
    live and wraps the buffer it was built for. *)
Lemma new_spec {K} (drv : Driver K) b (w : World K) fb w' :
  CDRMFB_new drv b w = (Ret fb, w') ->
  CDRMFB.buffer fb = b /\ (CDRMFB.id fb <> 0 -> CDRMFB.dropped fb = false).
Proof.
  intros H.
  destruct (buffers w !! b) as [buf|] eqn:Hb;
    [|unfold CDRMFB_new in H; munfold; rewrite Hb in H; discriminate].
  destruct (SDMABUFAttrs.success (IBuffer.dmabuf buf)) eqn:Hs;
    [|unfold CDRMFB_new in H; munfold; rewrite Hb in H; cbn in H; rewrite Hs in H;
      cbn in H; inversion H; subst; cbn; split; [reflexivity|congruence]].
  destruct (IBuffer.has AQ_ATTACHMENT_DRM_KMS_UNIMPORTABLE buf) eqn:Ht;
    [unfold CDRMFB_new in H; munfold; rewrite Hb in H; cbn in H; rewrite Hs, Ht in H;
     cbn in H; inversion H; subst; cbn; split; [reflexivity|congruence]|].
  rewrite (new_unfold drv b w buf Hb Hs Ht) in H.
  destruct (CDRMFB_primeHandles _ _ _ _ _ w) as [[r|f] w1] eqn:Hp; [|discriminate].
  apply primeHandles_spec in Hp; [|reflexivity|reflexivity].
  destruct Hp as (Hid & Hbuf & Hdr & _). cbn in Hbuf.
  destruct (fst r) eqn:Hok; cbn [negb] in H.
  - destruct (CDRMFB_submitBuffer drv (snd r) w1) as [[newID|f] w2]; [|discriminate].
    destruct (Z.eqb_spec newID 0) as [->|Hne].
    + rewrite drop_zero_id in H by reflexivity.
      injection H as <- <-. destruct (CDRMFB.dropped _); cbn; split; auto; congruence.
    + injection H as <- <-. cbn. split; [exact Hbuf|]. intros _. auto.
  - injection H as <- <-. split; [exact Hbuf|]. congruence.
Qed.

Lemma create_some {K} (drv : Driver K) b (w : World K) fb w' :
  CDRMFB_create drv b w = (Ret (Some fb), w') ->
  CDRMFB.id fb <> 0 /\ CDRMFB.dropped fb = false /\ CDRMFB.buffer fb = b.
Proof.
  unfold CDRMFB_create. unfold bind at 1.
  destruct (CDRMFB_new drv b w) as [[fb0|f] w1] eqn:Hn; [|discriminate].
  destruct (Z.eqb_spec (CDRMFB.id fb0) 0) as [Hz|Hnz].
  - unfold bind. destruct (CDRMFB_drop drv fb0 w1) as [[?|?] ?]; munfold; discriminate.
  - munfold. intros H. inversion H; subst.
    apply new_spec in Hn. destruct Hn as [Hb Hd]. auto.
Qed.

(** *** A concrete machine: one HDMI connector at 1920x1080 *)

Definition DRM_FORMAT_XRGB8888 : Z := 0x34325258.

Definition buf_scanout : IBuffer.t :=
  {| IBuffer.dmabuf :=
       {| SDMABUFAttrs.success := true;
          SDMABUFAttrs.size := (1920, 1080);
          SDMABUFAttrs.format := DRM_FORMAT_XRGB8888;
          SDMABUFAttrs.modifier := DRM_FORMAT_MOD_LINEAR;
          SDMABUFAttrs.planes := 1;
          SDMABUFAttrs.offsets := [0; 0; 0; 0];
          SDMABUFAttrs.strides := [7680; 0; 0; 0];
          SDMABUFAttrs.fds := [10; -1; -1; -1] |};
     IBuffer.attachments := [] |}.

Definition plane_primary : SDRMPlane.t :=
  SDRMPlane.mk 31 31 DRM_PLANE_TYPE_PRIMARY [] None None.
Definition plane_cursor : SDRMPlane.t :=
  SDRMPlane.mk 32 32 DRM_PLANE_TYPE_CURSOR [] None None.
Definition crtc0 : SDRMCRTC.t := SDRMCRTC.mk 51 256 (Some 0%nat) (Some 1%nat) 60000.

Definition conn0 : SDRMConnector.t :=
  SDRMConnector.mk 77 "HDMI-A-1" DRM_MODE_CONNECTED (Some crtc0) false false 60000 None
    (SDRMPageFlip.mk (Some this_connector)) (Some this_output).

Definition output_mode_1080p60 : SOutputMode.t :=
  SOutputMode.mk (1920, 1080) 60000 true (Some mode_1080p60).

(** A page-flip of buffer 0: only BUFFER is committed. *)
Definition state_flip : COutputState.t :=
  {| COutputState.committed := AQ_OUTPUT_STATE_BUFFER;
     COutputState.enabled := true;
     COutputState.adaptiveSync := false;
     COutputState.presentationMode := AQ_OUTPUT_PRESENTATION_VSYNC;
     COutputState.mode := Some output_mode_1080p60;
     COutputState.customMode := None;
     COutputState.buffer := Some 0%nat |}.

Definition world0 : World unit :=
  mkWorld true (SDRMProps.mk false false (64, 64)) [plane_primary; plane_cursor]
    {[ 0%nat := buf_scanout ]} conn0 (CDRMOutput.mk "HDMI-A-1" state_flip) tt [].

(** A kernel that accepts every call: handle 7 for a dmabuf, FB id 42. *)
Definition kernel_accepts (_ : unit) (c : kernel_call) : unit * (Z * Z) :=
  match c with
  | drmPrimeFDToHandle _ => (tt, (0, 7))
  | drmModeAddFB2WithModifiers _ _ _ _ _ _ _ _ | drmModeAddFB2 _ _ _ _ _ _ _ => (tt, (0, 42))
  | drmModeCloseFB _ | drmModeRmFB _ => (tt, (0, 0))
  end.

(** A kernel that refuses to turn a dmabuf into a handle. *)
Definition kernel_refuses_prime (_ : unit) (c : kernel_call) : unit * (Z * Z) :=
  match c with
  | drmPrimeFDToHandle _ => (tt, (-1, 0))
  | _ => kernel_accepts tt c
  end.

(** A kernel that refuses every framebuffer. *)
Definition kernel_refuses_fb (_ : unit) (c : kernel_call) : unit * (Z * Z) :=
  match c with
  | drmModeAddFB2WithModifiers _ _ _ _ _ _ _ _ | drmModeAddFB2 _ _ _ _ _ _ _ => (tt, (-22, 0))
  | _ => kernel_accepts tt c
  end.

(** An engine that accepts every submission and queues a page-flip for the
    commits that are neither blocking nor tests. *)
Definition engine_accepts (_ : World unit) (d : SDRMConnectorCommitData.t)
    : unit * (bool * bool) :=
  (tt, (true, negb (SDRMConnectorCommitData.blocking d) && negb (SDRMConnectorCommitData.test d))).

Definition engine_rejects (_ : World unit) (d : SDRMConnectorCommitData.t)
    : unit * (bool * bool) :=
  (tt, (false, false)).

(** An [onCommit] that leaves nothing committed. *)
Definition onCommit_clears (STATE : COutputState.t) : COutputState.t :=
  {| COutputState.committed := 0;
     COutputState.enabled := COutputState.enabled STATE;
     COutputState.adaptiveSync := COutputState.adaptiveSync STATE;
     COutputState.presentationMode := COutputState.presentationMode STATE;
     COutputState.mode := COutputState.mode STATE;
     COutputState.customMode := COutputState.customMode STATE;
     COutputState.buffer := COutputState.buffer STATE |}.

Definition drv_accepts : Driver unit :=
  mkDriver kernel_accepts engine_accepts cvt_1080p60 onCommit_clears.
Definition drv_refuses_prime : Driver unit :=
  mkDriver kernel_refuses_prime engine_accepts cvt_1080p60 onCommit_clears.
Definition drv_refuses_fb : Driver unit :=
  mkDriver kernel_refuses_fb engine_accepts cvt_1080p60 onCommit_clears.
Definition drv_engine_rejects : Driver unit :=
  mkDriver kernel_accepts engine_rejects cvt_1080p60 onCommit_clears.

Definition fb42 : CDRMFB.t := CDRMFB.mk 42 0 [7; 0; 0; 0] false false.

Example create_world0 :
  fst (CDRMFB_create drv_accepts 0 world0) = Ret (Some fb42) /\
  kernel_calls (trace (snd (CDRMFB_create drv_accepts 0 world0)))
  = [drmPrimeFDToHandle 10;
     drmModeAddFB2 1920 1080 DRM_FORMAT_XRGB8888 [7; 0; 0; 0] [7680; 0; 0; 0] [0; 0; 0; 0] 0].
Proof. split; vm_compute; reflexivity. Qed.

(** C5, as stated, fails: the FB that [create] returns for buffer 0 has id
    42; after [drop()] it is dropped and its id is still 42. *)
Lemma fb_id_survives_drop :
  exists w1 fb1 w2,
    CDRMFB_create drv_accepts 0 world0 = (Ret (Some fb42), w1) /\
    CDRMFB_drop drv_accepts fb42 w1 = (Ret fb1, w2) /\
    CDRMFB.dropped fb1 = true /\
    CDRMFB.id fb1 = 42 /\
    ~ (CDRMFB.id fb1 <> 0 <-> CDRMFB.dropped fb1 = false).
Proof.
  eexists _, _, _. split; [vm_compute; reflexivity|].
  split; [vm_compute; reflexivity|].
  split; [reflexivity|]. split; [reflexivity|].
  cbn. intros [H _]. discriminate H. discriminate.
Qed.

Lemma release_filter (t : list action) :
  length (List.filter is_release t)
  = length (List.filter (fun c => match c with
                                  | drmModeCloseFB _ | drmModeRmFB _ => true
                                  | _ => false
                                  end) (kernel_calls t)).
Proof.
  induction t as [|a t IH]; [reflexivity|].
  destruct a as [| [] | | | | | |]; cbn; rewrite ?IH; reflexivity.
Qed.

(** One [drop()] of a live FB with an id, call by call: the kernel is
    asked to close the FB, it is asked to remove it exactly when it answered
    [-EINVAL], and its state is the one these calls leave. *)
Lemma drop_exact {K} (drv : Driver K) fb (w : World K) :
  exists fb1 w1,
    CDRMFB_drop drv fb w = (Ret fb1, w1) /\
    kernel_calls (trace w1) = kernel_calls (trace w) ++ release_calls drv fb (kernel w) /\
    kernel w1 = kernel_after drv (kernel w) (release_calls drv fb (kernel w)).
Proof.
  unfold CDRMFB_drop, release_calls.
  destruct (CDRMFB.dropped fb) eqn:Hd.
  { exists fb, w. cbn. rewrite app_nil_r. auto. }
  cbn [set_dropped CDRMFB.id orb].
  destruct (CDRMFB.id fb =? 0) eqn:Hid.
  { exists (set_dropped true fb), w. cbn. rewrite app_nil_r. auto. }
  munfold. cbn.
  destruct (sys drv (kernel w) (drmModeCloseFB (CDRMFB.id fb))) as [k1 [r1 o1]] eqn:Hs1.
  cbn. destruct (r1 =? - EINVAL).
  - cbn. destruct (sys drv k1 (drmModeRmFB (CDRMFB.id fb))) as [k2 [r2 o2]] eqn:Hs2.
    cbn. destruct (r2 =? 0); cbn; eexists _, _; (split; [reflexivity|]); cbn;
      rewrite ?kernel_calls_app; cbn; rewrite <- ?app_assoc; cbn;
      rewrite ?Hs1; cbn; rewrite ?Hs2; auto.
  - cbn. destruct (r1 =? 0); cbn; eexists _, _; (split; [reflexivity|]); cbn;
      rewrite ?kernel_calls_app; cbn; rewrite <- ?app_assoc; cbn; rewrite ?Hs1; auto.
Qed.

(** C5 (amended): an FB that [create] returns has a non-zero id and is not
    dropped.  [drop()] always returns; it sets [dropped] and leaves [id] as
    it was (it does not reset it to 0).  Its kernel calls are exactly
    [release_calls]: none for an FB that was dropped before or has id 0;
    otherwise [drmModeCloseFB id], followed by [drmModeRmFB id] if and only
    if the kernel answered the former with [-EINVAL]; the kernel is left in
    the state these calls produce and, when there are none, the world is
    untouched.  A further [drop()] changes nothing.  Hence [n] drops of one
    FB make the kernel calls of the first drop and no other: the kernel FB
    id is closed at most once and removed at most once. *)
Theorem CDRMFB_lifetime_amended {K} (drv : Driver K) :
  (forall b (w : World K) fb w',
      CDRMFB_create drv b w = (Ret (Some fb), w') ->
      CDRMFB.id fb <> 0 /\ CDRMFB.dropped fb = false) /\
  (forall fb (w : World K),
      let id := CDRMFB.id fb in
      let closeFB := snd (sys drv (kernel w) (drmModeCloseFB id)) in
      let calls :=
        if CDRMFB.dropped fb || (id =? 0) then []
        else if fst closeFB =? - EINVAL then [drmModeCloseFB id; drmModeRmFB id]
             else [drmModeCloseFB id] in
      exists fb1 w1,
        CDRMFB_drop drv fb w = (Ret fb1, w1) /\
        CDRMFB.dropped fb1 = true /\
        CDRMFB.id fb1 = id /\
        kernel_calls (trace w1) = kernel_calls (trace w) ++ calls /\
        kernel w1 = kernel_after drv (kernel w) calls /\
        (calls = [] -> w1 = w) /\
        (forall w2 : World K, CDRMFB_drop drv fb1 w2 = (Ret fb1, w2))) /\
  (forall n fb (w : World K),
      exists fb' w' t,
        CDRMFB_drops drv n fb w = (Ret fb', w') /\
        trace w' = trace w ++ t /\
        kernel_calls t
        = match n with
          | O => []
          | S _ => release_calls drv fb (kernel w)
          end /\
        (length (List.filter is_close t) <= 1)%nat /\
        (length (List.filter is_release t) <= 2)%nat).
Proof.
  split; [|split].
  - intros b w fb w' H. apply create_some in H. tauto.
  - intros fb w id closeFB calls.
    destruct (drop_spec drv fb w) as (fb1 & w1 & calls0 & H1 & H2 & H3 & _ & _ & _ & H5).
    destruct (drop_exact drv fb w) as (fb1' & w1' & H1' & Hk & Hkern).
    rewrite H1 in H1'. injection H1' as <- <-.
    assert (Hcalls : release_calls drv fb (kernel w) = calls) by reflexivity.
    rewrite Hcalls in Hk, Hkern.
    exists fb1, w1. repeat split; auto.
    + intros Hnil. subst calls id.
      destruct (CDRMFB.dropped fb || (CDRMFB.id fb =? 0)); [tauto|].
      destruct (fst closeFB =? - EINVAL); discriminate Hnil.
    + intros w2. apply drop_dropped. exact H2.
  - intros n fb w. destruct n as [|n].
    + exists fb, w, []. rewrite app_nil_r. cbn. unfold ret. repeat split; auto; lia.
    + destruct (drop_closes drv fb w) as (fb1 & w1 & t & H1 & H2 & H3 & H4 & _).
      destruct (drop_exact drv fb w) as (fb1' & w1' & H1' & Hk & _).
      rewrite H1 in H1'. injection H1' as <- <-.
      exists fb1, w1, t. cbn. unfold bind. rewrite H1.
      rewrite drops_dropped by exact H2.
      rewrite H3, kernel_calls_app in Hk. apply app_inv_head in Hk.
      repeat split; auto.
      rewrite (release_filter t). rewrite Hk.
      unfold release_calls. destruct (_ || _); [cbn; lia|].
      destruct (_ =? _); cbn; lia.
Qed.

Lemma CDRMFB_lifetime_amended_witness :
  CDRMFB.id fb42 <> 0 /\ CDRMFB.dropped fb42 = false.
Proof.
  refine (proj1 (CDRMFB_lifetime_amended drv_accepts) 0%nat world0 fb42 _ _).
  vm_compute. reflexivity.
Defined.

(** *** C4: buffers that failed to import *)

(** C4, as stated, fails: when the kernel refuses the PRIME conversion the
    import fails but the buffer is left untagged, and the next attempt goes
    to the kernel again. *)
Lemma prime_failure_leaves_buffer_untagged :
  exists w1 w2,
    CDRMFB_create drv_refuses_prime 0 world0 = (Ret None, w1) /\
    kernel_calls (trace w1) = [drmPrimeFDToHandle 10] /\
    IBuffer.has AQ_ATTACHMENT_DRM_KMS_UNIMPORTABLE <$> (buffers w1 !! 0%nat) = Some false /\
    CDRMFB_create drv_refuses_prime 0 w1 = (Ret None, w2) /\
    kernel_calls (trace w2) = [drmPrimeFDToHandle 10; drmPrimeFDToHandle 10].
Proof.
  eexists _, _. split; [vm_compute; reflexivity|].
  split; [vm_compute; reflexivity|].
  split; [vm_compute; reflexivity|].
  split; vm_compute; reflexivity.
Qed.

(** An attempt on a tagged buffer: one error line, no FB, nothing else. *)
Lemma create_tagged {K} (drv : Driver K) b (w : World K) buf :
  buffers w !! b = Some buf ->
  IBuffer.has AQ_ATTACHMENT_DRM_KMS_UNIMPORTABLE buf = true ->
  CDRMFB_create drv b w =
  (Ret None,
   set_trace (trace w ++ [Log AQ_LOG_ERROR
                            (if SDMABUFAttrs.success (IBuffer.dmabuf buf)
                             then "drm: Buffer submitted is unimportable"
                             else "drm: Buffer submitted has no dmabuf")]) w).
Proof.
  intros Hb Ht. unfold CDRMFB_create, CDRMFB_new.
  unfold bind at 1. unfold bind at 1. unfold get at 1. cbv beta iota.
  unfold bind at 1. rewrite Hb. unfold deref at 1, ret at 1. cbv beta iota.
  destruct (SDMABUFAttrs.success (IBuffer.dmabuf buf)); cbn [negb].
  - rewrite Ht. munfold. cbn. reflexivity.
  - munfold. cbn. reflexivity.
Qed.

(** C4 (amended): a buffer whose import fails at the KMS AddFB submission
    ([submitBuffer] answers 0) is tagged unimportable; a failure of the
    PRIME handle conversion produces no FB but leaves the buffer's tags as
    they were; and every import attempt on a buffer that carries the
    unimportable tag returns failure after one error line, before any kernel
    call is made. *)
Theorem import_tagging_amended {K} (drv : Driver K) (b : nat) (w : World K) (buf : IBuffer.t) :
  buffers w !! b = Some buf ->
  let fresh := CDRMFB.mk 0 b [0; 0; 0; 0] false false in
  let planes := Z.to_nat (SDMABUFAttrs.planes (IBuffer.dmabuf buf)) in
  (IBuffer.has AQ_ATTACHMENT_DRM_KMS_UNIMPORTABLE buf = true ->
     exists msg,
       CDRMFB_create drv b w = (Ret None, set_trace (trace w ++ [Log AQ_LOG_ERROR msg]) w)) /\
  (SDMABUFAttrs.success (IBuffer.dmabuf buf) = true ->
   IBuffer.has AQ_ATTACHMENT_DRM_KMS_UNIMPORTABLE buf = false ->
   forall fb1 w1 w2,
     CDRMFB_primeHandles drv (IBuffer.dmabuf buf) planes 0 fresh w = (Ret (true, fb1), w1) ->
     CDRMFB_submitBuffer drv fb1 w1 = (Ret 0, w2) ->
     exists w3 buf' msg,
       CDRMFB_create drv b w = (Ret None, w3) /\
       buffers w3 !! b = Some buf' /\
       IBuffer.has AQ_ATTACHMENT_DRM_KMS_UNIMPORTABLE buf' = true /\
       CDRMFB_create drv b w3 = (Ret None, set_trace (trace w3 ++ [Log AQ_LOG_ERROR msg]) w3)) /\
  (SDMABUFAttrs.success (IBuffer.dmabuf buf) = true ->
   IBuffer.has AQ_ATTACHMENT_DRM_KMS_UNIMPORTABLE buf = false ->
   forall fb1 w1,
     CDRMFB_primeHandles drv (IBuffer.dmabuf buf) planes 0 fresh w = (Ret (false, fb1), w1) ->
     CDRMFB_create drv b w = (Ret None, w1) /\ buffers w1 = buffers w).
Proof.
  intros Hb fresh planes. split; [|split].
  - intros Ht. eexists. apply (create_tagged drv b w buf Hb Ht).
  - intros Hs Ht fb1 w1 w2 Hp Hsub.
    pose proof (primeHandles_spec drv _ planes 0 fresh w (true, fb1) w1 eq_refl eq_refl Hp)
      as (Hid & _ & _ & Hb1).
    pose proof (submitBuffer_buffers drv _ _ _ _ Hsub) as Hb2.
    cbn [fst snd] in Hid.
    set (w3 := tag_unimportable b
                 (set_trace (trace w2 ++ [Log AQ_LOG_ERROR "drm: Failed to submit a buffer to KMS"]) w2)).
    assert (Hb3 : buffers w3 !! b
                  = Some (IBuffer.add AQ_ATTACHMENT_DRM_KMS_UNIMPORTABLE buf)).
    { subst w3. unfold tag_unimportable. cbn. rewrite lookup_alter_eq.
      rewrite Hb2, Hb1, Hb. reflexivity. }
    assert (Hc : CDRMFB_create drv b w = (Ret None, w3)).
    { unfold CDRMFB_create. unfold bind at 1.
      rewrite (new_unfold drv b w buf Hb Hs Ht).
      fold fresh. fold planes. rewrite Hp. cbn [fst snd negb]. rewrite Hsub. cbn [Z.eqb].
      rewrite drop_zero_id by reflexivity. cbn [set_id CDRMFB.dropped CDRMFB.id].
      destruct (CDRMFB.dropped fb1); cbn; unfold bind;
        rewrite drop_zero_id by reflexivity; reflexivity. }
    exists w3, (IBuffer.add AQ_ATTACHMENT_DRM_KMS_UNIMPORTABLE buf). eexists.
    split; [exact Hc|]. split; [exact Hb3|]. split; [apply has_add|].
    apply (create_tagged drv b w3 _ Hb3). apply has_add.
  - intros Hs Ht fb1 w1 Hp.
    pose proof (primeHandles_spec drv _ planes 0 fresh w (false, fb1) w1 eq_refl eq_refl Hp)
      as (Hid & _ & _ & Hb1).
    cbn [fst snd] in Hid. split; [|exact Hb1].
    unfold CDRMFB_create. unfold bind at 1.
    rewrite (new_unfold drv b w buf Hb Hs Ht).
    fold fresh. fold planes. rewrite Hp. cbn [fst snd negb].
    rewrite Hid. cbn [Z.eqb]. unfold bind.
    rewrite drop_zero_id by exact Hid.
    reflexivity.
Qed.

Lemma import_tagging_amended_witness :
  exists w3 buf' msg,
    CDRMFB_create drv_refuses_fb 0 world0 = (Ret None, w3) /\
    buffers w3 !! 0%nat = Some buf' /\
    IBuffer.has AQ_ATTACHMENT_DRM_KMS_UNIMPORTABLE buf' = true /\
    CDRMFB_create drv_refuses_fb 0 w3
    = (Ret None, set_trace (trace w3 ++ [Log AQ_LOG_ERROR msg]) w3).
Proof.
  eapply (proj1 (proj2 (import_tagging_amended drv_refuses_fb 0%nat world0 buf_scanout eq_refl))).
  - reflexivity.
  - reflexivity.
  - vm_compute. reflexivity.
  - vm_compute. reflexivity.
Defined.

(** *** C1: a commit flips the planes or leaves them alone *)

(** [w] after log lines and kernel calls [t] that leave the kernel in
    state [k]: nothing else differs. *)
Definition advance {K} (k : K) (t : list action) (w : World K) : World K :=
  set_kernel k (set_trace (trace w ++ t) w).

Lemma advance_nil {K} (w : World K) : advance (kernel w) [] w = w.
Proof. destruct w. unfold advance. cbn. rewrite app_nil_r. reflexivity. Qed.

Lemma advance_same {K} (k : K) (w : World K) : kernel w = k -> advance k [] w = w.
Proof. intros <-. apply advance_nil. Qed.

Lemma advance_advance {K} (k1 k2 : K) t1 t2 (w : World K) :
  advance k2 t2 (advance k1 t1 w) = advance k2 (t1 ++ t2) w.
Proof. unfold advance. cbn. rewrite app_assoc. reflexivity. Qed.

Lemma io_advance {K} (k : K) t (w : World K) : forallb quiet t = true -> io_only w (advance k t w).
Proof. intros Hq. constructor; try reflexivity. exists t. auto. Qed.

(** [drop()] returns, and only logs and calls the kernel. *)
Lemma drop_advance {K} (drv : Driver K) fb (w : World K) :
  exists fb1 k t,
    CDRMFB_drop drv fb w = (Ret fb1, advance k t w) /\ forallb quiet t = true.
Proof.
  unfold CDRMFB_drop.
  destruct (CDRMFB.dropped fb).
  { exists fb, (kernel w), []. rewrite advance_nil. auto. }
  cbn [set_dropped CDRMFB.id].
  destruct (CDRMFB.id fb =? 0).
  { exists (set_dropped true fb), (kernel w), []. rewrite advance_nil. auto. }
  munfold. cbn.
  destruct (sys drv (kernel w) (drmModeCloseFB (CDRMFB.id fb))) as [k1 [r1 o1]].
  cbn. destruct (r1 =? - EINVAL).
  - cbn. destruct (sys drv k1 (drmModeRmFB (CDRMFB.id fb))) as [k2 [r2 o2]].
    cbn. destruct (r2 =? 0); cbn; eexists _, k2, _; unfold advance; cbn;
      rewrite <- ?app_assoc; cbn; (split; [reflexivity|]); reflexivity.
  - cbn. destruct (r1 =? 0); cbn; eexists _, k1, _; unfold advance; cbn;
      rewrite <- ?app_assoc; cbn; (split; [reflexivity|]); reflexivity.
Qed.

(** Giving up a reference returns, and only logs and calls the kernel. *)
Lemma release_advance {K} (drv : Driver K) locals p (w : World K) :
  exists k t,
    CDRMFB_release drv locals p w = (Ret tt, advance k t w) /\ forallb quiet t = true.
Proof.
  unfold CDRMFB_release. destruct p as [fb|].
  2:{ exists (kernel w), []. rewrite advance_nil. auto. }
  unfold bind at 1, get at 1. cbv beta iota.
  destruct (bool_decide _).
  { exists (kernel w), []. rewrite advance_nil. auto. }
  destruct (drop_advance drv fb w) as (fb1 & k & t & Hd & Hq).
  exists k, t. unfold bind. rewrite Hd. auto.
Qed.

(** A reference that another owner holds as well is given up silently. *)
Lemma release_held {K} (drv : Driver K) locals fb (w : World K) :
  Some fb ∈ locals ++ fb_holders w ->
  CDRMFB_release drv locals (Some fb) w = (Ret tt, w).
Proof.
  intros H. unfold CDRMFB_release. unfold bind at 1, get at 1. cbv beta iota.
  rewrite bool_decide_eq_true_2 by exact H. reflexivity.
Qed.

(** The last reference: the FB is dropped. *)
Lemma release_last {K} (drv : Driver K) locals fb (w : World K) :
  Some fb ∉ locals ++ fb_holders w ->
  CDRMFB_release drv locals (Some fb) w
  = (Ret tt, snd (CDRMFB_drop drv fb w)).
Proof.
  intros H. unfold CDRMFB_release. unfold bind at 1, get at 1. cbv beta iota.
  rewrite bool_decide_eq_false_2 by exact H.
  destruct (drop_advance drv fb w) as (fb1 & k & t & Hd & _).
  unfold bind. rewrite Hd. reflexivity.
Qed.

Lemma holders_lookup {K} (w : World K) i Q :
  planes w !! i = Some Q ->
  SDRMPlane.front Q ∈ fb_holders w /\ SDRMPlane.back Q ∈ fb_holders w.
Proof.
  intros H. unfold fb_holders.
  assert (HQ : List.In Q (planes w)) by (apply list_elem_of_In, list_elem_of_lookup; eauto).
  split; apply elem_of_cons; right; apply list_elem_of_In, in_flat_map; exists Q;
    (split; [exact HQ|]); cbn; auto.
Qed.

Lemma holders_inv {K} (w : World K) x :
  x ∈ fb_holders w ->
  x = SDRMConnector.pendingCursorFB (connector w) \/
  exists i Q, planes w !! i = Some Q /\ (x = SDRMPlane.front Q \/ x = SDRMPlane.back Q).
Proof.
  unfold fb_holders. intros H. apply elem_of_cons in H as [H|H]; [left; exact H|right].
  apply list_elem_of_In, in_flat_map in H as (Q & HQ & Hx).
  apply list_elem_of_In, list_elem_of_lookup in HQ as [i Hi].
  exists i, Q. split; [exact Hi|]. cbn in Hx. destruct Hx as [<-|[<-|[]]]; auto.
Qed.

Lemma release_none {K} (drv : Driver K) locals (w : World K) :
  CDRMFB_release drv locals None w = (Ret tt, w).
Proof. reflexivity. Qed.

#[global] Arguments CDRMFB_release : simpl never.

Lemma plane_flip_steps fb p : set_front fb (set_back (SDRMPlane.front p) p) = plane_flip fb p.
Proof. reflexivity. Qed.

Lemma flip_plane_at_run {K} (drv : Driver K) locals idx fb (w : World K) p :
  planes w !! idx = Some p ->
  exists k t,
    flip_plane_at drv locals idx fb w
    = (Ret tt, advance k t (set_planes (<[idx := plane_flip fb p]> (planes w)) w)) /\
    forallb quiet t = true.
Proof.
  intros H. unfold flip_plane_at.
  unfold bind at 1, get at 1. cbv beta iota. rewrite H.
  unfold bind at 1, deref at 1, ret at 1. cbv beta iota.
  unfold bind at 1, modify at 1. cbv beta iota.
  unfold bind at 1.
  destruct (release_advance drv locals (SDRMPlane.back p)
              (set_planes (<[idx := set_back (SDRMPlane.front p) p]> (planes w)) w))
    as (k1 & t1 & E1 & Q1).
  rewrite E1. cbv beta iota.
  unfold bind at 1, get at 1. cbv beta iota.
  assert (Hlen : (idx < length (planes w))%nat) by (eapply lookup_lt_Some; exact H).
  cbn [planes advance set_kernel set_trace set_planes].
  rewrite list_lookup_insert_eq by exact Hlen.
  unfold bind at 1, deref at 1, ret at 1. cbv beta iota.
  unfold bind at 1, modify at 1. cbv beta iota.
  rewrite list_insert_insert_eq, plane_flip_steps.
  match goal with
  | |- context [CDRMFB_release drv locals ?q ?w0] =>
    destruct (release_advance drv locals q w0) as (k2 & t2 & E2 & Q2); rewrite E2
  end.
  exists k2, (t1 ++ t2). split.
  - unfold advance. cbn. rewrite app_assoc. reflexivity.
  - rewrite forallb_app, Q1, Q2. reflexivity.
Qed.

(** The planes after the flips of an applied commit. *)
Definition flipped_planes {K} (data : SDRMConnectorCommitData.t) (w : World K)
    (crtc : SDRMCRTC.t) (p : nat) (P : SDRMPlane.t) : list SDRMPlane.t :=
  match SDRMCRTC.cursor crtc with
  | Some c =>
    match planes w !! c with
    | Some C =>
      <[c := plane_flip (SDRMConnectorCommitData.cursorFB data) C]>
        (<[p := plane_flip (SDRMConnectorCommitData.mainFB data) P]> (planes w))
    | None => planes w
    end
  | None => <[p := plane_flip (SDRMConnectorCommitData.mainFB data) P]> (planes w)
  end.

(** A run of [applyCommit], step by step: the flips, the reset of the
    pending cursor FB, and the refresh; the FBs that lose their last owner
    on the way are dropped, which logs and calls the kernel. *)
Lemma applyCommit_run {K} (drv : Driver K) data (w : World K) crtc p P :
  SDRMConnector.crtc (connector w) = Some crtc ->
  SDRMCRTC.primary crtc = Some p ->
  planes w !! p = Some P ->
  (forall c, SDRMCRTC.cursor crtc = Some c -> c <> p /\ is_Some (planes w !! c)) ->
  exists k t,
    forallb quiet t = true /\
    let w1 := advance k t
                (set_connector (set_pendingCursorFB None (connector w))
                   (set_planes (flipped_planes data w crtc p P) w)) in
    SDRMConnector_applyCommit drv data w
    = match SDRMConnector.output (connector w) with
      | None => (Fault NullDeref, w1)
      | Some _ =>
        if bits_set (COutputState.committed (CDRMOutput.state (output w))) AQ_OUTPUT_STATE_MODE
        then match calculateRefresh (SDRMConnectorCommitData.modeInfo data) with
             | Ret r => (Ret tt, set_connector (set_refresh r (connector w1)) w1)
             | Fault f => (Fault f, w1)
             end
        else (Ret tt, w1)
      end.
Proof.
  intros Hc Hp HP Hcur. unfold SDRMConnector_applyCommit. cbv zeta.
  unfold bind at 1. unfold get at 1. cbv beta iota.
  rewrite Hc. unfold bind at 1. unfold deref at 1, ret at 1. cbv beta iota.
  rewrite Hp. unfold bind at 1. unfold deref at 1, ret at 1. cbv beta iota.
  unfold bind at 1.
  match goal with
  | |- context [flip_plane_at drv ?l p ?fb w] =>
    destruct (flip_plane_at_run drv l p fb w P HP) as (k1 & t1 & E1 & Q1); rewrite E1
  end.
  cbv beta iota.
  assert (Hcursor : exists k2 t2,
    forallb quiet t2 = true /\
    (match SDRMCRTC.cursor crtc with
     | Some cursor =>
       flip_plane_at drv
         [SDRMConnectorCommitData.mainFB data; SDRMConnectorCommitData.cursorFB data]
         cursor (SDRMConnectorCommitData.cursorFB data)
     | None => ret tt
     end) (advance k1 t1
             (set_planes (<[p := plane_flip (SDRMConnectorCommitData.mainFB data) P]> (planes w)) w))
    = (Ret tt, advance k2 t2 (set_planes (flipped_planes data w crtc p P) w))).
  { unfold flipped_planes. destruct (SDRMCRTC.cursor crtc) as [c|] eqn:Ecur.
    - destruct (Hcur c eq_refl) as [Hne [C HC]]. rewrite HC.
      match goal with
      | |- context [flip_plane_at drv ?l c ?fb ?w0] =>
        destruct (flip_plane_at_run drv l c fb w0 C) as (k2 & t2 & E2 & Q2)
      end.
      { cbn. rewrite list_lookup_insert_ne by congruence. exact HC. }
      exists k2, (t1 ++ t2). split; [rewrite forallb_app, Q1, Q2; reflexivity|].
      rewrite E2. unfold advance. cbn. rewrite app_assoc. reflexivity.
    - exists k1, t1. split; [exact Q1|reflexivity]. }
  destruct Hcursor as (k2 & t2 & Q2 & E2).
  unfold bind at 1. rewrite E2. cbv beta iota.
  unfold bind at 1, get at 1. cbv beta iota.
  unfold bind at 1, modify at 1. cbv beta iota.
  unfold bind at 1.
  match goal with
  | |- context [CDRMFB_release drv ?l ?q ?w0] =>
    destruct (release_advance drv l q w0) as (k3 & t3 & E3 & Q3); rewrite E3
  end.
  cbv beta iota.
  exists k3, (t2 ++ t3). split; [rewrite forallb_app, Q2, Q3; reflexivity|].
  cbv zeta.
  assert (Hw : forall X,
    advance k3 t3
      (set_connector (set_pendingCursorFB None (connector (advance k2 t2 (set_planes X w))))
         (advance k2 t2 (set_planes X w)))
    = advance k3 (t2 ++ t3)
        (set_connector (set_pendingCursorFB None (connector w)) (set_planes X w))).
  { intros X. unfold advance. cbn. rewrite app_assoc. reflexivity. }
  rewrite Hw.
  unfold bind at 1.
  destruct (SDRMConnector.output (connector w)); unfold deref, ret, raise; [|reflexivity].
  destruct (bits_set _ _); [|reflexivity].
  unfold bind. destruct (calculateRefresh _); unfold lift, ret, raise, modify; reflexivity.
Qed.

(** The planes after [applyCommit], whatever happens after the flips. *)
Lemma applyCommit_planes {K} (drv : Driver K) data (w : World K) crtc p P :
  SDRMConnector.crtc (connector w) = Some crtc ->
  SDRMCRTC.primary crtc = Some p ->
  planes w !! p = Some P ->
  (forall c, SDRMCRTC.cursor crtc = Some c -> c <> p /\ is_Some (planes w !! c)) ->
  planes (snd (SDRMConnector_applyCommit drv data w))
  = match SDRMCRTC.cursor crtc with
    | Some c =>
      match planes w !! c with
      | Some C =>
        <[c := plane_flip (SDRMConnectorCommitData.cursorFB data) C]>
          (<[p := plane_flip (SDRMConnectorCommitData.mainFB data) P]> (planes w))
      | None => planes w
      end
    | None => <[p := plane_flip (SDRMConnectorCommitData.mainFB data) P]> (planes w)
    end.
Proof.
  intros Hc Hp HP Hcur.
  destruct (applyCommit_run drv data w crtc p P Hc Hp HP Hcur) as (k & t & _ & E).
  cbv zeta in E. rewrite E. fold (flipped_planes data w crtc p P).
  destruct (SDRMConnector.output (connector w)); [|reflexivity].
  destruct (bits_set _ _); [|reflexivity].
  destruct (calculateRefresh _); reflexivity.
Qed.

(** [applyCommit] returns when the connector has its output and, for a
    commit of MODE, the mode's totals are not zero. *)
Lemma applyCommit_returns {K} (drv : Driver K) data (w : World K) crtc p P :
  SDRMConnector.crtc (connector w) = Some crtc ->
  SDRMCRTC.primary crtc = Some p ->
  planes w !! p = Some P ->
  (forall c, SDRMCRTC.cursor crtc = Some c -> c <> p /\ is_Some (planes w !! c)) ->
  SDRMConnector.output (connector w) = Some this_output ->
  (bits_set (COutputState.committed (CDRMOutput.state (output w))) AQ_OUTPUT_STATE_MODE = true ->
   drmModeModeInfo.htotal (SDRMConnectorCommitData.modeInfo data) <> 0 /\
   drmModeModeInfo.vtotal (SDRMConnectorCommitData.modeInfo data) <> 0) ->
  exists w',
    SDRMConnector_applyCommit drv data w = (Ret tt, w') /\
    (exists t, trace w' = trace w ++ t /\ forallb quiet t = true) /\
    SDRMConnector.isPageFlipPending (connector w')
    = SDRMConnector.isPageFlipPending (connector w).
Proof.
  intros Hc Hp HP Hcur Hout Hmode.
  destruct (applyCommit_run drv data w crtc p P Hc Hp HP Hcur) as (k & t & Q & E).
  cbv zeta in E. rewrite E, Hout.
  destruct (bits_set _ _) eqn:Eb.
  - destruct (Hmode eq_refl) as [Hh Hv]. unfold calculateRefresh.
    destruct (Z.eqb_spec (drmModeModeInfo.htotal (SDRMConnectorCommitData.modeInfo data)) 0);
      [congruence|].
    destruct (Z.eqb_spec (drmModeModeInfo.vtotal (SDRMConnectorCommitData.modeInfo data)) 0);
      [congruence|].
    cbn [orb]. eexists. split; [reflexivity|]. cbn. eauto.
  - eexists. split; [reflexivity|]. cbn. eauto.
Qed.

(** What [applyCommit] leaves alone in every world: the session, the
    capabilities, the buffers, the output, the connector's page-flip flag
    and record; it adds log lines and kernel calls only to the trace. *)
Record apply_frame {K} (w w' : World K) : Prop := mk_apply_frame {
  af_session : session_active w' = session_active w;
  af_props : drmProps w' = drmProps w;
  af_buffers : buffers w' = buffers w;
  af_output : output w' = output w;
  af_pending : SDRMConnector.isPageFlipPending (connector w')
               = SDRMConnector.isPageFlipPending (connector w);
  af_record : SDRMConnector.pendingPageFlip (connector w')
              = SDRMConnector.pendingPageFlip (connector w);
  af_trace : exists t, trace w' = trace w ++ t /\ forallb quiet t = true
}.

Definition af_comp {K A} (c : M K A) : Prop := forall w, apply_frame w (snd (c w)).

Lemma apply_frame_refl {K} (w : World K) : apply_frame w w.
Proof. constructor; try reflexivity. exists []. by rewrite app_nil_r. Qed.

Lemma apply_frame_trans {K} (w1 w2 w3 : World K) :
  apply_frame w1 w2 -> apply_frame w2 w3 -> apply_frame w1 w3.
Proof.
  intros [a1 a2 a3 a4 a5 a6 (t1 & Ht1 & Hq1)] [b1 b2 b3 b4 b5 b6 (t2 & Ht2 & Hq2)].
  constructor; try congruence.
  exists (t1 ++ t2). split.
  - rewrite Ht2, Ht1. by rewrite app_assoc.
  - rewrite forallb_app, Hq1, Hq2. reflexivity.
Qed.

Lemma af_bind {K A B} (c : M K A) (k : A -> M K B) :
  af_comp c -> (forall a, af_comp (k a)) -> af_comp (bind c k).
Proof.
  intros Hc Hk w. unfold bind. specialize (Hc w).
  destruct (c w) as [[a|f] w1]; cbn in *; [|exact Hc].
  eapply apply_frame_trans; [exact Hc|apply Hk].
Qed.

Lemma af_pure {K A} (c : M K A) : (forall w, snd (c w) = w) -> af_comp c.
Proof. intros H w. rewrite H. apply apply_frame_refl. Qed.

Lemma af_release {K} (drv : Driver K) locals p : af_comp (CDRMFB_release drv locals p).
Proof.
  intros w. destruct (release_advance drv locals p w) as (k & t & E & Q). rewrite E.
  constructor; try reflexivity. exists t. auto.
Qed.

Lemma af_modify {K} (f : World K -> World K) :
  (forall w, apply_frame w (f w)) -> af_comp (modify f).
Proof. intros H w. apply H. Qed.

Ltac af_step :=
  first
    [ apply af_release
    | apply af_pure; intros ?; reflexivity
    | apply af_pure; intros ?; unfold deref; case_goal; reflexivity
    | apply af_pure; intros ?; unfold lift; case_goal; reflexivity
    | apply af_modify; intros ?; constructor; try reflexivity; exists []; by rewrite app_nil_r
    | apply af_bind; [|intros ?] ].

Ltac af_solve := repeat (af_step || (match goal with
  | |- af_comp (if ?b then _ else _) => destruct b
  | |- af_comp (match ?x with _ => _ end) => destruct x
  end)).

Lemma af_flip_plane_at {K} (drv : Driver K) locals idx fb :
  af_comp (@flip_plane_at K drv locals idx fb).
Proof. unfold flip_plane_at. af_solve. Qed.

Lemma af_applyCommit {K} (drv : Driver K) data : af_comp (@SDRMConnector_applyCommit K drv data).
Proof.
  unfold SDRMConnector_applyCommit. cbv zeta.
  pose proof (@af_flip_plane_at K drv) as Hflip.
  af_solve; try apply Hflip.
Qed.

#[global] Arguments SDRMConnector_applyCommit : simpl never.

(** The world right after the engine call. *)
Definition after_engine {K} (drv : Driver K) (data : SDRMConnectorCommitData.t) (w : World K)
    : World K :=
  snd (impl_commit_call drv data w).

Lemma impl_commit_call_run {K} (drv : Driver K) data (w : World K) :
  impl_commit_call drv data w = (Ret (fst (snd (impl_commit drv w data))), after_engine drv data w) /\
  planes (after_engine drv data w) = planes w /\
  SDRMConnector.crtc (connector (after_engine drv data w)) = SDRMConnector.crtc (connector w) /\
  SDRMConnector.output (connector (after_engine drv data w))
  = SDRMConnector.output (connector w) /\
  output (after_engine drv data w) = output w /\
  buffers (after_engine drv data w) = buffers w /\
  trace (after_engine drv data w)
  = trace w ++ [ImplCommit data (fst (snd (impl_commit drv w data)))
                          (snd (snd (impl_commit drv w data)))] /\
  SDRMConnector.isPageFlipPending (connector (after_engine drv data w))
  = SDRMConnector.isPageFlipPending (connector w) || snd (snd (impl_commit drv w data)).
Proof.
  unfold after_engine, impl_commit_call.
  destruct (impl_commit drv w data) as [k' [ok queued]]. cbn. auto 10.
Qed.

(** [SDRMConnector::commitState] by the engine's answer. *)
Lemma connector_commitState_split {K} (drv : Driver K) (data : SDRMConnectorCommitData.t)
    (w : World K) :
  let ok := fst (snd (impl_commit drv w data)) in
  SDRMConnector_commitState drv data w
  = if ok && negb (SDRMConnectorCommitData.test data)
    then match SDRMConnector_applyCommit drv data (after_engine drv data w) with
         | (Ret _, w2) => (Ret ok, w2)
         | (Fault f, w2) => (Fault f, w2)
         end
    else (Ret ok, after_engine drv data w).
Proof.
  intros ok.
  destruct (impl_commit_call_run drv data w) as (Hrun & _).
  unfold SDRMConnector_commitState. unfold bind at 1. rewrite Hrun. fold ok.
  destruct (ok && negb _); [|reflexivity].
  unfold bind. destruct (SDRMConnector_applyCommit _ _) as [[[]|f] w2]; reflexivity.
Qed.

(** With an output and, when the mode is committed, a mode whose totals
    are not zero, the connector's commit returns the engine's answer. *)
Lemma connector_commitState_returns {K} (drv : Driver K) (data : SDRMConnectorCommitData.t)
    (w : World K) (crtc : SDRMCRTC.t) (p : nat) (P : SDRMPlane.t) :
  SDRMConnector.crtc (connector w) = Some crtc ->
  SDRMCRTC.primary crtc = Some p ->
  planes w !! p = Some P ->
  (forall c, SDRMCRTC.cursor crtc = Some c -> c <> p /\ is_Some (planes w !! c)) ->
  SDRMConnector.output (connector w) = Some this_output ->
  (bits_set (COutputState.committed (CDRMOutput.state (output w))) AQ_OUTPUT_STATE_MODE = true ->
   drmModeModeInfo.htotal (SDRMConnectorCommitData.modeInfo data) <> 0 /\
   drmModeModeInfo.vtotal (SDRMConnectorCommitData.modeInfo data) <> 0) ->
  fst (SDRMConnector_commitState drv data w) = Ret (fst (snd (impl_commit drv w data))).
Proof.
  intros Hc Hp HP Hcur Ho Hm.
  destruct (impl_commit_call_run drv data w) as (_ & Hpl & Hcrtc & Hout & Houtput & _ & _ & _).
  rewrite connector_commitState_split.
  destruct (_ && negb _); [|reflexivity].
  destruct (applyCommit_returns drv data (after_engine drv data w) crtc p P) as (w2 & Hw2 & _).
  - rewrite Hcrtc. exact Hc.
  - exact Hp.
  - rewrite Hpl. exact HP.
  - rewrite Hpl. exact Hcur.
  - rewrite Hout. exact Ho.
  - rewrite Houtput. exact Hm.
  - rewrite Hw2. reflexivity.
Qed.

(** The planes after a commit the engine accepted and that is no test. *)
Lemma connector_commitState_flips {K} (drv : Driver K) (data : SDRMConnectorCommitData.t)
    (w : World K) (crtc : SDRMCRTC.t) (p : nat) (P : SDRMPlane.t) :
  SDRMConnector.crtc (connector w) = Some crtc ->
  SDRMCRTC.primary crtc = Some p ->
  planes w !! p = Some P ->
  (forall c, SDRMCRTC.cursor crtc = Some c -> c <> p /\ is_Some (planes w !! c)) ->
  fst (snd (impl_commit drv w data)) = true ->
  SDRMConnectorCommitData.test data = false ->
  let w' := snd (SDRMConnector_commitState drv data w) in
  (exists P', planes w' !! p = Some P' /\
              SDRMPlane.back P' = SDRMPlane.front P /\
              SDRMPlane.front P' = SDRMConnectorCommitData.mainFB data) /\
  (forall c C, SDRMCRTC.cursor crtc = Some c -> planes w !! c = Some C ->
     exists C', planes w' !! c = Some C' /\
                SDRMPlane.back C' = SDRMPlane.front C /\
                SDRMPlane.front C' = SDRMConnectorCommitData.cursorFB data) /\
  (forall i, i <> p -> SDRMCRTC.cursor crtc <> Some i -> planes w' !! i = planes w !! i).
Proof.
  intros Hc Hp HP Hcur Hok Ht w'. subst w'.
  destruct (impl_commit_call_run drv data w) as (_ & Hpl & Hcrtc & _).
  rewrite connector_commitState_split, Hok, Ht. cbn [andb negb].
  assert (Hplanes := applyCommit_planes drv data (after_engine drv data w) crtc p P).
  rewrite Hcrtc, Hpl in Hplanes. specialize (Hplanes Hc Hp HP Hcur).
  assert (Hpw : planes (snd (match SDRMConnector_applyCommit drv data (after_engine drv data w) with
                        | (Ret _, w2) => (Ret true, w2)
                        | (Fault f, w2) => (Fault f, w2)
                        end)) = planes (snd (SDRMConnector_applyCommit drv data (after_engine drv data w)))).
  { destruct (SDRMConnector_applyCommit _ _) as [[[]|f] w2]; reflexivity. }
  rewrite Hpw, Hplanes. clear Hpw Hplanes.
  assert (Hlen : (p < length (planes w))%nat) by (eapply lookup_lt_Some; exact HP).
  split; [|split].
  - exists (plane_flip (SDRMConnectorCommitData.mainFB data) P).
    split; [|split; reflexivity].
    destruct (SDRMCRTC.cursor crtc) as [c|] eqn:Ecur.
    + destruct (Hcur c eq_refl) as [Hne [C HC]]. rewrite HC.
      rewrite list_lookup_insert_ne by exact Hne.
      apply list_lookup_insert_eq. exact Hlen.
    + apply list_lookup_insert_eq. exact Hlen.
  - intros c C Ec HC. rewrite Ec, HC.
    exists (plane_flip (SDRMConnectorCommitData.cursorFB data) C).
    split; [|split; reflexivity].
    apply list_lookup_insert_eq. rewrite length_insert. eapply lookup_lt_Some. exact HC.
  - intros i Hip Hic.
    destruct (SDRMCRTC.cursor crtc) as [c|] eqn:Ecur.
    + destruct (Hcur c eq_refl) as [Hne [C HC]]. rewrite HC.
      rewrite list_lookup_insert_ne by congruence.
      apply list_lookup_insert_ne. congruence.
    + apply list_lookup_insert_ne. congruence.
Qed.

(** C1: [SDRMConnector::commitState] on a connector whose CRTC has a primary
    plane (and, when it has a cursor plane, a cursor plane that is another
    plane object).  If the engine accepts and the commit is not a test, the
    primary plane's prior front becomes its back and the submitted main FB
    its front, likewise the cursor plane with the cursor FB when there is
    one, and no other plane changes; if the engine rejects or the commit is
    a test, the commit returns the engine's answer and every plane is as
    it was. *)
Theorem commitState_planes {K} (drv : Driver K) (data : SDRMConnectorCommitData.t)
    (w : World K) (crtc : SDRMCRTC.t) (p : nat) (P : SDRMPlane.t) :
  SDRMConnector.crtc (connector w) = Some crtc ->
  SDRMCRTC.primary crtc = Some p ->
  planes w !! p = Some P ->
  (forall c, SDRMCRTC.cursor crtc = Some c -> c <> p /\ is_Some (planes w !! c)) ->
  let ok := fst (snd (impl_commit drv w data)) in
  let r := fst (SDRMConnector_commitState drv data w) in
  let w' := snd (SDRMConnector_commitState drv data w) in
  (ok = true -> SDRMConnectorCommitData.test data = false ->
     (exists P', planes w' !! p = Some P' /\
                 SDRMPlane.back P' = SDRMPlane.front P /\
                 SDRMPlane.front P' = SDRMConnectorCommitData.mainFB data) /\
     (forall c C, SDRMCRTC.cursor crtc = Some c -> planes w !! c = Some C ->
        exists C', planes w' !! c = Some C' /\
                   SDRMPlane.back C' = SDRMPlane.front C /\
                   SDRMPlane.front C' = SDRMConnectorCommitData.cursorFB data) /\
     (forall i, i <> p -> SDRMCRTC.cursor crtc <> Some i -> planes w' !! i = planes w !! i) /\
     (r = Ret true \/ exists f, r = Fault f)) /\
  (ok = false \/ SDRMConnectorCommitData.test data = true ->
     planes w' = planes w /\ r = Ret ok) /\
  (SDRMConnector.output (connector w) = Some this_output ->
   (bits_set (COutputState.committed (CDRMOutput.state (output w))) AQ_OUTPUT_STATE_MODE = true ->
    drmModeModeInfo.htotal (SDRMConnectorCommitData.modeInfo data) <> 0 /\
    drmModeModeInfo.vtotal (SDRMConnectorCommitData.modeInfo data) <> 0) ->
   r = Ret ok).
Proof.
  intros Hc Hp HP Hcur ok r w'.
  destruct (impl_commit_call_run drv data w) as (Hrun & Hpl & Hcrtc & Hout & Houtput & _ & _ & _).
  assert (Hsplit : SDRMConnector_commitState drv data w
                   = if ok && negb (SDRMConnectorCommitData.test data)
                     then match SDRMConnector_applyCommit drv data (after_engine drv data w) with
                          | (Ret _, w2) => (Ret ok, w2)
                          | (Fault f, w2) => (Fault f, w2)
                          end
                     else (Ret ok, after_engine drv data w)).
  { unfold SDRMConnector_commitState. unfold bind at 1. rewrite Hrun. fold ok.
    destruct (ok && negb _); [|reflexivity].
    unfold bind. destruct (SDRMConnector_applyCommit _ _) as [[[]|f] w2]; reflexivity. }
  split; [|split].
  - intros Hok Ht. subst r w'. rewrite Hsplit, Hok, Ht. cbn [andb negb].
    assert (Hplanes := applyCommit_planes drv data (after_engine drv data w) crtc p P).
    rewrite Hcrtc, Hpl in Hplanes. specialize (Hplanes Hc Hp HP Hcur).
    assert (Hpw : planes (snd (match SDRMConnector_applyCommit drv data (after_engine drv data w) with
                          | (Ret _, w2) => (Ret true, w2)
                          | (Fault f, w2) => (Fault f, w2)
                          end)) = planes (snd (SDRMConnector_applyCommit drv data (after_engine drv data w)))).
    { destruct (SDRMConnector_applyCommit _ _) as [[[]|f] w2]; reflexivity. }
    rewrite Hpw, Hplanes. clear Hpw Hplanes.
    assert (Hlen : (p < length (planes w))%nat) by (eapply lookup_lt_Some; exact HP).
    split; [|split; [|split]].
    + exists (plane_flip (SDRMConnectorCommitData.mainFB data) P).
      split; [|split; reflexivity].
      destruct (SDRMCRTC.cursor crtc) as [c|] eqn:Ecur.
      * destruct (Hcur c eq_refl) as [Hne [C HC]]. rewrite HC.
        rewrite list_lookup_insert_ne by exact Hne.
        apply list_lookup_insert_eq. exact Hlen.
      * apply list_lookup_insert_eq. exact Hlen.
    + intros c C Ec HC. rewrite Ec, HC.
      exists (plane_flip (SDRMConnectorCommitData.cursorFB data) C).
      split; [|split; reflexivity].
      apply list_lookup_insert_eq. rewrite length_insert. eapply lookup_lt_Some. exact HC.
    + intros i Hip Hic.
      destruct (SDRMCRTC.cursor crtc) as [c|] eqn:Ecur.
      * destruct (Hcur c eq_refl) as [Hne [C HC]]. rewrite HC.
        rewrite list_lookup_insert_ne by congruence.
        apply list_lookup_insert_ne. congruence.
      * apply list_lookup_insert_ne. congruence.
    + destruct (SDRMConnector_applyCommit _ _) as [[[]|f] w2]; cbn; eauto.
  - intros Hno. subst r w'. rewrite Hsplit.
    destruct Hno as [Hno|Hno]; rewrite Hno; rewrite ?andb_false_r; cbn [andb negb fst snd]; auto.
  - intros Ho Hm. subst r. rewrite Hsplit.
    destruct (ok && negb _); [|reflexivity].
    destruct (applyCommit_returns drv data (after_engine drv data w) crtc p P) as (w2 & Hw2 & _).
    + rewrite Hcrtc. exact Hc.
    + exact Hp.
    + rewrite Hpl. exact HP.
    + rewrite Hpl. exact Hcur.
    + rewrite Hout. exact Ho.
    + rewrite Houtput. exact Hm.
    + rewrite Hw2. reflexivity.
Qed.

Definition data_flip_fb42 : SDRMConnectorCommitData.t :=
  {| SDRMConnectorCommitData.mainFB := Some fb42;
     SDRMConnectorCommitData.cursorFB := None;
     SDRMConnectorCommitData.modeInfo := mode_1080p60;
     SDRMConnectorCommitData.modeset := false;
     SDRMConnectorCommitData.blocking := false;
     SDRMConnectorCommitData.flags := DRM_MODE_PAGE_FLIP_EVENT;
     SDRMConnectorCommitData.test := false |}.

Lemma commitState_planes_witness :
  exists P',
    planes (snd (SDRMConnector_commitState drv_accepts data_flip_fb42 world0)) !! 0%nat = Some P' /\
    SDRMPlane.back P' = None /\
    SDRMPlane.front P' = Some fb42.
Proof.
  refine (proj1 (proj1 (commitState_planes drv_accepts data_flip_fb42 world0 crtc0 0%nat
                          plane_primary eq_refl eq_refl eq_refl _) eq_refl eq_refl)).
  intros c Hc. injection Hc as <-. split; [discriminate|]. exists plane_cursor. reflexivity.
Defined.

(** *** The shape of a run of [CDRMOutput::commitState] *)

(** A run of [SDRMConnector::commitState]: the engine call with its answer
    comes first, and log lines and kernel calls of dropped FBs are all that
    follows; the run returns the answer unless applying the commit faults;
    the page-flip flag is raised when the engine queued a flip; the session,
    the capabilities, the buffers and the output are left alone. *)
Lemma connector_commitState_run {K} (drv : Driver K) data (w : World K) :
  let ok := fst (snd (impl_commit drv w data)) in
  let queued := snd (snd (impl_commit drv w data)) in
  (exists t, trace (snd (SDRMConnector_commitState drv data w))
             = trace w ++ ImplCommit data ok queued :: t /\ forallb quiet t = true) /\
  (fst (SDRMConnector_commitState drv data w) = Ret ok \/
   exists f, fst (SDRMConnector_commitState drv data w) = Fault f) /\
  SDRMConnector.isPageFlipPending (connector (snd (SDRMConnector_commitState drv data w)))
  = SDRMConnector.isPageFlipPending (connector w) || queued /\
  SDRMConnector.pendingPageFlip (connector (snd (SDRMConnector_commitState drv data w)))
  = SDRMConnector.pendingPageFlip (connector w) /\
  output (snd (SDRMConnector_commitState drv data w)) = output w /\
  session_active (snd (SDRMConnector_commitState drv data w)) = session_active w /\
  drmProps (snd (SDRMConnector_commitState drv data w)) = drmProps w /\
  buffers (snd (SDRMConnector_commitState drv data w)) = buffers w.
Proof.
  intros ok queued.
  destruct (impl_commit_call_run drv data w) as (Hrun & _ & _ & _ & Hout & Hbuf & Htr & Hpend).
  assert (Hppf : SDRMConnector.pendingPageFlip (connector (after_engine drv data w))
                 = SDRMConnector.pendingPageFlip (connector w) /\
                 session_active (after_engine drv data w) = session_active w /\
                 drmProps (after_engine drv data w) = drmProps w).
  { unfold after_engine, impl_commit_call.
    destruct (impl_commit drv w data) as [k' [o q]]. cbn. auto. }
  destruct Hppf as (Hppf & Hses & Hprops).
  fold ok in Hrun, Htr. fold queued in Htr, Hpend.
  rewrite connector_commitState_split. fold ok. destruct (ok && negb _).
  - destruct (af_applyCommit drv data (after_engine drv data w))
      as [a1 a2 a3 a4 a5 a6 (t & Ht & Hq)].
    destruct (SDRMConnector_applyCommit drv data (after_engine drv data w)) as [[[]|f] w2];
      cbn [fst snd] in *; rewrite a1, a2, a3, a4, a5, a6, Ht, Htr, Hpend, Hppf, <- app_assoc;
      cbn [app]; eauto 15.
  - cbn [fst snd]. rewrite Htr, Hpend, Hppf.
    split; [exists []; auto|]. repeat split; eauto.
Qed.

#[global] Arguments SDRMConnector_commitState : simpl never.
#[global] Arguments commitState_findFB : simpl never.
#[global] Arguments commitState_flags : simpl never.

Lemma io_flags {K} onlyTest nr bl STATE : io_comp (@commitState_flags K onlyTest nr bl STATE).
Proof. unfold commitState_flags. io_solve. Qed.

Lemma io_findFB {K} (drv : Driver K) crtc buf : io_comp (commitState_findFB drv crtc buf).
Proof.
  unfold commitState_findFB.
  apply io_bind; [io_solve|intros _].
  apply io_bind; [io_solve|intros w].
  apply io_bind; [io_solve|intros p].
  apply io_bind; [io_solve|intros plane].
  apply io_bind; [io_solve|intros drmFB].
  destruct drmFB; [io_solve|apply io_create].
Qed.

Lemma decomp_after_io {K} (drv : Driver K) onlyTest (w w1 w' : World K) r :
  io_only w w1 ->
  output w1 = output w -> connector w1 = connector w ->
  commit_decomp drv onlyTest w1 r w' -> commit_decomp drv onlyTest w r w'.
Proof.
  intros Hio Ho Hc [H|(w_e & d & H1 & H2 & H3 & H4 & H5 & H6)].
  - left. eapply io_only_trans; eassumption.
  - right. exists w_e, d. rewrite Ho, Hc in *.
    split; [eapply io_only_trans; eassumption|]. auto.
Qed.

Lemma flags_gate {K} onlyTest nr bl STATE (w : World K) flags w1 :
  commitState_flags onlyTest nr bl STATE w = (Ret (Some flags), w1) ->
  onlyTest = false -> bl = false ->
  SDRMConnector.isPageFlipPending (connector w) = false.
Proof.
  intros H -> ->. unfold commitState_flags in H. munfold. cbn in H.
  destruct (SDRMConnector.isPageFlipPending (connector w)) eqn:Ep; [|reflexivity].
  exfalso. repeat (case_hyp H; cbn in H; try rewrite Ep in H); cbn in H; congruence.
Qed.

Ltac reject_exit H :=
  unfold bind at 1 in H;
  let Hio := fresh "Hio" in
  match type of H with
  | context [log ?l ?s ?w] => pose proof (io_log l s w) as Hio
  end;
  unfold log, emit, modify, ret in H; unfold log, emit, modify, ret in Hio;
  cbn in H; cbn in Hio; injection H as <- <-;
  left; exact Hio.

Ltac quiet_exit H :=
  unfold deref, ret, raise in H; injection H as <- <-; left; apply io_only_refl.

(** The end of [CDRMOutput::commitState] once the connector's commit
    returned: the commit event, [onCommit], and the commit data going out of
    scope. *)
Lemma commitState_tail {K} (drv : Driver K) mainFB (ok : bool) (w4 : World K) :
  exists w5,
    CDRMFB_release drv [] mainFB
      (set_state (state_onCommit drv (CDRMOutput.state (output w4)))
         (set_trace (trace w4 ++ [EventsCommitEmit; StateOnCommit]) w4))
    = (Ret tt, w5) /\
    (emit EventsCommitEmit ;;
     emit StateOnCommit ;;
     modify (fun w => set_state (state_onCommit drv (CDRMOutput.state (output w))) w) ;;
     CDRMFB_release drv [] mainFB ;;
     ret ok) w4 = (Ret ok, w5).
Proof.
  match goal with
  | |- context [CDRMFB_release drv ?l ?q ?w0] =>
    destruct (release_advance drv l q w0) as (k5 & t5 & E5 & Q5)
  end.
  eexists. split; [exact E5|].
  unfold bind at 1, emit at 1, modify at 1. cbv beta iota.
  unfold bind at 1, emit at 1, modify at 1. cbv beta iota.
  unfold bind at 1, modify at 1. cbv beta iota.
  unfold bind at 1.
  match goal with
  | |- context [CDRMFB_release drv ?l ?q ?w0] =>
    replace w0 with (set_state (state_onCommit drv (CDRMOutput.state (output w4)))
                       (set_trace (trace w4 ++ [EventsCommitEmit; StateOnCommit]) w4))
      by (unfold set_state, set_trace; cbn; rewrite <- app_assoc; reflexivity)
  end.
  rewrite E5. reflexivity.
Qed.

Lemma commitState_decompose {K} (drv : Driver K) onlyTest (w : World K) r w' :
  CDRMOutput_commitState drv onlyTest w = (r, w') ->
  commit_decomp drv onlyTest w r w'.
Proof.
  intros H. unfold CDRMOutput_commitState in H.
  unfold bind at 1 in H. unfold get at 1 in H. cbv beta iota in H.
  destruct (negb (session_active w)); [reject_exit H|].
  destruct (SDRMConnector.crtc (connector w)) as [crtc|]; [|reject_exit H].
  cbv zeta in H.
  match type of H with (if ?c then _ else _) _ = _ => destruct c end; [reject_exit H|].
  match type of H with (if ?c then _ else _) _ = _ => destruct c end; [reject_exit H|].
  match type of H with (if ?c then _ else _) _ = _ => destruct c end; [reject_exit H|].
  match type of H with (if ?c then _ else _) _ = _ => destruct c end; [reject_exit H|].
  unfold bind at 1 in H.
  match type of H with
  | context [commitState_flags ?a ?b ?c ?d w] =>
    pose proof (io_flags a b c d w) as Hio1;
    pose proof (flags_gate a b c d w) as Hgate;
    destruct (commitState_flags a b c d w) as [[[flags|]|f] w1]
  end; cbn [snd] in Hio1;
    apply (decomp_after_io drv onlyTest w w1 w' r Hio1 (io_output _ _ Hio1) (io_connector _ _ Hio1)).
  2:{ quiet_exit H. }
  2:{ quiet_exit H. }
  specialize (Hgate flags w1 eq_refl).
  rewrite <- (io_connector _ _ Hio1) in Hgate.
  rewrite <- (io_output _ _ Hio1) in H.
  rewrite <- (io_connector _ _ Hio1) in H.
  rewrite <- (io_output _ _ Hio1) in Hgate.
  clear Hio1.
  unfold bind at 1 in H.
  match type of H with
  | (match ?c w1 with _ => _ end) = _ =>
    assert (Hio2 : io_comp c)
      by (destruct (COutputState.buffer (CDRMOutput.state (output w1)));
          [apply io_bind; [apply io_findFB|intros []; io_solve]|io_solve]);
    specialize (Hio2 w1);
    destruct (c w1) as [[[mainFB|]|f] w2]
  end; cbn [snd] in Hio2.
  2:{ unfold ret in H. injection H as <- <-. left. exact Hio2. }
  2:{ injection H as <- <-. left. exact Hio2. }
  unfold bind at 1 in H.
  destruct (COutputState.MODE (CDRMOutput.state (output w1))) as [mode|];
    [|unfold deref, raise in H; injection H as <- <-; left; exact Hio2].
  unfold deref at 1, ret at 1 in H. cbv beta iota in H.
  unfold bind at 1 in H.
  match type of H with
  | (match ?c w2 with _ => _ end) = _ =>
    assert (Hio3 : io_comp c) by io_solve;
    specialize (Hio3 w2);
    destruct (c w2) as [[modeInfo|f] w3]
  end; cbn [snd] in Hio3.
  2:{ injection H as <- <-. left. eapply io_only_trans; eassumption. }
  right. eexists w3, _.
  split; [eapply io_only_trans; eassumption|].
  unfold bind at 1 in H.
  match type of H with
  | context [SDRMConnector_commitState drv ?d w3] =>
    destruct (SDRMConnector_commitState drv d w3) as [[ok|f] w4] eqn:Ec
  end.
  - match type of H with
    | context [CDRMFB_release drv [] ?m] =>
      destruct (commitState_tail drv m ok w4) as (w5 & E5 & Etail)
    end.
    rewrite Etail in H. injection H as <- <-.
    rewrite Ec. cbn. repeat split; auto.
  - injection H as <- <-. rewrite Ec. cbn. repeat split; auto.
Qed.

Lemma quiet_not_elem (t : list action) (a : action) :
  forallb quiet t = true -> quiet a = false -> a ∉ t.
Proof.
  intros Hq Ha Hin. apply list_elem_of_In in Hin.
  rewrite forallb_forall in Hq. specialize (Hq a Hin). congruence.
Qed.

Lemma elem_of_quiet_app (t0 rest : list action) (a : action) :
  forallb quiet t0 = true -> quiet a = false -> a ∈ t0 ++ rest -> a ∈ rest.
Proof.
  intros Hq Ha Hin. apply elem_of_app in Hin as [Hin|Hin]; [|exact Hin].
  exfalso. exact (quiet_not_elem t0 a Hq Ha Hin).
Qed.

(** The actions of a trace that are neither log lines nor kernel calls. *)
Definition loud (t : list action) : list action := List.filter (fun a => negb (quiet a)) t.

Lemma loud_app (t1 t2 : list action) : loud (t1 ++ t2) = loud t1 ++ loud t2.
Proof. apply List.filter_app. Qed.

Lemma loud_quiet (t : list action) : forallb quiet t = true -> loud t = [].
Proof.
  induction t as [|a t IH]; [reflexivity|].
  cbn. intros H. apply andb_true_iff in H as [Ha Ht]. rewrite Ha. cbn. auto.
Qed.

Lemma elem_of_loud (t : list action) (a : action) : a ∈ t -> quiet a = false -> a ∈ loud t.
Proof.
  intros Hin Hq. apply list_elem_of_In. apply List.filter_In. split.
  - by apply list_elem_of_In.
  - rewrite Hq. reflexivity.
Qed.

Lemma loud_elem_of (t : list action) (a : action) : a ∈ loud t -> a ∈ t.
Proof. intros Hin. apply list_elem_of_In, List.filter_In in Hin as [Hin _]. by apply list_elem_of_In. Qed.

(** C10: in every run of [CDRMOutput::commitState], test or real, the trace
    added by the run is either free of engine calls, commit events and
    [onCommit] (the commit was rejected before the engine call), or it is
    log lines and kernel calls, then the engine call, then the commit event,
    then [onCommit], with nothing but the log lines and kernel calls of
    dropped FBs in between and after, and the run returns the engine's
    answer, accepted or rejected alike.  The only other runs are those that
    fault after the engine call, and there are none when the connector is
    ready for the commit to be applied and a committed mode has non-zero
    totals. *)
Theorem commit_event_follows_engine_call {K} (drv : Driver K) (onlyTest : bool)
    (w : World K) (r : outcome bool) (w' : World K) :
  CDRMOutput_commitState drv onlyTest w = (r, w') ->
  exists t,
    trace w' = trace w ++ t /\
    (forall d ok q, ImplCommit d ok q ∈ t ->
       exists t0 t1,
         forallb quiet t0 = true /\
         forallb quiet t1 = true /\
         SDRMConnectorCommitData.test d = onlyTest /\
         ((exists t2,
             forallb quiet t2 = true /\
             t = t0 ++ [ImplCommit d ok q] ++ t1 ++ [EventsCommitEmit; StateOnCommit] ++ t2 /\
             r = Ret ok) \/
          (t = t0 ++ [ImplCommit d ok q] ++ t1 /\ exists f, r = Fault f))) /\
    ((forall d ok q, ImplCommit d ok q ∉ t) -> (EventsCommitEmit ∉ t) /\ (StateOnCommit ∉ t)) /\
    (commit_ready w ->
     (forall d ok q, ImplCommit d ok q ∈ t ->
        bits_set (COutputState.committed (CDRMOutput.state (output w))) AQ_OUTPUT_STATE_MODE = true ->
        drmModeModeInfo.htotal (SDRMConnectorCommitData.modeInfo d) <> 0 /\
        drmModeModeInfo.vtotal (SDRMConnectorCommitData.modeInfo d) <> 0) ->
     forall d ok q, ImplCommit d ok q ∈ t ->
       loud t = [ImplCommit d ok q; EventsCommitEmit; StateOnCommit] /\
       r = Ret ok).
Proof.
  intros H. apply commitState_decompose in H.
  destruct H as [Hio|(w_e & d & Hio & Htest & _ & _ & _ & Hrun)].
  - destruct Hio as [_ _ _ _ _ (t & Ht & Hq)]. exists t. split; [exact Ht|].
    split; [|split].
    + intros d ok q Hd. exfalso. exact (quiet_not_elem t (ImplCommit d ok q) Hq eq_refl Hd).
    + intros _. split; apply quiet_not_elem; auto.
    + intros _ _ d ok q Hd. exfalso.
      exact (quiet_not_elem t (ImplCommit d ok q) Hq eq_refl Hd).
  - destruct (connector_commitState_run drv d w_e) as ((t1 & Htr & Hq1) & Hres & _).
    set (ok0 := fst (snd (impl_commit drv w_e d))) in *.
    set (q0 := snd (snd (impl_commit drv w_e d))) in *.
    destruct Hio as [Hs Hp Hpl Hcn Hout (t0 & Ht0 & Hq0)].
    destruct (SDRMConnector_commitState drv d w_e) as [[ok|f] w4] eqn:Ec;
      cbn [fst snd] in Htr, Hres; destruct Hrun as [-> Hrun].
    + destruct Hres as [Hres|[f Hres]]; [|discriminate].
      injection Hres as ->.
      match type of Hrun with
      | CDRMFB_release drv ?l ?m ?w0 = _ =>
        destruct (release_advance drv l m w0) as (k2 & t2 & E2 & Q2)
      end.
      rewrite E2 in Hrun. injection Hrun as <-.
      exists (t0 ++ [ImplCommit d ok0 q0] ++ t1 ++ [EventsCommitEmit; StateOnCommit] ++ t2).
      split.
      { unfold advance. cbn. rewrite Htr, Ht0, <- !app_assoc. cbn. reflexivity. }
      assert (Hloud : loud (t0 ++ [ImplCommit d ok0 q0] ++ t1
                              ++ [EventsCommitEmit; StateOnCommit] ++ t2)
                      = [ImplCommit d ok0 q0; EventsCommitEmit; StateOnCommit]).
      { rewrite !loud_app, (loud_quiet t0 Hq0), (loud_quiet t1 Hq1), (loud_quiet t2 Q2).
        reflexivity. }
      assert (Hd : forall d' ok' q',
                 ImplCommit d' ok' q' ∈ t0 ++ [ImplCommit d ok0 q0] ++ t1
                                        ++ [EventsCommitEmit; StateOnCommit] ++ t2
                 -> d' = d /\ ok' = ok0 /\ q' = q0).
      { intros d' ok' q' Hin. apply elem_of_loud in Hin; [|reflexivity].
        rewrite Hloud in Hin.
        apply elem_of_cons in Hin as [Heq|Hin]; [injection Heq; auto|].
        apply elem_of_cons in Hin as [Heq|Hin]; [discriminate|].
        apply elem_of_cons in Hin as [Heq|Hin]; [discriminate|].
        by apply elem_of_nil in Hin. }
      split; [|split].
      * intros d' ok' q' Hin. apply Hd in Hin as (-> & -> & ->). exists t0, t1.
        split; [exact Hq0|]. split; [exact Hq1|]. split; [exact Htest|].
        left. exists t2. split; [exact Q2|]. split; reflexivity.
      * intros Hno. exfalso. apply (Hno d ok0 q0).
        apply elem_of_app. right. apply elem_of_app. left. left.
      * intros _ _ d' ok' q' Hin. apply Hd in Hin as (-> & -> & ->).
        split; [exact Hloud|reflexivity].
    + subst w'. exists (t0 ++ [ImplCommit d ok0 q0] ++ t1).
      split; [rewrite Htr, Ht0, <- !app_assoc; reflexivity|].
      assert (Hd : forall d' ok' q', ImplCommit d' ok' q' ∈ t0 ++ [ImplCommit d ok0 q0] ++ t1
                                     -> d' = d /\ ok' = ok0 /\ q' = q0).
      { intros d' ok' q' Hin. apply elem_of_loud in Hin; [|reflexivity].
        rewrite !loud_app, (loud_quiet t0 Hq0), (loud_quiet t1 Hq1) in Hin. cbn in Hin.
        apply elem_of_cons in Hin as [Heq|Hin]; [injection Heq; auto|].
        by apply elem_of_nil in Hin. }
      split; [|split].
      * intros d' ok' q' Hin. apply Hd in Hin as (-> & -> & ->). exists t0, t1.
        split; [exact Hq0|]. split; [exact Hq1|]. split; [exact Htest|].
        right. split; [reflexivity|]. eauto.
      * intros Hno. exfalso. apply (Hno d ok0 q0).
        apply elem_of_app. right. apply elem_of_app. left. left.
      * intros (crtc & p & P & Hc & Hpr & HP & Hcur & Ho) Hmode d' ok' q' Hin.
        exfalso.
        pose proof (connector_commitState_returns drv d w_e crtc p P) as Hret.
        rewrite Hcn, Hpl, Hout in Hret. specialize (Hret Hc Hpr HP Hcur).
        rewrite Ec in Hret. cbn [fst] in Hret.
        assert (Hin' := Hin). apply Hd in Hin' as (-> & -> & ->).
        specialize (Hret Ho (Hmode d ok0 q0 Hin)). discriminate.
Qed.

Example commit_world0 :
  fst (CDRMOutput_commitState drv_accepts false world0) = Ret true /\
  List.filter (fun a => negb (quiet a)) (trace (snd (CDRMOutput_commitState drv_accepts false world0)))
  = [ImplCommit data_flip_fb42 true true; EventsCommitEmit; StateOnCommit] /\
  SDRMConnector.isPageFlipPending (connector (snd (CDRMOutput_commitState drv_accepts false world0)))
  = true.
Proof. split; [|split]; vm_compute; reflexivity. Qed.

Lemma commit_event_follows_engine_call_witness :
  loud (trace (snd (CDRMOutput_commitState drv_accepts false world0)))
  = [ImplCommit data_flip_fb42 true true; EventsCommitEmit; StateOnCommit].
Proof.
  destruct (commit_event_follows_engine_call drv_accepts false world0 _ _
              (surjective_pairing (CDRMOutput_commitState drv_accepts false world0)))
    as (t & Ht & _ & _ & H3).
  assert (Hin : ImplCommit data_flip_fb42 true true ∈ t).
  { cbn [trace world0 app] in Ht. rewrite <- Ht. vm_compute.
    repeat (first [left | right]). }
  assert (Hready : commit_ready world0).
  { exists crtc0, 0%nat, plane_primary. repeat split; try reflexivity.
    - injection H as <-. discriminate.
    - injection H as <-. exists plane_cursor. reflexivity. }
  destruct (H3 Hready (fun d ok q _ Hm => ltac:(discriminate Hm)) _ _ _ Hin) as [Hl _].
  rewrite Ht. exact Hl.
Defined.

(** *** C3: enabling an output without a mode *)

Lemma bits_set_lor_l x a b : bits_set x a = true -> bits_set x (Z.lor a b) = true.
Proof.
  unfold bits_set. rewrite !negb_true_iff, !Z.eqb_neq.
  intros H Hz. apply H. rewrite Z.land_lor_distr_r in Hz.
  apply Z.lor_eq_0_iff in Hz. tauto.
Qed.

Lemma bits_set_lor_r x a b : bits_set x b = true -> bits_set x (Z.lor a b) = true.
Proof.
  unfold bits_set. rewrite !negb_true_iff, !Z.eqb_neq.
  intros H Hz. apply H. rewrite Z.land_lor_distr_r in Hz.
  apply Z.lor_eq_0_iff in Hz. tauto.
Qed.

Lemma bits_set_lor_false x a b :
  bits_set x a = false -> bits_set x b = false -> bits_set x (Z.lor a b) = false.
Proof.
  unfold bits_set. rewrite !negb_false_iff, !Z.eqb_eq.
  intros Ha Hb. rewrite Z.land_lor_distr_r, Ha, Hb. reflexivity.
Qed.

(** C3 fails on the code: a non-test commit that enables the output with
    neither a mode nor a custom mode, and that passes the other checks
    (adaptive sync and immediate presentation are supported when asked for,
    a committed buffer is there), is not rejected.  The guard reads
    [!STATE.mode && STATE.customMode], which is false here; nothing is
    logged, and the run ends in the dereference of the null [MODE] for the
    modeset log line. *)
Theorem commitState_enable_without_mode_faults {K} (drv : Driver K) (w : World K) :
  let STATE := CDRMOutput.state (output w) in
  session_active w = true ->
  is_Some (SDRMConnector.crtc (connector w)) ->
  bits_set (COutputState.committed STATE) AQ_OUTPUT_STATE_ENABLED = true ->
  COutputState.enabled STATE = true ->
  COutputState.mode STATE = None ->
  COutputState.customMode STATE = None ->
  (COutputState.adaptiveSync STATE = true -> SDRMConnector.canDoVrr (connector w) = true) ->
  (COutputState.presentationMode STATE = AQ_OUTPUT_PRESENTATION_IMMEDIATE ->
   SDRMProps.supportsAsyncCommit (drmProps w) = true) ->
  (bits_set (COutputState.committed STATE) AQ_OUTPUT_STATE_BUFFER = true ->
   is_Some (COutputState.buffer STATE)) ->
  CDRMOutput_commitState drv false w = (Fault NullDeref, w).
Proof.
  intros STATE Hs [crtc Hc] He Hen Hm Hcm Has Hpm Hb. subst STATE.
  unfold CDRMOutput_commitState.
  unfold bind at 1. unfold get at 1. cbv beta iota zeta.
  rewrite Hs, Hc, He, Hen, Hm, Hcm. cbn [negb andb orb].
  rewrite (bool_decide_eq_false_2 (is_Some None)) by (intros [x Hx]; discriminate).
  cbn [negb andb orb].
  assert (E1 : COutputState.adaptiveSync (CDRMOutput.state (output w))
               && negb (SDRMConnector.canDoVrr (connector w)) = false).
  { destruct (COutputState.adaptiveSync _); [|reflexivity]. rewrite Has; reflexivity. }
  rewrite E1.
  assert (E2 : (if COutputState.presentationMode (CDRMOutput.state (output w))
                  is AQ_OUTPUT_PRESENTATION_IMMEDIATE then true else false)
               && negb (SDRMProps.supportsAsyncCommit (drmProps w)) = false).
  { destruct (COutputState.presentationMode _); [reflexivity|]. rewrite Hpm; reflexivity. }
  rewrite E2.
  assert (E3 : bits_set (COutputState.committed (CDRMOutput.state (output w)))
                 AQ_OUTPUT_STATE_BUFFER
               && negb (bool_decide (is_Some (COutputState.buffer (CDRMOutput.state (output w)))))
               = false).
  { destruct (bits_set _ AQ_OUTPUT_STATE_BUFFER); [|reflexivity].
    rewrite bool_decide_eq_true_2 by auto. reflexivity. }
  rewrite E3.
  unfold bind at 1. unfold commitState_flags.
  unfold needs_reconfig.
  rewrite (bits_set_lor_l _ _ AQ_OUTPUT_STATE_MODE)
    by (apply bits_set_lor_l; exact He).
  rewrite Hen. unfold COutputState.MODE. rewrite Hm, Hcm.
  reflexivity.
Qed.

Definition state_enable_no_mode : COutputState.t :=
  {| COutputState.committed := AQ_OUTPUT_STATE_ENABLED;
     COutputState.enabled := true;
     COutputState.adaptiveSync := false;
     COutputState.presentationMode := AQ_OUTPUT_PRESENTATION_VSYNC;
     COutputState.mode := None;
     COutputState.customMode := None;
     COutputState.buffer := None |}.

Definition world_enable_no_mode : World unit :=
  mkWorld true (SDRMProps.mk false false (64, 64)) [plane_primary; plane_cursor]
    {[ 0%nat := buf_scanout ]} conn0 (CDRMOutput.mk "HDMI-A-1" state_enable_no_mode) tt [].

Lemma commitState_enable_without_mode_faults_witness :
  CDRMOutput_commitState drv_accepts false world_enable_no_mode
  = (Fault NullDeref, world_enable_no_mode).
Proof.
  apply (commitState_enable_without_mode_faults drv_accepts world_enable_no_mode);
    try reflexivity; try discriminate.
  exists crtc0. reflexivity.
Defined.

(** The same slip the other way round: an enable commit that carries only a
    custom mode is rejected for having no mode. *)
Example commitState_rejects_custom_mode :
  let w := mkWorld true (SDRMProps.mk false false (64, 64)) [plane_primary; plane_cursor]
             {[ 0%nat := buf_scanout ]} conn0 (CDRMOutput.mk "HDMI-A-1" state_custom_1080p60)
             tt [] in
  CDRMOutput_commitState drv_accepts false w
  = (Ret false, set_trace [Log AQ_LOG_ERROR "drm: No mode on enable commit"] w).
Proof. vm_compute. reflexivity. Qed.

(** A test of the same state is not rejected either. *)
Example test_enable_without_mode_faults :
  CDRMOutput_commitState drv_accepts true world_enable_no_mode
  = (Fault NullDeref, world_enable_no_mode).
Proof. vm_compute. reflexivity. Qed.

(** *** C2: the page-flip gate *)

Definition world_inactive_pending : World unit :=
  mkWorld false (SDRMProps.mk false false (64, 64)) [plane_primary; plane_cursor]
    {[ 0%nat := buf_scanout ]} (set_isPageFlipPending true conn0)
    (CDRMOutput.mk "HDMI-A-1" state_flip) tt [].

(** C2, as stated, fails: a non-test, non-blocking commit made while a
    page-flip is pending and the session is inactive fails with "Session
    inactive", not with the page-flip error. *)
Lemma pending_commit_fails_with_other_error :
  SDRMConnector.isPageFlipPending (connector world_inactive_pending) = true /\
  bits_set (COutputState.committed state_flip) AQ_OUTPUT_STATE_BUFFER = true /\
  needs_reconfig (COutputState.committed state_flip) = false /\
  CDRMOutput_commitState drv_accepts false world_inactive_pending
  = (Ret false,
     set_trace [Log AQ_LOG_ERROR "drm: Session inactive"] world_inactive_pending) /\
  "drm: Session inactive" <> "drm: Cannot commit when a page-flip is awaiting".
Proof.
  split; [vm_compute; reflexivity|].
  split; [vm_compute; reflexivity|].
  split; [vm_compute; reflexivity|].
  split; [vm_compute; reflexivity|discriminate].
Qed.

(** The gate: a non-test, non-blocking commit on a connector with a pending
    page-flip is rejected with one error line and nothing else happens; the
    line is the page-flip error when the checks before the gate pass. *)
Lemma pageflip_gate {K} (drv : Driver K) (w : World K) :
  let STATE := CDRMOutput.state (output w) in
  bits_set (COutputState.committed STATE) AQ_OUTPUT_STATE_BUFFER = true ->
  bits_set (COutputState.committed STATE) AQ_OUTPUT_STATE_ENABLED = false ->
  bits_set (COutputState.committed STATE) AQ_OUTPUT_STATE_FORMAT = false ->
  bits_set (COutputState.committed STATE) AQ_OUTPUT_STATE_MODE = false ->
  SDRMConnector.isPageFlipPending (connector w) = true ->
  exists msg,
    CDRMOutput_commitState drv false w
    = (Ret false, set_trace (trace w ++ [Log AQ_LOG_ERROR msg]) w) /\
    (session_active w = true ->
     is_Some (SDRMConnector.crtc (connector w)) ->
     (COutputState.adaptiveSync STATE = true -> SDRMConnector.canDoVrr (connector w) = true) ->
     (COutputState.presentationMode STATE = AQ_OUTPUT_PRESENTATION_IMMEDIATE ->
      SDRMProps.supportsAsyncCommit (drmProps w) = true) ->
     is_Some (COutputState.buffer STATE) ->
     msg = "drm: Cannot commit when a page-flip is awaiting").
Proof.
  intros STATE Hb He Hf Hm Hp. subst STATE.
  assert (Hnr : needs_reconfig (COutputState.committed (CDRMOutput.state (output w))) = false).
  { unfold needs_reconfig. repeat apply bits_set_lor_false; assumption. }
  unfold CDRMOutput_commitState.
  unfold bind at 1. unfold get at 1. cbv beta iota zeta.
  destruct (session_active w) eqn:Es; cbn [negb].
  2:{ eexists. split; [reflexivity|]. intros; discriminate. }
  destruct (SDRMConnector.crtc (connector w)) as [crtc|] eqn:Ec.
  2:{ eexists. split; [reflexivity|]. intros _ [x Hx]; discriminate. }
  rewrite He. cbn [andb].
  destruct (COutputState.adaptiveSync _) eqn:Ea;
    destruct (SDRMConnector.canDoVrr (connector w)) eqn:Ev; cbn [andb negb].
  2:{ eexists. split; [reflexivity|]. intros _ _ Hv. specialize (Hv eq_refl). discriminate. }
  all: destruct (COutputState.presentationMode _) eqn:Epm;
    destruct (SDRMProps.supportsAsyncCommit (drmProps w)) eqn:Eas; cbn [andb negb];
    try (eexists; split; [reflexivity|]; intros _ _ _ Hv; specialize (Hv eq_refl); discriminate).
  all: rewrite Hb; cbn [andb];
    destruct (COutputState.buffer _) as [buf|] eqn:Ebuf;
    [rewrite bool_decide_eq_true_2 by eauto
    |rewrite bool_decide_eq_false_2 by (intros [x Hx]; discriminate)]; cbn [negb];
    try (eexists; split; [reflexivity|]; intros _ _ _ _ [x Hx]; discriminate).
  all: unfold bind at 1; unfold commitState_flags; rewrite Hnr;
    unfold is_blocking; rewrite Hnr, Hb; cbn [negb orb];
    unfold bind at 1; unfold ret at 1; cbv beta iota;
    unfold bind at 1; unfold get at 1; cbv beta iota; rewrite Hp; cbn [andb negb];
    eexists; (split; [reflexivity|]); intros; reflexivity.
Qed.

Lemma flips_queued_app (t1 t2 : list action) :
  flips_queued (t1 ++ t2) = (flips_queued t1 + flips_queued t2)%nat.
Proof.
  induction t1 as [|a t1 IH]; [reflexivity|].
  destruct a as [| |d ok []| | | | |]; cbn; rewrite IH; reflexivity.
Qed.

Lemma flips_queued_quiet (t : list action) : forallb quiet t = true -> flips_queued t = O.
Proof.
  induction t as [|a t IH]; [reflexivity|].
  cbn. intros H. apply andb_true_iff in H as [Ha Ht].
  destruct a; try discriminate; cbn; auto.
Qed.

Lemma skipn_trace_app (t0 t : list action) : skipn (length t0) (t0 ++ t) = t.
Proof. induction t0; cbn; auto. Qed.

Lemma handlePF_clears {K} seq tv_sec tv_usec crtc_id (w : World K) r w' :
  handlePF seq tv_sec tv_usec crtc_id (SDRMPageFlip.mk (Some this_connector)) w = (r, w') ->
  SDRMConnector.isPageFlipPending (connector w') = false /\
  SDRMConnector.pendingPageFlip (connector w') = SDRMConnector.pendingPageFlip (connector w).
Proof.
  unfold handlePF. cbn [SDRMPageFlip.connector]. munfold. cbn. intros H.
  repeat (case_hyp H; cbn in H); injection H as <- <-; cbn; auto.
Qed.

(** A commit keeps the invariant: the engine may queue a flip only for a
    commit that passed the gate, hence only when none is outstanding. *)
Lemma flip_step_inv {K} (drv : Driver K) (e : flip_event) (s s' : World K * nat) :
  engine_flip_contract drv ->
  flip_step drv e s = Some s' -> flip_inv s -> flip_inv s'.
Proof.
  intros Hcontract Hstep (Hn & Hpend & Hrec). destruct s as [w n]. cbn [fst snd] in *.
  destruct e as [STATE onlyTest|seq tv_sec tv_usec crtc_id]; cbn [flip_step] in Hstep.
  - set (w1 := set_state STATE w) in *.
    destruct (CDRMOutput_commitState drv onlyTest w1) as [[b|f] w2] eqn:Hrun; [|discriminate].
    injection Hstep as <-.
    apply commitState_decompose in Hrun.
    destruct Hrun as [Hio|(w_e & d & Hio & Htest & _ & _ & Hgate & Hrun)].
    + destruct Hio as [_ _ _ Hcn _ (t & Ht & Hq)].
      rewrite Ht, skipn_trace_app, (flips_queued_quiet t Hq), Nat.add_0_r.
      unfold flip_inv. cbn [fst snd]. rewrite Hcn. auto.
    + destruct (connector_commitState_run drv d w_e) as ((t1 & Htr & Hq1) & _ & Hp & Hr & _).
      destruct Hio as [_ _ _ Hcn _ (t0 & Ht0 & Hq0)].
      destruct (SDRMConnector_commitState drv d w_e) as [[ok|f] w4]; cbn [fst snd] in *;
        destruct Hrun as [Hb Hw]; [|discriminate].
      match type of Hw with
      | CDRMFB_release drv ?l ?m ?w0 = _ =>
        destruct (release_advance drv l m w0) as (k2 & t2 & E2 & Q2)
      end.
      rewrite E2 in Hw. injection Hw as <-.
      unfold advance. cbn [trace connector set_trace set_kernel set_state].
      replace ((trace w4 ++ [EventsCommitEmit; StateOnCommit]) ++ t2)
        with (trace w1 ++ t0 ++ [ImplCommit d (fst (snd (impl_commit drv w_e d)))
                                   (snd (snd (impl_commit drv w_e d)))]
                ++ t1 ++ [EventsCommitEmit; StateOnCommit] ++ t2)
        by (rewrite Htr, Ht0, <- !app_assoc; reflexivity).
      rewrite skipn_trace_app, !flips_queued_app,
        (flips_queued_quiet t0 Hq0), (flips_queued_quiet t1 Hq1), (flips_queued_quiet t2 Q2).
      unfold flip_inv. cbn [fst snd connector set_trace set_kernel set_state].
      rewrite Hp, Hr, Hcn.
      destruct (snd (snd (impl_commit drv w_e d))) eqn:Eq; cbn [flips_queued orb Nat.add].
      * destruct (Hcontract w_e d Eq) as (_ & Hbl & Ht).
        rewrite Ht in Htest. symmetry in Htest.
        specialize (Hgate Htest Hbl). cbn in Hgate.
        assert (n = O) by (destruct n as [|[|n]]; [reflexivity| |lia];
                           specialize (Hpend eq_refl); congruence).
        subst n. rewrite orb_true_r. repeat split; auto.
      * rewrite orb_false_r, !Nat.add_0_r. repeat split; auto.
  - destruct n as [|n']; [discriminate|].
    rewrite Hrec in Hstep.
    destruct (handlePF _ _ _ _ _ w) as [[[]|f] w2] eqn:Hrun; [|discriminate].
    injection Hstep as <-.
    apply handlePF_clears in Hrun as [Hc Hr].
    unfold flip_inv. cbn [fst snd]. rewrite Hr.
    repeat split; [lia| |exact Hrec]. intros ->. lia.
Qed.

Lemma flip_run_inv {K} (drv : Driver K) (es : list flip_event) :
  engine_flip_contract drv ->
  forall s s' : World K * nat, flip_run drv es s = Some s' -> flip_inv s -> flip_inv s'.
Proof.
  intros Hc. induction es as [|e es IH]; intros s s' Hrun Hinv; cbn in Hrun.
  - injection Hrun as <-. exact Hinv.
  - destruct (flip_step drv e s) as [s1|] eqn:Hs; [|discriminate].
    eapply IH; [exact Hrun|]. eapply flip_step_inv; eassumption.
Qed.

(** C2 (amended): for every connector and every non-test, non-blocking
    commit (BUFFER committed, none of ENABLED, FORMAT, MODE): if the
    connector's page-flip flag is set, the commit fails with exactly one
    error line and no engine call and no kernel call is made; the line is
    "Cannot commit when a page-flip is awaiting" when the checks that come
    first pass (session active, CRTC attached, adaptive sync and immediate
    presentation supported if requested, buffer present), and the error of
    the first failing check otherwise.  Hence, with an engine that queues a
    page-flip only for an accepted commit that is neither blocking nor a
    test, at most one page-flip is outstanding per connector across any
    sequence of commits and completions. *)
Theorem pageflip_gate_amended {K} (drv : Driver K) :
  (forall w : World K,
     let STATE := CDRMOutput.state (output w) in
     bits_set (COutputState.committed STATE) AQ_OUTPUT_STATE_BUFFER = true ->
     bits_set (COutputState.committed STATE) AQ_OUTPUT_STATE_ENABLED = false ->
     bits_set (COutputState.committed STATE) AQ_OUTPUT_STATE_FORMAT = false ->
     bits_set (COutputState.committed STATE) AQ_OUTPUT_STATE_MODE = false ->
     SDRMConnector.isPageFlipPending (connector w) = true ->
     exists msg,
       CDRMOutput_commitState drv false w
       = (Ret false, set_trace (trace w ++ [Log AQ_LOG_ERROR msg]) w) /\
       (session_active w = true ->
        is_Some (SDRMConnector.crtc (connector w)) ->
        (COutputState.adaptiveSync STATE = true -> SDRMConnector.canDoVrr (connector w) = true) ->
        (COutputState.presentationMode STATE = AQ_OUTPUT_PRESENTATION_IMMEDIATE ->
         SDRMProps.supportsAsyncCommit (drmProps w) = true) ->
        is_Some (COutputState.buffer STATE) ->
        msg = "drm: Cannot commit when a page-flip is awaiting")) /\
  (engine_flip_contract drv ->
   forall (es : list flip_event) (w : World K) (s' : World K * nat),
     SDRMConnector.pendingPageFlip (connector w) = SDRMPageFlip.mk (Some this_connector) ->
     flip_run drv es (w, O) = Some s' ->
     (snd s' <= 1)%nat /\
     (snd s' = 1%nat -> SDRMConnector.isPageFlipPending (connector (fst s')) = true)).
Proof.
  split.
  - intros w. apply pageflip_gate.
  - intros Hc es w s' Hrec Hrun.
    assert (Hinv : flip_inv (w, O)).
    { unfold flip_inv. cbn. repeat split; [lia|discriminate|exact Hrec]. }
    destruct (flip_run_inv drv es Hc _ _ Hrun Hinv) as (H1 & H2 & _). auto.
Qed.

Lemma engine_accepts_contract : engine_flip_contract drv_accepts.
Proof.
  intros w d. cbn. intros H. apply andb_true_iff in H as [Hb Ht].
  apply negb_true_iff in Hb, Ht. auto.
Qed.

Definition commits_and_completion : list flip_event :=
  [ConsumerCommits state_flip false; ConsumerCommits state_flip false;
   KernelCompletes 1 100 16666 51; ConsumerCommits state_flip false].

Lemma pageflip_gate_amended_witness :
  exists s',
    flip_run drv_accepts commits_and_completion (world0, O) = Some s' /\
    (snd s' <= 1)%nat.
Proof.
  destruct (flip_run drv_accepts commits_and_completion (world0, O)) as [s'|] eqn:Hrun.
  - exists s'. split; [reflexivity|].
    exact (proj1 (proj2 (pageflip_gate_amended drv_accepts) engine_accepts_contract
                    commits_and_completion world0 s' eq_refl Hrun)).
  - exfalso. vm_compute in Hrun. discriminate Hrun.
Defined.

(** Two commits of a buffer in a row: the first is accepted and leaves a
    flip pending, the second is rejected by the gate. *)
Example two_commits_in_a_row :
  let w1 := set_state state_flip (snd (CDRMOutput_commitState drv_accepts false world0)) in
  fst (CDRMOutput_commitState drv_accepts false world0) = Ret true /\
  SDRMConnector.isPageFlipPending (connector w1) = true /\
  CDRMOutput_commitState drv_accepts false w1
  = (Ret false,
     set_trace (trace w1 ++ [Log AQ_LOG_ERROR "drm: Cannot commit when a page-flip is awaiting"])
       w1).
Proof. split; [|split]; vm_compute; reflexivity. Qed.

(** *** C8: page-flip completions *)

Definition pf_log : action := Log AQ_LOG_TRACE "drm: pf event seq {} sec {} usec {} crtc {}".

(** The world once [handlePF] has cleared the page-flip flag and logged the
    event. *)
Definition pf_received {K} (w : World K) : World K :=
  set_trace (trace w ++ [pf_log])
    (set_connector (set_isPageFlipPending false (connector w)) w).

(** The present event [handlePF] builds. *)
Definition pf_present_event {K} (seq tv_sec tv_usec : Z) (w : World K) : SPresentEvent.t :=
  {| SPresentEvent.presented := session_active w;
     SPresentEvent.when := (tv_sec, to_uint32 (tv_usec * 1000));
     SPresentEvent.seq := seq;
     SPresentEvent.refresh :=
       to_int32 (if SDRMConnector.refresh (connector w) =? 0 then 0
                 else Z.quot 1000000000000 (SDRMConnector.refresh (connector w)));
     SPresentEvent.flags := 15 |}.

Definition world_slow_refresh : World unit :=
  mkWorld true (SDRMProps.mk false false (64, 64)) [plane_primary; plane_cursor]
    {[ 0%nat := buf_scanout ]} (set_refresh 1 (set_isPageFlipPending true conn0))
    (CDRMOutput.mk "HDMI-A-1" state_flip) tt [].

(** C8, as stated, fails: on a connected connector whose refresh is 1 mHz
    the present event carries the interval -727379968, the 32-bit
    truncation of 10^12, not 10^12 ns. *)
Lemma present_interval_is_narrowed :
  exists e,
    trace (snd (handlePF 1 100 16666 51 (SDRMPageFlip.mk (Some this_connector))
                  world_slow_refresh))
    = [pf_log; ConnectorOnPresent; EventsPresentEmit e; EventsFrameEmit] /\
    SDRMConnector.refresh (connector world_slow_refresh) = 1 /\
    SPresentEvent.refresh e = -727379968 /\
    SPresentEvent.refresh e <> 1000000000000 / 1.
Proof.
  eexists. split; [vm_compute; reflexivity|].
  split; [reflexivity|]. split; [reflexivity|]. vm_compute. discriminate.
Qed.

Lemma refresh_interval_exact (r : Z) :
  466 <= r < 2 ^ 31 ->
  to_int32 (if r =? 0 then 0 else Z.quot 1000000000000 r) = 1000000000000 / r.
Proof.
  intros Hr. destruct (Z.eqb_spec r 0) as [->|_]; [lia|].
  rewrite Z.quot_div_nonneg by lia.
  apply to_int32_id. unfold in_int32. split.
  - pose proof (Z.div_pos 1000000000000 r ltac:(lia) ltac:(lia)). lia.
  - apply Z.div_lt_upper_bound; lia.
Qed.

(** C8 (amended): a completion whose flip record has no connector does
    nothing.  Otherwise the page-flip flag is cleared and the event logged;
    then, if the connector is disconnected or has no CRTC, the event is
    dropped with a debug line and neither a present nor a frame event is
    emitted; else [onPresent] is called and a present event is emitted with
    presented = session active, the kernel's sequence and timestamp
    (seconds, microseconds times 1000 as nanoseconds), the refresh interval
    10^12 / refresh_mHz narrowed to a 32-bit int (exactly 10^12 / refresh_mHz
    from 466 mHz up, 0 when the refresh is 0) and the flags VSYNC | HW_CLOCK
    | HW_COMPLETION | ZEROCOPY, followed by a frame event when the session
    is active. *)
Theorem handlePF_amended {K} (seq tv_sec tv_usec crtc_id : Z) (w : World K) :
  let c := connector w in
  let e := pf_present_event seq tv_sec tv_usec w in
  handlePF seq tv_sec tv_usec crtc_id (SDRMPageFlip.mk None) w = (Ret tt, w) /\
  (SDRMConnector.status c <> DRM_MODE_CONNECTED \/ SDRMConnector.crtc c = None ->
   handlePF seq tv_sec tv_usec crtc_id (SDRMPageFlip.mk (Some this_connector)) w
   = (Ret tt,
      set_trace (trace w ++ [pf_log;
                             Log AQ_LOG_DEBUG "drm: Ignoring a pf event from a disabled crtc / connector"])
        (pf_received w))) /\
  (SDRMConnector.status c = DRM_MODE_CONNECTED ->
   is_Some (SDRMConnector.crtc c) ->
   SDRMConnector.output c = Some this_output ->
   handlePF seq tv_sec tv_usec crtc_id (SDRMPageFlip.mk (Some this_connector)) w
   = (Ret tt,
      set_trace (trace w ++ [pf_log; ConnectorOnPresent; EventsPresentEmit e]
                         ++ (if session_active w then [EventsFrameEmit] else []))
        (pf_received w))) /\
  SDRMConnector.isPageFlipPending (connector (pf_received w)) = false /\
  SPresentEvent.flags e
  = Z.lor (Z.lor (Z.lor AQ_OUTPUT_PRESENT_VSYNC AQ_OUTPUT_PRESENT_HW_CLOCK)
                 AQ_OUTPUT_PRESENT_HW_COMPLETION) AQ_OUTPUT_PRESENT_ZEROCOPY /\
  (SDRMConnector.refresh c = 0 -> SPresentEvent.refresh e = 0) /\
  (466 <= SDRMConnector.refresh c < 2 ^ 31 ->
   SPresentEvent.refresh e = 1000000000000 / SDRMConnector.refresh c) /\
  (0 <= tv_usec < 1000000 -> SPresentEvent.when e = (tv_sec, tv_usec * 1000)).
Proof.
  intros c e. subst c e.
  split; [reflexivity|]. split; [|split; [|split; [|split; [|split; [|split]]]]].
  - intros Hd. unfold handlePF. cbn [SDRMPageFlip.connector]. munfold. cbn.
    destruct Hd as [Hd|Hd].
    + rewrite bool_decide_eq_false_2 by exact Hd. cbn.
      unfold pf_received, pf_log. cbn. rewrite <- app_assoc. reflexivity.
    + rewrite Hd. rewrite (bool_decide_eq_false_2 (is_Some None)) by (intros [x Hx]; discriminate).
      rewrite orb_true_r. unfold pf_received, pf_log. cbn. rewrite <- app_assoc. reflexivity.
  - intros Hs [crtc Hc] Ho. unfold handlePF. cbn [SDRMPageFlip.connector]. munfold. cbn.
    rewrite Hs, Hc, Ho. rewrite !bool_decide_eq_true_2 by eauto. cbn.
    unfold pf_received, pf_log, pf_present_event. cbn.
    destruct (session_active w); cbn; rewrite <- !app_assoc; reflexivity.
  - reflexivity.
  - reflexivity.
  - intros Hr. cbn. rewrite Hr. reflexivity.
  - intros Hr. cbn. apply refresh_interval_exact. exact Hr.
  - intros Hu. cbn. unfold to_uint32. rewrite Z.mod_small by lia. reflexivity.
Qed.

Lemma handlePF_amended_witness :
  trace (snd (handlePF 1 100 16666 51 (SDRMPageFlip.mk (Some this_connector)) world0))
  = [pf_log; ConnectorOnPresent;
     EventsPresentEmit (SPresentEvent.mk true (100, 16666000) 1 16666666 15);
     EventsFrameEmit].
Proof.
  rewrite (proj1 (proj2 (proj2 (handlePF_amended 1 100 16666 51 world0)))
             eq_refl (ex_intro _ crtc0 eq_refl) eq_refl).
  reflexivity.
Defined.

(** *** Further properties of [CDRMOutput::commitState] *)

(** One of the checks that [commitState] makes before it looks at the kind
    of commit fails. *)
Definition precondition_fails {K} (w : World K) : Prop :=
  let STATE := CDRMOutput.state (output w) in
  session_active w = false \/
  SDRMConnector.crtc (connector w) = None \/
  (COutputState.adaptiveSync STATE = true /\ SDRMConnector.canDoVrr (connector w) = false) \/
  (COutputState.presentationMode STATE = AQ_OUTPUT_PRESENTATION_IMMEDIATE /\
   SDRMProps.supportsAsyncCommit (drmProps w) = false) \/
  (bits_set (COutputState.committed STATE) AQ_OUTPUT_STATE_BUFFER = true /\
   COutputState.buffer STATE = None).

Lemma precondition_rejects_run {K} (drv : Driver K) (onlyTest : bool) (w : World K) :
  precondition_fails w ->
  let STATE := CDRMOutput.state (output w) in
  let enable_guard :=
    bits_set (COutputState.committed STATE) AQ_OUTPUT_STATE_ENABLED
    && COutputState.enabled STATE
    && (negb (bool_decide (is_Some (COutputState.mode STATE)))
        && bool_decide (is_Some (COutputState.customMode STATE))) in
  exists msg,
    CDRMOutput_commitState drv onlyTest w
    = (Ret false, set_trace (trace w ++ [Log AQ_LOG_ERROR msg]) w) /\
    (session_active w = false -> msg = "drm: Session inactive") /\
    (session_active w = true -> SDRMConnector.crtc (connector w) = None ->
     msg = "drm: No CRTC attached to output") /\
    (session_active w = true -> is_Some (SDRMConnector.crtc (connector w)) ->
     enable_guard = false ->
     (COutputState.adaptiveSync STATE = true /\ SDRMConnector.canDoVrr (connector w) = false ->
      msg = "drm: No Adaptive sync support for output") /\
     (~ (COutputState.adaptiveSync STATE = true /\ SDRMConnector.canDoVrr (connector w) = false) ->
      (COutputState.presentationMode STATE = AQ_OUTPUT_PRESENTATION_IMMEDIATE /\
       SDRMProps.supportsAsyncCommit (drmProps w) = false ->
       msg = "drm: No Immediate presentation support in the backend") /\
      (~ (COutputState.presentationMode STATE = AQ_OUTPUT_PRESENTATION_IMMEDIATE /\
          SDRMProps.supportsAsyncCommit (drmProps w) = false) ->
       msg = "drm: No buffer committed"))).
Proof.
  intros Hfail STATE enable_guard. subst STATE enable_guard.
  unfold precondition_fails in Hfail. cbv zeta in Hfail.
  unfold CDRMOutput_commitState.
  unfold bind at 1. unfold get at 1. cbv beta iota zeta.
  destruct (session_active w) eqn:Es; cbn [negb].
  2:{ eexists. split; [reflexivity|]. repeat split; intros; try discriminate; reflexivity. }
  destruct (SDRMConnector.crtc (connector w)) as [crtc|] eqn:Ec.
  2:{ eexists. split; [reflexivity|].
      repeat split; intros; try discriminate; try reflexivity.
      all: match goal with H : is_Some None |- _ => destruct H; discriminate end. }
  match goal with
  | |- context [if ?g then _ else _] => destruct g eqn:Eg
  end.
  { eexists. split; [reflexivity|].
    split; [intros; discriminate|]. split; [intros; discriminate|].
    intros _ _ Hg. discriminate. }
  destruct (COutputState.adaptiveSync _) eqn:Ea;
    destruct (SDRMConnector.canDoVrr (connector w)) eqn:Ev; cbn [andb negb].
  2:{ eexists. split; [reflexivity|].
      split; [intros; discriminate|]. split; [intros; discriminate|].
      intros _ _ _. split; [reflexivity|]. intros Hn. exfalso. apply Hn. auto. }
  all: destruct (COutputState.presentationMode _) eqn:Epm;
    destruct (SDRMProps.supportsAsyncCommit (drmProps w)) eqn:Eas; cbn [andb negb].
  all: try (eexists; split; [reflexivity|];
            split; [intros; discriminate|]; split; [intros; discriminate|];
            intros _ _ _; split; [intros [? ?]; discriminate|];
            intros _; split; [reflexivity|]; intros Hn; exfalso; apply Hn; auto).
  all: destruct Hfail as [Hf|[Hf|[[Hf1 Hf2]|[[Hf1 Hf2]|[Hf1 Hf2]]]]]; try discriminate.
  all: rewrite Hf1, Hf2; cbn [andb];
    rewrite bool_decide_eq_false_2 by (intros [x Hx]; discriminate); cbn [negb];
    eexists; (split; [reflexivity|]);
    (split; [intros; discriminate|]); (split; [intros; discriminate|]);
    intros _ _ _; (split; [intros [? ?]; discriminate|]);
    intros _; (split; [intros [? ?]; discriminate|]); intros _; reflexivity.
Qed.

Lemma enable_guard_rejects {K} (drv : Driver K) (onlyTest : bool) (w : World K) :
  let STATE := CDRMOutput.state (output w) in
  session_active w = true ->
  is_Some (SDRMConnector.crtc (connector w)) ->
  bits_set (COutputState.committed STATE) AQ_OUTPUT_STATE_ENABLED
  && COutputState.enabled STATE
  && (negb (bool_decide (is_Some (COutputState.mode STATE)))
      && bool_decide (is_Some (COutputState.customMode STATE))) = true ->
  CDRMOutput_commitState drv onlyTest w
  = (Ret false, set_trace (trace w ++ [Log AQ_LOG_ERROR "drm: No mode on enable commit"]) w).
Proof.
  intros STATE Hs [crtc Hc] Hg. subst STATE.
  unfold CDRMOutput_commitState.
  unfold bind at 1. unfold get at 1. cbv beta iota zeta.
  rewrite Hs, Hc. cbn [negb]. rewrite Hg. reflexivity.
Qed.

(** A test or a commit whose preconditions fail returns [false] after one
    error line and changes nothing else: no kernel call, no engine call, no
    event.  The line names the first check that fails, in the order session,
    CRTC, mode on enable (the guard [!STATE.mode && STATE.customMode] of an
    enabling commit), adaptive sync, immediate presentation, buffer. *)
Theorem commit_precondition_rejects {K} (drv : Driver K) (onlyTest : bool) (w : World K) :
  precondition_fails w ->
  let STATE := CDRMOutput.state (output w) in
  let enable_guard :=
    bits_set (COutputState.committed STATE) AQ_OUTPUT_STATE_ENABLED
    && COutputState.enabled STATE
    && (negb (bool_decide (is_Some (COutputState.mode STATE)))
        && bool_decide (is_Some (COutputState.customMode STATE))) in
  exists msg,
    CDRMOutput_commitState drv onlyTest w
    = (Ret false, set_trace (trace w ++ [Log AQ_LOG_ERROR msg]) w) /\
    (session_active w = false -> msg = "drm: Session inactive") /\
    (session_active w = true -> SDRMConnector.crtc (connector w) = None ->
     msg = "drm: No CRTC attached to output") /\
    (session_active w = true -> is_Some (SDRMConnector.crtc (connector w)) ->
     enable_guard = true -> msg = "drm: No mode on enable commit") /\
    (session_active w = true -> is_Some (SDRMConnector.crtc (connector w)) ->
     enable_guard = false ->
     (COutputState.adaptiveSync STATE = true /\ SDRMConnector.canDoVrr (connector w) = false ->
      msg = "drm: No Adaptive sync support for output") /\
     (~ (COutputState.adaptiveSync STATE = true /\ SDRMConnector.canDoVrr (connector w) = false) ->
      (COutputState.presentationMode STATE = AQ_OUTPUT_PRESENTATION_IMMEDIATE /\
       SDRMProps.supportsAsyncCommit (drmProps w) = false ->
       msg = "drm: No Immediate presentation support in the backend") /\
      (~ (COutputState.presentationMode STATE = AQ_OUTPUT_PRESENTATION_IMMEDIATE /\
          SDRMProps.supportsAsyncCommit (drmProps w) = false) ->
       msg = "drm: No buffer committed"))).
Proof.
  intros Hfail STATE enable_guard.
  destruct (precondition_rejects_run drv onlyTest w Hfail) as (msg & Hrun & H1 & H2 & H3).
  exists msg. split; [exact Hrun|]. split; [exact H1|]. split; [exact H2|].
  split; [|exact H3].
  intros Hs Hc Hg.
  rewrite (enable_guard_rejects drv onlyTest w Hs Hc Hg) in Hrun.
  injection Hrun as Hrun.
  apply app_inv_head in Hrun. injection Hrun as Hrun. symmetry. exact Hrun.
Qed.

Lemma commit_precondition_rejects_witness :
  exists msg,
    CDRMOutput_commitState drv_accepts true world_inactive_pending
    = (Ret false,
       set_trace (trace world_inactive_pending ++ [Log AQ_LOG_ERROR msg]) world_inactive_pending) /\
    msg = "drm: Session inactive".
Proof.
  destruct (commit_precondition_rejects drv_accepts true world_inactive_pending
              (or_introl eq_refl)) as (msg & Hrun & Hmsg & _).
  exists msg. split; [exact Hrun|]. apply Hmsg. reflexivity.
Defined.

(** *** Further properties of the framebuffer import *)

(** A committed buffer that the CRTC's primary plane already scans out, or
    did before, is not imported again: the back FB is taken if it wraps the
    buffer, else the front FB if it does, and the kernel is not called.
    Only a buffer that neither wraps is handed to [CDRMFB::create]. *)
Theorem findFB_reuses_plane_fb {K} (drv : Driver K) (crtc : SDRMCRTC.t) (buf : nat)
    (w : World K) (p : nat) (plane : SDRMPlane.t) :
  SDRMCRTC.primary crtc = Some p ->
  planes w !! p = Some plane ->
  let r := commitState_findFB drv crtc buf w in
  let w0 := set_trace (trace w ++ [Log AQ_LOG_TRACE "drm: Committed a buffer, updating state"]) w in
  (wraps (SDRMPlane.back plane) buf = true ->
     fst r = Ret (SDRMPlane.back plane) /\
     (exists fb, SDRMPlane.back plane = Some fb /\ CDRMFB.buffer fb = buf) /\
     kernel_calls (trace (snd r)) = kernel_calls (trace w) /\
     kernel (snd r) = kernel w /\ buffers (snd r) = buffers w) /\
  (wraps (SDRMPlane.back plane) buf = false -> wraps (SDRMPlane.front plane) buf = true ->
     fst r = Ret (SDRMPlane.front plane) /\
     (exists fb, SDRMPlane.front plane = Some fb /\ CDRMFB.buffer fb = buf) /\
     kernel_calls (trace (snd r)) = kernel_calls (trace w) /\
     kernel (snd r) = kernel w /\ buffers (snd r) = buffers w) /\
  (wraps (SDRMPlane.back plane) buf = false -> wraps (SDRMPlane.front plane) buf = false ->
     r = CDRMFB_create drv buf w0).
Proof.
  intros Hp Hpl r w0. subst r w0.
  assert (Hw : forall o, wraps o buf = true -> exists fb, o = Some fb /\ CDRMFB.buffer fb = buf).
  { intros [fb|] H; [|discriminate]. exists fb. split; [reflexivity|].
    cbn in H. by apply bool_decide_eq_true in H. }
  unfold commitState_findFB. munfold. cbn. rewrite Hp. cbn. rewrite Hpl. cbn.
  split; [|split].
  - intros Hb. rewrite Hb. destruct (Hw _ Hb) as (fb & Hfb & Hbuf). rewrite Hfb. cbn.
    rewrite !kernel_calls_app. cbn. rewrite !app_nil_r.
    split; [reflexivity|]. split; [exists fb; split; [reflexivity|exact Hbuf]|].
    split; [reflexivity|]. split; reflexivity.
  - intros Hb Hf. rewrite Hb, Hf. destruct (Hw _ Hf) as (fb & Hfb & Hbuf). rewrite Hfb. cbn.
    rewrite !kernel_calls_app. cbn. rewrite !app_nil_r.
    split; [reflexivity|]. split; [exists fb; split; [reflexivity|exact Hbuf]|].
    split; [reflexivity|]. split; reflexivity.
  - intros Hb Hf. rewrite Hb, Hf. cbn. reflexivity.
Qed.

Definition world_front_fb42 : World unit :=
  mkWorld true (SDRMProps.mk false false (64, 64))
    [SDRMPlane.mk 31 31 DRM_PLANE_TYPE_PRIMARY [] (Some fb42) None; plane_cursor]
    {[ 0%nat := buf_scanout ]} conn0 (CDRMOutput.mk "HDMI-A-1" state_flip) tt [].

Lemma findFB_reuses_plane_fb_witness :
  fst (commitState_findFB drv_accepts crtc0 0 world_front_fb42) = Ret (Some fb42) /\
  kernel_calls (trace (snd (commitState_findFB drv_accepts crtc0 0 world_front_fb42))) = [].
Proof.
  destruct (proj1 (proj2 (findFB_reuses_plane_fb drv_accepts crtc0 0%nat world_front_fb42 0%nat
                            (SDRMPlane.mk 31 31 DRM_PLANE_TYPE_PRIMARY [] (Some fb42) None)
                            eq_refl eq_refl)) eq_refl eq_refl) as (H1 & _ & H2 & _).
  split; [exact H1|exact H2].
Defined.

(** [submitBuffer] makes at most one kernel call, an AddFB call.  With
    modifiers supported and a modifier other than INVALID it is
    [drmModeAddFB2WithModifiers], carrying the modifier once per plane; a
    buffer with an explicit non-linear modifier on a device without
    modifier support is refused without any kernel call; otherwise it is
    [drmModeAddFB2].  The result is the id the kernel wrote when the kernel
    accepted, and 0 in every other case. *)
Theorem submitBuffer_policy {K} (drv : Driver K) (fb : CDRMFB.t) (w : World K) (buf : IBuffer.t) :
  buffers w !! CDRMFB.buffer fb = Some buf ->
  let attrs := IBuffer.dmabuf buf in
  0 <= SDMABUFAttrs.planes attrs <= 4 ->
  let m := SDMABUFAttrs.modifier attrs in
  let with_mods :=
    SDRMProps.supportsAddFb2Modifiers (drmProps w) && negb (m =? DRM_FORMAT_MOD_INVALID) in
  let refused := negb with_mods && negb (m =? DRM_FORMAT_MOD_INVALID)
                 && negb (m =? DRM_FORMAT_MOD_LINEAR) in
  let call :=
    if with_mods then
      drmModeAddFB2WithModifiers (fst (SDMABUFAttrs.size attrs)) (snd (SDMABUFAttrs.size attrs))
        (SDMABUFAttrs.format attrs) (CDRMFB.boHandles fb) (SDMABUFAttrs.strides attrs)
        (SDMABUFAttrs.offsets attrs)
        (replicate (Z.to_nat (SDMABUFAttrs.planes attrs)) m
         ++ replicate (4 - Z.to_nat (SDMABUFAttrs.planes attrs)) 0)
        DRM_MODE_FB_MODIFIERS
    else
      drmModeAddFB2 (fst (SDMABUFAttrs.size attrs)) (snd (SDMABUFAttrs.size attrs))
        (SDMABUFAttrs.format attrs) (CDRMFB.boHandles fb) (SDMABUFAttrs.strides attrs)
        (SDMABUFAttrs.offsets attrs) 0 in
  let r := CDRMFB_submitBuffer drv fb w in
  (refused = true ->
     fst r = Ret 0 /\ kernel_calls (trace (snd r)) = kernel_calls (trace w) /\
     kernel (snd r) = kernel w) /\
  (refused = false ->
     kernel_calls (trace (snd r)) = kernel_calls (trace w) ++ [call] /\
     kernel (snd r) = fst (sys drv (kernel w) call) /\
     fst r = Ret (if fst (snd (sys drv (kernel w) call)) =? 0
                  then snd (snd (sys drv (kernel w) call)) else 0)).
Proof.
  intros Hb attrs Hpl m with_mods refused call r.
  subst r call refused with_mods m attrs.
  unfold CDRMFB_submitBuffer, submitBuffer_mods. munfold. rewrite Hb. cbn.
  destruct (Z.ltb_spec (SDMABUFAttrs.planes (IBuffer.dmabuf buf)) 0); [lia|].
  destruct (Z.ltb_spec 4 (SDMABUFAttrs.planes (IBuffer.dmabuf buf))); [lia|].
  cbn.
  destruct (SDRMProps.supportsAddFb2Modifiers (drmProps w));
    destruct (SDMABUFAttrs.modifier (IBuffer.dmabuf buf) =? DRM_FORMAT_MOD_INVALID) eqn:Ei;
    destruct (SDMABUFAttrs.modifier (IBuffer.dmabuf buf) =? DRM_FORMAT_MOD_LINEAR) eqn:El;
    cbn; (split; [intros Hr; try discriminate|intros Hr; try discriminate]).
  all: try (rewrite !kernel_calls_app; cbn; rewrite !app_nil_r; auto).
  all: match goal with
       | |- context [sys ?d ?k ?c] =>
         destruct (sys d k c) as [k1 [r1 o1]] eqn:Es
       end; cbn; destruct (r1 =? 0); cbn;
       rewrite !kernel_calls_app; cbn; rewrite ?app_nil_r; auto.
Qed.

Definition buf_tiled : IBuffer.t :=
  {| IBuffer.dmabuf :=
       {| SDMABUFAttrs.success := true;
          SDMABUFAttrs.size := (1920, 1080);
          SDMABUFAttrs.format := DRM_FORMAT_XRGB8888;
          SDMABUFAttrs.modifier := 0x0100000000000001;
          SDMABUFAttrs.planes := 1;
          SDMABUFAttrs.offsets := [0; 0; 0; 0];
          SDMABUFAttrs.strides := [7680; 0; 0; 0];
          SDMABUFAttrs.fds := [11; -1; -1; -1] |};
     IBuffer.attachments := [] |}.

Definition world_tiled : World unit :=
  mkWorld true (SDRMProps.mk false false (64, 64)) [plane_primary; plane_cursor]
    {[ 0%nat := buf_tiled ]} conn0 (CDRMOutput.mk "HDMI-A-1" state_flip) tt [].

Lemma submitBuffer_policy_witness :
  fst (CDRMFB_submitBuffer drv_accepts (CDRMFB.mk 0 0 [7; 0; 0; 0] false false) world_tiled) = Ret 0 /\
  kernel_calls
    (trace (snd (CDRMFB_submitBuffer drv_accepts (CDRMFB.mk 0 0 [7; 0; 0; 0] false false)
                   world_tiled))) = [].
Proof.
  destruct (proj1 (submitBuffer_policy drv_accepts (CDRMFB.mk 0 0 [7; 0; 0; 0] false false)
                     world_tiled buf_tiled eq_refl ltac:(cbn; lia)) eq_refl) as (H1 & H2 & _).
  split; [exact H1|exact H2].
Defined.

Lemma primeHandles_calls {K} (drv : Driver K) attrs n :
  forall i fb (w : World K) fb' w',
    0 <= i ->
    CDRMFB_primeHandles drv attrs n i fb w = (Ret (true, fb'), w') ->
    kernel_calls (trace w')
    = kernel_calls (trace w)
      ++ map drmPrimeFDToHandle (take n (drop (Z.to_nat i) (SDMABUFAttrs.fds attrs))) /\
    length (take n (drop (Z.to_nat i) (SDMABUFAttrs.fds attrs))) = n.
Proof.
  induction n as [|n IH]; intros i fb w fb' w' Hi H; cbn [CDRMFB_primeHandles] in H.
  - munfold. injection H as <- <-. cbn. rewrite app_nil_r. auto.
  - unfold bind at 1 in H. unfold array_at at 1 in H.
    destruct (Z.ltb_spec i 0); [lia|].
    destruct (SDMABUFAttrs.fds attrs !! Z.to_nat i) as [fd|] eqn:Efd;
      [|unfold raise in H; discriminate].
    unfold ret at 1 in H. cbv beta iota in H.
    unfold bind at 1 in H.
    destruct (array_at (CDRMFB.boHandles fb) i w) as [[h|f] w1] eqn:E2; [|discriminate].
    apply array_at_inv in E2. subst w1.
    unfold bind at 1 in H. unfold syscall at 1 in H.
    destruct (sys drv (kernel w) (drmPrimeFDToHandle fd)) as [k1 [r1 o1]] eqn:Es.
    cbn [fst snd] in H.
    destruct (negb (r1 =? 0)).
    + unfold bind at 1 in H. unfold log, emit, modify in H. cbn in H.
      unfold bind in H. destruct (CDRMFB_drop drv fb _) as [[?|?] ?]; unfold ret in H; discriminate.
    + unfold bind at 1 in H. unfold log, emit, modify in H. cbn [fst snd] in H.
      apply IH in H; [|lia]. destruct H as [H Hlen].
      cbn [trace set_trace set_kernel] in H.
      rewrite !kernel_calls_app in H. cbn in H. rewrite app_nil_r in H.
      replace (Z.to_nat (i + 1)) with (S (Z.to_nat i)) in H, Hlen by lia.
      rewrite (drop_S _ _ _ Efd). cbn [take map length].
      rewrite H, <- app_assoc. cbn. split; [reflexivity|]. rewrite Hlen. reflexivity.
Qed.

Lemma submitBuffer_accepted {K} (drv : Driver K) fb (w : World K) newID w' :
  CDRMFB_submitBuffer drv fb w = (Ret newID, w') ->
  newID <> 0 ->
  exists c,
    kernel_calls (trace w') = kernel_calls (trace w) ++ [c] /\
    addfb_handles c = Some (CDRMFB.boHandles fb) /\
    sys drv (kernel w) c = (kernel w', (0, newID)).
Proof.
  unfold CDRMFB_submitBuffer, submitBuffer_mods. munfold. intros H Hne.
  repeat (case_hyp H; cbn in H); try discriminate; injection H as <- <-; try congruence.
  all: eexists; cbn; rewrite !kernel_calls_app; cbn; rewrite ?app_nil_r;
    (split; [reflexivity|]); (split; [reflexivity|]).
  all: match goal with
       | E : sys _ _ _ = (_, ?p), E0 : negb (fst ?p =? 0) = false |- _ =>
         rewrite E; apply negb_false_iff, Z.eqb_eq in E0; destruct p as [r o];
         cbn in E0 |- *; subst; reflexivity
       end.
Qed.

(** An import that yields an FB asked the kernel for one handle per plane,
    in plane order, then made exactly one AddFB call, with the handles it
    got; the FB carries the id the kernel wrote, which is not 0, and the
    buffer store -- the tags included -- is as before. *)
Theorem create_imports_each_plane_once {K} (drv : Driver K) (b : nat) (w : World K)
    (fb : CDRMFB.t) (w' : World K) :
  CDRMFB_create drv b w = (Ret (Some fb), w') ->
  exists buf addfb k,
    buffers w !! b = Some buf /\
    SDMABUFAttrs.success (IBuffer.dmabuf buf) = true /\
    IBuffer.has AQ_ATTACHMENT_DRM_KMS_UNIMPORTABLE buf = false /\
    kernel_calls (trace w')
    = kernel_calls (trace w)
      ++ map drmPrimeFDToHandle
           (take (Z.to_nat (SDMABUFAttrs.planes (IBuffer.dmabuf buf)))
                 (SDMABUFAttrs.fds (IBuffer.dmabuf buf)))
      ++ [addfb] /\
    addfb_handles addfb = Some (CDRMFB.boHandles fb) /\
    sys drv k addfb = (kernel w', (0, CDRMFB.id fb)) /\
    CDRMFB.id fb <> 0 /\
    CDRMFB.dropped fb = false /\
    CDRMFB.buffer fb = b /\
    buffers w' = buffers w.
Proof.
  intros H. pose proof (create_some drv b w fb w' H) as (Hid & Hdr & Hbuf).
  unfold CDRMFB_create in H. unfold bind at 1 in H.
  destruct (CDRMFB_new drv b w) as [[fb0|f] w1] eqn:Hn; [|discriminate].
  destruct (Z.eqb_spec (CDRMFB.id fb0) 0) as [Hz|Hnz].
  { unfold bind in H. destruct (CDRMFB_drop drv fb0 w1) as [[?|?] ?]; munfold; discriminate. }
  unfold ret in H. injection H as -> ->.
  destruct (buffers w !! b) as [buf|] eqn:Hb;
    [|unfold CDRMFB_new in Hn; munfold; rewrite Hb in Hn; discriminate].
  destruct (SDMABUFAttrs.success (IBuffer.dmabuf buf)) eqn:Hs;
    [|unfold CDRMFB_new in Hn; munfold; rewrite Hb in Hn; cbn in Hn; rewrite Hs in Hn;
      cbn in Hn; injection Hn as <- <-; cbn in Hnz; congruence].
  destruct (IBuffer.has AQ_ATTACHMENT_DRM_KMS_UNIMPORTABLE buf) eqn:Ht;
    [unfold CDRMFB_new in Hn; munfold; rewrite Hb in Hn; cbn in Hn; rewrite Hs, Ht in Hn;
     cbn in Hn; injection Hn as <- <-; cbn in Hnz; congruence|].
  rewrite (new_unfold drv b w buf Hb Hs Ht) in Hn.
  destruct (CDRMFB_primeHandles _ _ _ _ _ w) as [[[ok fb1]|f] w2] eqn:Hp; [|discriminate].
  pose proof (primeHandles_spec drv _ _ 0 (CDRMFB.mk 0 b [0; 0; 0; 0] false false) w (ok, fb1) w2
                eq_refl eq_refl Hp) as (Hid1 & _ & _ & Hb1).
  cbn [fst snd] in Hn, Hid1.
  destruct ok; cbn [negb] in Hn; [|injection Hn as <- <-; congruence].
  apply primeHandles_calls in Hp; [|lia]. destruct Hp as [Hcalls _].
  destruct (CDRMFB_submitBuffer drv fb1 w2) as [[newID|f] w3] eqn:Hsub; [|discriminate].
  pose proof (submitBuffer_buffers drv _ _ _ _ Hsub) as Hb2.
  destruct (Z.eqb_spec newID 0) as [->|Hne].
  { rewrite drop_zero_id in Hn by reflexivity. injection Hn as <- <-.
    destruct (CDRMFB.dropped _); cbn in Hnz; congruence. }
  injection Hn as <- <-.
  destruct (submitBuffer_accepted drv fb1 w2 newID w3 Hsub Hne) as (c & Hc1 & Hc2 & Hc3).
  exists buf, c, (kernel w2).
  cbn [trace set_trace kernel CDRMFB.id set_id CDRMFB.boHandles buffers] in *.
  rewrite kernel_calls_app. cbn. rewrite app_nil_r, Hc1, Hcalls.
  change (drop (Z.to_nat 0) (SDMABUFAttrs.fds (IBuffer.dmabuf buf)))
    with (SDMABUFAttrs.fds (IBuffer.dmabuf buf)).
  rewrite <- app_assoc.
  repeat split; auto; congruence.
Qed.

Lemma create_imports_each_plane_once_witness :
  exists buf addfb k,
    buffers world0 !! 0%nat = Some buf /\
    kernel_calls (trace (snd (CDRMFB_create drv_accepts 0 world0)))
    = kernel_calls (trace world0)
      ++ map drmPrimeFDToHandle
           (take (Z.to_nat (SDMABUFAttrs.planes (IBuffer.dmabuf buf)))
                 (SDMABUFAttrs.fds (IBuffer.dmabuf buf)))
      ++ [addfb] /\
    addfb_handles addfb = Some [7; 0; 0; 0] /\
    sys drv_accepts k addfb = (tt, (0, 42)).
Proof.
  assert (Hrun : CDRMFB_create drv_accepts 0 world0
                 = (Ret (Some fb42), snd (CDRMFB_create drv_accepts 0 world0))).
  { vm_compute. reflexivity. }
  destruct (create_imports_each_plane_once drv_accepts 0%nat world0 fb42 _ Hrun)
    as (buf & addfb & k & H1 & _ & _ & H2 & H3 & H4 & _).
  exists buf, addfb, k. split; [exact H1|]. split; [exact H2|]. split; [exact H3|].
  destruct (kernel (snd (CDRMFB_create drv_accepts 0 world0))). exact H4.
Defined.

(** *** What a commit does to the planes and the connector *)

Lemma findFB_wraps {K} (drv : Driver K) crtc buf (w : World K) fb w' :
  commitState_findFB drv crtc buf w = (Ret (Some fb), w') -> CDRMFB.buffer fb = buf.
Proof.
  unfold commitState_findFB. intros H.
  unfold bind at 1 in H. unfold log, emit, modify in H. cbv beta iota in H.
  unfold bind at 1 in H. unfold get at 1 in H. cbv beta iota in H.
  unfold bind at 1 in H.
  destruct (SDRMCRTC.primary crtc) as [p|]; [|discriminate].
  unfold deref at 1, ret at 1 in H. cbv beta iota in H.
  unfold bind at 1 in H. cbn [planes set_trace] in H.
  destruct (planes w !! p) as [plane|]; [|discriminate].
  unfold deref at 1, ret at 1 in H. cbv beta iota in H.
  unfold bind at 1 in H.
  assert (Hw : forall o f, wraps o buf = true -> o = Some f -> CDRMFB.buffer f = buf).
  { intros o f Hwr ->. cbn in Hwr. by apply bool_decide_eq_true in Hwr. }
  destruct (wraps (SDRMPlane.back plane) buf) eqn:Eb.
  - unfold bind, log, emit, modify, ret in H. cbn in H.
    destruct (SDRMPlane.back plane) as [f|] eqn:Ef; [|discriminate].
    injection H as <- <-. eapply Hw; eauto.
  - destruct (wraps (SDRMPlane.front plane) buf) eqn:Efr.
    + unfold bind, log, emit, modify, ret in H. cbn in H.
      destruct (SDRMPlane.front plane) as [f|] eqn:Ef; [|discriminate].
      injection H as <- <-. eapply Hw; eauto.
    + unfold ret at 1 in H. cbv beta iota in H.
      apply create_some in H. tauto.
Qed.

Lemma flags_value {K} onlyTest nr bl STATE (w : World K) flags w1 :
  commitState_flags onlyTest nr bl STATE w = (Ret (Some flags), w1) ->
  flags = (if onlyTest then 0
           else Z.lor (if COutputState.enabled STATE then DRM_MODE_PAGE_FLIP_EVENT else 0)
                      (if COutputState.presentationMode STATE is AQ_OUTPUT_PRESENTATION_IMMEDIATE
                       then DRM_MODE_PAGE_FLIP_ASYNC else 0)).
Proof.
  unfold commitState_flags. munfold. intros H.
  destruct onlyTest; [injection H as <- <-; reflexivity|].
  repeat (case_hyp H; cbn in H); try discriminate; injection H as <- <-; reflexivity.
Qed.

(** Every run of [CDRMOutput::commitState]: either it ends before the engine
    call, with [false] or a fault, after log lines and kernel calls only; or
    it reaches [connector->commitState(data)] with the data the output state
    determines, and then ends with the commit event and [onCommit]. *)
(** Where the FB of a commit comes from: a slot of the primary plane, or a
    fresh import, which is live. *)
Lemma findFB_provenance {K} (drv : Driver K) crtc buf (w : World K) fb w' :
  commitState_findFB drv crtc buf w = (Ret (Some fb), w') ->
  Some fb ∈ fb_holders w \/ (CDRMFB.id fb <> 0 /\ CDRMFB.dropped fb = false).
Proof.
  unfold commitState_findFB. intros H.
  unfold bind at 1 in H. unfold log, emit, modify in H. cbv beta iota in H.
  unfold bind at 1 in H. unfold get at 1 in H. cbv beta iota in H.
  unfold bind at 1 in H.
  destruct (SDRMCRTC.primary crtc) as [p|]; [|discriminate].
  unfold deref at 1, ret at 1 in H. cbv beta iota in H.
  unfold bind at 1 in H. cbn [planes set_trace] in H.
  destruct (planes w !! p) as [plane|] eqn:Ep; [|discriminate].
  unfold deref at 1, ret at 1 in H. cbv beta iota in H.
  unfold bind at 1 in H.
  destruct (holders_lookup w p plane Ep) as [Hf Hb].
  destruct (wraps (SDRMPlane.back plane) buf) eqn:Eb.
  - unfold bind, log, emit, modify, ret in H. cbn in H.
    destruct (SDRMPlane.back plane) as [f|] eqn:Ef; [|discriminate].
    injection H as <- <-. left. exact Hb.
  - destruct (wraps (SDRMPlane.front plane) buf) eqn:Efr.
    + unfold bind, log, emit, modify, ret in H. cbn in H.
      destruct (SDRMPlane.front plane) as [f|] eqn:Ef; [|discriminate].
      injection H as <- <-. left. exact Hf.
    + unfold ret at 1 in H. cbv beta iota in H.
      apply create_some in H. right. tauto.
Qed.

Lemma commitState_cases {K} (drv : Driver K) onlyTest (w : World K) r w' :
  CDRMOutput_commitState drv onlyTest w = (r, w') ->
  (io_only w w' /\ (r = Ret false \/ exists f, r = Fault f)) \/
  exists (w_e : World K) (d : SDRMConnectorCommitData.t),
    io_only w w_e /\
    commit_data_of drv onlyTest (CDRMOutput.state (output w)) d /\
    session_active w = true /\
    is_Some (SDRMConnector.crtc (connector w)) /\
    (forall fb, SDRMConnectorCommitData.mainFB d = Some fb ->
       Some fb ∈ fb_holders w \/ (CDRMFB.id fb <> 0 /\ CDRMFB.dropped fb = false)) /\
    match SDRMConnector_commitState drv d w_e with
    | (Ret ok, w4) =>
      r = Ret ok /\
      CDRMFB_release drv [] (SDRMConnectorCommitData.mainFB d)
        (set_state (state_onCommit drv (CDRMOutput.state (output w4)))
           (set_trace (trace w4 ++ [EventsCommitEmit; StateOnCommit]) w4))
      = (Ret tt, w')
    | (Fault f, w4) => r = Fault f /\ w' = w4
    end.
Proof.
  intros H. unfold CDRMOutput_commitState in H.
  unfold bind at 1 in H. unfold get at 1 in H. cbv beta iota in H.
  destruct (session_active w) eqn:Es; cbn [negb] in H.
  2:{ left. unfold bind, log, emit, modify, ret in H. cbn in H. injection H as <- <-.
      split; [apply (io_log AQ_LOG_ERROR _ w)|auto]. }
  destruct (SDRMConnector.crtc (connector w)) as [crtc|] eqn:Ecrtc.
  2:{ left. unfold bind, log, emit, modify, ret in H. cbn in H. injection H as <- <-.
      split; [apply (io_log AQ_LOG_ERROR _ w)|auto]. }
  cbv zeta in H.
  do 4 (match type of H with (if ?c then _ else _) _ = _ => destruct c end;
        [left; unfold bind, log, emit, modify, ret in H; cbn in H; injection H as <- <-;
         split; [apply (io_log AQ_LOG_ERROR _ w)|auto]|]).
  unfold bind at 1 in H.
  match type of H with
  | context [commitState_flags ?a ?b ?c ?d w] =>
    pose proof (io_flags a b c d w) as Hio1;
    pose proof (flags_value a b c d w) as Hfl;
    destruct (commitState_flags a b c d w) as [[[flags|]|f] w1]
  end; cbn [snd] in Hio1.
  2:{ left. unfold ret in H. injection H as <- <-. auto. }
  2:{ left. injection H as <- <-. eauto. }
  specialize (Hfl flags w1 eq_refl).
  unfold bind at 1 in H.
  match type of H with
  | (match ?c w1 with _ => _ end) = _ =>
    assert (Hio2 : io_comp c)
      by (destruct (COutputState.buffer (CDRMOutput.state (output w)));
          [apply io_bind; [apply io_findFB|intros []; io_solve]|io_solve]);
    specialize (Hio2 w1);
    assert (Hmain : forall m w2, c w1 = (Ret (Some m), w2) ->
              match COutputState.buffer (CDRMOutput.state (output w)) with
              | Some buf => exists fb, m = Some fb /\ CDRMFB.buffer fb = buf
              | None => m = None
              end);
    [|destruct (c w1) as [[[mainFB|]|f] w2] eqn:Emain]
  end.
  { intros m w2 Hc. destruct (COutputState.buffer (CDRMOutput.state (output w))) as [buf|].
    - unfold bind at 1 in Hc.
      destruct (commitState_findFB drv crtc buf w1) as [[[fb|]|f] w3] eqn:Ef.
      + unfold ret in Hc. injection Hc as <- <-. exists fb. split; [reflexivity|].
        eapply findFB_wraps; eassumption.
      + unfold bind, log, emit, modify, ret in Hc. cbn in Hc. discriminate.
      + discriminate.
    - unfold ret in Hc. injection Hc as <- <-. reflexivity. }
  all: cbn [snd] in Hio2.
  2:{ left. unfold ret in H. injection H as <- <-.
      split; [eapply io_only_trans; eassumption|auto]. }
  2:{ left. injection H as <- <-. split; [eapply io_only_trans; eassumption|eauto]. }
  specialize (Hmain mainFB w2 eq_refl).
  assert (Hprov : forall fb, mainFB = Some fb ->
            Some fb ∈ fb_holders w \/ (CDRMFB.id fb <> 0 /\ CDRMFB.dropped fb = false)).
  { intros fb ->.
    destruct (COutputState.buffer (CDRMOutput.state (output w))) as [buf|];
      [|unfold ret in Emain; discriminate].
    unfold bind at 1 in Emain.
    destruct (commitState_findFB drv crtc buf w1) as [[[fb'|]|f] w3] eqn:Ef.
    - unfold ret in Emain. injection Emain as <- <-.
      apply findFB_provenance in Ef. unfold fb_holders in Ef.
      rewrite (io_planes _ _ Hio1), (io_connector _ _ Hio1) in Ef. exact Ef.
    - unfold bind, log, emit, modify, ret in Emain. cbn in Emain. discriminate.
    - discriminate. }
  unfold bind at 1 in H.
  destruct (COutputState.MODE (CDRMOutput.state (output w))) as [mode|] eqn:Emode.
  2:{ left. unfold deref, raise in H. injection H as <- <-.
      split; [eapply io_only_trans; eassumption|eauto]. }
  unfold deref at 1, ret at 1 in H. cbv beta iota in H.
  unfold bind at 1 in H.
  match type of H with
  | (match ?c w2 with _ => _ end) = _ =>
    assert (Hio3 : io_comp c) by io_solve;
    specialize (Hio3 w2);
    assert (Hmi : forall mi w3, c w2 = (Ret mi, w3) ->
              match SOutputMode.modeInfo mode with
              | Some mi' => mi = mi'
              | None => calculateMode (di_cvt_compute drv) (CDRMOutput.state (output w)) = Ret mi
              end);
    [|destruct (c w2) as [[modeInfo|f] w3] eqn:Emi]
  end.
  { intros mi w3 Hc. destruct (SOutputMode.modeInfo mode) as [mi'|].
    - unfold ret in Hc. injection Hc as <- <-. reflexivity.
    - unfold bind at 1 in Hc.
      destruct (SDRMConnector.output (connector w)); [|discriminate].
      unfold deref at 1, ret at 1 in Hc. cbv beta iota in Hc.
      destruct (calculateMode _ _) as [mi'|f]; cbn in Hc; [|discriminate].
      unfold ret in Hc. injection Hc as <- <-. reflexivity. }
  all: cbn [snd] in Hio3.
  2:{ left. injection H as <- <-.
      split; [eapply io_only_trans; [eassumption|eapply io_only_trans; eassumption]|eauto]. }
  specialize (Hmi modeInfo w3 eq_refl).
  unfold bind at 1 in H.
  right.
  match type of H with
  | context [SDRMConnector_commitState drv ?d w3] => exists w3, d
  end.
  split; [eapply io_only_trans; [eassumption|eapply io_only_trans; eassumption]|].
  split.
  { unfold commit_data_of. cbn.
    split; [reflexivity|]. split; [reflexivity|]. split; [reflexivity|]. split; [reflexivity|].
    split; [exact Hfl|]. split; [exact Hmain|]. exists mode. split; [exact Emode|exact Hmi]. }
  split; [reflexivity|]. split; [eauto|]. split; [exact Hprov|].
  match type of H with
  | context [SDRMConnector_commitState drv ?d w3] =>
    destruct (SDRMConnector_commitState drv d w3) as [[ok|f] w4] eqn:Ec
  end.
  - match type of H with
    | context [CDRMFB_release drv [] ?m] =>
      destruct (commitState_tail drv m ok w4) as (w5 & E5 & Etail)
    end.
    rewrite Etail in H. injection H as <- <-.
    split; [reflexivity|exact E5].
  - injection H as <- <-. split; reflexivity.
Qed.

Lemma set_isPageFlipPending_same c :
  set_isPageFlipPending (SDRMConnector.isPageFlipPending c) c = c.
Proof. destruct c; reflexivity. Qed.

Lemma set_isPageFlipPending_idem b c :
  set_isPageFlipPending (SDRMConnector.isPageFlipPending (set_isPageFlipPending b c)) c
  = set_isPageFlipPending b c.
Proof. destruct c; reflexivity. Qed.

Lemma connector_commitState_not_applied {K} (drv : Driver K) d (w : World K) :
  fst (snd (impl_commit drv w d)) && negb (SDRMConnectorCommitData.test d) = false ->
  SDRMConnector_commitState drv d w
  = (Ret (fst (snd (impl_commit drv w d))), after_engine drv d w) /\
  planes (after_engine drv d w) = planes w /\
  session_active (after_engine drv d w) = session_active w /\
  drmProps (after_engine drv d w) = drmProps w /\
  output (after_engine drv d w) = output w /\
  buffers (after_engine drv d w) = buffers w /\
  connector (after_engine drv d w)
  = set_isPageFlipPending
      (SDRMConnector.isPageFlipPending (connector w) || snd (snd (impl_commit drv w d)))
      (connector w).
Proof.
  intros Hn.
  destruct (impl_commit_call_run drv d w) as (Hrun & _).
  split.
  - unfold SDRMConnector_commitState. unfold bind at 1. rewrite Hrun, Hn.
    reflexivity.
  - unfold after_engine, impl_commit_call.
    destruct (impl_commit drv w d) as [k' [ok q]]. cbn. auto 10.
Qed.

Lemma existsb_impl_quiet (t : list action) :
  forallb quiet t = true -> existsb is_impl_commit t = false.
Proof.
  induction t as [|a t IH]; [reflexivity|].
  cbn. intros H. apply andb_true_iff in H as [Ha Ht]. rewrite (IH Ht).
  destruct a; try discriminate; reflexivity.
Qed.

(** A test, and a commit that returns [false], change no plane and nothing
    of the session or the capabilities; of the connector they can change the
    page-flip flag only, and not even that with an engine that queues flips
    for accepted real commits only.  The pending state of the output is as
    it was when the run ends before the engine call, and what [onCommit]
    makes of it when the engine was called. *)
Theorem test_or_failed_commit_applies_nothing {K} (drv : Driver K) (onlyTest : bool)
    (w : World K) (r : outcome bool) (w' : World K) :
  CDRMOutput_commitState drv onlyTest w = (r, w') ->
  onlyTest = true \/ r = Ret false ->
  planes w' = planes w /\
  session_active w' = session_active w /\
  drmProps w' = drmProps w /\
  (exists t,
     trace w' = trace w ++ t /\
     output w'
     = if existsb is_impl_commit t
       then CDRMOutput.mk (CDRMOutput.name (output w))
              (state_onCommit drv (CDRMOutput.state (output w)))
       else output w) /\
  connector w' = set_isPageFlipPending (SDRMConnector.isPageFlipPending (connector w'))
                   (connector w) /\
  (engine_flip_contract drv -> connector w' = connector w).
Proof.
  intros H Hcase. apply commitState_cases in H.
  destruct H as [[Hio _]|(w_e & d & Hio & Hdata & _ & _ & _ & Hrun)].
  - destruct Hio as [H1 H2 H3 H4 H5 (t & Ht & Hq)]. rewrite H4.
    rewrite set_isPageFlipPending_same.
    split; [auto|]. split; [auto|]. split; [auto|].
    split; [|auto].
    exists t. rewrite (existsb_impl_quiet t Hq). auto.
  - destruct Hdata as (Htest & _).
    destruct Hio as [H1 H2 H3 H4 H5 (t0 & Ht0 & Hq0)].
    destruct (connector_commitState_run drv d w_e) as (_ & Hres & _).
    assert (Hna : fst (snd (impl_commit drv w_e d)) && negb (SDRMConnectorCommitData.test d)
                  = false).
    { destruct Hcase as [-> | ->].
      - rewrite Htest. apply andb_false_r.
      - destruct (SDRMConnector_commitState drv d w_e) as [[ok|f] w4]; cbn in Hres;
          destruct Hrun as [Hr _]; [|discriminate].
        injection Hr as <-. destruct Hres as [Hres|[f Hres]]; [|discriminate].
        injection Hres as <-. reflexivity. }
    destruct (connector_commitState_not_applied drv d w_e Hna)
      as (Heq & Hp & Hs & Hpr & Ho & _ & Hc).
    destruct (impl_commit_call_run drv d w_e) as (_ & _ & _ & _ & _ & _ & Htr & _).
    rewrite Heq in Hrun. destruct Hrun as [_ Hrun].
    match type of Hrun with
    | CDRMFB_release drv ?l ?m ?w0 = _ =>
      destruct (release_advance drv l m w0) as (k2 & t2 & E2 & Q2)
    end.
    rewrite E2 in Hrun. injection Hrun as <-.
    unfold advance.
    cbn [planes session_active drmProps output connector trace
         set_kernel set_trace set_state].
    rewrite Hp, Hs, Hpr, Ho, Hc, H1, H2, H3, H4, H5.
    split; [reflexivity|]. split; [reflexivity|]. split; [reflexivity|].
    split; [|split].
    + exists (t0 ++ [ImplCommit d (fst (snd (impl_commit drv w_e d)))
                       (snd (snd (impl_commit drv w_e d)))]
                ++ [EventsCommitEmit; StateOnCommit] ++ t2).
      split; [rewrite Htr, Ht0, <- !app_assoc; reflexivity|].
      rewrite existsb_app, (existsb_impl_quiet t0 Hq0). reflexivity.
    + symmetry. apply set_isPageFlipPending_idem.
    + intros Hcontract.
      destruct (snd (snd (impl_commit drv w_e d))) eqn:Eq.
      * destruct (Hcontract w_e d Eq) as (Hok & _ & Ht).
        rewrite Hok, Ht in Hna. discriminate.
      * rewrite orb_false_r. apply set_isPageFlipPending_same.
Qed.

Lemma test_or_failed_commit_applies_nothing_witness :
  planes (snd (CDRMOutput_commitState drv_accepts true world0)) = planes world0 /\
  connector (snd (CDRMOutput_commitState drv_accepts true world0)) = connector world0.
Proof.
  destruct (test_or_failed_commit_applies_nothing drv_accepts true world0 _ _
              (surjective_pairing _) (or_introl eq_refl)) as (H1 & _ & _ & _ & _ & H2).
  split; [exact H1|exact (H2 engine_accepts_contract)].
Defined.

(** An accepted commit (not a test) of a connector that is ready: the primary
    plane's previous front FB becomes its back FB and its front FB is an FB
    that wraps the committed buffer (none when no buffer is in the state);
    the cursor plane, if any, gets its previous front as back and loses its
    front FB, because the output never fills [cursorFB]; no other plane
    changes; the pending cursor FB is cleared; the connector's refresh is
    kept when MODE is not committed and, when it is, it is
    [calculateRefresh] of the mode information of the commit: the blob of
    the state's mode when that has one, and the result of [calculateMode]
    on the state otherwise; the pending state of the output is what
    [onCommit] makes of it. *)
Theorem accepted_commit_effect {K} (drv : Driver K) (w w' : World K)
    (crtc : SDRMCRTC.t) (p : nat) (P : SDRMPlane.t) :
  CDRMOutput_commitState drv false w = (Ret true, w') ->
  SDRMConnector.crtc (connector w) = Some crtc ->
  SDRMCRTC.primary crtc = Some p ->
  planes w !! p = Some P ->
  (forall c, SDRMCRTC.cursor crtc = Some c -> c <> p /\ is_Some (planes w !! c)) ->
  let STATE := CDRMOutput.state (output w) in
  (exists P',
     planes w' !! p = Some P' /\
     SDRMPlane.back P' = SDRMPlane.front P /\
     match COutputState.buffer STATE with
     | Some buf => exists fb, SDRMPlane.front P' = Some fb /\ CDRMFB.buffer fb = buf
     | None => SDRMPlane.front P' = None
     end) /\
  (forall c C, SDRMCRTC.cursor crtc = Some c -> planes w !! c = Some C ->
     exists C', planes w' !! c = Some C' /\
                SDRMPlane.back C' = SDRMPlane.front C /\ SDRMPlane.front C' = None) /\
  (forall i, i <> p -> SDRMCRTC.cursor crtc <> Some i -> planes w' !! i = planes w !! i) /\
  SDRMConnector.pendingCursorFB (connector w') = None /\
  (bits_set (COutputState.committed STATE) AQ_OUTPUT_STATE_MODE = false ->
   SDRMConnector.refresh (connector w') = SDRMConnector.refresh (connector w)) /\
  (bits_set (COutputState.committed STATE) AQ_OUTPUT_STATE_MODE = true ->
   exists mode mi,
     COutputState.MODE STATE = Some mode /\
     match SOutputMode.modeInfo mode with
     | Some blob => mi = blob
     | None => calculateMode (di_cvt_compute drv) STATE = Ret mi
     end /\
     calculateRefresh mi = Ret (SDRMConnector.refresh (connector w'))) /\
  output w' = CDRMOutput.mk (CDRMOutput.name (output w)) (state_onCommit drv STATE).
Proof.
  intros H Hc Hp HP Hcur STATE. subst STATE.
  apply commitState_cases in H.
  destruct H as [[_ [H|[f H]]]|(w_e & d & Hio & Hdata & _ & _ & _ & Hrun)]; try discriminate.
  destruct Hio as [H1 H2 H3 H4 H5 _].
  destruct Hdata as (Htest & Hcfb & _ & _ & _ & Hmain & (mode & Hmode & Hmi)).
  destruct (connector_commitState_run drv d w_e) as (_ & Hres & _).
  pose proof (connector_commitState_flips drv d w_e crtc p P) as Hflip.
  rewrite H4, H3 in Hflip. specialize (Hflip Hc Hp HP Hcur). cbv zeta in Hflip.
  pose proof (connector_commitState_split drv d w_e) as Hsplit. cbv zeta in Hsplit.
  destruct (impl_commit_call_run drv d w_e)
    as (_ & Hpl & Hcrtc & _ & Hout & _ & _ & _).
  assert (Hae : SDRMConnector.refresh (connector (after_engine drv d w_e))
                = SDRMConnector.refresh (connector w) /\
                SDRMConnector.output (connector (after_engine drv d w_e))
                = SDRMConnector.output (connector w)).
  { rewrite <- H4. unfold after_engine, impl_commit_call.
    destruct (impl_commit drv w_e d) as [k' [o q]]. split; reflexivity. }
  destruct Hae as [Hrefresh_before Hco].
  destruct (applyCommit_run drv d (after_engine drv d w_e) crtc p P) as (ka & ta & Qa & Ea).
  { rewrite Hcrtc, H4. exact Hc. }
  { exact Hp. }
  { rewrite Hpl, H3. exact HP. }
  { rewrite Hpl, H3. exact Hcur. }
  cbv zeta in Ea. rewrite Hout, H5 in Ea.
  destruct (SDRMConnector_commitState drv d w_e) as [[ok|f] w4] eqn:Ec;
    destruct Hrun as [Hr Hw]; [|discriminate].
  injection Hr as <-. cbn [fst] in Hres. destruct Hres as [Hres|[f Hres]]; [|discriminate].
  injection Hres as Hok. symmetry in Hok.
  rewrite Hok, Htest in Hsplit. cbn [andb negb] in Hsplit.
  specialize (Hflip Hok Htest). cbn [snd] in Hflip. destruct Hflip as (HP' & HC' & Hother).
  match type of Hw with
  | CDRMFB_release drv ?l ?m ?w0 = _ =>
    destruct (release_advance drv l m w0) as (k2 & t2 & E2 & Q2)
  end.
  rewrite E2 in Hw. injection Hw as <-.
  unfold advance at 1 2 3 4 5 6 7.
  cbn [planes connector output set_kernel set_trace set_state].
  assert (Hw4 : output w4 = output w /\
                SDRMConnector.pendingCursorFB (connector w4) = None /\
                (if bits_set (COutputState.committed (CDRMOutput.state (output w)))
                      AQ_OUTPUT_STATE_MODE
                 then calculateRefresh (SDRMConnectorCommitData.modeInfo d)
                      = Ret (SDRMConnector.refresh (connector w4))
                 else SDRMConnector.refresh (connector w4) = SDRMConnector.refresh (connector w))).
  { rewrite Ea in Hsplit.
    destruct (SDRMConnector.output (connector (after_engine drv d w_e))); [|discriminate].
    destruct (bits_set _ _).
    - destruct (calculateRefresh _) as [rr|f]; [|discriminate].
      injection Hsplit as Hw4. rewrite Hw4. unfold advance. cbn. rewrite Hout, H5. auto.
    - injection Hsplit as Hw4. rewrite Hw4. unfold advance. cbn. rewrite Hout, H5. auto. }
  destruct Hw4 as (Ho4 & Hpc & Href).
  split; [|split; [|split; [|split; [|split; [|split]]]]].
  - destruct HP' as (P' & HP1 & HP2 & HP3). exists P'. split; [exact HP1|]. split; [exact HP2|].
    rewrite HP3. exact Hmain.
  - intros c C Hcc HC. destruct (HC' c C Hcc HC) as (C' & HC1 & HC2 & HC3).
    exists C'. split; [exact HC1|]. split; [exact HC2|]. rewrite HC3. exact Hcfb.
  - exact Hother.
  - exact Hpc.
  - intros Hb. rewrite Hb in Href. exact Href.
  - intros Hb. rewrite Hb in Href. exists mode, (SDRMConnectorCommitData.modeInfo d).
    split; [exact Hmode|]. split; [|exact Href].
    destruct (SOutputMode.modeInfo mode); [exact Hmi|exact Hmi].
  - rewrite Ho4. reflexivity.
Qed.

Lemma accepted_commit_effect_witness :
  exists P',
    planes (snd (CDRMOutput_commitState drv_accepts false world0)) !! 0%nat = Some P' /\
    SDRMPlane.back P' = None /\
    exists fb, SDRMPlane.front P' = Some fb /\ CDRMFB.buffer fb = 0%nat.
Proof.
  assert (Hrun : CDRMOutput_commitState drv_accepts false world0
                 = (Ret true, snd (CDRMOutput_commitState drv_accepts false world0))).
  { vm_compute. reflexivity. }
  assert (Hcur : forall c, SDRMCRTC.cursor crtc0 = Some c ->
                           c <> 0%nat /\ is_Some (planes world0 !! c)).
  { intros c Hc. injection Hc as <-. split; [discriminate|]. exists plane_cursor. reflexivity. }
  destruct (accepted_commit_effect drv_accepts world0 _ crtc0 0%nat plane_primary
              Hrun eq_refl eq_refl eq_refl Hcur) as ((P' & H1 & H2 & H3) & _).
  exists P'. split; [exact H1|]. split; [exact H2|exact H3].
Defined.

(** *** Shared ownership: which FBs a commit closes *)

(** The two assignments of a flip: the slot's old back FB is given up; the
    old front FB is given up silently, for the back slot holds it now. *)
Lemma flip_plane_at_exact {K} (drv : Driver K) locals idx fb (w : World K) p k t :
  planes w !! idx = Some p ->
  CDRMFB_release drv locals (SDRMPlane.back p)
    (set_planes (<[idx := set_back (SDRMPlane.front p) p]> (planes w)) w)
  = (Ret tt, advance k t (set_planes (<[idx := set_back (SDRMPlane.front p) p]> (planes w)) w)) ->
  flip_plane_at drv locals idx fb w
  = (Ret tt, advance k t (set_planes (<[idx := plane_flip fb p]> (planes w)) w)).
Proof.
  intros H E. unfold flip_plane_at.
  unfold bind at 1, get at 1. cbv beta iota. rewrite H.
  unfold bind at 1, deref at 1, ret at 1. cbv beta iota.
  unfold bind at 1, modify at 1. cbv beta iota.
  unfold bind at 1. rewrite E. cbv beta iota.
  unfold bind at 1, get at 1. cbv beta iota.
  assert (Hlen : (idx < length (planes w))%nat) by (eapply lookup_lt_Some; exact H).
  cbn [planes advance set_kernel set_trace set_planes].
  rewrite list_lookup_insert_eq by exact Hlen.
  unfold bind at 1, deref at 1, ret at 1. cbv beta iota.
  unfold bind at 1, modify at 1. cbv beta iota.
  rewrite list_insert_insert_eq, plane_flip_steps.
  cbn [SDRMPlane.front set_back].
  destruct (SDRMPlane.front p) as [f|] eqn:Ef.
  - rewrite release_held.
    + unfold advance. reflexivity.
    + apply elem_of_app. right.
      match goal with
      | |- _ ∈ fb_holders ?w0 =>
        destruct (holders_lookup w0 idx (plane_flip fb p)) as [_ Hb]
      end.
      { cbn. apply list_lookup_insert_eq. exact Hlen. }
      cbn [plane_flip SDRMPlane.back] in Hb. rewrite Ef in Hb. exact Hb.
  - rewrite release_none. unfold advance. reflexivity.
Qed.

(** Someone else holds [fb] when the primary plane [p] gives up its back
    FB: the commit data, the plane's own front slot, or a slot of another
    plane. *)
Definition other_holder {K} (data : SDRMConnectorCommitData.t) (w : World K) (p : nat)
    (P : SDRMPlane.t) (fb : CDRMFB.t) : Prop :=
  SDRMConnectorCommitData.mainFB data = Some fb \/
  SDRMConnectorCommitData.cursorFB data = Some fb \/
  SDRMPlane.front P = Some fb \/
  exists i Q, i <> p /\ planes w !! i = Some Q /\
              (SDRMPlane.front Q = Some fb \/ SDRMPlane.back Q = Some fb).

Lemma other_holder_iff {K} (data : SDRMConnectorCommitData.t) (w : World K) p P fb :
  planes w !! p = Some P ->
  SDRMConnector.pendingCursorFB (connector w) = None ->
  Some fb ∈ [SDRMConnectorCommitData.mainFB data; SDRMConnectorCommitData.cursorFB data]
            ++ fb_holders (set_planes (<[p := set_back (SDRMPlane.front P) P]> (planes w)) w)
  <-> other_holder data w p P fb.
Proof.
  intros HP Hpc. unfold other_holder.
  assert (Hlen : (p < length (planes w))%nat) by (eapply lookup_lt_Some; exact HP).
  split.
  - intros H. apply elem_of_app in H as [H|H].
    + apply elem_of_cons in H as [H|H]; [auto|].
      apply elem_of_cons in H as [H|H]; [auto|]. by apply elem_of_nil in H.
    + apply holders_inv in H as [H|(i & Q & Hi & HQ)].
      * cbn in H. rewrite Hpc in H. discriminate.
      * cbn [planes set_planes] in Hi.
        destruct (decide (i = p)) as [->|Hne].
        -- rewrite list_lookup_insert_eq in Hi by exact Hlen. injection Hi as <-.
           cbn in HQ. destruct HQ as [HQ|HQ]; auto.
        -- rewrite list_lookup_insert_ne in Hi by congruence.
           right. right. right. exists i, Q. split; [exact Hne|]. split; [exact Hi|].
           destruct HQ as [HQ|HQ]; auto.
  - intros [H|[H|[H|(i & Q & Hne & Hi & HQ)]]].
    + apply elem_of_app. left. rewrite H. left.
    + apply elem_of_app. left. rewrite H. right. left.
    + apply elem_of_app. right.
      match goal with
      | |- _ ∈ fb_holders ?w0 =>
        destruct (holders_lookup w0 p (set_back (SDRMPlane.front P) P)) as [Hf _]
      end.
      { cbn. apply list_lookup_insert_eq. exact Hlen. }
      cbn [set_back SDRMPlane.front] in Hf. rewrite H in Hf. rewrite H. exact Hf.
    + apply elem_of_app. right.
      match goal with
      | |- _ ∈ fb_holders ?w0 => destruct (holders_lookup w0 i Q) as [Hf Hb]
      end.
      { cbn. rewrite list_lookup_insert_ne by congruence. exact Hi. }
      destruct HQ as [HQ|HQ]; [rewrite HQ in Hf; exact Hf|rewrite HQ in Hb; exact Hb].
Qed.

(** [applyCommit] on a connector that uses no cursor FB: the one reference
    given up that may be the last is the primary plane's old back FB. *)
Lemma applyCommit_exact {K} (drv : Driver K) data (w : World K) crtc p P k t :
  SDRMConnector.crtc (connector w) = Some crtc ->
  SDRMCRTC.primary crtc = Some p ->
  planes w !! p = Some P ->
  (forall c, SDRMCRTC.cursor crtc = Some c ->
     c <> p /\ exists C, planes w !! c = Some C /\
                         SDRMPlane.front C = None /\ SDRMPlane.back C = None) ->
  SDRMConnectorCommitData.cursorFB data = None ->
  SDRMConnector.pendingCursorFB (connector w) = None ->
  CDRMFB_release drv
    [SDRMConnectorCommitData.mainFB data; SDRMConnectorCommitData.cursorFB data]
    (SDRMPlane.back P)
    (set_planes (<[p := set_back (SDRMPlane.front P) P]> (planes w)) w)
  = (Ret tt, advance k t (set_planes (<[p := set_back (SDRMPlane.front P) P]> (planes w)) w)) ->
  trace (snd (SDRMConnector_applyCommit drv data w)) = trace w ++ t /\
  kernel (snd (SDRMConnector_applyCommit drv data w)) = k.
Proof.
  intros Hc Hp HP Hcur Hcfb Hpc E.
  destruct (SDRMConnector_applyCommit drv data w) as [r w4] eqn:Ea. cbn [snd].
  unfold SDRMConnector_applyCommit in Ea. cbv zeta in Ea.
  unfold bind at 1 in Ea. unfold get at 1 in Ea. cbv beta iota in Ea.
  rewrite Hc in Ea. unfold bind at 1 in Ea. unfold deref at 1, ret at 1 in Ea.
  cbv beta iota in Ea.
  rewrite Hp in Ea. unfold bind at 1 in Ea. unfold deref at 1, ret at 1 in Ea.
  cbv beta iota in Ea.
  unfold bind at 1 in Ea.
  rewrite (flip_plane_at_exact drv _ p _ w P k t HP E) in Ea. cbv beta iota in Ea.
  set (w2 := advance k t
               (set_planes (<[p := plane_flip (SDRMConnectorCommitData.mainFB data) P]> (planes w))
                  w)) in *.
  assert (Hcursor : exists w3,
    (match SDRMCRTC.cursor crtc with
     | Some cursor =>
       flip_plane_at drv
         [SDRMConnectorCommitData.mainFB data; SDRMConnectorCommitData.cursorFB data]
         cursor (SDRMConnectorCommitData.cursorFB data)
     | None => ret tt
     end) w2 = (Ret tt, w3) /\
    trace w3 = trace w ++ t /\ kernel w3 = k /\ connector w3 = connector w /\
    output w3 = output w).
  { destruct (SDRMCRTC.cursor crtc) as [c|] eqn:Ecur.
    - destruct (Hcur c eq_refl) as (Hne & C & HC & HfC & HbC).
      assert (HC2 : planes w2 !! c = Some C).
      { subst w2. cbn. rewrite list_lookup_insert_ne by congruence. exact HC. }
      eexists. split.
      + apply (flip_plane_at_exact drv _ c _ w2 C (kernel w2) [] HC2).
        rewrite HbC, release_none. f_equal. symmetry.
        exact (advance_nil (set_planes _ w2)).
      + subst w2. unfold advance. cbn. rewrite app_nil_r. auto.
    - exists w2. split; [reflexivity|]. subst w2. unfold advance. cbn. auto. }
  destruct Hcursor as (w3 & E3 & Ht3 & Hk3 & Hc3 & Ho3).
  unfold bind at 1 in Ea. rewrite E3 in Ea. cbv beta iota in Ea.
  unfold bind at 1, get at 1 in Ea. cbv beta iota in Ea.
  unfold bind at 1, modify at 1 in Ea. cbv beta iota in Ea.
  rewrite Hc3, Hpc in Ea.
  unfold bind at 1 in Ea. rewrite release_none in Ea. cbv beta iota in Ea.
  unfold bind at 1 in Ea.
  destruct (SDRMConnector.output (connector w)); unfold deref, ret, raise in Ea.
  2:{ injection Ea as <- <-. cbn. auto. }
  destruct (bits_set _ _); [|injection Ea as <- <-; cbn; auto].
  unfold bind in Ea. destruct (calculateRefresh _); unfold lift, ret, raise, modify in Ea;
    injection Ea as <- <-; cbn; auto.
Qed.

(** An applied commit closes the FB that leaves the primary plane's back
    slot exactly when nobody else holds it.  On a connector that uses no
    cursor FB, and for a commit that the engine accepts and that is no test,
    the kernel calls after the engine call are: none when the back slot was
    empty or its FB has another holder (the commit data, as when the back
    buffer is committed again; the plane's front slot; a slot of another
    plane); and otherwise those of [drop()] on that FB: [drmModeCloseFB],
    then [drmModeRmFB] if the kernel answered [-EINVAL]. *)
Theorem applied_commit_closes_unowned_back {K} (drv : Driver K)
    (data : SDRMConnectorCommitData.t) (w : World K) (crtc : SDRMCRTC.t) (p : nat)
    (P : SDRMPlane.t) :
  SDRMConnector.crtc (connector w) = Some crtc ->
  SDRMCRTC.primary crtc = Some p ->
  planes w !! p = Some P ->
  (forall c, SDRMCRTC.cursor crtc = Some c ->
     c <> p /\ exists C, planes w !! c = Some C /\
                         SDRMPlane.front C = None /\ SDRMPlane.back C = None) ->
  SDRMConnectorCommitData.cursorFB data = None ->
  SDRMConnector.pendingCursorFB (connector w) = None ->
  fst (snd (impl_commit drv w data)) = true ->
  SDRMConnectorCommitData.test data = false ->
  let w' := snd (SDRMConnector_commitState drv data w) in
  let k := fst (impl_commit drv w data) in
  let calls := kernel_calls (skipn (length (trace w)) (trace w')) in
  match SDRMPlane.back P with
  | None => calls = [] /\ kernel w' = k
  | Some fb =>
    (other_holder data w p P fb -> calls = [] /\ kernel w' = k) /\
    (~ other_holder data w p P fb ->
     calls = release_calls drv fb k /\ kernel w' = kernel_after drv k (release_calls drv fb k))
  end.
Proof.
  intros Hc Hp HP Hcur Hcfb Hpc Hok Ht w' k calls. subst w' calls.
  assert (Hae : planes (after_engine drv data w) = planes w /\
                SDRMConnector.crtc (connector (after_engine drv data w)) = Some crtc /\
                SDRMConnector.pendingCursorFB (connector (after_engine drv data w)) = None /\
                kernel (after_engine drv data w) = k /\
                exists q, trace (after_engine drv data w) = trace w ++ [ImplCommit data true q]).
  { subst k. unfold after_engine, impl_commit_call. rewrite <- Hok.
    destruct (impl_commit drv w data) as [k' [o q]]. cbn. rewrite Hc, Hpc. eauto 10. }
  destruct Hae as (Hpl & Hcrtc & Hpc' & Hk & q & Htr).
  rewrite connector_commitState_split, Hok, Ht. cbn [andb negb].
  assert (Hsnd : forall (ok : bool) (x : outcome unit * World K),
            snd (match x with
                 | (Ret _, w2) => (Ret ok, w2)
                 | (Fault f, w2) => (Fault f, w2)
                 end) = snd x).
  { intros ok [[[]|f] w2]; reflexivity. }
  rewrite Hsnd.
  set (we := after_engine drv data w) in *.
  assert (HPe : planes we !! p = Some P) by (rewrite Hpl; exact HP).
  assert (Hcure : forall c, SDRMCRTC.cursor crtc = Some c ->
             c <> p /\ exists C, planes we !! c = Some C /\
                                 SDRMPlane.front C = None /\ SDRMPlane.back C = None).
  { rewrite Hpl. exact Hcur. }
  pose proof (applyCommit_exact drv data we crtc p P) as Hexact.
  assert (Hskip : forall t, skipn (length (trace w)) ((trace w ++ [ImplCommit data true q]) ++ t)
                            = ImplCommit data true q :: t).
  { intros t. rewrite <- app_assoc. apply skipn_trace_app. }
  destruct (SDRMPlane.back P) as [fb|] eqn:Eback.
  - split.
    + intros Hheld.
      destruct (Hexact (kernel we) [] Hcrtc Hp HPe Hcure Hcfb Hpc') as [Htr' Hk'].
      { rewrite release_held; [rewrite advance_same by reflexivity; reflexivity|].
        cbn [planes set_planes]. rewrite Hpl.
        pose proof (other_holder_iff data
                      (set_planes (planes w) we) p P fb) as Hiff.
        cbn [planes set_planes connector] in Hiff.
        specialize (Hiff HP Hpc').
        apply Hiff. destruct Hheld as [H|[H|[H|(i & Q & H1 & H2 & H3)]]];
          unfold other_holder; eauto 10. }
      rewrite Htr', Hk', Htr, app_nil_r.
      replace (trace w ++ [ImplCommit data true q])
        with ((trace w ++ [ImplCommit data true q]) ++ []) by apply app_nil_r.
      rewrite Hskip. cbn. auto.
    + intros Hlast.
      assert (Hnot : Some fb ∉
                [SDRMConnectorCommitData.mainFB data; SDRMConnectorCommitData.cursorFB data]
                ++ fb_holders (set_planes (<[p := set_back (SDRMPlane.front P) P]> (planes we)) we)).
      { intros Hin. apply Hlast. rewrite Hpl in Hin.
        pose proof (other_holder_iff data (set_planes (planes w) we) p P fb) as Hiff.
        cbn [planes set_planes connector] in Hiff.
        specialize (Hiff HP Hpc').
        apply Hiff in Hin.
        destruct Hin as [H|[H|[H|(i & Q & H1 & H2 & H3)]]]; unfold other_holder; eauto 10. }
      match type of Hnot with
      | _ ∉ ?l ++ fb_holders ?w0 =>
        pose proof (release_last drv l fb w0 Hnot) as Erel;
        destruct (drop_advance drv fb w0) as (fb1 & kd & td & Ed & Qd);
        destruct (drop_exact drv fb w0) as (fb1' & w1' & Ed' & Hcalls & Hkern)
      end.
      rewrite Ed in Ed'. injection Ed' as <- <-.
      rewrite Ed in Erel. cbn [snd] in Erel.
      destruct (Hexact kd td Hcrtc Hp HPe Hcure Hcfb Hpc' Erel) as [Htr' Hk'].
      unfold advance in Hcalls, Hkern. cbn [trace kernel set_kernel set_trace set_planes] in Hcalls, Hkern.
      rewrite kernel_calls_app in Hcalls. apply app_inv_head in Hcalls.
      rewrite Hk in Hcalls, Hkern.
      rewrite Htr', Hk', Htr, Hskip. cbn [kernel_calls]. auto.
  - destruct (Hexact (kernel we) [] Hcrtc Hp HPe Hcure Hcfb Hpc') as [Htr' Hk'].
    { rewrite release_none, advance_same by reflexivity. reflexivity. }
    rewrite Htr', Hk', Htr, app_nil_r.
    replace (trace w ++ [ImplCommit data true q])
      with ((trace w ++ [ImplCommit data true q]) ++ []) by apply app_nil_r.
    rewrite Hskip. cbn. auto.
Qed.

(** A plane in the middle of a rotation: FB 41 (buffer 2) is scanned out,
    FB 40 (buffer 1) was before. *)
Definition fb40 : CDRMFB.t := CDRMFB.mk 40 1 [5; 0; 0; 0] false false.
Definition fb41 : CDRMFB.t := CDRMFB.mk 41 2 [6; 0; 0; 0] false false.

Definition world_rotating : World unit :=
  mkWorld true (SDRMProps.mk false false (64, 64))
    [SDRMPlane.mk 31 31 DRM_PLANE_TYPE_PRIMARY [] (Some fb41) (Some fb40); plane_cursor]
    {[ 0%nat := buf_scanout ]} conn0 (CDRMOutput.mk "HDMI-A-1" state_flip) tt [].

Lemma applied_commit_closes_unowned_back_witness :
  kernel_calls (skipn (length (trace world_rotating))
                  (trace (snd (SDRMConnector_commitState drv_accepts data_flip_fb42
                                 world_rotating))))
  = [drmModeCloseFB 40].
Proof.
  assert (Hcur : forall c, SDRMCRTC.cursor crtc0 = Some c ->
            c <> 0%nat /\ exists C, planes world_rotating !! c = Some C /\
                                    SDRMPlane.front C = None /\ SDRMPlane.back C = None).
  { intros c Hc. injection Hc as <-. split; [discriminate|].
    exists plane_cursor. repeat split. }
  pose proof (applied_commit_closes_unowned_back drv_accepts data_flip_fb42 world_rotating
                crtc0 0%nat _ eq_refl eq_refl eq_refl Hcur eq_refl eq_refl eq_refl eq_refl)
    as H.
  cbv zeta in H. cbn [SDRMPlane.back] in H. destruct H as [_ H].
  refine (proj1 (H _)).
  intros [Hh|[Hh|[Hh|(i & Q & Hne & Hi & HQ)]]]; try discriminate.
  destruct i as [|[|i]]; [congruence| |discriminate].
  injection Hi as <-. destruct HQ; discriminate.
Defined.

(** Three buffers in rotation, with a kernel that numbers the FBs: the
    third commit closes the FB of the first, which has left the back slot
    and has no other holder. *)
Definition kernel_numbering (n : Z) (c : kernel_call) : Z * (Z * Z) :=
  match c with
  | drmPrimeFDToHandle _ => (n, (0, 7))
  | drmModeAddFB2WithModifiers _ _ _ _ _ _ _ _ | drmModeAddFB2 _ _ _ _ _ _ _ =>
    (n + 1, (0, n + 1))
  | drmModeCloseFB _ | drmModeRmFB _ => (n, (0, 0))
  end.

Definition drv_numbering : Driver Z :=
  mkDriver kernel_numbering
    (fun w d => (kernel w, (true, negb (SDRMConnectorCommitData.blocking d)
                                  && negb (SDRMConnectorCommitData.test d))))
    cvt_1080p60 onCommit_clears.

Definition state_flip_of (buf : nat) : COutputState.t :=
  {| COutputState.committed := AQ_OUTPUT_STATE_BUFFER;
     COutputState.enabled := true;
     COutputState.adaptiveSync := false;
     COutputState.presentationMode := AQ_OUTPUT_PRESENTATION_VSYNC;
     COutputState.mode := Some output_mode_1080p60;
     COutputState.customMode := None;
     COutputState.buffer := Some buf |}.

Definition world_three_buffers : World Z :=
  mkWorld true (SDRMProps.mk false false (64, 64)) [plane_primary; plane_cursor]
    {[ 0%nat := buf_scanout; 1%nat := buf_scanout; 2%nat := buf_scanout ]}
    conn0 (CDRMOutput.mk "HDMI-A-1" state_flip) 0 [].

Definition addfb_scanout : kernel_call :=
  drmModeAddFB2 1920 1080 DRM_FORMAT_XRGB8888 [7; 0; 0; 0] [7680; 0; 0; 0] [0; 0; 0; 0] 0.

Example three_buffers_rotate :
  exists w n,
    flip_run drv_numbering
      [ConsumerCommits (state_flip_of 0) false; KernelCompletes 1 100 0 51;
       ConsumerCommits (state_flip_of 1) false; KernelCompletes 2 100 16666 51;
       ConsumerCommits (state_flip_of 2) false; KernelCompletes 3 100 33333 51;
       ConsumerCommits (state_flip_of 0) true]
      (world_three_buffers, O) = Some (w, n) /\
    kernel_calls (trace w)
    = [drmPrimeFDToHandle 10; addfb_scanout;
       drmPrimeFDToHandle 10; addfb_scanout;
       drmPrimeFDToHandle 10; addfb_scanout; drmModeCloseFB 1;
       drmPrimeFDToHandle 10; addfb_scanout; drmModeCloseFB 4] /\
    (exists P, planes w !! 0%nat = Some P /\
               CDRMFB.id <$> SDRMPlane.front P = Some 3 /\
               CDRMFB.id <$> SDRMPlane.back P = Some 2).
Proof.
  eexists _, _. split; [vm_compute; reflexivity|].
  split; [vm_compute; reflexivity|].
  eexists. split; [vm_compute; reflexivity|]. split; reflexivity.
Qed.

(** A test, and a commit that the engine rejects, leaves no FB behind that
    it imported.  In such a run the engine call is followed at once by the
    commit event and [onCommit], and then the commit data goes out of
    scope: nothing more happens when it has no FB or when its FB sits in a
    plane slot (it was found there); an FB that no slot holds is a fresh
    import, it is live, and it is dropped: the kernel calls that remain are
    [drmModeCloseFB] of its id, followed by [drmModeRmFB] if the kernel
    answered [-EINVAL]. *)
Theorem unapplied_commit_closes_its_import {K} (drv : Driver K) (onlyTest ok : bool)
    (w w' : World K) (t : list action) :
  CDRMOutput_commitState drv onlyTest w = (Ret ok, w') ->
  onlyTest = true \/ ok = false ->
  trace w' = trace w ++ t ->
  forall d okk q, ImplCommit d okk q ∈ t ->
    exists t0 t2,
      t = t0 ++ [ImplCommit d okk q; EventsCommitEmit; StateOnCommit] ++ t2 /\
      forallb quiet t0 = true /\
      planes w' = planes w /\
      match SDRMConnectorCommitData.mainFB d with
      | None => t2 = []
      | Some fb =>
        (Some fb ∈ fb_holders w -> t2 = []) /\
        (Some fb ∉ fb_holders w ->
         CDRMFB.id fb <> 0 /\ CDRMFB.dropped fb = false /\
         exists k,
           kernel_calls t2 = release_calls drv fb k /\
           kernel w' = kernel_after drv k (release_calls drv fb k) /\
           exists rest, release_calls drv fb k = drmModeCloseFB (CDRMFB.id fb) :: rest)
      end.
Proof.
  intros H Hcase Ht d okk q Hin. apply commitState_cases in H.
  destruct H as [[Hio _]|(w_e & d0 & Hio & Hdata & _ & _ & Hprov & Hrun)].
  { exfalso. destruct Hio as [_ _ _ _ _ (t' & Ht' & Hq)].
    rewrite Ht in Ht'. apply app_inv_head in Ht'. subst t'.
    exact (quiet_not_elem t (ImplCommit d okk q) Hq eq_refl Hin). }
  destruct Hdata as (Htest & _).
  destruct Hio as [H1 H2 H3 H4 H5 (t0 & Ht0 & Hq0)].
  destruct (connector_commitState_run drv d0 w_e) as (_ & Hres & _).
  assert (Hna : fst (snd (impl_commit drv w_e d0)) && negb (SDRMConnectorCommitData.test d0)
                = false).
  { destruct Hcase as [-> | ->].
    - rewrite Htest. apply andb_false_r.
    - destruct (SDRMConnector_commitState drv d0 w_e) as [[ok|f] w4]; cbn in Hres;
        destruct Hrun as [Hr _]; [|discriminate].
      injection Hr as <-. destruct Hres as [Hres|[f Hres]]; [|discriminate].
      injection Hres as <-. reflexivity. }
  destruct (connector_commitState_not_applied drv d0 w_e Hna)
    as (Heq & Hp & _ & _ & _ & _ & Hc).
  destruct (impl_commit_call_run drv d0 w_e) as (_ & _ & _ & _ & _ & _ & Htr & _).
  rewrite Heq in Hrun. destruct Hrun as [_ Hrun].
  set (ok0 := fst (snd (impl_commit drv w_e d0))) in *.
  set (q0 := snd (snd (impl_commit drv w_e d0))) in *.
  set (w5 := set_state (state_onCommit drv (CDRMOutput.state (output (after_engine drv d0 w_e))))
               (set_trace (trace (after_engine drv d0 w_e) ++ [EventsCommitEmit; StateOnCommit])
                  (after_engine drv d0 w_e))) in *.
  assert (Htr5 : trace w5 = trace w ++ t0 ++ [ImplCommit d0 ok0 q0; EventsCommitEmit; StateOnCommit]).
  { subst w5. cbn. rewrite Htr, Ht0, <- !app_assoc. reflexivity. }
  assert (Hhold : fb_holders w5 = fb_holders w).
  { subst w5. unfold fb_holders. cbn [planes connector set_state set_trace].
    rewrite Hp, Hc, H3, H4. destruct (connector w); reflexivity. }
  assert (Hpl5 : planes w5 = planes w) by (subst w5; cbn; rewrite Hp; exact H3).
  (* the shape of the trace, for any quiet rest *)
  assert (Hshape : forall k2 t2,
            forallb quiet t2 = true -> w' = advance k2 t2 w5 ->
            t = t0 ++ [ImplCommit d0 ok0 q0; EventsCommitEmit; StateOnCommit] ++ t2 /\
            d = d0 /\ okk = ok0 /\ q = q0 /\ planes w' = planes w).
  { intros k2 t2 Q2 ->. unfold advance in Ht. cbn [trace set_kernel set_trace] in Ht.
    rewrite Htr5, <- !app_assoc in Ht. apply app_inv_head in Ht. subst t.
    split; [reflexivity|].
    apply elem_of_loud in Hin; [|reflexivity].
    rewrite !loud_app, (loud_quiet t0 Hq0), (loud_quiet t2 Q2) in Hin. cbn in Hin.
    apply elem_of_cons in Hin as [Heq'|Hin]; [injection Heq' as -> -> ->; auto|].
    apply elem_of_cons in Hin as [Heq'|Hin]; [discriminate|].
    apply elem_of_cons in Hin as [Heq'|Hin]; [discriminate|].
    by apply elem_of_nil in Hin. }
  destruct (SDRMConnectorCommitData.mainFB d0) as [fb|] eqn:Emain.
  - destruct (decide (Some fb ∈ fb_holders w)) as [Hheld|Hlast].
    + rewrite release_held in Hrun by (cbn [app]; rewrite Hhold; exact Hheld).
      injection Hrun as <-.
      destruct (Hshape (kernel w5) [] eq_refl (eq_sym (advance_nil w5)))
        as (Hsh & -> & -> & -> & Hpl).
      exists t0, []. rewrite Emain.
      split; [exact Hsh|]. split; [exact Hq0|]. split; [exact Hpl|].
      split; [auto|]. intros Hn. contradiction.
    + rewrite release_last in Hrun by (cbn [app]; rewrite Hhold; exact Hlast).
      destruct (drop_advance drv fb w5) as (fb1 & kd & td & Ed & Qd).
      destruct (drop_exact drv fb w5) as (fb1' & w1' & Ed' & Hcalls & Hkern).
      rewrite Ed in Ed'. injection Ed' as <- <-.
      rewrite Ed in Hrun. cbn [snd] in Hrun. injection Hrun as <-.
      destruct (Hshape kd td Qd eq_refl) as (Hsh & -> & -> & -> & Hpl).
      exists t0, td. rewrite Emain.
      split; [exact Hsh|]. split; [exact Hq0|].
      split; [exact Hpl|].
      split; [intros Hh; contradiction|]. intros _.
      destruct (Hprov fb eq_refl) as [Hh|[Hid Hdr]]; [contradiction|].
      split; [exact Hid|]. split; [exact Hdr|].
      exists (kernel w5).
      unfold advance in Hcalls. cbn [trace set_kernel set_trace] in Hcalls.
      rewrite kernel_calls_app in Hcalls. apply app_inv_head in Hcalls.
      split; [exact Hcalls|]. split; [exact Hkern|].
      unfold release_calls. rewrite Hdr. cbn [orb].
      destruct (Z.eqb_spec (CDRMFB.id fb) 0) as [Hz|_]; [contradiction|].
      destruct (_ =? - EINVAL); eauto.
  - rewrite release_none in Hrun. injection Hrun as <-.
    destruct (Hshape (kernel w5) [] eq_refl (eq_sym (advance_nil w5)))
      as (Hsh & -> & -> & -> & Hpl).
    exists t0, []. rewrite Emain. auto.
Qed.

Definition data_test_fb42 : SDRMConnectorCommitData.t :=
  SDRMConnectorCommitData.mk (Some fb42) None mode_1080p60 false false 0 true.

Lemma unapplied_commit_closes_its_import_witness :
  exists t0 t2 rest,
    trace (snd (CDRMOutput_commitState drv_accepts true world0))
    = t0 ++ [ImplCommit data_test_fb42 true false; EventsCommitEmit; StateOnCommit] ++ t2 /\
    kernel_calls t2 = drmModeCloseFB 42 :: rest.
Proof.
  assert (Hrun : CDRMOutput_commitState drv_accepts true world0
                 = (Ret true, snd (CDRMOutput_commitState drv_accepts true world0))).
  { vm_compute. reflexivity. }
  destruct (unapplied_commit_closes_its_import drv_accepts true true world0 _
              (trace (snd (CDRMOutput_commitState drv_accepts true world0)))
              Hrun (or_introl eq_refl) eq_refl data_test_fb42 true false)
    as (t0 & t2 & Ht & _ & _ & Hfb).
  { vm_compute. repeat (first [left | right]). }
  cbn [SDRMConnectorCommitData.mainFB data_test_fb42] in Hfb. destruct Hfb as [_ Hfb].
  destruct Hfb as (_ & _ & k & Hk & _ & rest & Hrest).
  { intros H. vm_compute in H.
    repeat (apply elem_of_cons in H as [H|H]; [discriminate H|]).
    by apply elem_of_nil in H. }
  exists t0, t2, rest. split; [exact Ht|]. rewrite Hk. exact Hrest.
Defined.

(** *** Initialisation: CRTCs, planes and their slots *)

#[global] Arguments SDRMPlane_init : simpl never.

Lemma land_crtcBit (x : Z) (i : nat) :
  (i < 32)%nat ->
  (Z.land x (to_uint32 (Z.shiftl 1 (Z.of_nat i))) =? 0) = negb (Z.testbit x (Z.of_nat i)).
Proof.
  intros Hi. unfold to_uint32. rewrite Z.shiftl_1_l.
  rewrite Z.mod_small.
  2:{ split; [apply Z.pow_nonneg; lia|]. apply Z.pow_lt_mono_r; lia. }
  assert (H : Z.land x (2 ^ Z.of_nat i)
              = if Z.testbit x (Z.of_nat i) then 2 ^ Z.of_nat i else 0).
  { apply Z.bits_inj'. intros n Hn. rewrite Z.land_spec, Z.pow2_bits_eqb by lia.
    destruct (Z.eqb_spec (Z.of_nat i) n) as [->|Hne].
    - destruct (Z.testbit x n); [rewrite Z.pow2_bits_true by lia; reflexivity|].
      rewrite Z.bits_0. reflexivity.
    - rewrite andb_false_r. destruct (Z.testbit x (Z.of_nat i)).
      + rewrite Z.pow2_bits_false by lia. reflexivity.
      + rewrite Z.bits_0. reflexivity. }
  rewrite H. destruct (Z.testbit x (Z.of_nat i)); [|reflexivity].
  apply Z.eqb_neq. apply Z.pow_nonzero; lia.
Qed.

(** Whether the plane's mask names CRTC number [i], as the loop tests it. *)
Definition names_crtc (possible_crtcs : Z) (i : nat) : bool :=
  negb (Z.land possible_crtcs (to_uint32 (Z.shiftl 1 (Z.of_nat i))) =? 0).

(** Whether the CRTC's slot for planes of this type is still empty. *)
Definition slot_free (type : Z) (c : SDRMCRTC.t) : bool :=
  ((type =? DRM_PLANE_TYPE_PRIMARY) && negb (bool_decide (is_Some (SDRMCRTC.primary c))))
  || ((type =? DRM_PLANE_TYPE_CURSOR) && negb (bool_decide (is_Some (SDRMCRTC.cursor c)))).

Definition take_slot (type : Z) (self : nat) (c : SDRMCRTC.t) : SDRMCRTC.t :=
  if type =? DRM_PLANE_TYPE_PRIMARY then set_primary (Some self) c
  else set_cursor (Some self) c.

Lemma assign_plane_spec (type pc : Z) (self : nat) (crtcs : list SDRMCRTC.t) (i0 : nat) :
  (assign_plane type pc self i0 crtcs = crtcs /\
   forall k c, crtcs !! k = Some c -> names_crtc pc (i0 + k) = true -> slot_free type c = false)
  \/
  exists k c,
    crtcs !! k = Some c /\ names_crtc pc (i0 + k) = true /\ slot_free type c = true /\
    (forall j cj, (j < k)%nat -> crtcs !! j = Some cj ->
                  names_crtc pc (i0 + j) = true -> slot_free type cj = false) /\
    assign_plane type pc self i0 crtcs = <[k := take_slot type self c]> crtcs.
Proof.
  revert i0. induction crtcs as [|c rest IH]; intros i0.
  - left. split; [reflexivity|]. intros k c H. discriminate.
  - cbn [assign_plane].
    assert (Hfree : slot_free type c
                    = ((type =? DRM_PLANE_TYPE_PRIMARY)
                       && negb (bool_decide (is_Some (SDRMCRTC.primary c))))
                      || ((type =? DRM_PLANE_TYPE_CURSOR)
                          && negb (bool_decide (is_Some (SDRMCRTC.cursor c))))) by reflexivity.
    assert (Hskip :
      (names_crtc pc i0 = false \/ slot_free type c = false) ->
      (assign_plane type pc self (S i0) rest = rest /\
       (forall k c0, rest !! k = Some c0 -> names_crtc pc (S i0 + k) = true ->
                     slot_free type c0 = false) ->
       (c :: rest) = c :: rest /\
       forall k c0, (c :: rest) !! k = Some c0 -> names_crtc pc (i0 + k) = true ->
                    slot_free type c0 = false) /\
      (forall k ck, rest !! k = Some ck ->
         forall j cj, (j < S k)%nat -> (c :: rest) !! j = Some cj ->
           (forall j' cj', (j' < k)%nat -> rest !! j' = Some cj' ->
              names_crtc pc (S i0 + j') = true -> slot_free type cj' = false) ->
           names_crtc pc (i0 + j) = true -> slot_free type cj = false)).
    { intros Hno. split.
      - intros [_ Hall]. split; [reflexivity|]. intros [|k] c0 Hk Hn.
        + injection Hk as <-. rewrite Nat.add_0_r in Hn. destruct Hno as [Hno|Hno]; congruence.
        + apply (Hall k c0 Hk). rewrite <- Hn. f_equal. lia.
      - intros k ck Hk [|j] cj Hj Hcj Hprev Hn.
        + injection Hcj as <-. rewrite Nat.add_0_r in Hn. destruct Hno as [Hno|Hno]; congruence.
        + apply (Hprev j cj); [lia|exact Hcj|]. rewrite <- Hn. f_equal. lia. }
    assert (Hrec :
      (names_crtc pc i0 = false \/ slot_free type c = false) ->
      (c :: assign_plane type pc self (S i0) rest = c :: rest /\
       forall k c0, (c :: rest) !! k = Some c0 -> names_crtc pc (i0 + k) = true ->
                    slot_free type c0 = false)
      \/
      exists k c0,
        (c :: rest) !! k = Some c0 /\ names_crtc pc (i0 + k) = true /\
        slot_free type c0 = true /\
        (forall j cj, (j < k)%nat -> (c :: rest) !! j = Some cj ->
                      names_crtc pc (i0 + j) = true -> slot_free type cj = false) /\
        c :: assign_plane type pc self (S i0) rest = <[k := take_slot type self c0]> (c :: rest)).
    { intros Hno. destruct (Hskip Hno) as [Hs1 Hs2].
      destruct (IH (S i0)) as [[He Hall]|(k & ck & Hk & Hn & Hf & Hprev & He)].
      - left. split; [rewrite He; reflexivity|]. apply Hs1. split; assumption.
      - right. exists (S k), ck. split; [exact Hk|].
        split; [rewrite <- Hn; f_equal; lia|]. split; [exact Hf|].
        split; [|rewrite He; reflexivity].
        intros j cj Hj Hcj Hnj. exact (Hs2 k ck Hk j cj Hj Hcj Hprev Hnj). }
    destruct (Z.land pc (to_uint32 (Z.shiftl 1 (Z.of_nat i0))) =? 0) eqn:Hbit.
    { apply Hrec. left. unfold names_crtc. rewrite Hbit. reflexivity. }
    cbn [negb].
    assert (Hn0 : names_crtc pc (i0 + 0) = true).
    { rewrite Nat.add_0_r. unfold names_crtc. rewrite Hbit. reflexivity. }
    destruct ((type =? DRM_PLANE_TYPE_PRIMARY)
              && negb (bool_decide (is_Some (SDRMCRTC.primary c)))) eqn:Hp.
    { right. exists 0%nat, c. split; [reflexivity|]. split; [exact Hn0|].
      split; [rewrite Hfree; reflexivity|]. split; [intros j cj Hj; lia|].
      unfold take_slot. apply andb_prop in Hp. destruct Hp as [-> _]. reflexivity. }
    destruct ((type =? DRM_PLANE_TYPE_CURSOR)
              && negb (bool_decide (is_Some (SDRMCRTC.cursor c)))) eqn:Hc.
    { right. exists 0%nat, c. split; [reflexivity|]. split; [exact Hn0|].
      split; [rewrite Hfree; reflexivity|]. split; [intros j cj Hj; lia|].
      unfold take_slot. apply andb_prop in Hc. destruct Hc as [Hc _].
      apply Z.eqb_eq in Hc. rewrite Hc. reflexivity. }
    apply Hrec. right. rewrite Hfree. reflexivity.
Qed.

(** What a successful [SDRMPlane::init] leaves: the plane object and the
    backend, in terms of the kernel's answers. *)
Lemma plane_init_ok (dev : Device) (kp : drmModePlane.t) (self : nat)
    (b b' : CDRMBackend.t) (pl : SDRMPlane.t) :
  SDRMPlane_init dev kp self b = (true, b', pl) ->
  exists props type,
    getDRMPlaneProps dev (drmModePlane.plane_id kp) = Some props /\
    getDRMProp dev (drmModePlane.plane_id kp) (SDRMPlaneProps.type props) = Some type /\
    SDRMPlane.id pl = drmModePlane.plane_id kp /\
    SDRMPlane.initialID pl = drmModePlane.plane_id kp /\
    SDRMPlane.type pl = type /\
    SDRMPlane.front pl = None /\ SDRMPlane.back pl = None /\
    CDRMBackend.crtcs b'
    = assign_plane type (drmModePlane.possible_crtcs kp) self 0 (CDRMBackend.crtcs b) /\
    CDRMBackend.planes b' = CDRMBackend.planes b /\
    CDRMBackend.drmProps b' = CDRMBackend.drmProps b /\
    SDRMPlane.formats pl
    = (if negb (SDRMPlaneProps.in_formats props =? 0)
          && SDRMProps.supportsAddFb2Modifiers (CDRMBackend.drmProps b)
       then match getDRMProp dev (drmModePlane.plane_id kp) (SDRMPlaneProps.in_formats props)
                  ≫= drmModeGetPropertyBlob dev with
            | Some blob => merge_modifiers blob
                             (plane_base_formats type (drmModePlane.formats kp))
            | None => []
            end
       else plane_base_formats type (drmModePlane.formats kp)).
Proof.
  unfold SDRMPlane_init. intros H.
  destruct (getDRMPlaneProps dev (drmModePlane.plane_id kp)) as [props|]; [|discriminate].
  destruct (getDRMProp dev (drmModePlane.plane_id kp) (SDRMPlaneProps.type props))
    as [type|] eqn:Ht; [|discriminate].
  exists props, type. split; [reflexivity|]. split; [exact Ht|].
  cbn [CDRMBackend.drmProps CDRMBackend.log log_each] in H.
  destruct (negb (SDRMPlaneProps.in_formats props =? 0)
            && SDRMProps.supportsAddFb2Modifiers (CDRMBackend.drmProps b)).
  - destruct (getDRMProp dev (drmModePlane.plane_id kp) (SDRMPlaneProps.in_formats props))
      as [blobID|]; [|discriminate].
    cbn [mbind option_bind].
    destruct (drmModeGetPropertyBlob dev blobID) as [blob|]; [|discriminate].
    injection H as <- <-. repeat (split; [reflexivity|]). reflexivity.
  - injection H as <- <-. repeat (split; [reflexivity|]). reflexivity.
Qed.

(** A failed [SDRMPlane::init] has touched no CRTC and no plane list. *)
Lemma plane_init_failed (dev : Device) (kp : drmModePlane.t) (self : nat)
    (b b' : CDRMBackend.t) (pl : SDRMPlane.t) :
  SDRMPlane_init dev kp self b = (false, b', pl) ->
  CDRMBackend.crtcs b' = CDRMBackend.crtcs b /\
  CDRMBackend.planes b' = CDRMBackend.planes b /\
  CDRMBackend.drmProps b' = CDRMBackend.drmProps b.
Proof.
  unfold SDRMPlane_init. intros H.
  destruct (getDRMPlaneProps dev (drmModePlane.plane_id kp)) as [props|].
  2:{ injection H as <- _. auto. }
  destruct (getDRMProp dev (drmModePlane.plane_id kp) (SDRMPlaneProps.type props)) as [type|].
  2:{ injection H as <- _. auto. }
  cbn [CDRMBackend.drmProps CDRMBackend.log log_each] in H.
  destruct (negb (SDRMPlaneProps.in_formats props =? 0)
            && SDRMProps.supportsAddFb2Modifiers (CDRMBackend.drmProps b)).
  - destruct (getDRMProp dev (drmModePlane.plane_id kp) (SDRMPlaneProps.in_formats props))
      as [blobID|].
    2:{ injection H as <- _. auto. }
    destruct (drmModeGetPropertyBlob dev blobID) as [blob|]; [discriminate|].
    injection H as <- _. auto.
  - discriminate.
Qed.

(** The plane in a slot of CRTC number [i] is of the slot's type and names
    that CRTC in its mask. [kplanes] are the kernel's planes, [planes] the
    backend's plane objects, position by position. *)
Definition slots_ok (kplanes : list drmModePlane.t) (planes : list SDRMPlane.t)
    (crtcs : list SDRMCRTC.t) : Prop :=
  forall i c, crtcs !! i = Some c ->
    (forall p, SDRMCRTC.primary c = Some p ->
       exists pl kp, planes !! p = Some pl /\ kplanes !! p = Some kp /\
                     SDRMPlane.type pl = DRM_PLANE_TYPE_PRIMARY /\
                     names_crtc (drmModePlane.possible_crtcs kp) i = true) /\
    (forall p, SDRMCRTC.cursor c = Some p ->
       exists pl kp, planes !! p = Some pl /\ kplanes !! p = Some kp /\
                     SDRMPlane.type pl = DRM_PLANE_TYPE_CURSOR /\
                     names_crtc (drmModePlane.possible_crtcs kp) i = true).

Definition holds_plane (c : SDRMCRTC.t) (p : nat) : Prop :=
  SDRMCRTC.primary c = Some p \/ SDRMCRTC.cursor c = Some p.

(** No plane sits in the slots of two CRTCs. *)
Definition slots_exclusive (crtcs : list SDRMCRTC.t) : Prop :=
  forall i j ci cj p,
    crtcs !! i = Some ci -> crtcs !! j = Some cj ->
    holds_plane ci p -> holds_plane cj p -> i = j.

Lemma slots_ok_bound kplanes planes crtcs i c p :
  slots_ok kplanes planes crtcs -> crtcs !! i = Some c -> holds_plane c p ->
  (p < length planes)%nat.
Proof.
  intros Hok Hi [Hp|Hp]; destruct (Hok i c Hi) as [H1 H2].
  - destruct (H1 p Hp) as (pl & kp & Hl & _). apply lookup_lt_Some in Hl. exact Hl.
  - destruct (H2 p Hp) as (pl & kp & Hl & _). apply lookup_lt_Some in Hl. exact Hl.
Qed.

Lemma slots_ok_grow kplanes planes crtcs kp pl :
  slots_ok kplanes planes crtcs -> slots_ok (kplanes ++ [kp]) (planes ++ [pl]) crtcs.
Proof.
  intros Hok i c Hi. destruct (Hok i c Hi) as [H1 H2]. split; intros p Hp.
  - destruct (H1 p Hp) as (pl0 & kp0 & Ha & Hb & Hc). exists pl0, kp0.
    split; [apply lookup_app_l_Some; exact Ha|]. split; [apply lookup_app_l_Some; exact Hb|].
    exact Hc.
  - destruct (H2 p Hp) as (pl0 & kp0 & Ha & Hb & Hc). exists pl0, kp0.
    split; [apply lookup_app_l_Some; exact Ha|]. split; [apply lookup_app_l_Some; exact Hb|].
    exact Hc.
Qed.

Lemma take_slot_holds type self c p :
  slot_free type c = true ->
  holds_plane (take_slot type self c) p -> p = self \/ holds_plane c p.
Proof.
  unfold take_slot, holds_plane. intros Hf.
  destruct (type =? DRM_PLANE_TYPE_PRIMARY); destruct c; cbn; intros [H|H];
    try (injection H as <-; left; reflexivity); right; auto.
Qed.

(** One pass of the plane loop keeps both invariants. *)
Lemma assign_plane_keeps (kplanes : list drmModePlane.t) (planes : list SDRMPlane.t)
    (crtcs : list SDRMCRTC.t) (kp : drmModePlane.t) (pl : SDRMPlane.t) :
  length kplanes = length planes ->
  slots_ok kplanes planes crtcs -> slots_exclusive crtcs ->
  let crtcs' := assign_plane (SDRMPlane.type pl) (drmModePlane.possible_crtcs kp)
                  (length planes) 0 crtcs in
  slots_ok (kplanes ++ [kp]) (planes ++ [pl]) crtcs' /\ slots_exclusive crtcs' /\
  map SDRMCRTC.id crtcs' = map SDRMCRTC.id crtcs /\
  map SDRMCRTC.gammaSize crtcs' = map SDRMCRTC.gammaSize crtcs.
Proof.
  intros Hlen Hok Hex crtcs'. subst crtcs'.
  destruct (assign_plane_spec (SDRMPlane.type pl) (drmModePlane.possible_crtcs kp)
              (length planes) crtcs 0)
    as [[-> _]|(k & c & Hk & Hn & Hf & _ & ->)].
  { split; [apply slots_ok_grow; exact Hok|]. split; [exact Hex|]. split; reflexivity. }
  cbn [Nat.add] in Hn.
  assert (Hself_pl : (planes ++ [pl]) !! length planes = Some pl).
  { rewrite lookup_app_r by lia. rewrite Nat.sub_diag. reflexivity. }
  assert (Hself_kp : (kplanes ++ [kp]) !! length planes = Some kp).
  { rewrite <- Hlen. rewrite lookup_app_r by lia. rewrite Nat.sub_diag. reflexivity. }
  assert (Hlook : forall i ci,
            <[k := take_slot (SDRMPlane.type pl) (length planes) c]> crtcs !! i = Some ci ->
            (i = k /\ ci = take_slot (SDRMPlane.type pl) (length planes) c)
            \/ (i <> k /\ crtcs !! i = Some ci)).
  { intros i ci Hi. destruct (decide (i = k)) as [->|Hne].
    - left. rewrite list_lookup_insert_eq in Hi by (apply lookup_lt_Some in Hk; exact Hk).
      injection Hi as <-. auto.
    - right. rewrite list_lookup_insert_ne in Hi by congruence. auto. }
  split; [|split; [|split]].
  - intros i ci Hi. destruct (Hlook i ci Hi) as [[-> ->]|[Hne Hi']].
    + destruct (Hok k c Hk) as [H1 H2]. unfold slot_free in Hf. unfold take_slot.
      destruct (SDRMPlane.type pl =? DRM_PLANE_TYPE_PRIMARY) eqn:Hty.
      * apply Z.eqb_eq in Hty. split; intros p Hp.
        -- destruct c; cbn in Hp. injection Hp as <-. exists pl, kp. auto.
        -- destruct (H2 p) as (pl0 & kp0 & Ha & Hb & Hc); [destruct c; exact Hp|].
           exists pl0, kp0.
           split; [apply lookup_app_l_Some; exact Ha|].
           split; [apply lookup_app_l_Some; exact Hb|]. exact Hc.
      * cbn [andb orb] in Hf. apply andb_prop in Hf. destruct Hf as [Hty' _].
        apply Z.eqb_eq in Hty'. split; intros p Hp.
        -- destruct (H1 p) as (pl0 & kp0 & Ha & Hb & Hc); [destruct c; exact Hp|].
           exists pl0, kp0.
           split; [apply lookup_app_l_Some; exact Ha|].
           split; [apply lookup_app_l_Some; exact Hb|]. exact Hc.
        -- destruct c; cbn in Hp. injection Hp as <-. exists pl, kp. auto.
    + exact (slots_ok_grow _ _ _ kp pl Hok i ci Hi').
  - intros i j ci cj p Hi Hj Hpi Hpj.
    assert (Hold : forall i ci, <[k := take_slot (SDRMPlane.type pl) (length planes) c]> crtcs
                                  !! i = Some ci -> holds_plane ci p ->
                   (i = k /\ p = length planes)
                   \/ (p <> length planes /\ exists ci', crtcs !! i = Some ci' /\ holds_plane ci' p)).
    { clear i j ci cj Hi Hj Hpi Hpj. intros i ci Hi Hp.
      destruct (Hlook i ci Hi) as [[-> ->]|[Hne Hi']].
      - apply (take_slot_holds _ _ _ _ Hf) in Hp. destruct Hp as [->|Hp]; [left; auto|].
        right. split; [|exists c; auto].
        pose proof (slots_ok_bound _ _ _ _ _ _ Hok Hk Hp). lia.
      - right. split; [|exists ci; auto].
        pose proof (slots_ok_bound _ _ _ _ _ _ Hok Hi' Hp). lia. }
    destruct (Hold i ci Hi Hpi) as [[-> Hp1]|[Hp1 (ci' & Hi' & Hpi')]];
      destruct (Hold j cj Hj Hpj) as [[-> Hp2]|[Hp2 (cj' & Hj' & Hpj')]];
      try reflexivity; try contradiction.
    exact (Hex i j ci' cj' p Hi' Hj' Hpi' Hpj').
  - apply list_eq. intros i. rewrite !list_lookup_fmap.
    destruct (decide (i = k)) as [->|Hne].
    + rewrite list_lookup_insert_eq by (apply lookup_lt_Some in Hk; exact Hk).
      rewrite Hk. unfold take_slot.
      destruct (SDRMPlane.type pl =? DRM_PLANE_TYPE_PRIMARY); reflexivity.
    + rewrite list_lookup_insert_ne by congruence. reflexivity.
  - apply list_eq. intros i. rewrite !list_lookup_fmap.
    destruct (decide (i = k)) as [->|Hne].
    + rewrite list_lookup_insert_eq by (apply lookup_lt_Some in Hk; exact Hk).
      rewrite Hk. unfold take_slot.
      destruct (SDRMPlane.type pl =? DRM_PLANE_TYPE_PRIMARY); reflexivity.
    + rewrite list_lookup_insert_ne by congruence. reflexivity.
Qed.

(** The CRTC object [initResources] makes of a CRTC id. *)
Definition crtc_of (dev : Device) (id : Z) : SDRMCRTC.t :=
  SDRMCRTC.mk id (default 0 (drmModeGetCrtc dev id)) None None 0.

Definition crtc_queries_ok (dev : Device) (id : Z) : bool :=
  bool_decide (is_Some (drmModeGetCrtc dev id)) && getDRMCRTCProps dev id.

Lemma initResources_crtcs_ok (dev : Device) (ids : list Z) (b b' : CDRMBackend.t) :
  initResources_crtcs dev ids b = (true, b') ->
  forallb (crtc_queries_ok dev) ids = true /\
  b' = CDRMBackend.set_crtcs (CDRMBackend.crtcs b ++ map (crtc_of dev) ids) b.
Proof.
  revert b. induction ids as [|id rest IH]; intros b H.
  - injection H as <-. split; [reflexivity|]. cbn. rewrite app_nil_r. destruct b; reflexivity.
  - cbn [initResources_crtcs] in H. cbn [forallb map]. unfold crtc_queries_ok at 1, crtc_of at 1.
    destruct (drmModeGetCrtc dev id) as [g|] eqn:Hg; [|discriminate].
    destruct (getDRMCRTCProps dev id) eqn:Hp; [|discriminate].
    cbn [negb] in H. apply IH in H. destruct H as [Hall ->].
    split; [rewrite Hall; reflexivity|].
    unfold CDRMBackend.set_crtcs. cbn. rewrite <- app_assoc. reflexivity.
Qed.

Lemma initResources_crtcs_failed (dev : Device) (ids : list Z) (b b' : CDRMBackend.t) :
  initResources_crtcs dev ids b = (false, b') ->
  forallb (crtc_queries_ok dev) ids = false /\
  CDRMBackend.crtcs b' = [] /\ CDRMBackend.planes b' = CDRMBackend.planes b /\
  CDRMBackend.drmProps b' = CDRMBackend.drmProps b /\
  exists s, CDRMBackend.logged b' = CDRMBackend.logged b ++ [(AQ_LOG_ERROR, s)].
Proof.
  revert b. induction ids as [|id rest IH]; intros b H; [discriminate|].
  cbn [initResources_crtcs] in H. cbn [forallb]. unfold crtc_queries_ok at 1.
  destruct (drmModeGetCrtc dev id) as [g|] eqn:Hg.
  2:{ injection H as <-. split; [reflexivity|]. cbn. eauto 6. }
  destruct (getDRMCRTCProps dev id) eqn:Hp.
  2:{ injection H as <-. split; [reflexivity|]. cbn. eauto 6. }
  cbn [negb] in H. apply IH in H. destruct H as (Hall & H1 & H2 & H3 & H4).
  split; [rewrite Hall; reflexivity|]. cbn in *. auto.
Qed.

Lemma initResources_crtcs_result (dev : Device) (ids : list Z) (b : CDRMBackend.t) :
  fst (initResources_crtcs dev ids b) = forallb (crtc_queries_ok dev) ids.
Proof.
  destruct (initResources_crtcs dev ids b) as [[] b'] eqn:H.
  - apply initResources_crtcs_ok in H. symmetry. apply H.
  - apply initResources_crtcs_failed in H. symmetry. apply H.
Qed.

(** How a kernel plane and the plane object made from it agree. *)
Definition plane_made_of (kp : drmModePlane.t) (pl : SDRMPlane.t) : Prop :=
  SDRMPlane.id pl = drmModePlane.plane_id kp /\
  SDRMPlane.initialID pl = drmModePlane.plane_id kp /\
  SDRMPlane.front pl = None /\ SDRMPlane.back pl = None.

(** The type the kernel reports for a plane, and the (format, modifier)
    pairs [SDRMPlane::init] reads from its IN_FORMATS blob: none when the
    plane has no such property or the device lacks AddFB2 with modifiers. *)
Definition plane_type_of (dev : Device) (kp : drmModePlane.t) : option Z :=
  getDRMPlaneProps dev (drmModePlane.plane_id kp)
    ≫= fun props => getDRMProp dev (drmModePlane.plane_id kp) (SDRMPlaneProps.type props).

Definition in_formats_blob (dev : Device) (drmProps : SDRMProps.t) (kp : drmModePlane.t)
    : list (Z * Z) :=
  match getDRMPlaneProps dev (drmModePlane.plane_id kp) with
  | Some props =>
    if negb (SDRMPlaneProps.in_formats props =? 0) && SDRMProps.supportsAddFb2Modifiers drmProps
    then default [] (getDRMProp dev (drmModePlane.plane_id kp) (SDRMPlaneProps.in_formats props)
                       ≫= drmModeGetPropertyBlob dev)
    else []
  | None => []
  end.

Definition plane_init_of (dev : Device) (drmProps : SDRMProps.t) (kp : drmModePlane.t)
    (pl : SDRMPlane.t) : Prop :=
  plane_made_of kp pl /\
  plane_type_of dev kp = Some (SDRMPlane.type pl) /\
  SDRMPlane.formats pl
  = merge_modifiers (in_formats_blob dev drmProps kp)
      (plane_base_formats (SDRMPlane.type pl) (drmModePlane.formats kp)).

Lemma plane_init_of_ok (dev : Device) (kp : drmModePlane.t) (self : nat)
    (b b' : CDRMBackend.t) (pl : SDRMPlane.t) :
  SDRMPlane_init dev kp self b = (true, b', pl) ->
  plane_init_of dev (CDRMBackend.drmProps b) kp pl.
Proof.
  intros H. pose proof H as H0. unfold SDRMPlane_init in H0.
  destruct (plane_init_ok _ _ _ _ _ _ H)
    as (props & type & Hpr & Hty & Hid & Hiid & Htype & Hfr & Hba & _ & _ & _ & Hfm).
  split; [repeat split; assumption|].
  unfold plane_type_of, in_formats_blob. rewrite Hpr. cbn [mbind option_bind].
  split; [rewrite Hty, Htype; reflexivity|].
  rewrite Hfm, Htype.
  rewrite Hpr, Hty in H0. cbn [CDRMBackend.drmProps CDRMBackend.log log_each] in H0.
  destruct (negb (SDRMPlaneProps.in_formats props =? 0)
            && SDRMProps.supportsAddFb2Modifiers (CDRMBackend.drmProps b)); [|reflexivity].
  destruct (getDRMProp dev (drmModePlane.plane_id kp) (SDRMPlaneProps.in_formats props))
    as [blobID|]; [|discriminate].
  cbn [mbind option_bind].
  destruct (drmModeGetPropertyBlob dev blobID) as [blob|]; [|discriminate].
  reflexivity.
Qed.

Lemma initResources_planes_ok (dev : Device) (pids : list Z) :
  forall (b b' : CDRMBackend.t) (kplanes : list drmModePlane.t),
  initResources_planes dev pids b = (true, b') ->
  length kplanes = length (CDRMBackend.planes b) ->
  slots_ok kplanes (CDRMBackend.planes b) (CDRMBackend.crtcs b) ->
  slots_exclusive (CDRMBackend.crtcs b) ->
  exists kps pls,
    Forall2 (fun pid kp => drmModeGetPlane dev pid = Some kp) pids kps /\
    Forall2 (plane_init_of dev (CDRMBackend.drmProps b)) kps pls /\
    CDRMBackend.planes b' = CDRMBackend.planes b ++ pls /\
    slots_ok (kplanes ++ kps) (CDRMBackend.planes b') (CDRMBackend.crtcs b') /\
    slots_exclusive (CDRMBackend.crtcs b') /\
    map SDRMCRTC.id (CDRMBackend.crtcs b') = map SDRMCRTC.id (CDRMBackend.crtcs b) /\
    map SDRMCRTC.gammaSize (CDRMBackend.crtcs b')
    = map SDRMCRTC.gammaSize (CDRMBackend.crtcs b) /\
    CDRMBackend.drmProps b' = CDRMBackend.drmProps b.
Proof.
  induction pids as [|pid rest IH]; intros b b' kplanes H Hlen Hok Hex.
  - injection H as <-. exists [], []. rewrite !app_nil_r.
    split; [constructor|]. split; [constructor|]. split; [reflexivity|].
    split; [exact Hok|]. split; [exact Hex|]. split; [reflexivity|]. split; reflexivity.
  - cbn [initResources_planes] in H.
    destruct (drmModeGetPlane dev pid) as [kp|] eqn:Hkp; [|discriminate].
    destruct (SDRMPlane_init dev kp (length (CDRMBackend.planes b)) b) as [[ok b1] pl] eqn:Hin.
    destruct ok; [|discriminate]. cbn [negb] in H.
    destruct (plane_init_ok _ _ _ _ _ _ Hin)
      as (props & type & _ & _ & Hid & Hiid & Hty & Hfr & Hba & Hcr & Hpl & Hdp & _).
    pose proof (assign_plane_keeps kplanes (CDRMBackend.planes b) (CDRMBackend.crtcs b) kp pl
                  Hlen Hok Hex) as Hkeep.
    cbv zeta in Hkeep. rewrite Hty, <- Hcr in Hkeep.
    destruct Hkeep as (Hok1 & Hex1 & Hids1 & Hg1).
    apply (IH _ _ (kplanes ++ [kp])) in H.
    + destruct H as (kps & pls & Hf1 & Hf2 & Hp & Hok2 & Hex2 & Hids2 & Hg2 & Hdp2).
      cbn in Hp, Hids2, Hg2, Hdp2.
      exists (kp :: kps), (pl :: pls).
      split; [constructor; assumption|].
      split; [constructor; [exact (plane_init_of_ok _ _ _ _ _ _ Hin)|]|].
      { rewrite <- Hdp. exact Hf2. }
      split; [rewrite Hp, Hpl, <- app_assoc; reflexivity|].
      split; [rewrite <- app_assoc in Hok2; exact Hok2|].
      split; [exact Hex2|].
      split; [rewrite Hids2; exact Hids1|].
      split; [rewrite Hg2; exact Hg1|].
      rewrite Hdp2. exact Hdp.
    + cbn. rewrite !length_app, Hpl. cbn. lia.
    + cbn. rewrite Hpl. exact Hok1.
    + cbn. exact Hex1.
Qed.

Lemma initResources_planes_failed (dev : Device) (pids : list Z) :
  forall (b b' : CDRMBackend.t),
  initResources_planes dev pids b = (false, b') ->
  CDRMBackend.crtcs b' = [] /\ CDRMBackend.planes b' = [] /\
  exists s, last (CDRMBackend.logged b') = Some (AQ_LOG_ERROR, s).
Proof.
  induction pids as [|pid rest IH]; intros b b' H; [discriminate|].
  cbn [initResources_planes] in H.
  destruct (drmModeGetPlane dev pid) as [kp|] eqn:Hkp.
  2:{ injection H as <-. cbn. split; [reflexivity|]. split; [reflexivity|].
      eexists. apply last_snoc. }
  destruct (SDRMPlane_init dev kp (length (CDRMBackend.planes b)) b) as [[ok b1] pl] eqn:Hin.
  destruct ok; cbn [negb] in H.
  - exact (IH _ _ H).
  - injection H as <-. cbn. split; [reflexivity|]. split; [reflexivity|].
    eexists. apply last_snoc.
Qed.

Lemma initResources_unfold_ok (dev : Device) (b b' : CDRMBackend.t) :
  CDRMBackend_initResources dev b = (true, b') ->
  exists cids pids,
    drmModeGetResources dev = Some cids /\ drmModeGetPlaneResources dev = Some pids /\
    forallb (crtc_queries_ok dev) cids = true /\
    (length (CDRMBackend.crtcs b ++ map (crtc_of dev) cids) <= 32)%nat /\
    initResources_planes dev pids
      (CDRMBackend.log AQ_LOG_DEBUG "drm: found {} planes"
         (CDRMBackend.set_crtcs (CDRMBackend.crtcs b ++ map (crtc_of dev) cids)
            (CDRMBackend.log AQ_LOG_DEBUG "drm: found {} CRTCs" b)))
    = (true, b').
Proof.
  unfold CDRMBackend_initResources. intros H.
  destruct (drmModeGetResources dev) as [cids|]; [|discriminate].
  destruct (initResources_crtcs dev cids _) as [ok b1] eqn:Hc.
  destruct ok; [|discriminate]. cbn [negb] in H.
  apply initResources_crtcs_ok in Hc. destruct Hc as [Hall ->].
  cbn [CDRMBackend.crtcs CDRMBackend.set_crtcs CDRMBackend.log] in H.
  destruct (32 <? length (CDRMBackend.crtcs b ++ map (crtc_of dev) cids))%nat eqn:Hcap;
    [discriminate|].
  destruct (drmModeGetPlaneResources dev) as [pids|]; [|discriminate].
  exists cids, pids. apply Nat.ltb_ge in Hcap.
  split; [reflexivity|]. split; [reflexivity|]. split; [exact Hall|]. split; [exact Hcap|].
  exact H.
Qed.

Lemma slots_ok_nil kplanes planes : slots_ok kplanes planes [].
Proof. intros i c H. discriminate. Qed.

Lemma slots_ok_fresh (dev : Device) (cids : list Z) :
  slots_ok [] [] (map (crtc_of dev) cids) /\ slots_exclusive (map (crtc_of dev) cids).
Proof.
  assert (Hnone : forall i c p, map (crtc_of dev) cids !! i = Some c -> ~ holds_plane c p).
  { intros i c p Hi. apply list_lookup_fmap_Some_1 in Hi. destruct Hi as (id & -> & _).
    intros [H|H]; discriminate. }
  split.
  - intros i c Hi. split; intros p Hp; exfalso; apply (Hnone i c p Hi); [left|right]; exact Hp.
  - intros i j ci cj p Hi _ Hp _. exfalso. exact (Hnone i ci p Hi Hp).
Qed.

(** After a successful initialisation of a backend that had no CRTC and
    no plane, every occupied slot of CRTC number [i] holds a plane object of
    the slot's type, made from a kernel plane whose [possible_crtcs] has bit
    [i] set; the two slots of a CRTC hold different planes, and no plane
    sits in the slots of two CRTCs. *)
Theorem initResources_slots (dev : Device) (b b' : CDRMBackend.t) :
  CDRMBackend_initResources dev b = (true, b') ->
  CDRMBackend.crtcs b = [] -> CDRMBackend.planes b = [] ->
  exists pids kps,
    drmModeGetPlaneResources dev = Some pids /\
    Forall2 (fun pid kp => drmModeGetPlane dev pid = Some kp) pids kps /\
    Forall2 plane_made_of kps (CDRMBackend.planes b') /\
    forall i c, CDRMBackend.crtcs b' !! i = Some c ->
      (forall p, SDRMCRTC.primary c = Some p ->
         exists pl kp, CDRMBackend.planes b' !! p = Some pl /\ kps !! p = Some kp /\
                       SDRMPlane.type pl = DRM_PLANE_TYPE_PRIMARY /\
                       Z.testbit (drmModePlane.possible_crtcs kp) (Z.of_nat i) = true) /\
      (forall p, SDRMCRTC.cursor c = Some p ->
         exists pl kp, CDRMBackend.planes b' !! p = Some pl /\ kps !! p = Some kp /\
                       SDRMPlane.type pl = DRM_PLANE_TYPE_CURSOR /\
                       Z.testbit (drmModePlane.possible_crtcs kp) (Z.of_nat i) = true) /\
      (forall p q, SDRMCRTC.primary c = Some p -> SDRMCRTC.cursor c = Some q -> p <> q) /\
      (forall j cj p, CDRMBackend.crtcs b' !! j = Some cj ->
                      holds_plane c p -> holds_plane cj p -> i = j).
Proof.
  intros H Hc Hp.
  destruct (initResources_unfold_ok dev b b' H) as (cids & pids & _ & Hpr & _ & Hcap & Hrun).
  rewrite Hc in Hcap, Hrun. cbn [app] in Hcap, Hrun.
  destruct (slots_ok_fresh dev cids) as [Hok0 Hex0].
  destruct (initResources_planes_ok dev pids _ b' [] Hrun)
    as (kps & pls & Hf1 & Hf2 & Hpl & Hok & Hex & Hids & _).
  { cbn. rewrite Hp. reflexivity. }
  { cbn. rewrite Hp. exact Hok0. }
  { cbn. exact Hex0. }
  cbn in Hpl, Hids, Hok. rewrite Hp in Hpl. cbn in Hpl.
  exists pids, kps. split; [exact Hpr|]. split; [exact Hf1|].
  split; [rewrite Hpl; apply (Forall2_impl _ _ _ _ Hf2); intros kp pl Hi; apply Hi|].
  intros i c Hi.
  assert (Hi32 : (i < 32)%nat).
  { apply lookup_lt_Some in Hi.
    assert (Hl : length (CDRMBackend.crtcs b') = length (map (crtc_of dev) cids)).
    { rewrite <- (length_map SDRMCRTC.id), Hids, length_map. reflexivity. }
    lia. }
  assert (Hbit : forall m, names_crtc m i = true -> Z.testbit m (Z.of_nat i) = true).
  { intros m Hm. unfold names_crtc in Hm. rewrite (land_crtcBit m i Hi32) in Hm.
    rewrite negb_involutive in Hm. exact Hm. }
  destruct (Hok i c Hi) as [H1 H2].
  split; [|split; [|split]].
  - intros p Hpp. destruct (H1 p Hpp) as (pl & kp & Ha & Hb & Hty & Hn). exists pl, kp. auto.
  - intros p Hpp. destruct (H2 p Hpp) as (pl & kp & Ha & Hb & Hty & Hn). exists pl, kp. auto.
  - intros p q Hpp Hq ->.
    destruct (H1 q Hpp) as (pl & kp & Ha & _ & Hty & _).
    destruct (H2 q Hq) as (pl' & kp' & Ha' & _ & Hty' & _).
    rewrite Ha in Ha'. injection Ha' as <-. rewrite Hty in Hty'. discriminate.
  - intros j cj p Hj Hh Hh'. exact (Hex i j c cj p Hi Hj Hh Hh').
Qed.

(** A successful initialisation mirrors the kernel's lists: the CRTC
    objects added carry the kernel's CRTC ids in the kernel's order with the
    gamma sizes the kernel reports, there are at most 32 CRTCs, and the
    plane objects added are made, in order, of the kernel's planes. *)
Theorem initResources_inventory (dev : Device) (b b' : CDRMBackend.t) :
  CDRMBackend_initResources dev b = (true, b') ->
  slots_ok [] [] (CDRMBackend.crtcs b) -> CDRMBackend.planes b = [] ->
  exists cids pids kps,
    drmModeGetResources dev = Some cids /\
    drmModeGetPlaneResources dev = Some pids /\
    map SDRMCRTC.id (CDRMBackend.crtcs b') = map SDRMCRTC.id (CDRMBackend.crtcs b) ++ cids /\
    (length (CDRMBackend.crtcs b') <= 32)%nat /\
    (forall c, c ∈ drop (length (CDRMBackend.crtcs b)) (CDRMBackend.crtcs b') ->
               drmModeGetCrtc dev (SDRMCRTC.id c) = Some (SDRMCRTC.gammaSize c)) /\
    Forall2 (fun pid kp => drmModeGetPlane dev pid = Some kp) pids kps /\
    Forall2 plane_made_of kps (CDRMBackend.planes b') /\
    CDRMBackend.drmProps b' = CDRMBackend.drmProps b.
Proof.
  intros H Hok0 Hp.
  destruct (initResources_unfold_ok dev b b' H) as (cids & pids & Hcr & Hpr & Hall & Hcap & Hrun).
  assert (Hnone : forall i c p,
            (CDRMBackend.crtcs b ++ map (crtc_of dev) cids) !! i = Some c -> ~ holds_plane c p).
  { intros i c p Hi Hh. apply lookup_app_Some in Hi. destruct Hi as [Hi|[_ Hi]].
    - pose proof (slots_ok_bound _ _ _ _ _ _ Hok0 Hi Hh) as Hlt. cbn in Hlt. lia.
    - destruct (slots_ok_fresh dev cids) as [Hok1 _].
      pose proof (slots_ok_bound _ _ _ _ _ _ Hok1 Hi Hh) as Hlt. cbn in Hlt. lia. }
  assert (Hex0 : slots_exclusive (CDRMBackend.crtcs b ++ map (crtc_of dev) cids)).
  { intros i j ci cj p Hi _ Hh _. exfalso. exact (Hnone i ci p Hi Hh). }
  assert (Hok1 : slots_ok [] [] (CDRMBackend.crtcs b ++ map (crtc_of dev) cids)).
  { intros i c Hi. split; intros p Hh; exfalso; apply (Hnone i c p Hi); [left|right]; exact Hh. }
  destruct (initResources_planes_ok dev pids _ b' [] Hrun)
    as (kps & pls & Hf1 & Hf2 & Hpl & _ & _ & Hids & Hg & Hdp).
  { cbn. rewrite Hp. reflexivity. }
  { cbn. rewrite Hp. exact Hok1. }
  { cbn. exact Hex0. }
  cbn in Hpl, Hids, Hg, Hdp. rewrite Hp in Hpl. cbn in Hpl.
  assert (Hlen : length (CDRMBackend.crtcs b')
                 = length (CDRMBackend.crtcs b ++ map (crtc_of dev) cids)).
  { rewrite <- (length_map SDRMCRTC.id), Hids, length_map. reflexivity. }
  exists cids, pids, kps.
  split; [exact Hcr|]. split; [exact Hpr|].
  split.
  { rewrite Hids, map_app, map_map. cbn. rewrite map_id. reflexivity. }
  split; [lia|].
  split.
  { intros c Hc. apply list_elem_of_lookup in Hc. destruct Hc as [k Hk].
    rewrite lookup_drop in Hk.
    assert (Hi : map SDRMCRTC.id (CDRMBackend.crtcs b') !! (length (CDRMBackend.crtcs b) + k)%nat
                 = Some (SDRMCRTC.id c)).
    { rewrite list_lookup_fmap, Hk. reflexivity. }
    assert (Hgk : map SDRMCRTC.gammaSize (CDRMBackend.crtcs b')
                     !! (length (CDRMBackend.crtcs b) + k)%nat
                  = Some (SDRMCRTC.gammaSize c)).
    { rewrite list_lookup_fmap, Hk. reflexivity. }
    rewrite Hids in Hi. rewrite Hg in Hgk.
    rewrite list_lookup_fmap in Hi, Hgk.
    rewrite lookup_app_r in Hi, Hgk by lia.
    replace (length (CDRMBackend.crtcs b) + k - length (CDRMBackend.crtcs b))%nat with k
      in Hi, Hgk by lia.
    rewrite list_lookup_fmap in Hi, Hgk.
    destruct (cids !! k) as [id|] eqn:Hid; [|discriminate].
    cbn in Hi, Hgk. injection Hi as Hi. injection Hgk as Hgk. rewrite <- Hi, <- Hgk.
    assert (Hq : crtc_queries_ok dev id = true).
    { rewrite forallb_forall in Hall. apply Hall.
      apply list_elem_of_In. apply list_elem_of_lookup. exists k. exact Hid. }
    unfold crtc_queries_ok in Hq. apply andb_prop in Hq. destruct Hq as [Hq _].
    apply bool_decide_eq_true in Hq. destruct Hq as [g Hq]. rewrite Hq. reflexivity. }
  split; [exact Hf1|].
  split; [rewrite Hpl; apply (Forall2_impl _ _ _ _ Hf2); intros kp pl Hi; apply Hi|].
  exact Hdp.
Qed.

(** When the kernel lists more CRTCs than the backend can hold, 32 with
    those it already has, and every per-CRTC query succeeds, initialisation
    fails with the CRITICAL line as its last log line; no plane has been
    queried, and the CRTC objects stay in the backend. *)
Theorem initResources_crtc_cap (dev : Device) (b : CDRMBackend.t) (cids : list Z) :
  drmModeGetResources dev = Some cids ->
  forallb (crtc_queries_ok dev) cids = true ->
  (32 < length (CDRMBackend.crtcs b) + length cids)%nat ->
  exists b',
    CDRMBackend_initResources dev b = (false, b') /\
    CDRMBackend.logged b'
    = CDRMBackend.logged b
        ++ [(AQ_LOG_DEBUG, "drm: found {} CRTCs");
            (AQ_LOG_CRITICAL, "drm: Cannot support more than 32 CRTCs")] /\
    CDRMBackend.planes b' = CDRMBackend.planes b /\
    CDRMBackend.crtcs b' = CDRMBackend.crtcs b ++ map (crtc_of dev) cids.
Proof.
  intros Hres Hall Hlen. unfold CDRMBackend_initResources. rewrite Hres.
  destruct (initResources_crtcs dev cids _) as [ok b1] eqn:Hc.
  pose proof (initResources_crtcs_result dev cids
                (CDRMBackend.log AQ_LOG_DEBUG "drm: found {} CRTCs" b)) as Hr.
  rewrite Hc, Hall in Hr. cbn in Hr. subst ok.
  apply initResources_crtcs_ok in Hc. destruct Hc as [_ ->].
  cbn [negb CDRMBackend.crtcs CDRMBackend.set_crtcs CDRMBackend.log].
  assert (Hcap : (32 <? length (CDRMBackend.crtcs b ++ map (crtc_of dev) cids))%nat = true).
  { apply Nat.ltb_lt. rewrite length_app, length_map. exact Hlen. }
  rewrite Hcap. eexists. split; [reflexivity|]. cbn.
  split; [rewrite <- app_assoc; reflexivity|]. split; reflexivity.
Qed.

(** When one of the per-CRTC queries fails, initialisation fails with an
    ERROR line as its last log line and an empty CRTC list, however many
    CRTCs the kernel lists. *)
Theorem initResources_crtc_query_failure (dev : Device) (b : CDRMBackend.t) (cids : list Z) :
  drmModeGetResources dev = Some cids ->
  forallb (crtc_queries_ok dev) cids = false ->
  exists b' s,
    CDRMBackend_initResources dev b = (false, b') /\
    CDRMBackend.logged b'
    = CDRMBackend.logged b ++ [(AQ_LOG_DEBUG, "drm: found {} CRTCs"); (AQ_LOG_ERROR, s)] /\
    CDRMBackend.crtcs b' = [] /\
    CDRMBackend.planes b' = CDRMBackend.planes b.
Proof.
  intros Hres Hall. unfold CDRMBackend_initResources. rewrite Hres.
  destruct (initResources_crtcs dev cids _) as [ok b1] eqn:Hc.
  pose proof (initResources_crtcs_result dev cids
                (CDRMBackend.log AQ_LOG_DEBUG "drm: found {} CRTCs" b)) as Hr.
  rewrite Hc, Hall in Hr. cbn in Hr. subst ok.
  apply initResources_crtcs_failed in Hc. destruct Hc as (_ & H1 & H2 & _ & s & H4).
  cbn [negb]. exists b1, s. split; [reflexivity|]. cbn in H2, H4.
  split; [rewrite H4, <- app_assoc; reflexivity|]. split; [exact H1|exact H2].
Qed.

(** A failed initialisation of a backend without planes leaves no plane
    object behind, and its last log line is an ERROR or the CRITICAL one. *)
Theorem initResources_failure (dev : Device) (b b' : CDRMBackend.t) :
  CDRMBackend_initResources dev b = (false, b') ->
  CDRMBackend.planes b = [] ->
  CDRMBackend.planes b' = [] /\
  exists l s, last (CDRMBackend.logged b') = Some (l, s) /\
              (l = AQ_LOG_ERROR \/ l = AQ_LOG_CRITICAL).
Proof.
  unfold CDRMBackend_initResources. intros H Hp.
  destruct (drmModeGetResources dev) as [cids|].
  2:{ injection H as <-. cbn. split; [exact Hp|]. eexists _, _. split; [apply last_snoc|auto]. }
  destruct (initResources_crtcs dev cids _) as [ok b1] eqn:Hc.
  destruct ok; cbn [negb] in H.
  2:{ injection H as <-. apply initResources_crtcs_failed in Hc.
      destruct Hc as (_ & _ & H2 & _ & s & H4). cbn in H2. split; [rewrite H2; exact Hp|].
      exists AQ_LOG_ERROR, s. rewrite H4. split; [apply last_snoc|auto]. }
  apply initResources_crtcs_ok in Hc. destruct Hc as [_ ->].
  cbn [CDRMBackend.crtcs CDRMBackend.set_crtcs CDRMBackend.log] in H.
  destruct (32 <? _)%nat.
  { injection H as <-. cbn. split; [exact Hp|]. eexists _, _. split; [apply last_snoc|auto]. }
  destruct (drmModeGetPlaneResources dev) as [pids|].
  2:{ injection H as <-. cbn. split; [exact Hp|]. eexists _, _. split; [apply last_snoc|auto]. }
  apply initResources_planes_failed in H. destruct H as (_ & H2 & s & H3).
  split; [exact H2|]. exists AQ_LOG_ERROR, s. auto.
Qed.

(** A device with two CRTCs and three planes: a primary and a cursor plane
    that can drive both CRTCs, and a primary plane for the second CRTC.
    Planes carry their type in property 8 and their IN_FORMATS blob id in
    property 9. *)
Definition caps_usual (c : drm_cap) : option Z :=
  match c with
  | DRM_CAP_CURSOR_WIDTH => Some 256
  | DRM_CAP_CURSOR_HEIGHT => Some 256
  | DRM_CAP_PRIME => Some 3
  | DRM_CAP_CRTC_IN_VBLANK_EVENT => Some 1
  | DRM_CAP_TIMESTAMP_MONOTONIC => Some 1
  | DRM_CAP_ASYNC_PAGE_FLIP => Some 0
  | DRM_CAP_ADDFB2_MODIFIERS => Some 1
  end.

Definition I915_FORMAT_MOD_X_TILED : Z := 0x0100000000000001.

Definition dev_two_heads : Device :=
  {| drmGetCap := caps_usual;
     drmSetClientCap_universal_planes := true;
     drmModeGetResources := Some [40; 41];
     drmModeGetCrtc := fun _ => Some 256;
     getDRMCRTCProps := fun _ => true;
     drmModeGetPlaneResources := Some [31; 32; 33];
     drmModeGetPlane := fun id =>
       Some (drmModePlane.mk id [DRM_FORMAT_XRGB8888] (if id =? 33 then 2 else 3));
     getDRMPlaneProps := fun _ => Some (SDRMPlaneProps.mk 8 9);
     getDRMProp := fun obj prop =>
       if prop =? 8 then Some (if obj =? 32 then DRM_PLANE_TYPE_CURSOR else DRM_PLANE_TYPE_PRIMARY)
       else if prop =? 9 then Some 77 else None;
     drmModeGetPropertyBlob := fun _ =>
       Some [(DRM_FORMAT_XRGB8888, I915_FORMAT_MOD_X_TILED)] |}.

(** The same device with 33 CRTCs. *)
Definition dev_33_crtcs : Device :=
  {| drmGetCap := drmGetCap dev_two_heads;
     drmSetClientCap_universal_planes := true;
     drmModeGetResources := Some (map Z.of_nat (seq 40 33));
     drmModeGetCrtc := drmModeGetCrtc dev_two_heads;
     getDRMCRTCProps := getDRMCRTCProps dev_two_heads;
     drmModeGetPlaneResources := drmModeGetPlaneResources dev_two_heads;
     drmModeGetPlane := drmModeGetPlane dev_two_heads;
     getDRMPlaneProps := getDRMPlaneProps dev_two_heads;
     getDRMProp := getDRMProp dev_two_heads;
     drmModeGetPropertyBlob := drmModeGetPropertyBlob dev_two_heads |}.

(** The same 33 CRTCs, the properties of the last of which cannot be read. *)
Definition dev_33_crtcs_one_broken : Device :=
  {| drmGetCap := drmGetCap dev_two_heads;
     drmSetClientCap_universal_planes := true;
     drmModeGetResources := Some (map Z.of_nat (seq 40 33));
     drmModeGetCrtc := drmModeGetCrtc dev_two_heads;
     getDRMCRTCProps := fun id => negb (id =? 72);
     drmModeGetPlaneResources := drmModeGetPlaneResources dev_two_heads;
     drmModeGetPlane := drmModeGetPlane dev_two_heads;
     getDRMPlaneProps := getDRMPlaneProps dev_two_heads;
     getDRMProp := getDRMProp dev_two_heads;
     drmModeGetPropertyBlob := drmModeGetPropertyBlob dev_two_heads |}.

Definition backend_two_heads : CDRMBackend.t :=
  snd (CDRMBackend_initResources dev_two_heads
         (snd (CDRMBackend_checkFeatures dev_two_heads CDRMBackend.fresh))).

Lemma initResources_slots_witness :
  exists pids kps,
    drmModeGetPlaneResources dev_two_heads = Some pids /\
    Forall2 (fun pid kp => drmModeGetPlane dev_two_heads pid = Some kp) pids kps /\
    Forall2 plane_made_of kps (CDRMBackend.planes backend_two_heads) /\
    forall i c, CDRMBackend.crtcs backend_two_heads !! i = Some c ->
      (forall p, SDRMCRTC.primary c = Some p ->
         exists pl kp, CDRMBackend.planes backend_two_heads !! p = Some pl /\
                       kps !! p = Some kp /\
                       SDRMPlane.type pl = DRM_PLANE_TYPE_PRIMARY /\
                       Z.testbit (drmModePlane.possible_crtcs kp) (Z.of_nat i) = true) /\
      (forall p, SDRMCRTC.cursor c = Some p ->
         exists pl kp, CDRMBackend.planes backend_two_heads !! p = Some pl /\
                       kps !! p = Some kp /\
                       SDRMPlane.type pl = DRM_PLANE_TYPE_CURSOR /\
                       Z.testbit (drmModePlane.possible_crtcs kp) (Z.of_nat i) = true) /\
      (forall p q, SDRMCRTC.primary c = Some p -> SDRMCRTC.cursor c = Some q -> p <> q) /\
      (forall j cj p, CDRMBackend.crtcs backend_two_heads !! j = Some cj ->
                      holds_plane c p -> holds_plane cj p -> i = j).
Proof.
  apply (initResources_slots dev_two_heads
           (snd (CDRMBackend_checkFeatures dev_two_heads CDRMBackend.fresh))).
  - vm_compute. reflexivity.
  - vm_compute. reflexivity.
  - vm_compute. reflexivity.
Defined.

Lemma initResources_inventory_witness :
  map SDRMCRTC.id (CDRMBackend.crtcs backend_two_heads) = [40; 41] /\
  map SDRMPlane.id (CDRMBackend.planes backend_two_heads) = [31; 32; 33] /\
  exists cids pids kps,
    drmModeGetResources dev_two_heads = Some cids /\
    drmModeGetPlaneResources dev_two_heads = Some pids /\
    map SDRMCRTC.id (CDRMBackend.crtcs backend_two_heads) = [] ++ cids /\
    (length (CDRMBackend.crtcs backend_two_heads) <= 32)%nat /\
    (forall c, c ∈ drop 0 (CDRMBackend.crtcs backend_two_heads) ->
               drmModeGetCrtc dev_two_heads (SDRMCRTC.id c) = Some (SDRMCRTC.gammaSize c)) /\
    Forall2 (fun pid kp => drmModeGetPlane dev_two_heads pid = Some kp) pids kps /\
    Forall2 plane_made_of kps (CDRMBackend.planes backend_two_heads) /\
    CDRMBackend.drmProps backend_two_heads
    = CDRMBackend.drmProps (snd (CDRMBackend_checkFeatures dev_two_heads CDRMBackend.fresh)).
Proof.
  split; [vm_compute; reflexivity|]. split; [vm_compute; reflexivity|].
  apply (initResources_inventory dev_two_heads
           (snd (CDRMBackend_checkFeatures dev_two_heads CDRMBackend.fresh))).
  - vm_compute. reflexivity.
  - apply slots_ok_nil.
  - vm_compute. reflexivity.
Defined.

Lemma initResources_crtc_cap_witness :
  exists b',
    CDRMBackend_initResources dev_33_crtcs CDRMBackend.fresh = (false, b') /\
    CDRMBackend.logged b'
    = [] ++ [(AQ_LOG_DEBUG, "drm: found {} CRTCs");
             (AQ_LOG_CRITICAL, "drm: Cannot support more than 32 CRTCs")] /\
    CDRMBackend.planes b' = [] /\
    CDRMBackend.crtcs b' = [] ++ map (crtc_of dev_33_crtcs) (map Z.of_nat (seq 40 33)).
Proof.
  apply (initResources_crtc_cap dev_33_crtcs CDRMBackend.fresh (map Z.of_nat (seq 40 33))).
  - reflexivity.
  - vm_compute. reflexivity.
  - vm_compute. lia.
Defined.

Lemma initResources_crtc_query_failure_witness :
  exists b' s,
    CDRMBackend_initResources dev_33_crtcs_one_broken CDRMBackend.fresh = (false, b') /\
    CDRMBackend.logged b'
    = [] ++ [(AQ_LOG_DEBUG, "drm: found {} CRTCs"); (AQ_LOG_ERROR, s)] /\
    CDRMBackend.crtcs b' = [] /\
    CDRMBackend.planes b' = [].
Proof.
  apply (initResources_crtc_query_failure dev_33_crtcs_one_broken CDRMBackend.fresh
           (map Z.of_nat (seq 40 33))).
  - reflexivity.
  - vm_compute. reflexivity.
Defined.

Lemma initResources_failure_witness :
  CDRMBackend.planes (snd (CDRMBackend_initResources dev_33_crtcs CDRMBackend.fresh)) = [] /\
  exists l s,
    last (CDRMBackend.logged (snd (CDRMBackend_initResources dev_33_crtcs CDRMBackend.fresh)))
    = Some (l, s) /\
    (l = AQ_LOG_ERROR \/ l = AQ_LOG_CRITICAL).
Proof.
  apply (initResources_failure dev_33_crtcs CDRMBackend.fresh).
  - vm_compute. reflexivity.
  - reflexivity.
Defined.

(** *** Plane formats *)

(** The modifiers of the first entry for a format, as a lookup by format
    sees them; the modifiers an IN_FORMATS blob lists for a format, in the
    blob's order; the modifiers every plane of a type is given. *)
Definition first_mods (f : Z) (l : list SDRMFormat.t) : list Z :=
  match List.find (fun e => SDRMFormat.drmFormat e =? f) l with
  | Some e => SDRMFormat.modifiers e
  | None => []
  end.

Definition blob_mods (f : Z) (blob : list (Z * Z)) : list Z :=
  map snd (List.filter (fun p => fst p =? f) blob).

Definition base_modifiers (type : Z) : list Z :=
  if negb (type =? DRM_PLANE_TYPE_CURSOR)
  then [DRM_FORMAT_MOD_LINEAR; DRM_FORMAT_MOD_INVALID]
  else [DRM_FORMAT_MOD_LINEAR].

Lemma add_modifier_first (f m g : Z) (l : list SDRMFormat.t) :
  first_mods g (add_modifier f m l) = first_mods g l ++ (if f =? g then [m] else []).
Proof.
  unfold first_mods. induction l as [|e es IH]; cbn [add_modifier List.find].
  - cbn. destruct (f =? g); reflexivity.
  - destruct (SDRMFormat.drmFormat e =? f) eqn:Hef.
    + apply Z.eqb_eq in Hef. subst f. cbn [List.find SDRMFormat.drmFormat SDRMFormat.modifiers].
      destruct (SDRMFormat.drmFormat e =? g); [reflexivity|]. rewrite app_nil_r. reflexivity.
    + cbn [List.find]. destruct (SDRMFormat.drmFormat e =? g) eqn:Heg; [|exact IH].
      apply Z.eqb_eq in Heg. subst g. rewrite Z.eqb_sym, Hef, app_nil_r. reflexivity.
Qed.

Lemma merge_modifiers_first (blob : list (Z * Z)) (g : Z) (l : list SDRMFormat.t) :
  first_mods g (merge_modifiers blob l) = first_mods g l ++ blob_mods g blob.
Proof.
  revert l. induction blob as [|[f m] rest IH]; intros l; cbn [merge_modifiers].
  - unfold blob_mods. cbn. rewrite app_nil_r. reflexivity.
  - rewrite IH, add_modifier_first, <- app_assoc. f_equal.
    unfold blob_mods. cbn [List.filter fst]. destruct (f =? g); reflexivity.
Qed.

Lemma base_first (type f : Z) (fs : list Z) :
  first_mods f (plane_base_formats type fs)
  = if bool_decide (f ∈ fs) then base_modifiers type else [].
Proof.
  unfold first_mods, plane_base_formats. induction fs as [|x xs IH]; [reflexivity|].
  cbn [map List.find SDRMFormat.drmFormat]. destruct (x =? f) eqn:Hx.
  - apply Z.eqb_eq in Hx. subst x. rewrite bool_decide_eq_true_2 by (left; reflexivity).
    reflexivity.
  - rewrite IH. apply Z.eqb_neq in Hx.
    destruct (decide (f ∈ xs)) as [Hin|Hin].
    + rewrite !bool_decide_eq_true_2; [reflexivity|right; exact Hin|exact Hin].
    + rewrite !bool_decide_eq_false_2; [reflexivity| |exact Hin].
      intros H. apply elem_of_cons in H. destruct H as [H|H]; [congruence|contradiction].
Qed.

Lemma add_modifier_formats (f m : Z) (l : list SDRMFormat.t) :
  map SDRMFormat.drmFormat (add_modifier f m l)
  = map SDRMFormat.drmFormat l
      ++ (if bool_decide (f ∈ map SDRMFormat.drmFormat l) then [] else [f]).
Proof.
  induction l as [|e es IH]; cbn [add_modifier map].
  - reflexivity.
  - destruct (SDRMFormat.drmFormat e =? f) eqn:Hef.
    + apply Z.eqb_eq in Hef. subst f. rewrite bool_decide_eq_true_2 by (left; reflexivity).
      cbn. rewrite app_nil_r. reflexivity.
    + apply Z.eqb_neq in Hef. cbn [map]. rewrite IH. cbn [app]. f_equal. f_equal.
      destruct (decide (f ∈ map SDRMFormat.drmFormat es)) as [Hin|Hin].
      * rewrite !bool_decide_eq_true_2; [reflexivity|right; exact Hin|exact Hin].
      * rewrite !bool_decide_eq_false_2; [reflexivity| |exact Hin].
        intros H. apply elem_of_cons in H. destruct H as [H|H]; [congruence|contradiction].
Qed.

Lemma merge_modifiers_NoDup (blob : list (Z * Z)) (l : list SDRMFormat.t) :
  NoDup (map SDRMFormat.drmFormat l) ->
  NoDup (map SDRMFormat.drmFormat (merge_modifiers blob l)).
Proof.
  revert l. induction blob as [|[f m] rest IH]; intros l Hnd; cbn [merge_modifiers].
  - exact Hnd.
  - apply IH. rewrite add_modifier_formats.
    destruct (decide (f ∈ map SDRMFormat.drmFormat l)) as [Hin|Hin].
    + rewrite bool_decide_eq_true_2 by exact Hin. rewrite app_nil_r. exact Hnd.
    + rewrite bool_decide_eq_false_2 by exact Hin. apply NoDup_app.
      split; [exact Hnd|]. split; [|apply NoDup_singleton].
      intros x Hx Hx'. apply list_elem_of_singleton in Hx'. subst x. contradiction.
Qed.

Lemma plane_init_of_formats (dev : Device) (props : SDRMProps.t) (kp : drmModePlane.t)
    (pl : SDRMPlane.t) :
  plane_init_of dev props kp pl ->
  (forall f, first_mods f (SDRMPlane.formats pl)
             = (if bool_decide (f ∈ drmModePlane.formats kp)
                then base_modifiers (SDRMPlane.type pl) else [])
               ++ blob_mods f (in_formats_blob dev props kp)) /\
  (NoDup (drmModePlane.formats kp) -> NoDup (map SDRMFormat.drmFormat (SDRMPlane.formats pl))).
Proof.
  intros (_ & _ & ->). split.
  - intros f. rewrite merge_modifiers_first, base_first. reflexivity.
  - intros Hnd. apply merge_modifiers_NoDup. unfold plane_base_formats.
    rewrite map_map. cbn. rewrite map_id. exact Hnd.
Qed.

(** The format table of an initialised plane.  A lookup by format finds
    the modifiers of the plane's type (LINEAR, and INVALID unless it is a
    cursor plane) when the kernel lists the format for the plane, followed
    by the modifiers the IN_FORMATS blob lists for the format, in the
    blob's order, repeated ones included; and a format list without
    repetitions gives a table with one entry per format. *)
Theorem plane_init_formats (dev : Device) (kp : drmModePlane.t) (self : nat)
    (b b' : CDRMBackend.t) (pl : SDRMPlane.t) :
  SDRMPlane_init dev kp self b = (true, b', pl) ->
  (forall f, first_mods f (SDRMPlane.formats pl)
             = (if bool_decide (f ∈ drmModePlane.formats kp)
                then base_modifiers (SDRMPlane.type pl) else [])
               ++ blob_mods f (in_formats_blob dev (CDRMBackend.drmProps b) kp)) /\
  (NoDup (drmModePlane.formats kp) -> NoDup (map SDRMFormat.drmFormat (SDRMPlane.formats pl))).
Proof.
  intros H. apply plane_init_of_formats. exact (plane_init_of_ok _ _ _ _ _ _ H).
Qed.

Lemma find_Forall2 {A B : Type} (R : A -> B -> Prop) (P : A -> bool) (Q : B -> bool)
    (l1 : list A) (l2 : list B) :
  Forall2 R l1 l2 -> (forall x y, R x y -> P x = Q y) ->
  match List.find P l1, List.find Q l2 with
  | Some x, Some y => R x y
  | None, None => True
  | _, _ => False
  end.
Proof.
  intros HF HPQ. induction HF as [|x y l1 l2 Hxy HF IH]; cbn [List.find]; [exact I|].
  rewrite <- (HPQ x y Hxy). destruct (P x); [exact Hxy|exact IH].
Qed.

(** The first of the kernel's planes that reports the type. *)
Definition first_plane_of_type (dev : Device) (type : Z) (kps : list drmModePlane.t)
    : option drmModePlane.t :=
  List.find (fun kp => bool_decide (plane_type_of dev kp = Some type)) kps.

Lemma formats_of_first_init (dev : Device) (props : SDRMProps.t) (type : Z)
    (kps : list drmModePlane.t) (pls : list SDRMPlane.t) :
  Forall2 (plane_init_of dev props) kps pls ->
  match first_plane_of_type dev type kps with
  | None => formats_of_first type pls = []
  | Some kp =>
    forall f, first_mods f (formats_of_first type pls)
              = (if bool_decide (f ∈ drmModePlane.formats kp) then base_modifiers type else [])
                ++ blob_mods f (in_formats_blob dev props kp)
  end.
Proof.
  intros HF.
  pose proof (find_Forall2 _ (fun kp => bool_decide (plane_type_of dev kp = Some type))
                (fun p => SDRMPlane.type p =? type) kps pls HF) as Hfind.
  unfold first_plane_of_type, formats_of_first.
  destruct (List.find _ kps) as [kp|] eqn:Hk;
    destruct (List.find _ pls) as [pl|] eqn:Hp.
  - assert (Hty : SDRMPlane.type pl = type).
    { apply find_some in Hp. destruct Hp as [_ Hp]. apply Z.eqb_eq in Hp. exact Hp. }
    intros f. rewrite <- Hty. apply plane_init_of_formats. apply Hfind.
    intros x y (_ & Hxt & _). rewrite Hxt.
    destruct (Z.eqb_spec (SDRMPlane.type y) type) as [->|Hne].
    + apply bool_decide_eq_true_2. reflexivity.
    + apply bool_decide_eq_false_2. congruence.
  - exfalso. apply Hfind.
    intros x y (_ & Hxt & _). rewrite Hxt.
    destruct (Z.eqb_spec (SDRMPlane.type y) type) as [->|Hne].
    + apply bool_decide_eq_true_2. reflexivity.
    + apply bool_decide_eq_false_2. congruence.
  - exfalso. apply Hfind.
    intros x y (_ & Hxt & _). rewrite Hxt.
    destruct (Z.eqb_spec (SDRMPlane.type y) type) as [->|Hne].
    + apply bool_decide_eq_true_2. reflexivity.
    + apply bool_decide_eq_false_2. congruence.
  - reflexivity.
Qed.

(** What [getRenderFormats] and [getCursorFormats] offer after a
    successful initialisation of a backend without CRTCs and planes: the
    format table of the first plane the kernel reports as primary, or as
    cursor plane, nothing when the kernel reports no such plane.  For the
    formats the kernel lists for that plane, a primary plane offers LINEAR
    and INVALID and a cursor plane LINEAR only, each followed by the
    modifiers of the plane's IN_FORMATS blob. *)
Theorem formats_after_initResources (dev : Device) (b b' : CDRMBackend.t) :
  CDRMBackend_initResources dev b = (true, b') ->
  CDRMBackend.crtcs b = [] -> CDRMBackend.planes b = [] ->
  exists pids kps,
    drmModeGetPlaneResources dev = Some pids /\
    Forall2 (fun pid kp => drmModeGetPlane dev pid = Some kp) pids kps /\
    match first_plane_of_type dev DRM_PLANE_TYPE_PRIMARY kps with
    | None => CDRMBackend_getRenderFormats b' = []
    | Some kp =>
      forall f, first_mods f (CDRMBackend_getRenderFormats b')
                = (if bool_decide (f ∈ drmModePlane.formats kp)
                   then [DRM_FORMAT_MOD_LINEAR; DRM_FORMAT_MOD_INVALID] else [])
                  ++ blob_mods f (in_formats_blob dev (CDRMBackend.drmProps b) kp)
    end /\
    match first_plane_of_type dev DRM_PLANE_TYPE_CURSOR kps with
    | None => CDRMBackend_getCursorFormats b' = []
    | Some kp =>
      forall f, first_mods f (CDRMBackend_getCursorFormats b')
                = (if bool_decide (f ∈ drmModePlane.formats kp)
                   then [DRM_FORMAT_MOD_LINEAR] else [])
                  ++ blob_mods f (in_formats_blob dev (CDRMBackend.drmProps b) kp)
    end.
Proof.
  intros H Hc Hp.
  destruct (initResources_unfold_ok dev b b' H) as (cids & pids & _ & Hpr & _ & Hcap & Hrun).
  rewrite Hc in Hcap, Hrun. cbn [app] in Hcap, Hrun.
  destruct (slots_ok_fresh dev cids) as [Hok0 Hex0].
  destruct (initResources_planes_ok dev pids _ b' [] Hrun)
    as (kps & pls & Hf1 & Hf2 & Hpl & _).
  { cbn. rewrite Hp. reflexivity. }
  { cbn. rewrite Hp. exact Hok0. }
  { cbn. exact Hex0. }
  cbn in Hpl, Hf2. rewrite Hp in Hpl. cbn in Hpl.
  exists pids, kps. split; [exact Hpr|]. split; [exact Hf1|].
  unfold CDRMBackend_getRenderFormats, CDRMBackend_getCursorFormats. rewrite Hpl.
  split.
  - exact (formats_of_first_init dev _ DRM_PLANE_TYPE_PRIMARY kps pls Hf2).
  - exact (formats_of_first_init dev _ DRM_PLANE_TYPE_CURSOR kps pls Hf2).
Qed.

Lemma plane_init_formats_witness :
  first_mods DRM_FORMAT_XRGB8888
    (SDRMPlane.formats
       (snd (SDRMPlane_init dev_two_heads (drmModePlane.mk 31 [DRM_FORMAT_XRGB8888] 3) 0
               (snd (CDRMBackend_checkFeatures dev_two_heads CDRMBackend.fresh)))))
  = [DRM_FORMAT_MOD_LINEAR; DRM_FORMAT_MOD_INVALID; I915_FORMAT_MOD_X_TILED].
Proof.
  destruct (plane_init_formats dev_two_heads (drmModePlane.mk 31 [DRM_FORMAT_XRGB8888] 3) 0
              (snd (CDRMBackend_checkFeatures dev_two_heads CDRMBackend.fresh))
              (snd (fst (SDRMPlane_init dev_two_heads
                           (drmModePlane.mk 31 [DRM_FORMAT_XRGB8888] 3) 0
                           (snd (CDRMBackend_checkFeatures dev_two_heads CDRMBackend.fresh)))))
              (snd (SDRMPlane_init dev_two_heads
                      (drmModePlane.mk 31 [DRM_FORMAT_XRGB8888] 3) 0
                      (snd (CDRMBackend_checkFeatures dev_two_heads CDRMBackend.fresh)))))
    as [H _].
  - vm_compute. reflexivity.
  - rewrite (H DRM_FORMAT_XRGB8888). vm_compute. reflexivity.
Defined.

Lemma formats_after_initResources_witness :
  exists pids kps,
    drmModeGetPlaneResources dev_two_heads = Some pids /\
    Forall2 (fun pid kp => drmModeGetPlane dev_two_heads pid = Some kp) pids kps /\
    match first_plane_of_type dev_two_heads DRM_PLANE_TYPE_PRIMARY kps with
    | None => CDRMBackend_getRenderFormats backend_two_heads = []
    | Some kp =>
      forall f, first_mods f (CDRMBackend_getRenderFormats backend_two_heads)
                = (if bool_decide (f ∈ drmModePlane.formats kp)
                   then [DRM_FORMAT_MOD_LINEAR; DRM_FORMAT_MOD_INVALID] else [])
                  ++ blob_mods f
                       (in_formats_blob dev_two_heads
                          (CDRMBackend.drmProps
                             (snd (CDRMBackend_checkFeatures dev_two_heads CDRMBackend.fresh)))
                          kp)
    end /\
    match first_plane_of_type dev_two_heads DRM_PLANE_TYPE_CURSOR kps with
    | None => CDRMBackend_getCursorFormats backend_two_heads = []
    | Some kp =>
      forall f, first_mods f (CDRMBackend_getCursorFormats backend_two_heads)
                = (if bool_decide (f ∈ drmModePlane.formats kp)
                   then [DRM_FORMAT_MOD_LINEAR] else [])
                  ++ blob_mods f
                       (in_formats_blob dev_two_heads
                          (CDRMBackend.drmProps
                             (snd (CDRMBackend_checkFeatures dev_two_heads CDRMBackend.fresh)))
                          kp)
    end.
Proof.
  apply (formats_after_initResources dev_two_heads
           (snd (CDRMBackend_checkFeatures dev_two_heads CDRMBackend.fresh))).
  - vm_compute. reflexivity.
  - vm_compute. reflexivity.
  - vm_compute. reflexivity.
Defined.

(** *** Feature check *)

(** [checkFeatures] answers [true] exactly when the device imports PRIME
    buffers, reports CRTC-in-vblank events and monotonic timestamps, and
    accepts universal planes.  In either case it has stored the cursor
    size, 64 standing in for a dimension the kernel does not report, and
    has touched neither CRTCs nor planes; on failure the two capability
    flags are as they were and one ERROR line was logged. *)
Theorem checkFeatures_spec (dev : Device) (b : CDRMBackend.t) :
  let ok := fst (CDRMBackend_checkFeatures dev b) in
  let b' := snd (CDRMBackend_checkFeatures dev b) in
  (ok = true <->
   (exists cap, drmGetCap dev DRM_CAP_PRIME = Some cap /\ Z.land cap DRM_PRIME_CAP_IMPORT <> 0) /\
   (exists cap, drmGetCap dev DRM_CAP_CRTC_IN_VBLANK_EVENT = Some cap /\ cap <> 0) /\
   (exists cap, drmGetCap dev DRM_CAP_TIMESTAMP_MONOTONIC = Some cap /\ cap <> 0) /\
   drmSetClientCap_universal_planes dev = true) /\
  SDRMProps.cursorSize (CDRMBackend.drmProps b')
  = (default 64 (drmGetCap dev DRM_CAP_CURSOR_WIDTH),
     default 64 (drmGetCap dev DRM_CAP_CURSOR_HEIGHT)) /\
  CDRMBackend.crtcs b' = CDRMBackend.crtcs b /\
  CDRMBackend.planes b' = CDRMBackend.planes b /\
  (ok = true ->
   SDRMProps.supportsAsyncCommit (CDRMBackend.drmProps b')
   = bool_decide (drmGetCap dev DRM_CAP_ASYNC_PAGE_FLIP = Some 1) /\
   SDRMProps.supportsAddFb2Modifiers (CDRMBackend.drmProps b')
   = bool_decide (drmGetCap dev DRM_CAP_ADDFB2_MODIFIERS = Some 1)) /\
  (ok = false ->
   SDRMProps.supportsAsyncCommit (CDRMBackend.drmProps b')
   = SDRMProps.supportsAsyncCommit (CDRMBackend.drmProps b) /\
   SDRMProps.supportsAddFb2Modifiers (CDRMBackend.drmProps b')
   = SDRMProps.supportsAddFb2Modifiers (CDRMBackend.drmProps b) /\
   exists s, CDRMBackend.logged b' = CDRMBackend.logged b ++ [(AQ_LOG_ERROR, s)]).
Proof.
  assert (Hone : forall c : option Z,
            match c with Some 1 => true | _ => false end = bool_decide (c = Some 1)).
  { intros [[|[p|p|]|p]|]; reflexivity. }
  unfold CDRMBackend_checkFeatures. cbv zeta.
  destruct (drmGetCap dev DRM_CAP_PRIME) as [c1|].
  2:{ cbn. split; [split; [discriminate|intros ((c & H & _) & _); discriminate]|].
      repeat (split; [reflexivity|]). split; [discriminate|]. eauto. }
  destruct (Z.land c1 DRM_PRIME_CAP_IMPORT =? 0) eqn:H1.
  { apply Z.eqb_eq in H1. cbn.
    split; [split; [discriminate|intros ((c & H & Hc) & _); congruence]|].
    repeat (split; [reflexivity|]). split; [discriminate|]. eauto. }
  apply Z.eqb_neq in H1.
  destruct (drmGetCap dev DRM_CAP_CRTC_IN_VBLANK_EVENT) as [c2|].
  2:{ cbn. split; [split; [discriminate|intros (_ & (c & H & _) & _); discriminate]|].
      repeat (split; [reflexivity|]). split; [discriminate|]. eauto. }
  destruct (c2 =? 0) eqn:H2.
  { apply Z.eqb_eq in H2. cbn.
    split; [split; [discriminate|intros (_ & (c & H & Hc) & _); congruence]|].
    repeat (split; [reflexivity|]). split; [discriminate|]. eauto. }
  apply Z.eqb_neq in H2.
  destruct (drmGetCap dev DRM_CAP_TIMESTAMP_MONOTONIC) as [c3|].
  2:{ cbn. split; [split; [discriminate|intros (_ & _ & (c & H & _) & _); discriminate]|].
      repeat (split; [reflexivity|]). split; [discriminate|]. eauto. }
  destruct (c3 =? 0) eqn:H3.
  { apply Z.eqb_eq in H3. cbn.
    split; [split; [discriminate|intros (_ & _ & (c & H & Hc) & _); congruence]|].
    repeat (split; [reflexivity|]). split; [discriminate|]. eauto. }
  apply Z.eqb_neq in H3.
  destruct (drmSetClientCap_universal_planes dev) eqn:H4.
  2:{ cbn. split; [split; [discriminate|intros (_ & _ & _ & H); discriminate]|].
      repeat (split; [reflexivity|]). split; [discriminate|]. eauto. }
  cbn. split; [split; [intros _; eauto 10|reflexivity]|].
  repeat (split; [reflexivity|]). split; [|discriminate].
  intros _. rewrite !Hone. split; reflexivity.
Qed.

(** *** Enumeration of the GPUs *)

Section scanGPUs_props.
Context {CSessionDevice : Type}.
Variable seatName : string.
Variable openIfKMS : string -> option CSessionDevice.

(** Whether the parent PCI device is the boot VGA device. *)
Definition is_boot_vga (device : udev_device.t) : bool :=
  bool_decide (udev_device.pci_boot_vga device = Some (Some "1")).

(** The session device an enumerated entry yields, with its boot-VGA mark:
    the udev device exists, sits on the session's seat (any seat when the
    session names none; [seat0] for a device without [ID_SEAT]), has a
    device node, and that node opens as a KMS device. *)
Definition usable (entry : option udev_device.t) : option (bool * CSessionDevice) :=
  match entry with
  | None => None
  | Some device =>
    if bool_decide (seatName = "" \/ seatName = default "seat0" (udev_device.ID_SEAT device))
    then match udev_device.devnode device ≫= openIfKMS with
         | Some d => Some (is_boot_vga device, d)
         | None => None
         end
    else None
  end.

Definition boot_devices (entries : list (option udev_device.t)) : list CSessionDevice :=
  map snd (List.filter fst (omap usable entries)).
Definition other_devices (entries : list (option udev_device.t)) : list CSessionDevice :=
  map snd (List.filter (fun p => negb (fst p)) (omap usable entries)).

Lemma scanGPUs_entries_step (entry : option udev_device.t)
    (rest : list (option udev_device.t)) (devices : list CSessionDevice) (logged : scan_log) :
  exists logged',
    scanGPUs_entries seatName openIfKMS (entry :: rest) devices logged
    = scanGPUs_entries seatName openIfKMS rest
        (match usable entry with
         | Some (true, d) => d :: devices
         | Some (false, d) => devices ++ [d]
         | None => devices
         end) logged'.
Proof.
  destruct entry as [device|]; cbn [scanGPUs_entries usable]; [|eauto].
  assert (Hseat : negb (String.eqb seatName "")
                  && negb (String.eqb seatName (default "seat0" (udev_device.ID_SEAT device)))
                  = negb (bool_decide (seatName = ""
                            \/ seatName = default "seat0" (udev_device.ID_SEAT device)))).
  { destruct (String.eqb_spec seatName "") as [H1|H1];
      destruct (String.eqb_spec seatName (default "seat0" (udev_device.ID_SEAT device)))
        as [H2|H2]; cbn; symmetry.
    - rewrite bool_decide_eq_true_2 by auto. reflexivity.
    - rewrite bool_decide_eq_true_2 by auto. reflexivity.
    - rewrite bool_decide_eq_true_2 by auto. reflexivity.
    - rewrite bool_decide_eq_false_2 by (intros [H|H]; contradiction). reflexivity. }
  rewrite Hseat.
  destruct (bool_decide (seatName = "" \/ _)); cbn [negb]; [|eauto].
  destruct (udev_device.devnode device) as [node|]; cbn [mbind option_bind]; [|eauto].
  destruct (openIfKMS node) as [d|]; [|eauto].
  assert (Hboot : match udev_device.pci_boot_vga device with
                  | Some (Some id) => String.eqb id "1"
                  | _ => false
                  end = is_boot_vga device).
  { unfold is_boot_vga. destruct (udev_device.pci_boot_vga device) as [[id|]|]; try reflexivity.
    destruct (String.eqb_spec id "1") as [->|Hne]; [reflexivity|].
    symmetry. apply bool_decide_eq_false_2. congruence. }
  rewrite Hboot. destruct (is_boot_vga device); eauto.
Qed.

Lemma scanGPUs_entries_order (entries : list (option udev_device.t)) :
  forall (devices : list CSessionDevice) (logged : scan_log),
  fst (scanGPUs_entries seatName openIfKMS entries devices logged)
  = rev (boot_devices entries) ++ devices ++ other_devices entries.
Proof.
  unfold boot_devices, other_devices.
  induction entries as [|entry rest IH]; intros devices logged.
  - cbn. rewrite app_nil_r. reflexivity.
  - destruct (scanGPUs_entries_step entry rest devices logged) as [logged' ->].
    rewrite IH. cbn [omap list_omap].
    destruct (usable entry) as [[[] d]|]; cbn [List.filter fst negb map snd rev].
    + rewrite <- !app_assoc. reflexivity.
    + rewrite <- !app_assoc. reflexivity.
    + reflexivity.
Qed.

(** The order [scanGPUs] returns the usable devices in: those behind the
    boot VGA device first, the last enumerated of them first of all, then
    the others in the order of enumeration.  So the device at the front, the
    one [attempt] registers, is the last enumerated boot VGA device when
    there is one, and the first usable device otherwise. *)
Theorem scanGPUs_order (enumerate : option (list (option udev_device.t))) :
  let entries := default [] enumerate in
  let gpus := fst (scanGPUs seatName openIfKMS enumerate) in
  gpus = rev (boot_devices entries) ++ other_devices entries /\
  head gpus = match last (boot_devices entries) with
              | Some d => Some d
              | None => head (other_devices entries)
              end.
Proof.
  cbv zeta.
  assert (H : fst (scanGPUs seatName openIfKMS enumerate)
              = rev (boot_devices (default [] enumerate)) ++ other_devices (default [] enumerate)).
  { destruct enumerate as [[|e es]|]; try reflexivity.
    cbn [scanGPUs default]. rewrite scanGPUs_entries_order. reflexivity. }
  split; [exact H|]. rewrite H.
  destruct (boot_devices (default [] enumerate)) as [|d ds] using rev_ind.
  - reflexivity.
  - rewrite rev_app_distr, last_snoc. reflexivity.
Qed.
End scanGPUs_props.

(** *** The connector scan *)

#[global] Arguments Scan.connect : simpl never.
#[global] Arguments Scan.init : simpl never.

(** Backends that differ in the log only. *)
Definition same_but_log (b b' : Scan.Backend) : Prop :=
  Scan.crtcs b' = Scan.crtcs b /\ Scan.connectors b' = Scan.connectors b /\
  Scan.ready b' = Scan.ready b /\ Scan.events b' = Scan.events b /\
  Scan.idleCallbacks b' = Scan.idleCallbacks b.

Lemma same_but_log_refl b : same_but_log b b.
Proof. repeat split. Qed.

Lemma same_but_log_trans b1 b2 b3 :
  same_but_log b1 b2 -> same_but_log b2 b3 -> same_but_log b1 b3.
Proof.
  intros (H1 & H2 & H3 & H4 & H5) (G1 & G2 & G3 & G4 & G5).
  unfold same_but_log. rewrite G1, G2, G3, G4, G5. auto.
Qed.

Lemma same_but_log_log l s b : same_but_log b (Scan.log l s b).
Proof. repeat split. Qed.

(** A mode that is not interlaced; the mode object [connect] makes of a
    kernel mode with a refresh rate; a kernel mode and the mode object
    listed for it. *)
Definition progressive (m : drmModeModeInfo.t) : bool :=
  Z.land (drmModeModeInfo.flags m) DRM_MODE_FLAG_INTERLACE =? 0.

Definition aq_mode_of (m : drmModeModeInfo.t) (refresh : Z) : SOutputMode.t :=
  SOutputMode.mk (drmModeModeInfo.hdisplay m, drmModeModeInfo.vdisplay m) (to_uint32 refresh)
    (negb (Z.land (drmModeModeInfo.type m) DRM_MODE_TYPE_PREFERRED =? 0)) (Some m).

Definition listed (m : drmModeModeInfo.t) (aq : SOutputMode.t) : Prop :=
  exists refresh, calculateRefresh m = Ret refresh /\ aq = aq_mode_of m refresh.

(** The modes [connect] hands to [setMode]: the progressive ones that
    differ from the CRTC's current mode, when there is a current mode. *)
Definition selects (currentModeInfo : option drmModeModeInfo.t) (m : drmModeModeInfo.t) : bool :=
  progressive m
  && match currentModeInfo with
     | Some current => bool_decide (m <> current)
     | None => false
     end.

(** The refresh written to the CRTC for a mode. *)
Definition refresh_of (m : drmModeModeInfo.t) : Z :=
  match calculateRefresh m with
  | Ret r => r
  | Fault _ => 0
  end.

Definition write_refresh (crtc : option nat) (crtcs : list SDRMCRTC.t)
    (m : drmModeModeInfo.t) : list SDRMCRTC.t :=
  match crtc with
  | Some ci => alter (Scan.set_refresh (refresh_of m)) ci crtcs
  | None => crtcs
  end.

Lemma connect_modes_spec (current : option drmModeModeInfo.t) (crtc : option nat)
    (modes : list drmModeModeInfo.t) :
  forall (i : nat) (output : Scan.Output.t) (fallback : option drmModeModeInfo.t)
         (b : Scan.Backend) (output' : Scan.Output.t) (fallback' : option drmModeModeInfo.t)
         (b' : Scan.Backend),
  Scan.connect_modes current crtc i modes (output, fallback, b) = Ret (output', fallback', b') ->
  exists new sel,
    Scan.Output.modes output' = Scan.Output.modes output ++ new /\
    Forall2 listed (List.filter progressive modes) new /\
    Scan.Output.setMode output' = Scan.Output.setMode output ++ sel /\
    Forall2 listed (List.filter (selects current) modes) sel /\
    Scan.crtcs b' = foldl (write_refresh crtc) (Scan.crtcs b)
                      (List.filter (selects current) modes) /\
    fallback' = match modes !! (1 - i)%nat with
                | Some m => if (i <=? 1)%nat && progressive m then Some m else fallback
                | None => fallback
                end /\
    Scan.connectors b' = Scan.connectors b /\ Scan.ready b' = Scan.ready b /\
    Scan.events b' = Scan.events b /\ Scan.idleCallbacks b' = Scan.idleCallbacks b /\
    Scan.Output.mk (Scan.Output.name output) (Scan.Output.modes output')
      (Scan.Output.setMode output') (Scan.Output.physicalSize output)
      (Scan.Output.subpixel output) (Scan.Output.nonDesktop output)
      (Scan.Output.vrrCapable output) (Scan.Output.make output) (Scan.Output.model output)
      (Scan.Output.serial output) (Scan.Output.description output)
      (Scan.Output.needsFrame output) (Scan.Output.swapchain output) = output'.
Proof.
  induction modes as [|m rest IH]; intros i output fallback b output' fallback' b' H.
  - cbn in H. injection H as <- <- <-. exists [], []. rewrite !app_nil_r.
    cbn. repeat (split; [first [constructor | reflexivity]|]). destruct output; reflexivity.
  - cbn [Scan.connect_modes] in H. cbn [List.filter].
    fold (progressive m) in H.
    assert (Hfb : forall fbm : option drmModeModeInfo.t,
              fbm = (if (i =? 1)%nat && progressive m then Some m else fallback) ->
              match rest !! (1 - S i)%nat with
              | Some m0 => if (S i <=? 1)%nat && progressive m0 then Some m0 else fbm
              | None => fbm
              end
              = match (m :: rest) !! (1 - i)%nat with
                | Some m0 => if (i <=? 1)%nat && progressive m0 then Some m0 else fallback
                | None => fallback
                end).
    { intros fbm ->. destruct i as [|[|i]]; cbn.
      - reflexivity.
      - destruct (rest !! 0%nat); reflexivity.
      - destruct (rest !! 0%nat); reflexivity. }
    destruct (progressive m) eqn:Hprog; cbn [negb andb] in H |- *.
    + destruct (calculateRefresh m) as [refresh|f] eqn:Hr; [|discriminate].
      destruct current as [cur|].
      * destruct (bool_decide (m <> cur)) eqn:Hsel.
        -- destruct crtc as [ci|]; [|discriminate].
           assert (Hs0 : selects (Some cur) m = true) by (unfold selects; rewrite Hprog, Hsel; reflexivity).
           rewrite Hs0.
           apply IH in H.
           destruct H as (new & sel & Hm & Hnew & Hs & Hsel' & Hc & Hf & H1 & H2 & H3 & H4 & Ho).
           cbn [Scan.Output.modes Scan.Output.setMode Scan.crtcs Scan.set_crtcs Scan.log
                Scan.connectors Scan.ready Scan.events Scan.idleCallbacks] in *.
           exists (aq_mode_of m refresh :: new), (aq_mode_of m refresh :: sel).
           split; [rewrite Hm, <- app_assoc; reflexivity|].
           split; [constructor; [exists refresh; auto|exact Hnew]|].
           split; [rewrite Hs, <- app_assoc; reflexivity|].
           split; [constructor; [exists refresh; auto|exact Hsel']|].
           split; [rewrite Hc; cbn [foldl write_refresh]; unfold refresh_of; rewrite Hr;
                   reflexivity|].
           split; [rewrite Hf; apply Hfb; destruct (i =? 1)%nat; reflexivity|].
           split; [exact H1|]. split; [exact H2|]. split; [exact H3|]. split; [exact H4|].
           exact Ho.
        -- assert (Hs0 : selects (Some cur) m = false)
             by (unfold selects; rewrite Hprog, Hsel; reflexivity).
           rewrite Hs0.
           apply IH in H.
           destruct H as (new & sel & Hm & Hnew & Hs & Hsel' & Hc & Hf & H1 & H2 & H3 & H4 & Ho).
           cbn [Scan.Output.modes Scan.Output.setMode Scan.crtcs Scan.set_crtcs Scan.log
                Scan.connectors Scan.ready Scan.events Scan.idleCallbacks] in *.
           exists (aq_mode_of m refresh :: new), sel.
           split; [rewrite Hm, <- app_assoc; reflexivity|].
           split; [constructor; [exists refresh; auto|exact Hnew]|].
           split; [exact Hs|]. split; [exact Hsel'|]. split; [exact Hc|].
           split; [rewrite Hf; apply Hfb; destruct (i =? 1)%nat; reflexivity|].
           split; [exact H1|]. split; [exact H2|]. split; [exact H3|]. split; [exact H4|].
           exact Ho.
      * assert (Hs0 : selects None m = false) by (unfold selects; rewrite Hprog; reflexivity).
        rewrite Hs0.
        apply IH in H.
        destruct H as (new & sel & Hm & Hnew & Hs & Hsel' & Hc & Hf & H1 & H2 & H3 & H4 & Ho).
        cbn [Scan.Output.modes Scan.Output.setMode Scan.crtcs Scan.set_crtcs Scan.log
             Scan.connectors Scan.ready Scan.events Scan.idleCallbacks] in *.
        exists (aq_mode_of m refresh :: new), sel.
        split; [rewrite Hm, <- app_assoc; reflexivity|].
        split; [constructor; [exists refresh; auto|exact Hnew]|].
        split; [exact Hs|]. split; [exact Hsel'|]. split; [exact Hc|].
        split; [rewrite Hf; apply Hfb; destruct (i =? 1)%nat; reflexivity|].
        split; [exact H1|]. split; [exact H2|]. split; [exact H3|]. split; [exact H4|].
        exact Ho.
    + assert (Hs0 : selects current m = false) by (unfold selects; rewrite Hprog; reflexivity).
      rewrite Hs0.
      apply IH in H.
      destruct H as (new & sel & Hm & Hnew & Hs & Hsel' & Hc & Hf & H1 & H2 & H3 & H4 & Ho).
      cbn [Scan.Output.modes Scan.Output.setMode Scan.crtcs Scan.set_crtcs Scan.log
           Scan.connectors Scan.ready Scan.events Scan.idleCallbacks] in *.
      exists new, sel.
      split; [exact Hm|]. split; [exact Hnew|]. split; [exact Hs|]. split; [exact Hsel'|].
      split; [exact Hc|].
      split; [rewrite Hf; apply Hfb; rewrite andb_false_r; reflexivity|].
      split; [exact H1|]. split; [exact H2|]. split; [exact H3|]. split; [exact H4|].
      exact Ho.
Qed.

(** The fields of a connector that [connect] and [disconnect] leave alone. *)
Definition same_identity (c c' : Scan.Connector.t) : Prop :=
  Scan.Connector.id c' = Scan.Connector.id c /\
  Scan.Connector.szName c' = Scan.Connector.szName c /\
  Scan.Connector.crtc c' = Scan.Connector.crtc c /\
  Scan.Connector.props c' = Scan.Connector.props c /\
  Scan.Connector.possibleCrtcs c' = Scan.Connector.possibleCrtcs c /\
  Scan.Connector.isPageFlipPending c' = Scan.Connector.isPageFlipPending c /\
  Scan.Connector.pendingPageFlip c' = Scan.Connector.pendingPageFlip c.

Lemma connect_spec (k : Scan.Kernel) (d : drmModeConnector.t) (c c' : Scan.Connector.t)
    (b b' : Scan.Backend) :
  Scan.connect k d c b = Ret (c', b') ->
  Scan.Connector.output c = None ->
  let current := Scan.getCurrentMode k c b in
  exists out,
    Scan.Connector.output c' = Some out /\
    Scan.Connector.status c' = DRM_MODE_CONNECTED /\
    same_identity c c' /\
    Forall2 listed (List.filter progressive (drmModeConnector.modes d)) (Scan.Output.modes out) /\
    Forall2 listed (List.filter (selects current) (drmModeConnector.modes d))
      (Scan.Output.setMode out) /\
    Scan.crtcs b' = foldl (write_refresh (Scan.Connector.crtc c)) (Scan.crtcs b)
                      (List.filter (selects current) (drmModeConnector.modes d)) /\
    Scan.connectors b' = Scan.connectors b /\
    Scan.ready b' = Scan.ready b /\
    Scan.events b'
    = Scan.events b ++ (if Scan.ready b then [Scan.NewOutput (Scan.Connector.id c)] else []) /\
    Scan.idleCallbacks b'
    = Scan.idleCallbacks b
        ++ (if Scan.ready b && negb (Scan.Connector.isPageFlipPending c)
            then [Scan.Connector.id c] else []) /\
    Scan.Output.name out = Scan.Connector.szName c /\
    Scan.Output.swapchain out = Scan.ready b /\
    Scan.Output.needsFrame out = true /\
    Scan.Output.vrrCapable out = Scan.Connector.canDoVrr c' /\
    Scan.connect_canDoVrr k c b
      (default 0 (Scan.getDRMProp k (Scan.Connector.id c)
                    (SDRMConnectorProps.non_desktop (Scan.Connector.props c))))
    = Ret (Scan.Connector.canDoVrr c') /\
    Scan.Connector.fallbackModeInfo c'
    = match drmModeConnector.modes d !! 1%nat with
      | Some m => if progressive m then Some m else Scan.Connector.fallbackModeInfo c
      | None => Scan.Connector.fallbackModeInfo c
      end.
Proof.
  intros H Hout current. unfold Scan.connect in H. rewrite Hout in H.
  destruct (Scan.connect_modes _ _ _ _ _) as [[[output fallback] b1]|f] eqn:Hm; [|discriminate].
  apply connect_modes_spec in Hm.
  destruct Hm as (new & sel & Hmo & Hnew & Hs & Hsel & Hc & Hf & H1 & H2 & H3 & H4 & Ho).
  cbn [Scan.Output.modes Scan.Output.setMode Scan.Output.fresh Scan.crtcs Scan.log
       Scan.connectors Scan.ready Scan.events Scan.idleCallbacks app] in *.
  set (prop := default 0 _) in H.
  assert (Hvrr' : forall b2, Scan.crtcs b2 = Scan.crtcs b1 ->
                             Scan.connect_canDoVrr k c b2 prop = Scan.connect_canDoVrr k c b prop).
  { intros b2 Hb2. unfold Scan.connect_canDoVrr.
    destruct (SDRMConnectorProps.vrr_capable (Scan.Connector.props c) =? 0); [reflexivity|].
    destruct (Scan.Connector.crtc c) as [ci|]; [|reflexivity]. cbn [mbind option_bind].
    rewrite Hb2, Hc.
    assert (Hid : forall ms cs,
              SDRMCRTC.id <$> (foldl (write_refresh (Some ci)) cs ms !! ci)
              = SDRMCRTC.id <$> (cs !! ci)).
    { induction ms as [|m ms IH]; intros cs; [reflexivity|].
      cbn [foldl]. rewrite IH. unfold write_refresh. rewrite list_lookup_alter_eq.
      destruct (cs !! ci); reflexivity. }
    specialize (Hid (List.filter (selects current) (drmModeConnector.modes d)) (Scan.crtcs b)).
    destruct (foldl _ _ _ !! ci) as [x|]; destruct (Scan.crtcs b !! ci) as [y|];
      cbn in Hid; try discriminate; [|reflexivity].
    injection Hid as ->. reflexivity. }
  match type of H with
  | match Scan.connect_canDoVrr k c ?b2 prop with _ => _ end = _ =>
    rewrite (Hvrr' b2) in H by (destruct (bool_decide _); reflexivity)
  end.
  destruct (Scan.connect_canDoVrr k c b prop) as [canDoVrr|f] eqn:Hv; [|discriminate].
  assert (Hfb : fallback
                = match drmModeConnector.modes d !! 1%nat with
                  | Some m => if progressive m then Some m else Scan.Connector.fallbackModeInfo c
                  | None => Scan.Connector.fallbackModeInfo c
                  end).
  { rewrite Hf. reflexivity. }
  destruct (negb (Scan.ready _)) eqn:Hr in H.
  - injection H as <- <-.
    assert (Hrb : Scan.ready b = false).
    { rewrite negb_true_iff in Hr. rewrite <- H2, <- Hr.
      destruct (_ && _); destruct (bool_decide _); reflexivity. }
    eexists. split; [reflexivity|]. split; [reflexivity|].
    split; [repeat split|].
    cbn [Scan.Output.modes Scan.Output.setMode Scan.Output.name Scan.Output.swapchain
         Scan.Output.needsFrame Scan.Output.vrrCapable Scan.Connector.canDoVrr
         Scan.Connector.fallbackModeInfo].
    rewrite Hmo, Hs, Hrb. cbn [andb]. rewrite !app_nil_r.
    split; [exact Hnew|]. split; [exact Hsel|].
    assert (Hq : forall b2 : Scan.Backend,
              Scan.crtcs b2 = Scan.crtcs b1 -> Scan.connectors b2 = Scan.connectors b1 ->
              Scan.ready b2 = Scan.ready b1 -> Scan.events b2 = Scan.events b1 ->
              Scan.idleCallbacks b2 = Scan.idleCallbacks b1 ->
              Scan.crtcs b2 = foldl (write_refresh (Scan.Connector.crtc c)) (Scan.crtcs b)
                                (List.filter (selects current) (drmModeConnector.modes d)) /\
              Scan.connectors b2 = Scan.connectors b /\ Scan.ready b2 = false /\
              Scan.events b2 = Scan.events b /\ Scan.idleCallbacks b2 = Scan.idleCallbacks b).
    { intros b2 -> -> -> -> ->. rewrite <- Hrb. auto. }
    match goal with
    | |- Scan.crtcs ?b2 = _ /\ _ =>
      destruct (Hq b2) as (Q1 & Q2 & Q3 & Q4 & Q5);
        try (destruct (_ && _); destruct (bool_decide _); reflexivity)
    end.
    split; [exact Q1|]. split; [exact Q2|]. split; [exact Q3|]. split; [exact Q4|].
    split; [exact Q5|]. rewrite <- Ho. cbn.
    split; [reflexivity|]. split; [reflexivity|]. split; [reflexivity|]. split; [reflexivity|].
    split; [exact Hv|]. exact Hfb.
  - injection H as <- <-.
    assert (Hrb : Scan.ready b = true).
    { rewrite negb_false_iff in Hr. rewrite <- H2, <- Hr.
      destruct (_ && _); destruct (bool_decide _); reflexivity. }
    eexists. split; [reflexivity|]. split; [reflexivity|].
    split; [repeat split|].
    cbn [Scan.Output.modes Scan.Output.setMode Scan.Output.name Scan.Output.swapchain
         Scan.Output.needsFrame Scan.Output.vrrCapable Scan.Connector.canDoVrr
         Scan.Connector.fallbackModeInfo].
    rewrite Hmo, Hs, Hrb. cbn [andb].
    split; [exact Hnew|]. split; [exact Hsel|].
    assert (Hq : forall b2 : Scan.Backend,
              Scan.crtcs b2 = Scan.crtcs b1 -> Scan.connectors b2 = Scan.connectors b1 ->
              Scan.ready b2 = Scan.ready b1 -> Scan.events b2 = Scan.events b1 ->
              Scan.idleCallbacks b2 = Scan.idleCallbacks b1 ->
              let b3 := Scan.scheduleFrame c (Scan.emit (Scan.NewOutput (Scan.Connector.id c)) b2) in
              Scan.crtcs b3 = foldl (write_refresh (Scan.Connector.crtc c)) (Scan.crtcs b)
                                (List.filter (selects current) (drmModeConnector.modes d)) /\
              Scan.connectors b3 = Scan.connectors b /\ Scan.ready b3 = true /\
              Scan.events b3 = Scan.events b ++ [Scan.NewOutput (Scan.Connector.id c)] /\
              Scan.idleCallbacks b3
              = Scan.idleCallbacks b
                  ++ (if negb (Scan.Connector.isPageFlipPending c)
                      then [Scan.Connector.id c] else [])).
    { intros b2 E1 E2 E3 E4 E5 b3. subst b3. unfold Scan.scheduleFrame.
      destruct (Scan.Connector.isPageFlipPending c); cbn;
        rewrite ?E1, ?E2, ?E3, ?E4, ?E5, ?Hc, ?H1, ?H2, ?H3, ?H4, ?Hrb, ?app_nil_r; auto. }
    match goal with
    | |- Scan.crtcs (Scan.scheduleFrame c (Scan.emit _ ?b2)) = _ /\ _ =>
      destruct (Hq b2) as (Q1 & Q2 & Q3 & Q4 & Q5);
        try (destruct (_ && _); destruct (bool_decide _); reflexivity)
    end.
    split; [exact Q1|]. split; [exact Q2|]. split; [exact Q3|]. split; [exact Q4|].
    split; [exact Q5|]. rewrite <- Ho. cbn.
    split; [reflexivity|]. split; [reflexivity|]. split; [reflexivity|]. split; [reflexivity|].
    split; [exact Hv|]. exact Hfb.
Qed.

Lemma getCurrentCRTC_spec (k : Scan.Kernel) (d : drmModeConnector.t) (c : Scan.Connector.t)
    (b : Scan.Backend) :
  same_but_log b (snd (Scan.getCurrentCRTC k d c b)) /\
  forall i, fst (Scan.getCurrentCRTC k d c b) = Some i -> is_Some (Scan.crtcs b !! i).
Proof.
  unfold Scan.getCurrentCRTC.
  assert (Hfound : forall crtcID,
            same_but_log b (snd (match Scan.find_crtc crtcID b with
                                 | Some i => (Some i, b)
                                 | None => (None, Scan.log AQ_LOG_ERROR
                                                    "drm: Failed to find a CRTC with ID {}" b)
                                 end)) /\
            forall i, fst (match Scan.find_crtc crtcID b with
                           | Some i => (Some i, b)
                           | None => (None, Scan.log AQ_LOG_ERROR
                                              "drm: Failed to find a CRTC with ID {}" b)
                           end) = Some i -> is_Some (Scan.crtcs b !! i)).
  { intros crtcID. unfold Scan.find_crtc.
    destruct (list_find _ (Scan.crtcs b)) as [[i x]|] eqn:Hf; cbn.
    - split; [apply same_but_log_refl|]. intros j Hj. injection Hj as <-.
      apply list_find_Some in Hf. destruct Hf as (Hi & _). eauto.
    - split; [apply same_but_log_log|]. discriminate. }
  destruct (negb (SDRMConnectorProps.crtc_id (Scan.Connector.props c) =? 0)).
  - destruct (Scan.getDRMProp k _ _) as [v|]; [apply Hfound|].
    split; [apply same_but_log_log|]. discriminate.
  - destruct (negb (drmModeConnector.encoder_id d =? 0)).
    + destruct (Scan.drmModeGetEncoder k _) as [v|]; [apply Hfound|].
      split; [apply same_but_log_log|]. discriminate.
    + split; [apply same_but_log_refl|]. discriminate.
Qed.

(** [init] succeeds exactly when the connector's properties can be read;
    it gives the connector the kernel's id and leaves its status and its
    output alone. *)
Lemma init_spec (k : Scan.Kernel) (d : drmModeConnector.t) (c : Scan.Connector.t)
    (b : Scan.Backend) :
  let r := Scan.init k d c b in
  fst (fst r) = bool_decide (is_Some (Scan.getDRMConnectorProps k (drmModeConnector.connector_id d))) /\
  Scan.Connector.id (snd (fst r)) = drmModeConnector.connector_id d /\
  Scan.Connector.status (snd (fst r)) = Scan.Connector.status c /\
  Scan.Connector.output (snd (fst r)) = Scan.Connector.output c /\
  Scan.Connector.isPageFlipPending (snd (fst r)) = Scan.Connector.isPageFlipPending c /\
  same_but_log b (snd r) /\
  (forall i, Scan.Connector.crtc (snd (fst r)) = Some i ->
             fst (fst r) = true -> is_Some (Scan.crtcs b !! i)).
Proof.
  unfold Scan.init. cbv zeta.
  destruct (Scan.getDRMConnectorProps k (drmModeConnector.connector_id d)) as [props|].
  2:{ cbn. repeat (split; [reflexivity|]). split; [apply same_but_log_refl|]. discriminate. }
  match goal with
  | |- context [Scan.getCurrentCRTC k d ?c0 ?b0] =>
    pose proof (getCurrentCRTC_spec k d c0 b0) as [Hlog Hcrtc];
      destruct (Scan.getCurrentCRTC k d c0 b0) as [crtc b1] eqn:Hg
  end.
  cbn [fst snd Scan.Connector.id Scan.Connector.status Scan.Connector.output
       Scan.Connector.isPageFlipPending Scan.Connector.crtc] in *.
  split; [reflexivity|]. split; [reflexivity|]. split; [reflexivity|]. split; [reflexivity|].
  split; [reflexivity|].
  split.
  - eapply same_but_log_trans; [|exact Hlog].
    destruct (_ =? 0); [apply same_but_log_log|apply same_but_log_refl].
  - intros i Hi _. specialize (Hcrtc i Hi).
    destruct (_ =? 0); exact Hcrtc.
Qed.

(** A connector has an output exactly when it is connected. *)
Definition output_iff_connected (c : Scan.Connector.t) : Prop :=
  is_Some (Scan.Connector.output c) <-> Scan.Connector.status c = DRM_MODE_CONNECTED.

(** The scan has nothing to do for a connector in this status when the
    kernel reports this connection. *)
Definition in_step (status connection : drmModeConnection) : Prop :=
  ~ (status = DRM_MODE_DISCONNECTED /\ connection = DRM_MODE_CONNECTED) /\
  ~ (status = DRM_MODE_CONNECTED /\ connection = DRM_MODE_DISCONNECTED).

Lemma scan_transition_cases (k : Scan.Kernel) (d : drmModeConnector.t) (i : nat)
    (conn : Scan.Connector.t) (b b' : Scan.Backend) :
  Scan.scan_transition k d i conn b = Ret b' ->
  output_iff_connected conn ->
  (in_step (Scan.Connector.status conn) (drmModeConnector.connection d) /\ same_but_log b b')
  \/
  (Scan.Connector.status conn = DRM_MODE_DISCONNECTED /\
   drmModeConnector.connection d = DRM_MODE_CONNECTED /\
   exists conn' b1,
     Scan.connect k d conn
       (Scan.log AQ_LOG_DEBUG "drm: Connector {} connected"
          (Scan.log AQ_LOG_DEBUG "drm: Connector {} connection state: {}"
             (Scan.log AQ_LOG_DEBUG "drm: Connectors size {}" b)))
     = Ret (conn', b1) /\
     Scan.Connector.output conn = None /\
     b' = Scan.set_connectors (<[i := conn']> (Scan.connectors b1)) b1)
  \/
  (Scan.Connector.status conn = DRM_MODE_CONNECTED /\
   drmModeConnector.connection d = DRM_MODE_DISCONNECTED /\
   exists out conn',
     Scan.Connector.output conn = Some out /\
     same_identity conn conn' /\
     Scan.Connector.status conn' = DRM_MODE_DISCONNECTED /\
     Scan.Connector.output conn' = None /\
     Scan.connectors b' = <[i := conn']> (Scan.connectors b) /\
     Scan.crtcs b' = Scan.crtcs b /\ Scan.ready b' = Scan.ready b /\
     Scan.events b' = Scan.events b ++ [Scan.OutputDestroy (Scan.Connector.id conn)] /\
     Scan.idleCallbacks b' = Scan.idleCallbacks b).
Proof.
  unfold Scan.scan_transition. intros H Hwf.
  destruct (bool_decide (Scan.Connector.status conn = DRM_MODE_DISCONNECTED)) eqn:Hs1;
    [apply bool_decide_eq_true in Hs1|apply bool_decide_eq_false in Hs1].
  - destruct (bool_decide (drmModeConnector.connection d = DRM_MODE_CONNECTED)) eqn:Hc1;
      [apply bool_decide_eq_true in Hc1|apply bool_decide_eq_false in Hc1]; cbn [andb] in H.
    + right. left. split; [exact Hs1|]. split; [exact Hc1|].
      destruct (Scan.connect k d conn _) as [[conn' b1]|f] eqn:Hcon; [|discriminate].
      injection H as <-. exists conn', b1. split; [reflexivity|]. split; [|reflexivity].
      destruct (Scan.Connector.output conn) as [o|] eqn:Ho; [|reflexivity].
      assert (Hx : Scan.Connector.status conn = DRM_MODE_CONNECTED) by (apply Hwf; eauto).
      congruence.
    + assert (Hs2 : bool_decide (Scan.Connector.status conn = DRM_MODE_CONNECTED) = false).
      { apply bool_decide_eq_false. congruence. }
      rewrite Hs2 in H. cbn [andb] in H. injection H as <-. left.
      split; [split; intros [? ?]; congruence|]. repeat split.
  - cbn [andb] in H.
    destruct (bool_decide (Scan.Connector.status conn = DRM_MODE_CONNECTED)) eqn:Hs2;
      [apply bool_decide_eq_true in Hs2|apply bool_decide_eq_false in Hs2]; cbn [andb] in H.
    + destruct (bool_decide (drmModeConnector.connection d = DRM_MODE_DISCONNECTED)) eqn:Hc2;
        [apply bool_decide_eq_true in Hc2|apply bool_decide_eq_false in Hc2].
      * right. right. split; [exact Hs2|]. split; [exact Hc2|].
        destruct (proj2 Hwf Hs2) as [out Hout].
        unfold Scan.disconnect in H. rewrite Hout in H. injection H as <-.
        match goal with |- context [<[i := ?c0]> _] => exists out, c0 end.
        split; [exact Hout|]. split; [repeat split|].
        cbn. repeat (split; [reflexivity|]). reflexivity.
      * injection H as <-. left. split; [split; intros [? ?]; congruence|]. repeat split.
    + injection H as <-. left. split; [split; intros [? ?]; congruence|]. repeat split.
Qed.

Lemma foldl_write_refresh_ids (crtc : option nat) (ms : list drmModeModeInfo.t) :
  forall cs, map SDRMCRTC.id (foldl (write_refresh crtc) cs ms) = map SDRMCRTC.id cs.
Proof.
  induction ms as [|m ms IH]; intros cs; [reflexivity|].
  cbn [foldl]. rewrite IH. unfold write_refresh. destruct crtc as [ci|]; [|reflexivity].
  apply list_eq. intros j. rewrite !list_lookup_fmap.
  destruct (decide (j = ci)) as [->|Hne].
  - rewrite list_lookup_alter_eq. destruct (cs !! ci); reflexivity.
  - rewrite list_lookup_alter_ne by congruence. reflexivity.
Qed.

(** What a pass of the scan adds to the events and to the idle callbacks
    when it takes a connector out of step into step. *)
Definition transition_events (ready : bool) (connection : drmModeConnection) (id : Z)
    : list Scan.event :=
  if bool_decide (connection = DRM_MODE_CONNECTED)
  then (if ready then [Scan.NewOutput id] else [])
  else [Scan.OutputDestroy id].

Definition transition_idle (ready pending : bool) (connection : drmModeConnection) (id : Z)
    : list Z :=
  if bool_decide (connection = DRM_MODE_CONNECTED) && ready && negb pending then [id] else [].

Lemma scan_transition_effect (k : Scan.Kernel) (d : drmModeConnector.t) (i : nat)
    (conn : Scan.Connector.t) (b b' : Scan.Backend) :
  Scan.scan_transition k d i conn b = Ret b' ->
  output_iff_connected conn ->
  Scan.connectors b !! i = Some conn ->
  exists conn',
    Scan.connectors b' = <[i := conn']> (Scan.connectors b) /\
    same_identity conn conn' /\
    output_iff_connected conn' /\
    in_step (Scan.Connector.status conn') (drmModeConnector.connection d) /\
    Scan.ready b' = Scan.ready b /\
    map SDRMCRTC.id (Scan.crtcs b') = map SDRMCRTC.id (Scan.crtcs b) /\
    ((in_step (Scan.Connector.status conn) (drmModeConnector.connection d) /\
      same_but_log b b' /\ conn' = conn)
     \/
     (~ in_step (Scan.Connector.status conn) (drmModeConnector.connection d) /\
      Scan.events b'
      = Scan.events b
        ++ transition_events (Scan.ready b) (drmModeConnector.connection d)
             (Scan.Connector.id conn) /\
      Scan.idleCallbacks b'
      = Scan.idleCallbacks b
        ++ transition_idle (Scan.ready b) (Scan.Connector.isPageFlipPending conn)
             (drmModeConnector.connection d) (Scan.Connector.id conn))).
Proof.
  intros H Hwf Hi. unfold transition_events, transition_idle.
  destruct (scan_transition_cases k d i conn b b' H Hwf)
    as [[Hstep Hlog]|[(Hs & Hc & conn' & b1 & Hcon & Hout & ->)
                     |(Hs & Hc & out & conn' & Hout & Hid & Hs' & Hout' & Hcs & Hcr & Hr & He & Hidle)]].
  - exists conn. destruct Hlog as (L1 & L2 & L3 & L4 & L5).
    split; [rewrite L2, list_insert_id by exact Hi; reflexivity|].
    split; [repeat split|]. split; [exact Hwf|]. split; [exact Hstep|].
    split; [exact L3|]. split; [rewrite L1; reflexivity|].
    left. split; [exact Hstep|]. split; [repeat split; assumption|reflexivity].
  - apply connect_spec in Hcon; [|exact Hout]. cbv zeta in Hcon.
    destruct Hcon as (o & Ho & Hst & Hid & _ & _ & Hcr & Hcs & Hr & He & Hidle & _).
    cbn [Scan.crtcs Scan.connectors Scan.ready Scan.events Scan.idleCallbacks Scan.log] in *.
    exists conn'.
    split; [cbn; rewrite Hcs; reflexivity|]. split; [exact Hid|].
    split; [split; [intros _; exact Hst|intros _; eauto]|].
    split; [rewrite Hst, Hc; split; intros [? ?]; congruence|].
    split; [exact Hr|].
    split; [cbn; rewrite Hcr; apply foldl_write_refresh_ids|].
    right. split; [intros [Hx _]; apply Hx; auto|].
    rewrite bool_decide_eq_true_2 by exact Hc. cbn [andb].
    split; [cbn; exact He|cbn; exact Hidle].
  - exists conn'. split; [exact Hcs|]. split; [exact Hid|].
    split; [split; [rewrite Hout'; intros [? ?]; discriminate|rewrite Hs'; discriminate]|].
    split; [rewrite Hs', Hc; split; intros [? ?]; congruence|].
    split; [exact Hr|]. split; [rewrite Hcr; reflexivity|].
    right. split; [intros [_ Hx]; apply Hx; auto|].
    rewrite bool_decide_eq_false_2 by (rewrite Hc; discriminate). cbn [andb].
    rewrite app_nil_r. split; [exact He|exact Hidle].
Qed.

(** The scan has nothing to do for the connector id: the kernel does not
    know it, or the connector object with the id is in step with the
    kernel, or there is no such object and none can be initialised. *)
Definition settled (k : Scan.Kernel) (b : Scan.Backend) (id : Z) : Prop :=
  match Scan.drmModeGetConnector k id with
  | None => True
  | Some d =>
    match list_find (fun e => Scan.Connector.id e = id) (Scan.connectors b) with
    | Some (_, c) => in_step (Scan.Connector.status c) (drmModeConnector.connection d)
    | None => Scan.getDRMConnectorProps k (drmModeConnector.connector_id d) = None
    end
  end.

(** The kernel answers a query for a connector with that connector. *)
Definition answers_asked (k : Scan.Kernel) (id : Z) : Prop :=
  forall d, Scan.drmModeGetConnector k id = Some d -> drmModeConnector.connector_id d = id.

#[global] Instance in_step_dec (status connection : drmModeConnection) :
  Decision (in_step status connection).
Proof. unfold in_step. apply _. Defined.

#[global] Instance settled_dec (k : Scan.Kernel) (b : Scan.Backend) (id : Z) :
  Decision (settled k b id).
Proof.
  unfold settled. destruct (Scan.drmModeGetConnector k id) as [d|]; [|apply _].
  destruct (list_find _ (Scan.connectors b)) as [[i c]|]; apply _.
Defined.

Lemma settled_same_but_log k b b' id :
  same_but_log b b' -> settled k b id -> settled k b' id.
Proof. intros (_ & H & _). unfold settled. rewrite H. auto. Qed.

Section scan_pass.
Variable own : bool.

Lemma scan_connector_settled (k : Scan.Kernel) (id : Z) (b : Scan.Backend) :
  settled k b id ->
  exists b', Scan.scan_connector own k id b = Ret b' /\ same_but_log b b'.
Proof.
  unfold settled, Scan.scan_connector. intros H.
  destruct (Scan.drmModeGetConnector k id) as [d|].
  2:{ eexists. split; [reflexivity|]. repeat split. }
  cbn [Scan.connectors Scan.log].
  destruct (list_find _ (Scan.connectors b)) as [[i c]|].
  - unfold Scan.scan_transition. destruct H as [H1 H2].
    rewrite (bool_decide_ext _ _ (andb_True _ _)) || idtac.
    destruct (bool_decide (Scan.Connector.status c = DRM_MODE_DISCONNECTED)) eqn:E1;
      destruct (bool_decide (drmModeConnector.connection d = DRM_MODE_CONNECTED)) eqn:E2;
      destruct (bool_decide (Scan.Connector.status c = DRM_MODE_CONNECTED)) eqn:E3;
      destruct (bool_decide (drmModeConnector.connection d = DRM_MODE_DISCONNECTED)) eqn:E4;
      cbn [andb];
      try (apply bool_decide_eq_true in E1); try (apply bool_decide_eq_true in E2);
      try (apply bool_decide_eq_true in E3); try (apply bool_decide_eq_true in E4);
      try (exfalso; apply H1; split; assumption);
      try (exfalso; apply H2; split; assumption);
      try congruence;
      (eexists; split; [reflexivity|]; repeat split).
  - pose proof (init_spec k d Scan.Connector.fresh
                  (Scan.log AQ_LOG_DEBUG "drm: Initializing connector id {}"
                     (Scan.log AQ_LOG_DEBUG "drm: Scanning connector id {}" b)))
      as (Hok & _ & _ & Hout & _ & Hlog & _).
    cbv zeta in Hok, Hout, Hlog.
    destruct (Scan.init k d Scan.Connector.fresh _) as [[ok conn] b0].
    cbn [fst snd] in *. rewrite H in Hok. rewrite bool_decide_eq_false_2 in Hok
      by (intros [? ?]; discriminate). subst ok. cbn [negb].
    eexists. split; [reflexivity|].
    unfold Scan.pop_back, Scan.disconnect. rewrite Hout. cbn [Scan.Connector.output Scan.Connector.fresh].
    destruct Hlog as (L1 & L2 & L3 & L4 & L5). cbn in L1, L2, L3, L4, L5.
    destruct own; cbn; repeat split; assumption.
Qed.

Lemma scan_connector_effect (k : Scan.Kernel) (id : Z) (b b' : Scan.Backend) :
  Scan.scan_connector own k id b = Ret b' ->
  Forall output_iff_connected (Scan.connectors b) ->
  answers_asked k id ->
  Forall output_iff_connected (Scan.connectors b') /\
  Scan.ready b' = Scan.ready b /\
  map SDRMCRTC.id (Scan.crtcs b') = map SDRMCRTC.id (Scan.crtcs b) /\
  settled k b' id /\
  ((settled k b id /\ same_but_log b b')
   \/
   (~ settled k b id /\
    exists d conn',
      Scan.drmModeGetConnector k id = Some d /\
      Scan.Connector.id conn' = id /\
      (match list_find (fun e => Scan.Connector.id e = id) (Scan.connectors b) with
       | Some (i, conn) =>
         Scan.connectors b' = <[i := conn']> (Scan.connectors b) /\
         same_identity conn conn' /\
         Scan.events b'
         = Scan.events b ++ transition_events (Scan.ready b) (drmModeConnector.connection d) id
       | None =>
         Scan.connectors b' = Scan.connectors b ++ [conn'] /\
         Scan.events b'
         = Scan.events b
           ++ (if bool_decide (drmModeConnector.connection d = DRM_MODE_CONNECTED)
               then transition_events (Scan.ready b) (drmModeConnector.connection d) id
               else [])
       end) /\
      Scan.idleCallbacks b'
      = Scan.idleCallbacks b
        ++ transition_idle (Scan.ready b) (Scan.Connector.isPageFlipPending conn')
             (drmModeConnector.connection d) id)).
Proof.
  intros H Hwf Hask.
  destruct (decide (settled k b id)) as [Hset|Hset].
  { destruct (scan_connector_settled k id b Hset) as (b2 & Hb2 & Hlog).
    rewrite Hb2 in H. injection H as <-.
    destruct Hlog as (L1 & L2 & L3 & L4 & L5).
    split; [rewrite L2; exact Hwf|]. split; [exact L3|]. split; [rewrite L1; reflexivity|].
    split; [apply (settled_same_but_log k b b2 id); [repeat split; assumption|exact Hset]|].
    left. split; [exact Hset|repeat split; assumption]. }
  pose proof Hset as Hset0. unfold settled in Hset. unfold Scan.scan_connector in H.
  destruct (Scan.drmModeGetConnector k id) as [d|] eqn:Hd; [|exfalso; apply Hset; exact I].
  specialize (Hask d Hd).
  cbn [Scan.connectors Scan.log] in H.
  destruct (list_find _ (Scan.connectors b)) as [[i conn]|] eqn:Hfind.
  - pose proof Hfind as Hf. apply list_find_Some in Hf. destruct Hf as (Hi & Hidc & Hfirst).
    assert (Hwfc : output_iff_connected conn).
    { rewrite Forall_lookup in Hwf. exact (Hwf i conn Hi). }
    apply scan_transition_effect in H; [|exact Hwfc|exact Hi].
    destruct H as (conn' & Hcs & Hid & Hwf' & Hstep & Hr & Hcr & Hcase).
    cbn [Scan.crtcs Scan.connectors Scan.ready Scan.events Scan.idleCallbacks Scan.log] in *.
    assert (Hid' : Scan.Connector.id conn' = id) by (destruct Hid as (-> & _); exact Hidc).
    assert (Hfind' : list_find (fun e => Scan.Connector.id e = id) (Scan.connectors b')
                     = Some (i, conn')).
    { apply list_find_Some. rewrite Hcs. split; [|split].
      - apply list_lookup_insert_eq. apply lookup_lt_Some in Hi. exact Hi.
      - exact Hid'.
      - intros j y Hj Hlt. rewrite list_lookup_insert_ne in Hj by lia.
        exact (Hfirst j y Hj Hlt). }
    split; [rewrite Hcs; apply Forall_insert; assumption|].
    split; [exact Hr|]. split; [exact Hcr|].
    split; [unfold settled; rewrite Hd, Hfind'; exact Hstep|].
    right. split; [exact Hset0|].
    destruct Hcase as [(Hx & _)|(_ & He & Hidle)]; [contradiction|].
    exists d, conn'. split; [reflexivity|]. split; [exact Hid'|].
    rewrite Hidc in He, Hidle.
    split; [split; [exact Hcs|split; [exact Hid|exact He]]|].
    destruct Hid as (_ & _ & _ & _ & _ & -> & _). exact Hidle.
  - pose proof (init_spec k d Scan.Connector.fresh
                  (Scan.log AQ_LOG_DEBUG "drm: Initializing connector id {}"
                     (Scan.log AQ_LOG_DEBUG "drm: Scanning connector id {}" b)))
      as (Hok & Hidn & Hstn & Houtn & Hpn & Hlog & _).
    cbv zeta in Hok, Hidn, Hstn, Houtn, Hpn, Hlog.
    destruct (Scan.init k d Scan.Connector.fresh _) as [[ok conn] b0].
    cbn [fst snd] in *.
    destruct (Scan.getDRMConnectorProps k (drmModeConnector.connector_id d)) as [props|] eqn:Hp;
      [|exfalso; apply Hset; reflexivity].
    rewrite bool_decide_eq_true_2 in Hok by eauto. subst ok. cbn [negb] in H.
    destruct Hlog as (L1 & L2 & L3 & L4 & L5). cbn in L1, L2, L3, L4, L5.
    assert (Hwfc : output_iff_connected conn).
    { unfold output_iff_connected. rewrite Houtn, Hstn. cbn.
      split; [intros [? ?]; discriminate|discriminate]. }
    apply scan_transition_effect in H; [|exact Hwfc|].
    2:{ cbn. rewrite L2. rewrite lookup_app_r by lia. rewrite Nat.sub_diag. reflexivity. }
    destruct H as (conn' & Hcs & Hid & Hwf' & Hstep & Hr & Hcr & Hcase).
    cbn [Scan.crtcs Scan.connectors Scan.ready Scan.events Scan.idleCallbacks
         Scan.set_connectors] in *.
    rewrite L2 in Hcs.
    assert (Hcs' : Scan.connectors b' = Scan.connectors b ++ [conn']).
    { rewrite Hcs. replace (length (Scan.connectors b)) with (length (Scan.connectors b) + 0)%nat
        by lia. rewrite insert_app_r. reflexivity. }
    assert (Hid' : Scan.Connector.id conn' = id).
    { destruct Hid as (-> & _). rewrite Hidn. exact Hask. }
    assert (Hfind' : list_find (fun e => Scan.Connector.id e = id) (Scan.connectors b')
                     = Some (length (Scan.connectors b), conn')).
    { apply list_find_Some. rewrite Hcs'. split; [|split].
      - rewrite lookup_app_r by lia. rewrite Nat.sub_diag. reflexivity.
      - exact Hid'.
      - intros j y Hj Hlt. rewrite lookup_app_l in Hj by exact Hlt.
        apply list_find_None in Hfind. rewrite Forall_lookup in Hfind. exact (Hfind j y Hj). }
    split; [rewrite Hcs'; apply Forall_app; split; [exact Hwf|constructor; [exact Hwf'|constructor]]|].
    split; [rewrite Hr; exact L3|]. split; [rewrite Hcr, L1; reflexivity|].
    split; [unfold settled; rewrite Hd, Hfind'; exact Hstep|].
    right. split; [exact Hset0|].
    exists d, conn'. split; [reflexivity|]. split; [exact Hid'|].
    rewrite L3, L4, L5 in Hcase. rewrite Hidn, Hask, Hpn in Hcase.
    assert (Hpend : Scan.Connector.isPageFlipPending conn' = false).
    { destruct Hid as (_ & _ & _ & _ & _ & -> & _). rewrite Hpn. reflexivity. }
    rewrite Hpend.
    destruct Hcase as [(Hx & (_ & _ & _ & E4 & E5) & _)|(Hx & He & Hidle)].
    + cbn in E4, E5. rewrite L4 in E4. rewrite L5 in E5.
      assert (Hnc : drmModeConnector.connection d <> DRM_MODE_CONNECTED).
      { intros Hc. apply (proj1 Hx). rewrite Hstn. split; [reflexivity|exact Hc]. }
      rewrite bool_decide_eq_false_2 by exact Hnc.
      unfold transition_idle. rewrite bool_decide_eq_false_2 by exact Hnc. cbn [andb].
      rewrite !app_nil_r. split; [split; [exact Hcs'|exact E4]|exact E5].
    + assert (Hc : drmModeConnector.connection d = DRM_MODE_CONNECTED).
      { destruct (decide (drmModeConnector.connection d = DRM_MODE_CONNECTED)) as [Hc|Hc];
          [exact Hc|].
        exfalso. apply Hx. rewrite Hstn. cbn. split; intros [? ?]; [contradiction|discriminate]. }
      rewrite bool_decide_eq_true_2 by exact Hc.
      split; [split; [exact Hcs'|exact He]|exact Hidle].
Qed.
End scan_pass.

Lemma list_find_snoc_neg {A : Type} (P : A -> Prop) `{forall x, Decision (P x)}
    (l : list A) (x : A) :
  ~ P x -> list_find P (l ++ [x]) = list_find P l.
Proof.
  intros Hx. induction l as [|y l IH]; cbn.
  - rewrite decide_False by exact Hx. reflexivity.
  - destruct (decide (P y)); [reflexivity|]. f_equal. exact IH.
Qed.

Lemma list_find_insert_neg {A : Type} (P : A -> Prop) `{forall x, Decision (P x)}
    (l : list A) (i : nat) (x y : A) :
  l !! i = Some y -> ~ P y -> ~ P x -> list_find P (<[i := x]> l) = list_find P l.
Proof.
  intros Hi Hy Hx. revert i Hi. induction l as [|z l IH]; intros i Hi; [discriminate|].
  destruct i as [|i]; cbn.
  - injection Hi as ->. rewrite !decide_False by assumption. reflexivity.
  - destruct (decide (P z)); [reflexivity|]. cbn in Hi. f_equal. exact (IH i Hi).
Qed.

Section scan_passes.
Variable own : bool.

Lemma settled_preserved (k : Scan.Kernel) (id id2 : Z) (b b' : Scan.Backend) :
  Scan.scan_connector own k id b = Ret b' ->
  Forall output_iff_connected (Scan.connectors b) ->
  answers_asked k id ->
  settled k b id2 -> settled k b' id2.
Proof.
  intros H Hwf Hask Hs2.
  destruct (scan_connector_effect own k id b b' H Hwf Hask)
    as (_ & _ & _ & Hs' & [[_ Hlog]|(_ & d & conn' & Hd & Hid' & Hshape & _)]).
  { exact (settled_same_but_log k b b' id2 Hlog Hs2). }
  destruct (decide (id2 = id)) as [->|Hne]; [exact Hs'|].
  unfold settled in *. destruct (Scan.drmModeGetConnector k id2) as [d2|]; [|exact I].
  assert (Hsame : list_find (fun e => Scan.Connector.id e = id2) (Scan.connectors b')
                  = list_find (fun e => Scan.Connector.id e = id2) (Scan.connectors b)).
  { destruct (list_find (fun e => Scan.Connector.id e = id) (Scan.connectors b))
      as [[i conn]|] eqn:Hfind.
    - destruct Hshape as (-> & _ & _).
      apply list_find_Some in Hfind. destruct Hfind as (Hi & Hidc & _).
      apply (list_find_insert_neg _ _ i conn' conn Hi); congruence.
    - destruct Hshape as (-> & _). apply list_find_snoc_neg. congruence. }
  rewrite Hsame. exact Hs2.
Qed.

Lemma scan_connectors_inv (k : Scan.Kernel) (ids : list Z) :
  forall b b' : Scan.Backend,
  Scan.scan_connectors own k ids b = Ret b' ->
  Forall output_iff_connected (Scan.connectors b) ->
  (forall id, id ∈ ids -> answers_asked k id) ->
  Forall output_iff_connected (Scan.connectors b') /\
  Scan.ready b' = Scan.ready b /\
  map SDRMCRTC.id (Scan.crtcs b') = map SDRMCRTC.id (Scan.crtcs b) /\
  (forall id, id ∈ ids -> settled k b' id) /\
  (forall id2, settled k b id2 -> settled k b' id2) /\
  (forall i c, Scan.connectors b !! i = Some c ->
     exists c', Scan.connectors b' !! i = Some c' /\ same_identity c c') /\
  (NoDup (map Scan.Connector.id (Scan.connectors b)) ->
   NoDup (map Scan.Connector.id (Scan.connectors b'))).
Proof.
  induction ids as [|id rest IH]; intros b b' H Hwf Hask.
  - injection H as <-. split; [exact Hwf|]. split; [reflexivity|]. split; [reflexivity|].
    split; [intros id Hin; apply elem_of_nil in Hin; contradiction|].
    split; [auto|]. split; [|auto].
    intros i c Hi. exists c. split; [exact Hi|repeat split].
  - cbn [Scan.scan_connectors] in H.
    destruct (Scan.scan_connector own k id b) as [b1|f] eqn:H1; [|discriminate].
    assert (Hask1 : answers_asked k id) by (apply Hask; left).
    destruct (scan_connector_effect own k id b b1 H1 Hwf Hask1)
      as (Hwf1 & Hr1 & Hc1 & Hs1 & Hshape).
    destruct (IH b1 b' H Hwf1) as (Hwf' & Hr' & Hc' & Hs' & Hpres & Hpos & Hnd).
    { intros id0 Hin. apply Hask. right. exact Hin. }
    split; [exact Hwf'|]. split; [congruence|]. split; [congruence|].
    split.
    { intros id0 Hin. apply elem_of_cons in Hin. destruct Hin as [->|Hin].
      - apply Hpres. exact Hs1.
      - apply Hs'. exact Hin. }
    split.
    { intros id2 Hs2. apply Hpres. exact (settled_preserved k id id2 b b1 H1 Hwf Hask1 Hs2). }
    assert (Hstep : (forall i c, Scan.connectors b !! i = Some c ->
                       exists c', Scan.connectors b1 !! i = Some c' /\ same_identity c c') /\
                    (NoDup (map Scan.Connector.id (Scan.connectors b)) ->
                     NoDup (map Scan.Connector.id (Scan.connectors b1)))).
    { destruct Hshape as [[_ (_ & -> & _)]|(_ & d & conn' & Hd & Hid' & Hsh & _)].
      { split; [|auto]. intros i c Hi. exists c. split; [exact Hi|repeat split]. }
      destruct (list_find (fun e => Scan.Connector.id e = id) (Scan.connectors b))
        as [[j conn]|] eqn:Hfind.
      - destruct Hsh as (-> & Hsame & _).
        apply list_find_Some in Hfind. destruct Hfind as (Hj & _ & _).
        split.
        + intros i c Hi. destruct (decide (i = j)) as [->|Hne].
          * exists conn'. rewrite Hj in Hi. injection Hi as <-.
            split; [apply list_lookup_insert_eq; apply lookup_lt_Some in Hj; exact Hj|exact Hsame].
          * exists c. rewrite list_lookup_insert_ne by congruence.
            split; [exact Hi|repeat split].
        + intros Hnd0.
          replace (map Scan.Connector.id (<[j := conn']> (Scan.connectors b)))
            with (map Scan.Connector.id (Scan.connectors b)); [exact Hnd0|].
          apply list_eq. intros i. rewrite !list_lookup_fmap.
          destruct (decide (i = j)) as [->|Hne].
          * rewrite list_lookup_insert_eq by (apply lookup_lt_Some in Hj; exact Hj).
            rewrite Hj. cbn. destruct Hsame as (-> & _). reflexivity.
          * rewrite list_lookup_insert_ne by congruence. reflexivity.
      - destruct Hsh as (-> & _). split.
        + intros i c Hi. exists c. split; [apply lookup_app_l_Some; exact Hi|repeat split].
        + intros Hnd0. rewrite map_app. cbn. apply NoDup_app. split; [exact Hnd0|].
          split; [|apply NoDup_singleton].
          intros x Hx Hx'. apply list_elem_of_singleton in Hx'. subst x.
          apply list_elem_of_fmap in Hx. destruct Hx as (c & Hc & Hin).
          apply list_find_None in Hfind. rewrite Forall_forall in Hfind.
          apply (Hfind c Hin). congruence. }
    destruct Hstep as [Hpos1 Hnd1]. split.
    + intros i c Hi. destruct (Hpos1 i c Hi) as (c1 & Hi1 & Hsame1).
      destruct (Hpos i c1 Hi1) as (c' & Hi' & Hsame').
      exists c'. split; [exact Hi'|].
      destruct Hsame1 as (A1 & A2 & A3 & A4 & A5 & A6 & A7).
      destruct Hsame' as (B1 & B2 & B3 & B4 & B5 & B6 & B7).
      repeat split; congruence.
    + intros Hnd0. apply Hnd. apply Hnd1. exact Hnd0.
Qed.

Lemma rescan_noop (k : Scan.Kernel) (ids : list Z) :
  forall b : Scan.Backend,
  (forall id, id ∈ ids -> settled k b id) ->
  exists b', Scan.scan_connectors own k ids b = Ret b' /\ same_but_log b b'.
Proof.
  induction ids as [|id rest IH]; intros b Hs.
  - exists b. split; [reflexivity|apply same_but_log_refl].
  - cbn [Scan.scan_connectors].
    destruct (scan_connector_settled own k id b) as (b1 & H1 & Hlog1); [apply Hs; left|].
    rewrite H1. destruct (IH b1) as (b' & H' & Hlog').
    { intros id0 Hin. apply (settled_same_but_log k b b1 id0 Hlog1). apply Hs. right. exact Hin. }
    exists b'. split; [exact H'|]. exact (same_but_log_trans _ _ _ Hlog1 Hlog').
Qed.

(** With the backend not ready and every connector it knows in step, the
    scan emits no event and queues no idle callback. *)
Lemma scan_not_ready_quiet (k : Scan.Kernel) (ids : list Z) :
  forall b b' : Scan.Backend,
  Scan.scan_connectors own k ids b = Ret b' ->
  Forall output_iff_connected (Scan.connectors b) ->
  (forall id, id ∈ ids -> answers_asked k id) ->
  Scan.ready b = false ->
  (forall c, c ∈ Scan.connectors b -> settled k b (Scan.Connector.id c)) ->
  Scan.events b' = Scan.events b /\ Scan.idleCallbacks b' = Scan.idleCallbacks b.
Proof.
  induction ids as [|id rest IH]; intros b b' H Hwf Hask Hr Hall.
  - injection H as <-. auto.
  - cbn [Scan.scan_connectors] in H.
    destruct (Scan.scan_connector own k id b) as [b1|f] eqn:H1; [|discriminate].
    assert (Hask1 : answers_asked k id) by (apply Hask; left).
    destruct (scan_connector_effect own k id b b1 H1 Hwf Hask1)
      as (Hwf1 & Hr1 & _ & Hs1 & Hshape).
    assert (Hev : Scan.events b1 = Scan.events b /\
                  Scan.idleCallbacks b1 = Scan.idleCallbacks b /\
                  forall c, c ∈ Scan.connectors b1 -> settled k b1 (Scan.Connector.id c)).
    { destruct Hshape as [[_ Hlog]|(Hns & d & conn' & Hd & Hid' & Hsh & Hidle)].
      { pose proof Hlog as (_ & L2 & _ & L4 & L5).
        split; [exact L4|]. split; [exact L5|]. intros c Hc. rewrite L2 in Hc.
        exact (settled_same_but_log k b b1 _ Hlog (Hall c Hc)). }
      destruct (list_find (fun e => Scan.Connector.id e = id) (Scan.connectors b))
        as [[j conn]|] eqn:Hfind.
      { exfalso. apply Hns. apply list_find_Some in Hfind. destruct Hfind as (Hj & Hidc & _).
        rewrite <- Hidc. apply Hall. apply list_elem_of_lookup. eauto. }
      destruct Hsh as (Hcs & He). rewrite Hr in He, Hidle.
      unfold transition_events, transition_idle in He, Hidle.
      rewrite andb_false_r in Hidle. cbn [andb] in Hidle.
      rewrite app_nil_r in Hidle.
      assert (He' : Scan.events b1 = Scan.events b).
      { rewrite He. destruct (bool_decide _); rewrite app_nil_r; reflexivity. }
      split; [exact He'|]. split; [exact Hidle|].
      intros c Hc. rewrite Hcs in Hc. apply elem_of_app in Hc. destruct Hc as [Hc|Hc].
      - exact (settled_preserved k id _ b b1 H1 Hwf Hask1 (Hall c Hc)).
      - apply list_elem_of_singleton in Hc. subst c. rewrite Hid'. exact Hs1. }
    destruct Hev as (He1 & Hi1 & Hall1).
    destruct (IH b1 b' H Hwf1) as (He' & Hi').
    + intros id0 Hin. apply Hask. right. exact Hin.
    + congruence.
    + exact Hall1.
    + split; congruence.
Qed.
End scan_passes.

Lemma foldl_write_refresh_last (ci : nat) (ms : list drmModeModeInfo.t) :
  forall cs,
  foldl (write_refresh (Some ci)) cs ms
  = match last ms with
    | Some m => alter (Scan.set_refresh (refresh_of m)) ci cs
    | None => cs
    end.
Proof.
  induction ms as [|m ms IH]; intros cs; [reflexivity|].
  cbn [foldl]. rewrite IH. destruct ms as [|m' ms'] eqn:Hms; [reflexivity|].
  rewrite <- Hms. replace (last (m :: ms)) with (last ms) by (rewrite Hms; reflexivity).
  destruct (last ms) as [ml|] eqn:Hl.
  - unfold write_refresh. rewrite list_alter_alter_eq. apply list_alter_ext; [|reflexivity].
    intros x _. reflexivity.
  - rewrite Hms in Hl. apply last_None in Hl. discriminate.
Qed.

(** [connect] on a connector without output that returns: the connector is
    connected and has an output of its name whose mode list holds, in the
    kernel's order, one mode for each of the kernel's modes that is not
    interlaced -- with the mode's size, its refresh rate as
    [calculateRefresh] gives it, and the kernel mode itself --, so no listed
    mode is interlaced; the connector's fallback mode is the kernel's second
    mode when that one is not interlaced. *)
Theorem connect_lists_progressive_modes (k : Scan.Kernel) (d : drmModeConnector.t)
    (c c' : Scan.Connector.t) (b b' : Scan.Backend) :
  Scan.connect k d c b = Ret (c', b') ->
  Scan.Connector.output c = None ->
  exists out,
    Scan.Connector.output c' = Some out /\
    Scan.Connector.status c' = DRM_MODE_CONNECTED /\
    Scan.Connector.id c' = Scan.Connector.id c /\
    Scan.Output.name out = Scan.Connector.szName c /\
    Forall2 listed (List.filter progressive (drmModeConnector.modes d)) (Scan.Output.modes out) /\
    (forall aq, aq ∈ Scan.Output.modes out ->
       exists m, m ∈ drmModeConnector.modes d /\ SOutputMode.modeInfo aq = Some m /\
                 Z.land (drmModeModeInfo.flags m) DRM_MODE_FLAG_INTERLACE = 0) /\
    Scan.Connector.fallbackModeInfo c'
    = match drmModeConnector.modes d !! 1%nat with
      | Some m => if progressive m then Some m else Scan.Connector.fallbackModeInfo c
      | None => Scan.Connector.fallbackModeInfo c
      end.
Proof.
  intros H Hout. apply connect_spec in H; [|exact Hout]. cbv zeta in H.
  destruct H as (out & Ho & Hst & Hid & Hmodes & _ & _ & _ & _ & _ & _ & Hname & _ & _ & _ & _ & Hfb).
  exists out. split; [exact Ho|]. split; [exact Hst|]. split; [apply Hid|].
  split; [exact Hname|]. split; [exact Hmodes|]. split; [|exact Hfb].
  intros aq Haq. apply list_elem_of_lookup in Haq. destruct Haq as [j Hj].
  destruct (Forall2_lookup_r _ _ _ _ _ Hmodes Hj) as (m & Hm & r & _ & ->).
  exists m. assert (Hin : m ∈ List.filter progressive (drmModeConnector.modes d)).
  { apply list_elem_of_lookup. eauto. }
  apply list_elem_of_In in Hin. apply filter_In in Hin. destruct Hin as [Hin Hp].
  split; [apply list_elem_of_In; exact Hin|]. split; [reflexivity|].
  unfold progressive in Hp. apply Z.eqb_eq in Hp. exact Hp.
Qed.

(** The modes [connect] hands to [setMode] while it lists them: when the
    CRTC has a current mode, each listed mode that differs from it, in
    order, and none when it has no current mode.  So the mode in effect
    after [connect] is the last of the kernel's progressive modes that is
    not the current one, and the CRTC's refresh is that mode's; without
    such a mode the CRTC list is as it was. *)
Theorem connect_mode_selection (k : Scan.Kernel) (d : drmModeConnector.t)
    (c c' : Scan.Connector.t) (b b' : Scan.Backend) :
  Scan.connect k d c b = Ret (c', b') ->
  Scan.Connector.output c = None ->
  let current := Scan.getCurrentMode k c b in
  let selected := List.filter (selects current) (drmModeConnector.modes d) in
  exists out,
    Scan.Connector.output c' = Some out /\
    Forall2 listed selected (Scan.Output.setMode out) /\
    (current = None -> Scan.Output.setMode out = []) /\
    (forall m, m ∈ selected -> progressive m = true /\ current <> Some m /\ is_Some current) /\
    Scan.crtcs b'
    = match last selected, Scan.Connector.crtc c with
      | Some m, Some ci => alter (Scan.set_refresh (refresh_of m)) ci (Scan.crtcs b)
      | _, _ => Scan.crtcs b
      end.
Proof.
  intros H Hout current selected. apply connect_spec in H; [|exact Hout]. cbv zeta in H.
  destruct H as (out & Ho & _ & _ & _ & Hsel & Hcr & _).
  fold current in Hsel, Hcr. fold selected in Hsel, Hcr.
  exists out. split; [exact Ho|]. split; [exact Hsel|].
  split; [|split].
  - intros Hnone. assert (Hs : selected = []).
    { subst selected. rewrite Hnone. clear. induction (drmModeConnector.modes d) as [|m ms IH];
        [reflexivity|]. cbn. unfold selects at 1. rewrite andb_false_r. exact IH. }
    rewrite Hs in Hsel. inversion Hsel. reflexivity.
  - intros m Hm. apply list_elem_of_In in Hm. apply filter_In in Hm. destruct Hm as [_ Hs].
    unfold selects in Hs. apply andb_prop in Hs. destruct Hs as [Hp Hs].
    split; [exact Hp|]. destruct current as [cur|]; [|discriminate].
    apply bool_decide_eq_true in Hs. split; [congruence|eauto].
  - rewrite Hcr. destruct (Scan.Connector.crtc c) as [ci|].
    + rewrite foldl_write_refresh_last. destruct (last selected); reflexivity.
    + destruct (last selected); clear; induction selected as [|m ms IH]; auto.
Qed.

(** Variable refresh in [connect], for a connector without output.  A
    connector that has the [vrr_capable] property but no CRTC makes
    [connect] fault, on [crtc->props.vrr_enabled].  And a [connect] that
    returns marks the connector as able to do VRR only if reading the
    [vrr_capable] property failed and the read of [non_desktop] before it
    gave a value other than 0: the test is on [!getDRMProp(...)] and on the
    value the earlier read left. *)
Theorem connect_vrr (k : Scan.Kernel) (d : drmModeConnector.t) (c : Scan.Connector.t)
    (b : Scan.Backend) :
  Scan.Connector.output c = None ->
  (SDRMConnectorProps.vrr_capable (Scan.Connector.props c) <> 0 ->
   Scan.Connector.crtc c = None ->
   exists f, Scan.connect k d c b = Fault f) /\
  (forall c' b',
     Scan.connect k d c b = Ret (c', b') ->
     Scan.Connector.canDoVrr c' = true ->
     Scan.getDRMProp k (Scan.Connector.id c)
       (SDRMConnectorProps.vrr_capable (Scan.Connector.props c)) = None /\
     exists v, Scan.getDRMProp k (Scan.Connector.id c)
                 (SDRMConnectorProps.non_desktop (Scan.Connector.props c)) = Some v /\
               v <> 0).
Proof.
  intros Hout. split.
  - intros Hv Hc. destruct (Scan.connect k d c b) as [[c' b']|f] eqn:H; [|eauto].
    exfalso. apply connect_spec in H; [|exact Hout]. cbv zeta in H.
    destruct H as (out & _ & _ & _ & _ & _ & _ & _ & _ & _ & _ & _ & _ & _ & _ & Hvrr & _).
    unfold Scan.connect_canDoVrr in Hvrr. rewrite Hc in Hvrr.
    apply Z.eqb_neq in Hv. rewrite Hv in Hvrr. discriminate.
  - intros c' b' H Hcan. apply connect_spec in H; [|exact Hout]. cbv zeta in H.
    destruct H as (out & _ & _ & _ & _ & _ & _ & _ & _ & _ & _ & _ & _ & _ & _ & Hvrr & _).
    rewrite Hcan in Hvrr. unfold Scan.connect_canDoVrr in Hvrr.
    destruct (_ =? 0); [discriminate|].
    destruct (Scan.Connector.crtc c ≫= _) as [crtc|]; [|discriminate].
    destruct (_ =? 0); [discriminate|].
    destruct (Scan.getDRMProp k (Scan.Connector.id c)
                (SDRMConnectorProps.vrr_capable (Scan.Connector.props c))) as [x|];
      [discriminate|].
    split; [reflexivity|].
    destruct (Scan.getDRMProp k (Scan.Connector.id c)
                (SDRMConnectorProps.non_desktop (Scan.Connector.props c))) as [v|];
      cbn in Hvrr; [|discriminate].
    exists v. split; [reflexivity|]. intros ->. discriminate.
Qed.

Section scanConnectors_props.
Variable flip_record_owns_connector : bool.

(** The kernel answers every query for a listed connector with that
    connector. *)
Definition kernel_answers_asked (k : Scan.Kernel) : Prop :=
  forall ids id, Scan.drmModeGetResources k = Some ids -> id ∈ ids -> answers_asked k id.

Lemma scanConnectors_keeps (k : Scan.Kernel) (b b' : Scan.Backend) :
  Scan.scanConnectors flip_record_owns_connector k b = Ret b' ->
  Forall output_iff_connected (Scan.connectors b) ->
  kernel_answers_asked k ->
  Forall output_iff_connected (Scan.connectors b') /\
  (NoDup (map Scan.Connector.id (Scan.connectors b)) ->
   NoDup (map Scan.Connector.id (Scan.connectors b'))) /\
  (forall ids id, Scan.drmModeGetResources k = Some ids -> id ∈ ids -> settled k b' id).
Proof.
  unfold Scan.scanConnectors. intros H Hwf Hask.
  destruct (Scan.drmModeGetResources k) as [ids|] eqn:Hres.
  - apply scan_connectors_inv in H; [|exact Hwf|intros id Hin; exact (Hask ids id Hres Hin)].
    cbn [Scan.connectors Scan.crtcs Scan.ready Scan.log] in H.
    destruct H as (Hwf' & _ & _ & Hs & _ & _ & Hnd).
    split; [exact Hwf'|]. split; [exact Hnd|].
    intros ids0 id Heq Hin. injection Heq as <-. exact (Hs id Hin).
  - injection H as <-. cbn. split; [exact Hwf|]. split; [auto|].
    intros ids id Heq. discriminate.
Qed.

(** A scan that returns keeps "a connector has an output exactly when it is
    connected", keeps every connector object at its position with its id,
    name and CRTC, keeps the connector ids distinct, leaves the CRTC list
    with the same ids, and leaves every listed connector settled: in step
    with the connection the kernel reports, or without an object because
    its properties cannot be read. *)
Theorem scanConnectors_invariant (k : Scan.Kernel) (b b' : Scan.Backend) :
  Scan.scanConnectors flip_record_owns_connector k b = Ret b' ->
  Forall output_iff_connected (Scan.connectors b) ->
  kernel_answers_asked k ->
  Forall output_iff_connected (Scan.connectors b') /\
  (forall i c, Scan.connectors b !! i = Some c ->
     exists c', Scan.connectors b' !! i = Some c' /\
                Scan.Connector.id c' = Scan.Connector.id c /\
                Scan.Connector.szName c' = Scan.Connector.szName c /\
                Scan.Connector.crtc c' = Scan.Connector.crtc c) /\
  (NoDup (map Scan.Connector.id (Scan.connectors b)) ->
   NoDup (map Scan.Connector.id (Scan.connectors b'))) /\
  map SDRMCRTC.id (Scan.crtcs b') = map SDRMCRTC.id (Scan.crtcs b) /\
  Scan.ready b' = Scan.ready b /\
  (forall ids id, Scan.drmModeGetResources k = Some ids -> id ∈ ids -> settled k b' id).
Proof.
  unfold Scan.scanConnectors. intros H Hwf Hask.
  destruct (Scan.drmModeGetResources k) as [ids|] eqn:Hres.
  - apply scan_connectors_inv in H; [|exact Hwf|intros id Hin; exact (Hask ids id Hres Hin)].
    cbn [Scan.connectors Scan.crtcs Scan.ready Scan.log] in H.
    destruct H as (Hwf' & Hr & Hc & Hs & _ & Hpos & Hnd).
    split; [exact Hwf'|]. split.
    { intros i c Hi. destruct (Hpos i c Hi) as (c' & Hi' & H1 & H2 & H3 & _).
      exists c'. auto. }
    split; [exact Hnd|]. split; [exact Hc|]. split; [exact Hr|].
    intros ids0 id Heq Hin. injection Heq as <-. exact (Hs id Hin).
  - injection H as <-. cbn. split; [exact Hwf|]. split; [eauto 6|]. split; [auto|].
    split; [reflexivity|]. split; [reflexivity|]. intros ids id Heq. discriminate.
Qed.

(** A scan right after a scan that returned, with the kernel's answers
    unchanged, returns as well and changes nothing but the log: no
    connector object is made or changed, no event emitted, no idle callback
    queued, no CRTC touched. *)
Theorem rescan_changes_nothing (k : Scan.Kernel) (b b1 : Scan.Backend) :
  Scan.scanConnectors flip_record_owns_connector k b = Ret b1 ->
  Forall output_iff_connected (Scan.connectors b) ->
  kernel_answers_asked k ->
  exists b2,
    Scan.scanConnectors flip_record_owns_connector k b1 = Ret b2 /\
    Scan.connectors b2 = Scan.connectors b1 /\
    Scan.events b2 = Scan.events b1 /\
    Scan.idleCallbacks b2 = Scan.idleCallbacks b1 /\
    Scan.crtcs b2 = Scan.crtcs b1 /\
    Scan.ready b2 = Scan.ready b1.
Proof.
  intros H Hwf Hask.
  destruct (scanConnectors_keeps k b b1 H Hwf Hask) as (_ & _ & Hs).
  unfold Scan.scanConnectors in *.
  destruct (Scan.drmModeGetResources k) as [ids|] eqn:Hres.
  - destruct (rescan_noop flip_record_owns_connector k ids
                (Scan.log AQ_LOG_DEBUG "drm: Scanning connectors for {}" b1))
      as (b2 & H2 & (L1 & L2 & L3 & L4 & L5)).
    { intros id Hin. apply (settled_same_but_log k b1); [apply same_but_log_log|].
      exact (Hs ids id eq_refl Hin). }
    exists b2. split; [exact H2|]. cbn in L1, L2, L3, L4, L5. auto.
  - eexists. split; [reflexivity|]. cbn. auto.
Qed.
End scanConnectors_props.

(** *** Announcing the outputs *)

Definition has_output (c : Scan.Connector.t) : bool :=
  bool_decide (is_Some (Scan.Connector.output c)).

(** The connector after [onReady]: an output it has got a swapchain and
    needs a frame. *)
Definition made_ready (c : Scan.Connector.t) : Scan.Connector.t :=
  match Scan.Connector.output c with
  | None => c
  | Some output =>
    Scan.Connector.mk (Scan.Connector.id c) (Scan.Connector.szName c) (Scan.Connector.status c)
      (Scan.Connector.crtc c) (Scan.Connector.props c) (Scan.Connector.possibleCrtcs c)
      (Some (Scan.Output.mk (Scan.Output.name output) (Scan.Output.modes output)
               (Scan.Output.setMode output) (Scan.Output.physicalSize output)
               (Scan.Output.subpixel output) (Scan.Output.nonDesktop output)
               (Scan.Output.vrrCapable output) (Scan.Output.make output)
               (Scan.Output.model output) (Scan.Output.serial output)
               (Scan.Output.description output) true true))
      (Scan.Connector.fallbackModeInfo c) (Scan.Connector.canDoVrr c)
      (Scan.Connector.maxBpcBounds c) (Scan.Connector.isPageFlipPending c)
      (Scan.Connector.pendingPageFlip c) (Scan.Connector.make c) (Scan.Connector.model c)
      (Scan.Connector.serial c)
  end.

Lemma onReady_connectors_spec (cs : list Scan.Connector.t) :
  forall b : Scan.Backend,
  fst (Scan.onReady_connectors cs b) = map made_ready cs /\
  Scan.events (snd (Scan.onReady_connectors cs b))
  = Scan.events b ++ map Scan.NewOutput (map Scan.Connector.id (List.filter has_output cs)) /\
  Scan.crtcs (snd (Scan.onReady_connectors cs b)) = Scan.crtcs b /\
  Scan.ready (snd (Scan.onReady_connectors cs b)) = Scan.ready b /\
  Scan.idleCallbacks (snd (Scan.onReady_connectors cs b)) = Scan.idleCallbacks b.
Proof.
  induction cs as [|c rest IH]; intros b.
  - cbn. rewrite app_nil_r. auto.
  - cbn [Scan.onReady_connectors List.filter map]. unfold has_output at 1, made_ready at 1.
    destruct (Scan.Connector.output c) as [o|] eqn:Ho.
    + rewrite bool_decide_eq_true_2 by eauto.
      match goal with
      | |- context [Scan.onReady_connectors rest ?b0] =>
        destruct (IH b0) as (I1 & I2 & I3 & I4 & I5);
          destruct (Scan.onReady_connectors rest b0) as [rest' b'] eqn:Hr
      end.
      cbn [fst snd] in *. rewrite I1, I2, I3, I4, I5. cbn.
      rewrite <- app_assoc. auto.
    + rewrite bool_decide_eq_false_2 by (intros [? ?]; discriminate).
      match goal with
      | |- context [Scan.onReady_connectors rest ?b0] =>
        destruct (IH b0) as (I1 & I2 & I3 & I4 & I5);
          destruct (Scan.onReady_connectors rest b0) as [rest' b'] eqn:Hr
      end.
      cbn [fst snd] in *. rewrite I1, I2, I3, I4, I5. cbn. auto.
Qed.

Section announce.
Variable flip_record_owns_connector : bool.

(** From the first scan of a backend that is not ready to [onReady]: the
    scan makes connector objects with distinct ids and emits nothing, and
    [onReady] then announces exactly the connected connectors, each once, in
    the order of the list; afterwards every output has a swapchain and
    needs a frame, and no idle callback was queued. *)
Theorem outputs_announced_once (k : Scan.Kernel) (b b1 : Scan.Backend) :
  Scan.scanConnectors flip_record_owns_connector k b = Ret b1 ->
  Scan.connectors b = [] ->
  Scan.ready b = false ->
  kernel_answers_asked k ->
  let b2 := Scan.onReady b1 in
  Scan.events b1 = Scan.events b /\
  Scan.events b2
  = Scan.events b
    ++ map Scan.NewOutput
         (map Scan.Connector.id
            (List.filter (fun c => bool_decide (Scan.Connector.status c = DRM_MODE_CONNECTED))
               (Scan.connectors b1))) /\
  NoDup (map Scan.Connector.id (Scan.connectors b1)) /\
  Scan.idleCallbacks b2 = Scan.idleCallbacks b /\
  map Scan.Connector.id (Scan.connectors b2) = map Scan.Connector.id (Scan.connectors b1) /\
  (forall c out, c ∈ Scan.connectors b2 -> Scan.Connector.output c = Some out ->
     Scan.Connector.status c = DRM_MODE_CONNECTED /\
     Scan.Output.swapchain out = true /\ Scan.Output.needsFrame out = true).
Proof.
  intros H Hnil Hr Hask b2.
  assert (Hwf0 : Forall output_iff_connected (Scan.connectors b)) by (rewrite Hnil; constructor).
  destruct (scanConnectors_keeps flip_record_owns_connector k b b1 H Hwf0 Hask)
    as (Hwf1 & Hnd & _).
  assert (Hquiet : Scan.events b1 = Scan.events b /\
                   Scan.idleCallbacks b1 = Scan.idleCallbacks b).
  { unfold Scan.scanConnectors in H.
    destruct (Scan.drmModeGetResources k) as [ids|] eqn:Hres.
    - apply scan_not_ready_quiet in H.
      + exact H.
      + exact Hwf0.
      + intros id Hin. exact (Hask ids id Hres Hin).
      + exact Hr.
      + cbn. rewrite Hnil. intros c Hc. apply elem_of_nil in Hc. contradiction.
    - injection H as <-. cbn. auto. }
  destruct Hquiet as [He Hi].
  subst b2. unfold Scan.onReady.
  pose proof (onReady_connectors_spec (Scan.connectors b1)
                (Scan.log AQ_LOG_DEBUG "drm: Connectors size2 {}" b1))
    as (O1 & O2 & O3 & O4 & O5).
  cbn [Scan.connectors Scan.log] in *.
  destruct (Scan.onReady_connectors (Scan.connectors b1) _) as [cs b3].
  cbn [fst snd Scan.events Scan.idleCallbacks Scan.connectors Scan.set_connectors Scan.log
       Scan.crtcs Scan.ready] in *.
  subst cs.
  split; [exact He|].
  split.
  { rewrite O2, He. f_equal. f_equal. f_equal.
    clear - Hwf1. induction Hwf1 as [|c cs Hc _ IH]; [reflexivity|].
    cbn [List.filter]. rewrite IH. unfold has_output.
    destruct (decide (Scan.Connector.status c = DRM_MODE_CONNECTED)) as [Hs|Hs].
    - rewrite !bool_decide_eq_true_2; [reflexivity|exact Hs|apply Hc; exact Hs].
    - rewrite !bool_decide_eq_false_2; [reflexivity|exact Hs|].
      intros Ho. apply Hs. apply Hc. exact Ho. }
  split; [apply Hnd; rewrite Hnil; constructor|].
  split; [rewrite O5; exact Hi|].
  split.
  { rewrite map_map. apply map_ext. intros c. unfold made_ready.
    destruct (Scan.Connector.output c); reflexivity. }
  intros c out Hc Ho. apply list_elem_of_In in Hc. apply in_map_iff in Hc.
  destruct Hc as (c0 & <- & Hin). apply list_elem_of_In in Hin.
  rewrite Forall_forall in Hwf1. specialize (Hwf1 c0 Hin).
  unfold made_ready in Ho |- *. destruct (Scan.Connector.output c0) as [o|] eqn:Ho0.
  - cbn in Ho |- *. injection Ho as <-. cbn. split; [apply Hwf1; eauto|auto].
  - rewrite Ho0 in Ho. discriminate.
Qed.
End announce.

(** *** A device with two ports *)

Definition mode_1080i : drmModeModeInfo.t :=
  drmModeModeInfo.mk 74250 1920 2008 2052 2200 0 1080 1084 1094 1125 0 60
    (Z.lor 5 DRM_MODE_FLAG_INTERLACE) 0 "1920x1080i".

(** An HDMI port with a display that offers three modes, the second of them
    interlaced, and a DisplayPort port with nothing plugged in. *)
Definition port_hdmi : drmModeConnector.t :=
  drmModeConnector.mk 70 11 1 DRM_MODE_CONNECTED 0
    [mode_1080p60; mode_1080i; mode_800x600_odd_clock] 600 340 DRM_MODE_SUBPIXEL_UNKNOWN.

Definition port_dp : drmModeConnector.t :=
  drmModeConnector.mk 71 10 1 DRM_MODE_DISCONNECTED 0 [] 0 0 DRM_MODE_SUBPIXEL_UNKNOWN.

(** Connectors carry [CRTC_ID] as property 20, [non-desktop] as 21,
    [max bpc] as 22 and [EDID] as 23; CRTCs carry [MODE_ID] as property
    30.  The HDMI port is driven by CRTC 40, which shows 1920x1080. *)
Definition kms_two_ports : Scan.Kernel :=
  {| Scan.drmModeGetResources := Some [70; 71];
     Scan.drmModeGetConnector := fun id =>
       if id =? 70 then Some port_hdmi else if id =? 71 then Some port_dp else None;
     Scan.getDRMConnectorProps := fun _ => Some (SDRMConnectorProps.mk 20 21 0 22 23);
     Scan.drmModeGetConnectorTypeName := fun t =>
       if t =? 11 then Some "HDMI-A" else if t =? 10 then Some "DP" else None;
     Scan.drmModeConnectorGetPossibleCrtcs := fun _ => 3;
     Scan.getDRMProp := fun obj prop =>
       if prop =? 20 then Some (if obj =? 70 then 40 else 0)
       else if prop =? 21 then Some 0 else None;
     Scan.drmModeGetEncoder := fun _ => None;
     Scan.crtc_props := fun _ => SDRMCRTCProps.mk 30 0;
     Scan.getDRMPropBlob := fun crtc prop =>
       if (crtc =? 40) && (prop =? 30) then Some mode_1080p60 else None;
     Scan.drmModeGetCrtc := fun _ => None;
     Scan.malloc := true;
     Scan.introspectDRMPropRange := fun _ => Some (8, 16) |}.

Definition backend_before_scan : Scan.Backend :=
  Scan.mkBackend
    [SDRMCRTC.mk 40 256 (Some 0%nat) (Some 1%nat) 0; SDRMCRTC.mk 41 256 (Some 2%nat) None 0]
    [] false [] [] [].

(** The value a run returned, [d] for a run that faulted. *)
Definition returned {A : Type} (d : A) (o : outcome A) : A :=
  match o with
  | Ret a => a
  | Fault _ => d
  end.

Definition hdmi_initialised : Scan.Connector.t :=
  snd (fst (Scan.init kms_two_ports port_hdmi Scan.Connector.fresh backend_before_scan)).

Definition hdmi_connected : Scan.Connector.t * Scan.Backend :=
  returned (hdmi_initialised, backend_before_scan)
    (Scan.connect kms_two_ports port_hdmi hdmi_initialised backend_before_scan).

Definition backend_after_scan : Scan.Backend :=
  returned backend_before_scan (Scan.scanConnectors true kms_two_ports backend_before_scan).

Lemma kms_two_ports_answers_asked : kernel_answers_asked kms_two_ports.
Proof.
  intros ids id Hres Hin d Hd. injection Hres as <-.
  apply elem_of_cons in Hin. destruct Hin as [->|Hin].
  - injection Hd as <-. reflexivity.
  - apply list_elem_of_singleton in Hin. subst id. injection Hd as <-. reflexivity.
Qed.

Lemma connect_lists_progressive_modes_witness :
  exists out,
    Scan.Connector.output (fst hdmi_connected) = Some out /\
    Scan.Connector.status (fst hdmi_connected) = DRM_MODE_CONNECTED /\
    Scan.Connector.id (fst hdmi_connected) = Scan.Connector.id hdmi_initialised /\
    Scan.Output.name out = Scan.Connector.szName hdmi_initialised /\
    Forall2 listed (List.filter progressive (drmModeConnector.modes port_hdmi))
      (Scan.Output.modes out) /\
    (forall aq, aq ∈ Scan.Output.modes out ->
       exists m, m ∈ drmModeConnector.modes port_hdmi /\ SOutputMode.modeInfo aq = Some m /\
                 Z.land (drmModeModeInfo.flags m) DRM_MODE_FLAG_INTERLACE = 0) /\
    Scan.Connector.fallbackModeInfo (fst hdmi_connected)
    = match drmModeConnector.modes port_hdmi !! 1%nat with
      | Some m => if progressive m then Some m
                  else Scan.Connector.fallbackModeInfo hdmi_initialised
      | None => Scan.Connector.fallbackModeInfo hdmi_initialised
      end.
Proof.
  apply (connect_lists_progressive_modes kms_two_ports port_hdmi hdmi_initialised
           (fst hdmi_connected) backend_before_scan (snd hdmi_connected)).
  - vm_compute. reflexivity.
  - vm_compute. reflexivity.
Defined.

Lemma connect_mode_selection_witness :
  exists out,
    Scan.Connector.output (fst hdmi_connected) = Some out /\
    Scan.Output.setMode out
    = [aq_mode_of mode_800x600_odd_clock 57831] /\
    map SDRMCRTC.refresh (Scan.crtcs (snd hdmi_connected)) = [57831; 0].
Proof.
  destruct (connect_mode_selection kms_two_ports port_hdmi hdmi_initialised
              (fst hdmi_connected) backend_before_scan (snd hdmi_connected))
    as (out & Ho & _ & _ & _ & Hcr).
  - vm_compute. reflexivity.
  - vm_compute. reflexivity.
  - exists out. split; [exact Ho|]. split.
    + vm_compute in Ho. injection Ho as <-. vm_compute. reflexivity.
    + rewrite Hcr. vm_compute. reflexivity.
Defined.

(** A DisplayPort connector that has the [vrr_capable] property (24) but is
    not driven by any CRTC. *)
Definition dp_vrr_idle : Scan.Connector.t :=
  Scan.Connector.mk 71 "DP-1" DRM_MODE_DISCONNECTED None (SDRMConnectorProps.mk 20 21 24 22 23)
    3 None None false (0, 0) false (SDRMPageFlip.mk (Some this_connector)) "" "" "".

Lemma connect_vrr_witness :
  exists f, Scan.connect kms_two_ports port_dp dp_vrr_idle backend_before_scan = Fault f.
Proof.
  apply (proj1 (connect_vrr kms_two_ports port_dp dp_vrr_idle backend_before_scan eq_refl)).
  - vm_compute. discriminate.
  - reflexivity.
Defined.

Lemma scanConnectors_invariant_witness :
  Forall output_iff_connected (Scan.connectors backend_after_scan) /\
  map Scan.Connector.id (Scan.connectors backend_after_scan) = [70; 71] /\
  map Scan.Connector.status (Scan.connectors backend_after_scan)
  = [DRM_MODE_CONNECTED; DRM_MODE_DISCONNECTED] /\
  NoDup (map Scan.Connector.id (Scan.connectors backend_after_scan)) /\
  settled kms_two_ports backend_after_scan 70 /\
  settled kms_two_ports backend_after_scan 71.
Proof.
  destruct (scanConnectors_invariant true kms_two_ports backend_before_scan backend_after_scan)
    as (Hwf & _ & Hnd & _ & _ & Hs).
  - vm_compute. reflexivity.
  - constructor.
  - exact kms_two_ports_answers_asked.
  - split; [exact Hwf|]. split; [vm_compute; reflexivity|]. split; [vm_compute; reflexivity|].
    split; [apply Hnd; constructor|].
    split; apply (Hs [70; 71]); try reflexivity.
    + left.
    + right. left.
Defined.

Lemma rescan_changes_nothing_witness :
  exists b2,
    Scan.scanConnectors true kms_two_ports backend_after_scan = Ret b2 /\
    Scan.connectors b2 = Scan.connectors backend_after_scan /\
    Scan.events b2 = Scan.events backend_after_scan /\
    Scan.idleCallbacks b2 = Scan.idleCallbacks backend_after_scan /\
    Scan.crtcs b2 = Scan.crtcs backend_after_scan /\
    Scan.ready b2 = Scan.ready backend_after_scan.
Proof.
  apply (rescan_changes_nothing true kms_two_ports backend_before_scan backend_after_scan).
  - vm_compute. reflexivity.
  - constructor.
  - exact kms_two_ports_answers_asked.
Defined.

Lemma outputs_announced_once_witness :
  Scan.events backend_after_scan = [] /\
  Scan.events (Scan.onReady backend_after_scan) = [Scan.NewOutput 70] /\
  Scan.idleCallbacks (Scan.onReady backend_after_scan) = [].
Proof.
  destruct (outputs_announced_once true kms_two_ports backend_before_scan backend_after_scan)
    as (He & He2 & _ & Hi & _).
  - vm_compute. reflexivity.
  - reflexivity.
  - reflexivity.
  - exact kms_two_ports_answers_asked.
  - split; [exact He|]. split; [rewrite He2; vm_compute; reflexivity|exact Hi].
Defined.

(** *** Closing the buffer-object handles *)

Lemma closeHandles_loop_spec {K} (close : K -> Z -> K * Z) (handles : list Z) :
  forall (k : K) (closed : list Z) (logged : list (eBackendLogLevel * string)),
  let r := closeHandles_loop close handles k closed logged in
  fst (fst (fst r)) = map (fun _ => 0) handles /\
  snd (fst r) = closed ++ List.filter (fun h => negb (h =? 0)) handles.
Proof.
  induction handles as [|h rest IH]; intros k closed logged.
  - cbn. rewrite app_nil_r. auto.
  - cbn [closeHandles_loop List.filter map]. destruct (h =? 0) eqn:Hh; cbn [negb].
    + apply Z.eqb_eq in Hh. subst h.
      destruct (IH k closed logged) as [I1 I2].
      destruct (closeHandles_loop close rest k closed logged) as [[[rest' k'] closed'] logged'].
      cbn in *. rewrite I1, I2. auto.
    + destruct (close k h) as [k1 ret].
      match goal with
      | |- context [closeHandles_loop close rest k1 ?c ?l] =>
        destruct (IH k1 c l) as [I1 I2];
          destruct (closeHandles_loop close rest k1 c l) as [[[rest' k'] closed'] logged']
      end.
      cbn in *. rewrite I1, I2, <- app_assoc. auto.
Qed.

(** [closeHandles] closes every handle of the FB that is not 0 exactly
    once, in the order of [boHandles], whatever the kernel answers, and
    leaves all handles 0 and the FB marked; a second call closes nothing
    and changes nothing. *)
Theorem closeHandles_once {K} (close : K -> Z -> K * Z) (fb : CDRMFB.t) (k : K)
    (closed : list Z) (logged : list (eBackendLogLevel * string)) :
  CDRMFB.handlesClosed fb = false ->
  let r := CDRMFB_closeHandles close fb k closed logged in
  let fb' := fst (fst (fst r)) in
  snd (fst r) = closed ++ List.filter (fun h => negb (h =? 0)) (CDRMFB.boHandles fb) /\
  CDRMFB.boHandles fb' = map (fun _ => 0) (CDRMFB.boHandles fb) /\
  CDRMFB.handlesClosed fb' = true /\
  CDRMFB.id fb' = CDRMFB.id fb /\ CDRMFB.dropped fb' = CDRMFB.dropped fb /\
  CDRMFB_closeHandles close fb' (snd (fst (fst r))) (snd (fst r)) (snd r) = r.
Proof.
  intros Hc. unfold CDRMFB_closeHandles. rewrite Hc.
  destruct (closeHandles_loop_spec close (CDRMFB.boHandles fb) k closed logged) as [H1 H2].
  destruct (closeHandles_loop close (CDRMFB.boHandles fb) k closed logged)
    as [[[handles k'] closed'] logged'].
  cbn in *. subst handles closed'. auto 10.
Qed.

Lemma closeHandles_once_witness :
  snd (fst (CDRMFB_closeHandles (fun (k : nat) (h : Z) => (S k, 0))
              (CDRMFB.mk 42 0 [7; 0; 9; 0] false false) O [] []))
  = [] ++ [7; 9].
Proof.
  apply (proj1 (closeHandles_once (fun (k : nat) (h : Z) => (S k, 0))
                  (CDRMFB.mk 42 0 [7; 0; 9; 0] false false) O [] [] eq_refl)).
Defined.

(** *** C9: the cap on CRTCs, from [initResources] to [attempt] *)

Lemma checkFeatures_keeps_crtcs (dev : Device) (b : CDRMBackend.t) :
  CDRMBackend.crtcs (snd (CDRMBackend_checkFeatures dev b)) = CDRMBackend.crtcs b.
Proof.
  unfold CDRMBackend_checkFeatures. cbv zeta.
  repeat (match goal with |- context [if ?c then _ else _] => destruct c end);
    reflexivity.
Qed.

Definition critical_line : eBackendLogLevel * string :=
  (AQ_LOG_CRITICAL, "drm: Cannot support more than 32 CRTCs").

(** C9, as stated, fails: a device that lists 33 CRTCs, the properties of
    the last of which cannot be read, makes [initResources] return [false]
    without the critical line: no line of that level is logged at all. *)
Lemma crtc_cap_failure_without_critical_line :
  exists ids b',
    drmModeGetResources dev_33_crtcs_one_broken = Some ids /\
    (32 < length ids)%nat /\
    CDRMBackend_initResources dev_33_crtcs_one_broken CDRMBackend.fresh = (false, b') /\
    CDRMBackend.logged b'
    = [(AQ_LOG_DEBUG, "drm: found {} CRTCs");
       (AQ_LOG_ERROR, "drm: getDRMCRTCProps for crtc {} failed")] /\
    forall s, (AQ_LOG_CRITICAL, s) ∉ CDRMBackend.logged b'.
Proof.
  eexists _, _. split; [reflexivity|]. split; [vm_compute; lia|].
  split; [vm_compute; reflexivity|]. split; [reflexivity|].
  intros s H. cbn in H.
  repeat (apply elem_of_cons in H as [H|H]; [discriminate H|]).
  by apply elem_of_nil in H.
Qed.

(** What [initResources] logs, by level: the critical line is logged only
    by the cap. *)
Ltac peel_log H :=
  repeat (apply elem_of_app in H as [H|H];
          [|first [ apply list_elem_of_singleton in H; discriminate H
                  | apply elem_of_replicate in H as [H _]; discriminate H ]]).

Lemma plane_init_no_critical (dev : Device) (plane : drmModePlane.t) (self : nat)
    (b : CDRMBackend.t) s :
  (AQ_LOG_CRITICAL, s) ∈ CDRMBackend.logged (snd (fst (SDRMPlane_init dev plane self b))) ->
  (AQ_LOG_CRITICAL, s) ∈ CDRMBackend.logged b.
Proof.
  unfold SDRMPlane_init. cbv zeta. intros H.
  destruct (getDRMPlaneProps dev _) as [props|]; [|exact H].
  destruct (getDRMProp dev _ (SDRMPlaneProps.type props)) as [type|]; [|exact H].
  destruct (negb _ && _).
  - destruct (getDRMProp dev _ (SDRMPlaneProps.in_formats props)) as [blobID|].
    + destruct (drmModeGetPropertyBlob dev blobID) as [blob|];
        cbn in H; peel_log H; exact H.
    + cbn in H. peel_log H. exact H.
  - cbn in H. peel_log H. exact H.
Qed.

Lemma initResources_planes_no_critical (dev : Device) (ids : list Z) (b : CDRMBackend.t) s :
  (AQ_LOG_CRITICAL, s) ∈ CDRMBackend.logged (snd (initResources_planes dev ids b)) ->
  (AQ_LOG_CRITICAL, s) ∈ CDRMBackend.logged b.
Proof.
  revert b. induction ids as [|id rest IH]; intros b H; [exact H|].
  cbn [initResources_planes] in H.
  destruct (drmModeGetPlane dev id) as [plane|].
  2:{ cbn in H. peel_log H. exact H. }
  pose proof (plane_init_no_critical dev plane (length (CDRMBackend.planes b)) b s) as Hinit.
  destruct (SDRMPlane_init dev plane (length (CDRMBackend.planes b)) b) as [[ok b1] aq].
  cbn [fst snd] in Hinit.
  destruct ok; cbn [negb] in H.
  - apply IH in H. cbn in H. auto.
  - cbn in H. peel_log H. auto.
Qed.

Lemma initResources_crtcs_no_critical (dev : Device) (ids : list Z) (b : CDRMBackend.t) s :
  (AQ_LOG_CRITICAL, s) ∈ CDRMBackend.logged (snd (initResources_crtcs dev ids b)) ->
  (AQ_LOG_CRITICAL, s) ∈ CDRMBackend.logged b.
Proof.
  destruct (initResources_crtcs dev ids b) as [[] b'] eqn:E; cbn [snd].
  - apply initResources_crtcs_ok in E as [_ ->]. cbn. auto.
  - apply initResources_crtcs_failed in E as (_ & _ & _ & _ & s' & ->).
    intros H. peel_log H. exact H.
Qed.

(** The session is there and active when the wait for it ends, within the
    passes followed; [logged] are the lines of the wait. *)
Definition session_up {D : Type} (env : @Startup D) (fuel : nat)
    (logged : list (eBackendLogLevel * string)) : Prop :=
  exists active,
    match st_session env with
    | Some a => Some a
    | None => st_CSession_attempt env
    end = Some active /\
    (if active then Some (true, [])
     else attempt_wait (st_dispatched env) fuel 0
            [(AQ_LOG_DEBUG, "Session is not active, waiting for 5s")])
    = Some (true, logged).

(** C9 (amended): when the kernel reports more than 32 CRTCs to a backend
    that has none yet, [initResources] returns [false]; the lines it logs
    are the CRTC count and then the critical "Cannot support more than 32
    CRTCs" if every per-CRTC query succeeds, and the error line of the
    first failing query otherwise, in which case the cap is never checked.
    With 32 CRTCs or fewer no critical line is logged, whatever the result.
    [attempt] returns no backend when [initResources] fails: a backend it
    returns is for a device that reports at most 32 CRTCs; and with the
    session up, a GPU found, registered and passing the feature check, a
    device with more than 32 CRTCs makes [attempt] return [nullptr] after
    the error line "Failed initializing resources". *)
Theorem crtc_cap_amended {D : Type} :
  (forall (dev : Device) (b : CDRMBackend.t) (ids : list Z),
     drmModeGetResources dev = Some ids ->
     CDRMBackend.crtcs b = [] ->
     (32 < length ids)%nat ->
     exists b',
       CDRMBackend_initResources dev b = (false, b') /\
       if forallb (crtc_queries_ok dev) ids
       then CDRMBackend.logged b'
            = CDRMBackend.logged b ++ [(AQ_LOG_DEBUG, "drm: found {} CRTCs"); critical_line]
       else exists s,
              CDRMBackend.logged b'
              = CDRMBackend.logged b ++ [(AQ_LOG_DEBUG, "drm: found {} CRTCs"); (AQ_LOG_ERROR, s)]) /\
  (forall (dev : Device) (b : CDRMBackend.t) (ids : list Z),
     drmModeGetResources dev = Some ids ->
     CDRMBackend.crtcs b = [] ->
     (length ids <= 32)%nat ->
     forall s, (AQ_LOG_CRITICAL, s) ∈ CDRMBackend.logged (snd (CDRMBackend_initResources dev b)) ->
               (AQ_LOG_CRITICAL, s) ∈ CDRMBackend.logged b) /\
  (forall (env : @Startup D) (fuel : nat) gpu b scanned logged,
     CDRMBackend_attempt env fuel = (DRMBackend gpu b scanned, logged) ->
     exists ids, drmModeGetResources (st_device env gpu) = Some ids /\ (length ids <= 32)%nat) /\
  (forall (env : @Startup D) (fuel : nat) waited gpu rest found ids,
     session_up env fuel waited ->
     scanGPUs (st_seatName env) (st_openIfKMS env) (st_enumerate env) = (gpu :: rest, found) ->
     st_drmGetVersion env gpu = true ->
     (forall b, fst (CDRMBackend_checkFeatures (st_device env gpu) b) = true) ->
     drmModeGetResources (st_device env gpu) = Some ids ->
     (32 < length ids)%nat ->
     exists logged,
       CDRMBackend_attempt env fuel = (NoBackend, logged) /\
       last logged = Some (AQ_LOG_ERROR, "drm: Failed initializing resources")).
Proof.
  assert (Hinit : forall (dev : Device) (b : CDRMBackend.t) (ids : list Z),
     drmModeGetResources dev = Some ids ->
     CDRMBackend.crtcs b = [] ->
     (32 < length ids)%nat ->
     exists b',
       CDRMBackend_initResources dev b = (false, b') /\
       if forallb (crtc_queries_ok dev) ids
       then CDRMBackend.logged b'
            = CDRMBackend.logged b ++ [(AQ_LOG_DEBUG, "drm: found {} CRTCs"); critical_line]
       else exists s,
              CDRMBackend.logged b'
              = CDRMBackend.logged b ++ [(AQ_LOG_DEBUG, "drm: found {} CRTCs"); (AQ_LOG_ERROR, s)]).
  { intros dev b ids Hres Hb Hlen. unfold CDRMBackend_initResources. rewrite Hres.
    destruct (initResources_crtcs dev ids _) as [ok b1] eqn:Hc.
    pose proof (initResources_crtcs_result dev ids
                  (CDRMBackend.log AQ_LOG_DEBUG "drm: found {} CRTCs" b)) as Hr.
    rewrite Hc in Hr. cbn [fst] in Hr. rewrite <- Hr. destruct ok; cbn [negb].
    - apply initResources_crtcs_ok in Hc. destruct Hc as [_ ->].
      cbn [CDRMBackend.crtcs CDRMBackend.set_crtcs CDRMBackend.log].
      rewrite Hb. cbn [app]. rewrite length_map.
      apply Nat.ltb_lt in Hlen. rewrite Hlen.
      eexists. split; [reflexivity|]. cbn. rewrite <- app_assoc. reflexivity.
    - apply initResources_crtcs_failed in Hc. destruct Hc as (_ & _ & _ & _ & s & H4).
      exists b1. split; [reflexivity|]. exists s. rewrite H4. cbn.
      rewrite <- app_assoc. reflexivity. }
  split; [exact Hinit|]. split; [|split].
  - intros dev b ids Hres Hb Hlen s. unfold CDRMBackend_initResources. rewrite Hres.
    pose proof (initResources_crtcs_no_critical dev ids
                  (CDRMBackend.log AQ_LOG_DEBUG "drm: found {} CRTCs" b) s) as Hcr.
    destruct (initResources_crtcs dev ids _) as [ok b1] eqn:Hc. cbn [snd] in Hcr.
    assert (Hb1 : (AQ_LOG_CRITICAL, s) ∈ CDRMBackend.logged b1 ->
                  (AQ_LOG_CRITICAL, s) ∈ CDRMBackend.logged b).
    { intros H. apply Hcr in H. cbn in H. peel_log H. exact H. }
    destruct ok; cbn [negb]; [|exact Hb1].
    apply initResources_crtcs_ok in Hc. destruct Hc as [_ Hc].
    assert (Hcap : (32 <? length (CDRMBackend.crtcs b1))%nat = false).
    { rewrite Hc. cbn [CDRMBackend.crtcs CDRMBackend.set_crtcs CDRMBackend.log].
      rewrite Hb. cbn [app]. rewrite length_map. apply Nat.ltb_ge. exact Hlen. }
    rewrite Hcap.
    destruct (drmModeGetPlaneResources dev) as [pids|].
    + intros H. apply initResources_planes_no_critical in H. cbn in H. peel_log H. auto.
    + intros H. cbn in H. peel_log H. auto.
  - intros env fuel gpu b scanned logged H. unfold CDRMBackend_attempt in H. cbv zeta in H.
    destruct (match st_session env with Some a => Some a | None => st_CSession_attempt env end)
      as [active|]; [|discriminate].
    destruct (if active then _ else _) as [[[] waited]|]; try discriminate.
    destruct (scanGPUs _ _ _) as [[|g gs] found]; [discriminate|].
    unfold CDRMBackend_registerGPU in H.
    destruct (st_drmGetVersion env g); [|discriminate].
    pose proof (checkFeatures_keeps_crtcs (st_device env g)) as Hkeep.
    match type of H with
    | context [CDRMBackend_checkFeatures ?dev ?b0] =>
      specialize (Hkeep b0); destruct (CDRMBackend_checkFeatures dev b0) as [ok1 b1]
    end.
    cbn [snd CDRMBackend.crtcs CDRMBackend.log] in Hkeep.
    destruct ok1; cbn [negb] in H; [|discriminate].
    destruct (CDRMBackend_initResources (st_device env g) b1) as [ok2 b2] eqn:Ei.
    destruct ok2; cbn [negb] in H; [|discriminate].
    destruct (Scan.scanConnectors _ _ _); [|discriminate].
    injection H as <- _ _ _.
    destruct (drmModeGetResources (st_device env g)) as [ids|] eqn:Eres.
    + exists ids. split; [reflexivity|].
      destruct (le_lt_dec (length ids) 32) as [Hle|Hgt]; [exact Hle|exfalso].
      destruct (Hinit (st_device env g) b1 ids Eres Hkeep Hgt) as (b' & Hf & _).
      rewrite Ei in Hf. discriminate.
    + exfalso. unfold CDRMBackend_initResources in Ei. rewrite Eres in Ei. discriminate.
  - intros env fuel waited gpu rest found ids (active & Hs & Hw) Hscan Hver Hfeat Hres Hlen.
    unfold CDRMBackend_attempt. cbv zeta. rewrite Hs, Hw, Hscan.
    unfold CDRMBackend_registerGPU. rewrite Hver.
    pose proof (checkFeatures_keeps_crtcs (st_device env gpu)) as Hkeep.
    match goal with
    | |- context [CDRMBackend_checkFeatures ?dev ?b0] =>
      specialize (Hkeep b0); specialize (Hfeat b0);
      destruct (CDRMBackend_checkFeatures dev b0) as [ok1 b1]
    end.
    cbn [fst] in Hfeat. subst ok1. cbn [negb].
    cbn [snd CDRMBackend.crtcs CDRMBackend.log] in Hkeep.
    destruct (Hinit (st_device env gpu) b1 ids Hres Hkeep Hlen) as (b' & Hf & _).
    rewrite Hf. cbn [negb]. eexists. split; [reflexivity|]. apply last_snoc.
Qed.

(** A seat with one GPU, the device with 33 CRTCs. *)
Definition startup_33_crtcs : @Startup unit :=
  {| st_session := Some true;
     st_CSession_attempt := None;
     st_dispatched := fun _ => (false, 0);
     st_seatName := "seat0";
     st_openIfKMS := fun _ => Some tt;
     st_enumerate := Some [Some (udev_device.mk None None (Some "/dev/dri/card0"))];
     st_drmGetVersion := fun _ => true;
     st_device := fun _ => dev_33_crtcs;
     st_kms := fun _ => kms_two_ports;
     st_ready := false;
     st_flip_record_owns_connector := true |}.

Lemma crtc_cap_amended_witness :
  exists logged,
    CDRMBackend_attempt startup_33_crtcs 0 = (NoBackend, logged) /\
    last logged = Some (AQ_LOG_ERROR, "drm: Failed initializing resources").
Proof.
  refine (proj2 (proj2 (proj2 (@crtc_cap_amended unit))) startup_33_crtcs 0%nat [] tt []
            _ (map Z.of_nat (seq 40 33)) _ _ eq_refl _ eq_refl _).
  - exists true. split; reflexivity.
  - vm_compute. reflexivity.
  - intros b. reflexivity.
  - vm_compute. lia.
Defined.

(** The same seat with the two-headed device: [attempt] returns a backend,
    with its two CRTCs, three planes and the connectors the scan found. *)
Example attempt_two_heads :
  exists b scanned logged,
    CDRMBackend_attempt
      {| st_session := None;
         st_CSession_attempt := Some false;
         st_dispatched := fun i => (Nat.leb 2 i, 250 * Z.of_nat (S i));
         st_seatName := "seat0";
         st_openIfKMS := fun _ => Some tt;
         st_enumerate := Some [Some (udev_device.mk None None (Some "/dev/dri/card0"))];
         st_drmGetVersion := fun _ => true;
         st_device := fun _ => dev_two_heads;
         st_kms := fun _ => kms_two_ports;
         st_ready := false;
         st_flip_record_owns_connector := true |} 10
    = (DRMBackend tt b scanned, logged) /\
    length (CDRMBackend.crtcs b) = 2%nat /\
    length (CDRMBackend.planes b) = 3%nat /\
    hd_error logged = Some (AQ_LOG_DEBUG, "Session is not active, waiting for 5s").
Proof.
  eexists _, _, _. split; [vm_compute; reflexivity|].
  split; [reflexivity|]. split; reflexivity.
Qed.
